(** * Market-data aggregation layer: a shallow embedding and its properties

    The development follows the TypeScript sources of the aggregation
    core: the synthetic data generator ([mock-data-service.ts]), the
    exchange adapters ([kucoin-api.ts], [okx-api.ts], [coinbase-api.ts]),
    the aggregator with its health tracker ([api-manager.ts]) and the two
    publish/subscribe hubs ([enhanced-websocket.ts], [websocket.ts]).

    Conventions of the embedding.
    - JavaScript numbers are idealised as exact rationals ([Q]) extended
      with [NaN] and the two infinities; rounding of doubles, signed
      zeros and overflow are not modelled.
    - Everything the program obtains from outside (the readings of
      [Date.now()], the values of [Math.random()], the replies of
      [fetch]) is read from oracles stored in the [World]; each read
      advances a cursor.
    - Asynchronous code is run sequentially: a call runs to completion
      before the next one starts, and [await] is a plain bind.
    - A thrown exception is the [Throw] outcome of the effect monad
      [Eff]; [try]/[catch] is [try_catch]. *)

From Stdlib Require Import ZArith QArith Qround Qabs Lia Lqa String List Bool.
From Stdlib Require Import Sorted Permutation Qpower.
From stdpp Require Import gmap strings list pretty.
Import ListNotations.

Open Scope Z_scope.

Set Warnings "-register-all".

(* ===================================================================== *)
(** * Values of the JavaScript runtime *)
(* ===================================================================== *)

(** A JavaScript number. *)
Inductive JSNumber :=
| Finite (q : Q)
| NaN
| Infinity (negative : bool).

(** A JavaScript string.  Strings that render a number keep the number
    they render, so that [parseFloat] can read it back:
    - [Lit s] is a string given character by character (a source literal
      or a string of a JSON payload);
    - [Fixed d neg m] is the result of [x.toFixed(d)]: the sign, then the
      decimal numeral of [m / 10^d] with exactly [d] fraction digits;
    - [Shortest x] is [x.toString()]. *)
Inductive JSString :=
| Lit (s : string)
| Fixed (digits : nat) (negative : bool) (magnitude : Z)
| Shortest (x : JSNumber).

(** A dynamically typed value, as produced by [response.json()]. *)
Inductive JSValue :=
| VUndefined
| VNull
| VBool (b : bool)
| VNumber (x : JSNumber)
| VString (s : JSString)
| VArray (items : list JSValue)
| VObject (fields : list (string * JSValue)).

(** Thrown values. *)
Inductive JSError :=
| Error (message : string)
| TypeError (message : string)
| RangeError (message : string)
| SyntaxError (message : string).

(** The result of running a piece of code: a value, or a thrown one. *)
Inductive Outcome (A : Type) :=
| Ok (a : A)
| Throw (e : JSError).
Arguments Ok {A} a.
Arguments Throw {A} e.

(** The parts of the engine's coercion rules that are left abstract; no
    property below depends on what they return.  A coercion of an object
    can throw (an object whose [toString] and [valueOf] are not
    callable has no primitive value). *)
Class Engine := {
  (** [parseFloat(v)] for a [v] that is neither a number nor a string
      rendering a number *)
  parseFloat_other : JSValue -> Outcome JSNumber;
  (** [parseInt(v)] *)
  parseInt : JSValue -> Outcome JSNumber;
  (** [ToNumber(v)] for a [v] that is not a number *)
  toNumber_other : JSValue -> Outcome JSNumber;
  (** [a + b] when one of the operands is not a number *)
  plus_other : JSValue -> JSValue -> Outcome JSValue;
  (** [v.toString()] for a [v] that is a boolean or an array *)
  toString_other : JSValue -> Outcome JSString;
  (** [s[i]] for a string [s]: a one-character string or [undefined] *)
  string_at : JSString -> nat -> JSValue;
  (** the values that iterating over a string yields *)
  string_iter : JSString -> list JSValue
}.

(** ** Arithmetic on numbers *)

Definition Qlt_bool (x y : Q) : bool := negb (Qle_bool y x).

Definition Qis_zero (x : Q) : bool := Qeq_bool x 0.

Definition num_neg (x : JSNumber) : JSNumber :=
  match x with
  | Finite q => Finite (- q)%Q
  | NaN => NaN
  | Infinity s => Infinity (negb s)
  end.

Definition num_add (x y : JSNumber) : JSNumber :=
  match x, y with
  | NaN, _ | _, NaN => NaN
  | Finite a, Finite b => Finite (a + b)%Q
  | Infinity s, Finite _ | Finite _, Infinity s => Infinity s
  | Infinity s, Infinity t => if Bool.eqb s t then Infinity s else NaN
  end.

Definition num_sub (x y : JSNumber) : JSNumber := num_add x (num_neg y).

Definition num_mul (x y : JSNumber) : JSNumber :=
  match x, y with
  | NaN, _ | _, NaN => NaN
  | Finite a, Finite b => Finite (a * b)%Q
  | Infinity s, Finite b | Finite b, Infinity s =>
      if Qis_zero b then NaN else Infinity (xorb s (Qlt_bool b 0))
  | Infinity s, Infinity t => Infinity (xorb s t)
  end.

Definition num_div (x y : JSNumber) : JSNumber :=
  match x, y with
  | NaN, _ | _, NaN => NaN
  | Finite a, Finite b =>
      if Qis_zero b
      then (if Qis_zero a then NaN else Infinity (Qlt_bool a 0))
      else Finite (a / b)%Q
  | Finite _, Infinity _ => Finite 0
  | Infinity s, Finite b => Infinity (xorb s (Qlt_bool b 0))
  | Infinity _, Infinity _ => NaN
  end.

(** [Math.min(a, b)] and [Math.max(a, b)] on finite numbers. *)
Definition Math_min (a b : Q) : Q := if Qle_bool a b then a else b.
Definition Math_max (a b : Q) : Q := if Qle_bool a b then b else a.

(** [Math.abs(x)] and [Math.floor(x)] on finite numbers. *)
Definition Math_abs (x : Q) : Q := Qabs x.
Definition Math_floor (x : Q) : Q := inject_Z (Qfloor x).

(** ** Numbers and strings *)

(** [x.toFixed(d)] for a finite [x]: the integer [n] for which
    [n / 10^d] is closest to [|x|], the larger one on a tie, printed
    with the sign of [x]; from [10^21] on, [toFixed] is [toString]. *)
Definition toFixed (d : nat) (x : Q) : JSString :=
  if Qle_bool (10 ^ 21)%Q (Qabs x) then Shortest (Finite x)
  else Fixed d (Qlt_bool x 0) (Qfloor (Qabs x * 10 ^ Z.of_nat d + (1 # 2))%Q).

(** [x.toString()] for a number [x]. *)
Definition toString (x : Q) : JSString := Shortest (Finite x).

(** The number a [toFixed] string denotes. *)
Definition fixedValue (d : nat) (neg : bool) (m : Z) : Q :=
  ((if neg then - inject_Z m else inject_Z m) / 10 ^ Z.of_nat d)%Q.

(** [parseFloat(v)]. *)
Definition parseFloat `{Engine} (v : JSValue) : Outcome JSNumber :=
  match v with
  | VNumber x => Ok x
  | VString (Fixed d neg m) => Ok (Finite (fixedValue d neg m))
  | VString (Shortest x) => Ok x
  | _ => parseFloat_other v
  end.

(** [ToNumber(v)], the coercion applied by [*], [-] and [/]. *)
Definition toNumber `{Engine} (v : JSValue) : Outcome JSNumber :=
  match v with
  | VNumber x => Ok x
  | _ => toNumber_other v
  end.

(** [a + b] on dynamic values. *)
Definition js_plus `{Engine} (a b : JSValue) : Outcome JSValue :=
  match a, b with
  | VNumber x, VNumber y => Ok (VNumber (num_add x y))
  | _, _ => plus_other a b
  end.

(** [x.toFixed(d)] on any number. *)
Definition num_toFixed (d : nat) (x : JSNumber) : JSString :=
  match x with
  | Finite q => toFixed d q
  | _ => Shortest x
  end.

(** [Math.abs(x)] and [Math.min(x, y)] on any numbers. *)
Definition num_abs (x : JSNumber) : JSNumber :=
  match x with
  | Finite q => Finite (Math_abs q)
  | NaN => NaN
  | Infinity _ => Infinity false
  end.

Definition num_min (x y : JSNumber) : JSNumber :=
  match x, y with
  | NaN, _ | _, NaN => NaN
  | Infinity true, _ | _, Infinity true => Infinity true
  | Infinity false, z | z, Infinity false => z
  | Finite a, Finite b => Finite (Math_min a b)
  end.

(** ** Dates *)

(** A [Date] object, by its time value: a whole number of milliseconds
    since the epoch, or [NaN] for an invalid date. *)
Inductive JSDate :=
| DateOf (timeValue : JSNumber).

(** The integral part of a number. *)
Definition Qtruncate (q : Q) : Q :=
  if Qlt_bool q 0 then (- inject_Z (Qfloor (- q)))%Q else inject_Z (Qfloor q).

(** [TimeClip]: a time value is a whole number of at most 8.64e15
    milliseconds. *)
Definition TimeClip (x : JSNumber) : JSNumber :=
  match x with
  | Finite q => if Qle_bool (Qabs q) 8640000000000000 then Finite (Qtruncate q) else NaN
  | _ => NaN
  end.

(** The part of the [Date] constructor that is left abstract: the time
    value of [new Date(v)] for a [v] that is not a number (a string is
    parsed, another value is coerced; the coercion of an object can
    throw). *)
Class DateEngine := {
  Date_of_other : JSValue -> Outcome JSNumber
}.

(** [new Date(v)] *)
Definition Date_new `{DateEngine} (v : JSValue) : Outcome JSDate :=
  match v with
  | VNumber x => Ok (DateOf (TimeClip x))
  | _ =>
      match Date_of_other v with
      | Ok x => Ok (DateOf x)
      | Throw e => Throw e
      end
  end.

(* ===================================================================== *)
(** * Effects: exceptions over a state *)
(* ===================================================================== *)

(** A computation over a state [S] that returns an [A] or throws; the
    state reached is kept in both cases. *)
Definition Eff (S A : Type) : Type := S -> Outcome A * S.

Definition ret {S A} (a : A) : Eff S A := fun s => (Ok a, s).

Definition throw {S A} (e : JSError) : Eff S A := fun s => (Throw e, s).

Definition bind {S A B} (c : Eff S A) (k : A -> Eff S B) : Eff S B :=
  fun s =>
    match c s with
    | (Ok a, s') => k a s'
    | (Throw e, s') => (Throw e, s')
    end.

(** [try { c } catch (error) { h error }] *)
Definition try_catch {S A} (c : Eff S A) (h : JSError -> Eff S A) : Eff S A :=
  fun s =>
    match c s with
    | (Ok a, s') => (Ok a, s')
    | (Throw e, s') => h e s'
    end.

Definition gets {S A} (f : S -> A) : Eff S A := fun s => (Ok (f s), s).

(** A step that touches no state. *)
Definition pure {S A} (o : Outcome A) : Eff S A := fun s => (o, s).

Definition modify {S} (f : S -> S) : Eff S unit := fun s => (Ok tt, f s).

Declare Scope eff_scope.
Delimit Scope eff_scope with eff.
Notation "'let*' x := c 'in' k" := (bind c (fun x => k))
  (at level 10, x pattern, c at level 100, k at level 200) : eff_scope.
Notation "'do' c ; k" := (bind c (fun _ => k))
  (at level 10, c at level 100, k at level 200) : eff_scope.
Open Scope eff_scope.

(** [items.map(f)] for an effectful [f], left to right. *)
Fixpoint mapM {S A B} (f : A -> Eff S B) (items : list A) : Eff S (list B) :=
  match items with
  | [] => ret []
  | x :: rest =>
      let* y := f x in
      let* ys := mapM f rest in
      ret (y :: ys)
  end.

(** [items.map((item, index) => f(item, index))] *)
Fixpoint mapMi_from {S A B} (f : A -> nat -> Eff S B) (items : list A) (index : nat)
  : Eff S (list B) :=
  match items with
  | [] => ret []
  | x :: rest =>
      let* y := f x index in
      let* ys := mapMi_from f rest (Datatypes.S index) in
      ret (y :: ys)
  end.

Definition mapMi {S A B} (f : A -> nat -> Eff S B) (items : list A) : Eff S (list B) :=
  mapMi_from f items 0.

(* ===================================================================== *)
(** * The world outside the program *)
(* ===================================================================== *)

(** What [await response.json()] can do. *)
Inductive ResponseBody :=
| InvalidJSON (e : JSError)        (* the promise rejects *)
| JSON (v : JSValue).

(** What [await fetch(url)] can do. *)
Inductive FetchResult :=
| FetchRejects (e : JSError)       (* network failure *)
| Response (status : Z) (body : ResponseBody).

(** [response.ok] *)
Definition response_ok (status : Z) : bool := (200 <=? status) && (status <=? 299).

Record World := {
  timeReadings : nat -> Z;          (* the successive readings of [Date.now()] *)
  timeCursor : nat;
  randomDraws : nat -> Q;           (* the successive values of [Math.random()] *)
  randomCursor : nat;
  networkReplies : nat -> FetchResult;  (* the successive outcomes of [fetch] *)
  networkCursor : nat
}.

(** [Math.random()] returns a number in [[0, 1)]. *)
Definition valid_draws (w : World) : Prop :=
  forall n, (0 <= randomDraws w n /\ randomDraws w n < 1)%Q.

Definition IO := Eff World.

(** The world after one more reading of the clock, one more draw, one
    more reply of the network. *)
Definition afterReading (w : World) : World :=
  {| timeReadings := timeReadings w; timeCursor := S (timeCursor w);
     randomDraws := randomDraws w; randomCursor := randomCursor w;
     networkReplies := networkReplies w; networkCursor := networkCursor w |}.

Definition afterDraw (w : World) : World :=
  {| timeReadings := timeReadings w; timeCursor := timeCursor w;
     randomDraws := randomDraws w; randomCursor := S (randomCursor w);
     networkReplies := networkReplies w; networkCursor := networkCursor w |}.

Definition afterReply (w : World) : World :=
  {| timeReadings := timeReadings w; timeCursor := timeCursor w;
     randomDraws := randomDraws w; randomCursor := randomCursor w;
     networkReplies := networkReplies w; networkCursor := S (networkCursor w) |}.

Definition Date_now : IO Z :=
  fun w => (Ok (timeReadings w (timeCursor w)), afterReading w).

Definition Math_random : IO Q :=
  fun w => (Ok (randomDraws w (randomCursor w)), afterDraw w).

(** The next reply of the network, whatever the URL. *)
Definition next_reply : IO FetchResult :=
  fun w => (Ok (networkReplies w (networkCursor w)), afterReply w).

(** [await fetch(url)]: a response, or the rejection thrown. *)
Definition fetch : IO (Z * ResponseBody) :=
  let* reply := next_reply in
  match reply with
  | FetchRejects e => throw e
  | Response status body => ret (status, body)
  end.

(** [await response.json()] *)
Definition response_json (body : ResponseBody) : IO JSValue :=
  match body with
  | InvalidJSON e => throw e
  | JSON v => ret v
  end.

(** [Array.from({ length: len }, (_, i) => f i)].  The length is clamped
    below at 0; [new Array(len)] refuses a length above [2^32 - 1]. *)
Definition Array_from {A} (len : Z) (f : Z -> IO A) : IO (list A) :=
  if 4294967295 <? len then throw (RangeError "Invalid array length")
  else mapM f (map Z.of_nat (seq 0 (Z.to_nat len))).

(** The same when the callback assigns to a variable of the enclosing
    function: the variable is threaded through the calls. *)
Fixpoint mapM_acc {S A B V} (f : A -> V -> Eff S (B * V)) (items : list A) (v : V)
  : Eff S (list B) :=
  match items with
  | [] => ret []
  | x :: rest =>
      let* (y, v') := f x v in
      let* ys := mapM_acc f rest v' in
      ret (y :: ys)
  end.

Definition Array_from_acc {A V} (len : Z) (f : Z -> V -> IO (A * V)) (init : V)
  : IO (list A) :=
  if 4294967295 <? len then throw (RangeError "Invalid array length")
  else mapM_acc f (map Z.of_nat (seq 0 (Z.to_nat len))) init.

(** [items.sort(compare)]: the sort is stable, and [b] is moved before
    [a] exactly when [compare(a, b) > 0].  Modelled by insertion; an
    exception of the comparison ends the sort. *)
Definition sorts_after (v : JSNumber) : bool :=
  match v with
  | Finite q => Qlt_bool 0 q
  | Infinity false => true
  | _ => false
  end.

Fixpoint sort_insert {S A} (compare : A -> A -> Eff S JSNumber) (x : A) (sorted : list A)
  : Eff S (list A) :=
  match sorted with
  | [] => ret [x]
  | y :: rest =>
      let* v := compare x y in
      if sorts_after v then
        let* rest' := sort_insert compare x rest in
        ret (y :: rest')
      else ret (x :: y :: rest)
  end.

Fixpoint Array_sort {S A} (compare : A -> A -> Eff S JSNumber) (items : list A)
  : Eff S (list A) :=
  match items with
  | [] => ret []
  | x :: rest =>
      let* sorted := Array_sort compare rest in
      sort_insert compare x sorted
  end.

(** The comparisons [x < y] and [x <= y] of two numbers. *)
Definition num_lt (x y : JSNumber) : bool :=
  match x, y with
  | NaN, _ | _, NaN => false
  | Finite a, Finite b => Qlt_bool a b
  | Infinity s, Finite _ => s
  | Finite _, Infinity s => negb s
  | Infinity s, Infinity t => s && negb t
  end.

Definition num_le (x y : JSNumber) : bool :=
  match x, y with
  | NaN, _ | _, NaN => false
  | Finite a, Finite b => Qle_bool a b
  | Infinity s, Finite _ => s
  | Finite _, Infinity s => negb s
  | Infinity s, Infinity t => s || negb t
  end.

(* ===================================================================== *)
(** * The shared schema ([types/api.ts]) *)
(* ===================================================================== *)

(** The TypeScript types are erased at run time: a field holds whatever
    value was put there.  [conforms] says that every field holds a value
    of the type the interface declares. *)

Definition is_string (v : JSValue) : bool :=
  match v with VString _ => true | _ => false end.

Definition is_number (v : JSValue) : bool :=
  match v with VNumber _ => true | _ => false end.

Record OrderbookEntry := {
  price : JSValue;
  quantity : JSValue
}.

Record Orderbook := {
  symbol : string;
  bids : list OrderbookEntry;
  asks : list OrderbookEntry;
  lastUpdateId : JSValue
}.

Definition conforms_OrderbookEntry (e : OrderbookEntry) : bool :=
  is_string (price e) && is_string (quantity e).

Definition conforms_Orderbook (o : Orderbook) : bool :=
  forallb conforms_OrderbookEntry (bids o)
  && forallb conforms_OrderbookEntry (asks o)
  && is_number (lastUpdateId o).

Module Ticker24h.
Record t := {
  symbol : string;
  priceChange : JSValue;
  priceChangePercent : JSValue;
  weightedAvgPrice : JSValue;
  prevClosePrice : JSValue;
  lastPrice : JSValue;
  bidPrice : JSValue;
  askPrice : JSValue;
  openPrice : JSValue;
  highPrice : JSValue;
  lowPrice : JSValue;
  volume : JSValue;
  quoteVolume : JSValue;
  openTime : JSValue;
  closeTime : JSValue;
  count : JSValue
}.

Definition conforms (k : t) : bool :=
  is_string (priceChange k) && is_string (priceChangePercent k)
  && is_string (weightedAvgPrice k) && is_string (prevClosePrice k)
  && is_string (lastPrice k) && is_string (bidPrice k)
  && is_string (askPrice k) && is_string (openPrice k)
  && is_string (highPrice k) && is_string (lowPrice k)
  && is_string (volume k) && is_string (quoteVolume k)
  && is_number (openTime k) && is_number (closeTime k)
  && is_number (count k).
End Ticker24h.

Module Kline.
Record t := {
  openTime : JSValue;
  open : JSValue;
  high : JSValue;
  low : JSValue;
  close : JSValue;
  volume : JSValue;
  closeTime : JSValue;
  quoteAssetVolume : JSValue;
  numberOfTrades : JSValue;
  takerBuyBaseAssetVolume : JSValue;
  takerBuyQuoteAssetVolume : JSValue
}.

Definition conforms (k : t) : bool :=
  is_number (openTime k) && is_string (open k) && is_string (high k)
  && is_string (low k) && is_string (close k) && is_string (volume k)
  && is_number (closeTime k) && is_string (quoteAssetVolume k)
  && is_number (numberOfTrades k) && is_string (takerBuyBaseAssetVolume k)
  && is_string (takerBuyQuoteAssetVolume k).
End Kline.

Module FinancialData.
Record t := {
  date : JSDate;
  volatility : JSNumber;
  performance : JSNumber;
  volume : JSNumber;
  price : JSNumber;
  liquidity : JSNumber;
  high : JSNumber;
  low : JSNumber;
  open : JSNumber;
  close : JSNumber
}.
End FinancialData.

(** A number as a field value. *)
Definition num (q : Q) : JSValue := VNumber (Finite q).
Definition int (z : Z) : JSValue := VNumber (Finite (inject_Z z)).

(* ===================================================================== *)
(** * The synthetic data generator ([mock-data-service.ts]) *)
(* ===================================================================== *)

Module MockDataService.
Section Generator.
Context `{Engine}.

(** [(a, b) => parseFloat(b.price) - parseFloat(a.price)] *)
Definition byPriceDescending (a b : OrderbookEntry) : IO JSNumber :=
  let* pb := pure (parseFloat (price b)) in
  let* pa := pure (parseFloat (price a)) in
  ret (num_sub pb pa).

(** [(a, b) => parseFloat(a.price) - parseFloat(b.price)] *)
Definition byPriceAscending (a b : OrderbookEntry) : IO JSNumber :=
  let* pa := pure (parseFloat (price a)) in
  let* pb := pure (parseFloat (price b)) in
  ret (num_sub pa pb).

Definition generateOrderbook (symbol : string) : IO Orderbook :=
  let* r := Math_random in
  let basePrice := (45000 + (r - 0.5) * 10000)%Q in
  let spread := (basePrice * 0.0002)%Q in
  let* bids := Array_from 20 (fun i =>
    let* p := Math_random in
    let* q := Math_random in
    ret {| price := VString (toFixed 2
             (basePrice - spread / 2 - (inject_Z i + 1) * p * 50)%Q);
           quantity := VString (toFixed 4 (q * 2 + 0.1)%Q) |}) in
  let* asks := Array_from 20 (fun i =>
    let* p := Math_random in
    let* q := Math_random in
    ret {| price := VString (toFixed 2
             (basePrice + spread / 2 + (inject_Z i + 1) * p * 50)%Q);
           quantity := VString (toFixed 4 (q * 2 + 0.1)%Q) |}) in
  let* sortedBids := Array_sort byPriceDescending bids in
  let* sortedAsks := Array_sort byPriceAscending asks in
  let* now := Date_now in
  ret {| symbol := symbol;
         bids := sortedBids;
         asks := sortedAsks;
         lastUpdateId := int now |}.

Definition generate24hTicker (symbol : string) : IO Ticker24h.t :=
  let* r1 := Math_random in
  let basePrice := (45000 + (r1 - 0.5) * 10000)%Q in
  let* r2 := Math_random in
  let volatility := (r2 * 0.1)%Q in
  let* r3 := Math_random in
  let change := ((r3 - 0.5) * volatility * basePrice)%Q in
  let* r4 := Math_random in
  let volume := (r4 * 50000 + 10000)%Q in
  let openPrice := (basePrice - change)%Q in
  let closePrice := basePrice in
  let* r5 := Math_random in
  let highPrice := (Math_max openPrice closePrice * (1 + r5 * 0.05))%Q in
  let* r6 := Math_random in
  let lowPrice := (Math_min openPrice closePrice * (1 - r6 * 0.05))%Q in
  let* now1 := Date_now in
  let* now2 := Date_now in
  let* r7 := Math_random in
  ret {| Ticker24h.symbol := symbol;
         Ticker24h.priceChange := VString (toFixed 2 change);
         Ticker24h.priceChangePercent :=
           VString (num_toFixed 2
             (num_mul (num_div (Finite change) (Finite openPrice)) (Finite 100)));
         Ticker24h.weightedAvgPrice := VString (toFixed 2 ((openPrice + closePrice) / 2)%Q);
         Ticker24h.prevClosePrice := VString (toFixed 2 openPrice);
         Ticker24h.lastPrice := VString (toFixed 2 closePrice);
         Ticker24h.bidPrice := VString (toFixed 2 (closePrice - 25)%Q);
         Ticker24h.askPrice := VString (toFixed 2 (closePrice + 25)%Q);
         Ticker24h.openPrice := VString (toFixed 2 openPrice);
         Ticker24h.highPrice := VString (toFixed 2 highPrice);
         Ticker24h.lowPrice := VString (toFixed 2 lowPrice);
         Ticker24h.volume := VString (toFixed 2 volume);
         Ticker24h.quoteVolume := VString (toFixed 2 (volume * closePrice)%Q);
         Ticker24h.openTime := int (now1 - 24 * 60 * 60 * 1000);
         Ticker24h.closeTime := int now2;
         Ticker24h.count := num (Math_floor (r7 * 100000 + 50000)%Q) |}.

(** The interval is not used: a candle always spans one day. *)
Definition generateKlines (symbol : string) (interval : string) (limit : Z)
  : IO (list Kline.t) :=
  let* now := Date_now in
  let intervalMs := 24 * 60 * 60 * 1000 in
  let* r1 := Math_random in
  let startPrice := (45000 + (r1 - 0.5) * 10000)%Q in
  let* r2 := Math_random in
  let trend := ((r2 - 0.5) * 0.002)%Q in
  Array_from_acc limit (fun i currentPrice =>
    let time := now - (limit - i - 1) * intervalMs in
    let* r3 := Math_random in
    let dailyChange := (trend + (r3 - 0.5) * 0.03)%Q in
    let open := currentPrice in
    let close := (open * (1 + dailyChange))%Q in
    let* r4 := Math_random in
    let volatility := (r4 * 0.05)%Q in
    let high := (Math_max open close * (1 + volatility / 2))%Q in
    let low := (Math_min open close * (1 - volatility / 2))%Q in
    let* r5 := Math_random in
    let volume := (r5 * 20000 + 5000)%Q in
    let* r6 := Math_random in
    ret ({| Kline.openTime := int time;
            Kline.open := VString (toFixed 2 open);
            Kline.high := VString (toFixed 2 high);
            Kline.low := VString (toFixed 2 low);
            Kline.close := VString (toFixed 2 close);
            Kline.volume := VString (toFixed 2 volume);
            Kline.closeTime := int (time + intervalMs - 1);
            Kline.quoteAssetVolume := VString (toFixed 2 (volume * close)%Q);
            Kline.numberOfTrades := num (Math_floor (r6 * 5000 + 1000)%Q);
            Kline.takerBuyBaseAssetVolume := VString (toFixed 2 (volume * 0.55)%Q);
            Kline.takerBuyQuoteAssetVolume :=
              VString (toFixed 2 (volume * close * 0.55)%Q) |},
         close)) startPrice.

(** [level => ({...level, price: ..., quantity: ...})], the function
    [generateRealtimeUpdate] maps over the bids and over the asks: a
    level has no other property than the two that are replaced. *)
Definition moveLevel (level : OrderbookEntry) : IO OrderbookEntry :=
  let* p := pure (parseFloat (price level)) in
  let* r1 := Math_random in
  let* q := pure (parseFloat (quantity level)) in
  let* r2 := Math_random in
  ret {| price := VString (num_toFixed 2
           (num_mul p (Finite (1 + (r1 - 0.5) * 0.001)%Q)));
         quantity := VString (num_toFixed 4
           (num_mul q (Finite (1 + (r2 - 0.5) * 0.2)%Q))) |}.

(** [currentOrderbook] is [None] when the argument is [null] or
    [undefined]. *)
Definition generateRealtimeUpdate (currentOrderbook : option Orderbook) : IO Orderbook :=
  match currentOrderbook with
  | None => generateOrderbook "BTCUSDT"
  | Some current =>
      let* bids := mapM moveLevel (bids current) in
      let* asks := mapM moveLevel (asks current) in
      let* sortedBids := Array_sort byPriceDescending bids in
      let* sortedAsks := Array_sort byPriceAscending asks in
      let* now := Date_now in
      ret {| symbol := symbol current;
             bids := sortedBids;
             asks := sortedAsks;
             lastUpdateId := int now |}
  end.

(** *** From candles to the records of the calendar *)

Context `{DateEngine}.

(** The function [transformToFinancialData] maps over the candles. *)
Definition toFinancialData (kline : Kline.t) : IO FinancialData.t :=
  let* date := pure (Date_new (Kline.openTime kline)) in
  let* open := pure (parseFloat (Kline.open kline)) in
  let* close := pure (parseFloat (Kline.close kline)) in
  let* high := pure (parseFloat (Kline.high kline)) in
  let* low := pure (parseFloat (Kline.low kline)) in
  let* volume := pure (parseFloat (Kline.volume kline)) in
  let volatility := num_mul (num_div (num_sub high low) open) (Finite 100) in
  let performance := num_mul (num_div (num_sub close open) open) (Finite 100) in
  let liquidity := num_min (num_div volume (Finite 1000)) (Finite 100) in
  ret {| FinancialData.date := date;
         FinancialData.volatility := num_abs volatility;
         FinancialData.performance := performance;
         FinancialData.volume := volume;
         FinancialData.price := close;
         FinancialData.liquidity := liquidity;
         FinancialData.high := high;
         FinancialData.low := low;
         FinancialData.open := open;
         FinancialData.close := close |}.

(** The ticker is not used. *)
Definition transformToFinancialData (ticker : Ticker24h.t) (klines : list Kline.t)
  : IO (list FinancialData.t) :=
  mapM toFinancialData klines.

End Generator.
End MockDataService.

(* ===================================================================== *)
(** * Reading a payload *)
(* ===================================================================== *)

Section Payload.
Context `{Engine} {S : Type}.

Fixpoint lookup_field (name : string) (fields : list (string * JSValue)) : JSValue :=
  match fields with
  | [] => VUndefined
  | (k, v) :: rest => if String.eqb k name then v else lookup_field name rest
  end.

(** [v.name], for a [name] that no prototype defines *)
Definition get_property (v : JSValue) (name : string) : Eff S JSValue :=
  match v with
  | VUndefined | VNull => throw (TypeError ("Cannot read properties of undefined or null, reading " +:+ name))
  | VObject fields => ret (lookup_field name fields)
  | _ => ret VUndefined
  end.

(** [v[i]] *)
Definition get_index (v : JSValue) (i : nat) : Eff S JSValue :=
  match v with
  | VUndefined | VNull => throw (TypeError ("Cannot read properties of undefined or null, reading " +:+ pretty i))
  | VArray items => ret (nth i items VUndefined)
  | VString s => ret (string_at s i)
  | VObject fields => ret (lookup_field (pretty i) fields)
  | _ => ret VUndefined
  end.

(** The receiver of [v.map(...)] or [v.reverse()]: only an array has
    the method. *)
Definition array_receiver (v : JSValue) (method : string) : Eff S (list JSValue) :=
  match v with
  | VUndefined | VNull => throw (TypeError ("Cannot read properties of undefined or null, reading " +:+ method))
  | VArray items => ret items
  | _ => throw (TypeError (method +:+ " is not a function"))
  end.

(** [items.slice(0, limit)] *)
Definition Array_slice0 (items : list JSValue) (limit : Z) : list JSValue :=
  if limit <? 0 then take (Z.to_nat (Z.of_nat (length items) + limit)) items
  else take (Z.to_nat limit) items.

(** The parameter pattern [[first, second]] applied to [v]. *)
Definition destructure_pair (v : JSValue) : Eff S (JSValue * JSValue) :=
  match v with
  | VArray items => ret (nth 0 items VUndefined, nth 1 items VUndefined)
  | VString s => ret (nth 0 (string_iter s) VUndefined, nth 1 (string_iter s) VUndefined)
  | _ => throw (TypeError "value is not iterable")
  end.

(** [([price, quantity]) => ({ price, quantity })] *)
Definition toEntry (v : JSValue) : Eff S OrderbookEntry :=
  let* (p, q) := destructure_pair v in
  ret {| price := p; quantity := q |}.

(** [!v] *)
Definition falsy (v : JSValue) : bool :=
  match v with
  | VUndefined | VNull | VBool false | VNumber NaN => true
  | VNumber (Finite q) => Qis_zero q
  | VString (Lit s) => String.eqb s EmptyString
  | _ => false
  end.

(** [v !== '0'] *)
Definition is_not_string_0 (v : JSValue) : bool :=
  match v with
  | VString (Lit s) => negb (String.eqb s "0")
  | VString (Fixed O false 0) => false
  | VString (Shortest (Finite q)) => negb (Qis_zero q)
  | _ => true
  end.

(** [v.toString()] *)
Definition call_toString (v : JSValue) : Eff S JSValue :=
  match v with
  | VUndefined | VNull => throw (TypeError "Cannot read properties of undefined or null, reading toString")
  | VNumber x => ret (VString (Shortest x))
  | VString s => ret (VString s)
  | VObject fields =>
      match lookup_field "toString" fields with
      | VUndefined => ret (VString (Lit "[object Object]"))
      | _ => throw (TypeError "toString is not a function")
      end
  | _ => let* s := pure (toString_other v) in ret (VString s)
  end.

End Payload.

(** ** Strings *)

Definition String_includes (s sub : string) : bool :=
  match String.index 0 sub s with Some _ => true | None => false end.

Definition String_endsWith (s suffix : string) : bool :=
  (String.length suffix <=? String.length s)%nat
  && String.eqb (substring (String.length s - String.length suffix) (String.length suffix) s) suffix.

(** [s.replace(sub, by)] for a replacement without [$] *)
Definition String_replace (s sub by_ : string) : string :=
  match String.index 0 sub s with
  | Some i =>
      substring 0 i s +:+ by_
      +:+ substring (i + String.length sub) (String.length s - i - String.length sub) s
  | None => s
  end.

(** [s.slice(0, -n)] and [s.slice(-n)] for [n > 0] *)
Definition String_dropLast (s : string) (n : nat) : string :=
  substring 0 (String.length s - n) s.

Definition String_last (s : string) (n : nat) : string :=
  substring (String.length s - n) n s.

(* ===================================================================== *)
(** * The KuCoin adapter ([kucoin-api.ts]) *)
(* ===================================================================== *)

Module KuCoinAPIService.
Section Adapter.
Context `{Engine}.

Definition commonPairs : list string := ["USDT"; "BTC"; "ETH"; "BNB"; "USDC"].

(** [BTCUSDT] becomes [BTC-USDT]. *)
Definition formatSymbol (symbol : string) : string :=
  if String_includes symbol "-" then symbol
  else
    match List.find (String_endsWith symbol) commonPairs with
    | Some quote => String_dropLast symbol (String.length quote) +:+ "-" +:+ quote
    | None =>
        if (4 <? String.length symbol)%nat
        then String_dropLast symbol 4 +:+ "-" +:+ String_last symbol 4
        else symbol
    end.

(** *** The fallbacks of the adapter *)

Definition getMockOrderbook (symbol : string) : IO Orderbook :=
  let basePrice := 45000%Q in
  let* bids := Array_from 10 (fun i =>
    let* r := Math_random in
    ret {| price := VString (toString (basePrice - (inject_Z i + 1) * 10)%Q);
           quantity := VString (toFixed 4 (r * 5 + 0.1)%Q) |}) in
  let* asks := Array_from 10 (fun i =>
    let* r := Math_random in
    ret {| price := VString (toString (basePrice + (inject_Z i + 1) * 10)%Q);
           quantity := VString (toFixed 4 (r * 5 + 0.1)%Q) |}) in
  let* now := Date_now in
  ret {| symbol := symbol; bids := bids; asks := asks; lastUpdateId := int now |}.

Definition getMock24hTicker (symbol : string) : IO Ticker24h.t :=
  let* r1 := Math_random in
  let price := (45000 + (r1 - 0.5) * 1000)%Q in
  let* r2 := Math_random in
  let change := ((r2 - 0.5) * 5)%Q in
  let* r3 := Math_random in
  let* r4 := Math_random in
  let* now1 := Date_now in
  let* now2 := Date_now in
  let* r5 := Math_random in
  ret {| Ticker24h.symbol := symbol;
         Ticker24h.priceChange := VString (toFixed 2 change);
         Ticker24h.priceChangePercent :=
           VString (num_toFixed 2
             (num_mul (num_div (Finite change) (Finite price)) (Finite 100)));
         Ticker24h.weightedAvgPrice := VString (toFixed 2 price);
         Ticker24h.prevClosePrice := VString (toFixed 2 (price - change)%Q);
         Ticker24h.lastPrice := VString (toFixed 2 price);
         Ticker24h.bidPrice := VString (toFixed 2 (price - 5)%Q);
         Ticker24h.askPrice := VString (toFixed 2 (price + 5)%Q);
         Ticker24h.openPrice := VString (toFixed 2 (price - change)%Q);
         Ticker24h.highPrice := VString (toFixed 2 (price + Math_abs change * 2)%Q);
         Ticker24h.lowPrice := VString (toFixed 2 (price - Math_abs change * 2)%Q);
         Ticker24h.volume := VString (toFixed 2 (r3 * 10000 + 1000)%Q);
         Ticker24h.quoteVolume := VString (toFixed 2 (r4 * 500000000 + 100000000)%Q);
         Ticker24h.openTime := int (now1 - 24 * 60 * 60 * 1000);
         Ticker24h.closeTime := int now2;
         Ticker24h.count := num (Math_floor (r5 * 100000 + 50000)%Q) |}.

Definition getMockKlines (limit : Z) : IO (list Kline.t) :=
  let* now := Date_now in
  Array_from limit (fun i =>
    let time := now - (limit - i - 1) * 24 * 60 * 60 * 1000 in
    let* r1 := Math_random in
    let basePrice := (45000 + (r1 - 0.5) * 5000)%Q in
    let* r2 := Math_random in
    let volatility := (r2 * 0.05)%Q in
    let open := basePrice in
    let* r3 := Math_random in
    let close := (open * (1 + (r3 - 0.5) * volatility))%Q in
    let* r4 := Math_random in
    let high := (Math_max open close * (1 + r4 * 0.02))%Q in
    let* r5 := Math_random in
    let low := (Math_min open close * (1 - r5 * 0.02))%Q in
    let* r6 := Math_random in
    let volume := (r6 * 10000 + 1000)%Q in
    let* r7 := Math_random in
    ret {| Kline.openTime := int time;
           Kline.open := VString (toFixed 2 open);
           Kline.high := VString (toFixed 2 high);
           Kline.low := VString (toFixed 2 low);
           Kline.close := VString (toFixed 2 close);
           Kline.volume := VString (toFixed 2 volume);
           Kline.closeTime := int (time + 24 * 60 * 60 * 1000 - 1);
           Kline.quoteAssetVolume := VString (toFixed 2 (volume * close)%Q);
           Kline.numberOfTrades := num (Math_floor (r7 * 10000 + 1000)%Q);
           Kline.takerBuyBaseAssetVolume := VString (toFixed 2 (volume * 0.6)%Q);
           Kline.takerBuyQuoteAssetVolume :=
             VString (toFixed 2 (volume * close * 0.6)%Q) |}).

(** *** The three data operations: the body of each [try] block, then
    the operation with its [catch] *)

Definition fetchOrderbook (symbol : string) (limit : Z) : IO Orderbook :=
  let formattedSymbol := formatSymbol symbol in
  let* (status, body) := fetch in
  if negb (response_ok status) then throw (Error "Failed to fetch orderbook")
  else
    let* result := response_json body in
    let* data := get_property result "data" in
    let* rawBids := get_property data "bids" in
    let* bidItems := array_receiver rawBids "map" in
    let* bids := mapM toEntry bidItems in
    let* rawAsks := get_property data "asks" in
    let* askItems := array_receiver rawAsks "map" in
    let* asks := mapM toEntry askItems in
    let* sequence := get_property data "sequence" in
    let* lastUpdateId := pure (parseInt sequence) in
    ret {| symbol := formattedSymbol; bids := bids; asks := asks;
           lastUpdateId := VNumber lastUpdateId |}.

Definition getOrderbook (symbol : string) (limit : Z) : IO Orderbook :=
  try_catch (fetchOrderbook symbol limit)
            (fun error => getMockOrderbook symbol).

Definition fetch24hTicker (symbol : string) : IO Ticker24h.t :=
  let formattedSymbol := formatSymbol symbol in
  let* (status, body) := fetch in
  if negb (response_ok status) then throw (Error "Failed to fetch 24h ticker")
  else
    let* result := response_json body in
    let* data := get_property result "data" in
    let* changePrice := get_property data "changePrice" in
    let* changeRate := get_property data "changeRate" in
    let* rate := pure (parseFloat changeRate) in
    let* averagePrice := get_property data "averagePrice" in
    let* last := get_property data "last" in
    let* lastValue := pure (parseFloat last) in
    let* changeValue := pure (parseFloat changePrice) in
    let* buy := get_property data "buy" in
    let* sell := get_property data "sell" in
    let* lastValue' := pure (parseFloat last) in
    let* changeValue' := pure (parseFloat changePrice) in
    let* high := get_property data "high" in
    let* low := get_property data "low" in
    let* vol := get_property data "vol" in
    let* volValue := get_property data "volValue" in
    let* now1 := Date_now in
    let* now2 := Date_now in
    ret {| Ticker24h.symbol := formattedSymbol;
           Ticker24h.priceChange := changePrice;
           Ticker24h.priceChangePercent :=
             VString (num_toFixed 2 (num_mul rate (Finite 100)));
           Ticker24h.weightedAvgPrice := averagePrice;
           Ticker24h.prevClosePrice :=
             VString (num_toFixed 2 (num_sub lastValue changeValue));
           Ticker24h.lastPrice := last;
           Ticker24h.bidPrice := buy;
           Ticker24h.askPrice := sell;
           Ticker24h.openPrice :=
             VString (num_toFixed 2 (num_sub lastValue' changeValue'));
           Ticker24h.highPrice := high;
           Ticker24h.lowPrice := low;
           Ticker24h.volume := vol;
           Ticker24h.quoteVolume := volValue;
           Ticker24h.openTime := int (now1 - 24 * 60 * 60 * 1000);
           Ticker24h.closeTime := int now2;
           Ticker24h.count := int 0 |}.

Definition get24hTicker (symbol : string) : IO Ticker24h.t :=
  try_catch (fetch24hTicker symbol)
            (fun error => getMock24hTicker symbol).

(** [candle => ({ openTime: parseInt(candle[0]) * 1000, ... })] *)
Definition toKline (candle : JSValue) : IO Kline.t :=
  let* c0 := get_index candle 0 in
  let* t := pure (parseInt c0) in
  let* c1 := get_index candle 1 in
  let* c2 := get_index candle 2 in
  let* c3 := get_index candle 3 in
  let* c4 := get_index candle 4 in
  let* c5 := get_index candle 5 in
  let* c0' := get_index candle 0 in
  let* t' := pure (parseInt c0') in
  let* c6 := get_index candle 6 in
  ret {| Kline.openTime := VNumber (num_mul t (Finite 1000));
         Kline.open := c1;
         Kline.close := c2;
         Kline.high := c3;
         Kline.low := c4;
         Kline.volume := c5;
         Kline.closeTime :=
           VNumber (num_sub (num_mul (num_add t' (Finite 86400)) (Finite 1000)) (Finite 1));
         Kline.quoteAssetVolume := c6;
         Kline.numberOfTrades := int 0;
         Kline.takerBuyBaseAssetVolume := VString (Lit "0");
         Kline.takerBuyQuoteAssetVolume := VString (Lit "0") |}.

Definition fetchKlines (symbol : string) (interval : string) (limit : Z)
  : IO (list Kline.t) :=
  let formattedSymbol := formatSymbol symbol in
  let* now := Date_now in
  let* (status, body) := fetch in
  if negb (response_ok status) then throw (Error "Failed to fetch klines")
  else
    let* result := response_json body in
    let* data := get_property result "data" in
    let* candles := array_receiver data "reverse" in
    mapM toKline (rev candles).

Definition getKlines (symbol : string) (interval : string) (limit : Z)
  : IO (list Kline.t) :=
  try_catch (fetchKlines symbol interval limit)
            (fun error => getMockKlines limit).

(** *** From candles to the records of the calendar *)

Context `{DateEngine}.

(** The function [transformToFinancialData] maps over the candles. *)
Definition toFinancialData (kline : Kline.t) : IO FinancialData.t :=
  let* date := pure (Date_new (Kline.openTime kline)) in
  let* open := pure (parseFloat (Kline.open kline)) in
  let* close := pure (parseFloat (Kline.close kline)) in
  let* high := pure (parseFloat (Kline.high kline)) in
  let* low := pure (parseFloat (Kline.low kline)) in
  let* volume := pure (parseFloat (Kline.volume kline)) in
  let volatility := num_mul (num_div (num_sub high low) open) (Finite 100) in
  let performance := num_mul (num_div (num_sub close open) open) (Finite 100) in
  let liquidity := num_min (num_div volume (Finite 1000)) (Finite 100) in
  ret {| FinancialData.date := date;
         FinancialData.volatility := num_abs volatility;
         FinancialData.performance := performance;
         FinancialData.volume := volume;
         FinancialData.price := close;
         FinancialData.liquidity := liquidity;
         FinancialData.high := high;
         FinancialData.low := low;
         FinancialData.open := open;
         FinancialData.close := close |}.

(** The ticker is not used. *)
Definition transformToFinancialData (ticker : Ticker24h.t) (klines : list Kline.t)
  : IO (list FinancialData.t) :=
  mapM toFinancialData klines.

End Adapter.
End KuCoinAPIService.

(* ===================================================================== *)
(** * The Binance adapter ([binance-api.ts]) *)
(* ===================================================================== *)

(** The aggregator does not use this adapter. *)
Module BinanceAPIService.
Section Adapter.
Context `{Engine}.

(** *** The fallbacks of the adapter *)

Definition getMockOrderbook (symbol : string) : IO Orderbook :=
  let basePrice := 45000%Q in
  let* bids := Array_from 10 (fun i =>
    let* r := Math_random in
    ret {| price := VString (toString (basePrice - (inject_Z i + 1) * 10)%Q);
           quantity := VString (toFixed 4 (r * 5 + 0.1)%Q) |}) in
  let* asks := Array_from 10 (fun i =>
    let* r := Math_random in
    ret {| price := VString (toString (basePrice + (inject_Z i + 1) * 10)%Q);
           quantity := VString (toFixed 4 (r * 5 + 0.1)%Q) |}) in
  let* now := Date_now in
  ret {| symbol := symbol; bids := bids; asks := asks; lastUpdateId := int now |}.

Definition getMock24hTicker (symbol : string) : IO Ticker24h.t :=
  let* r1 := Math_random in
  let price := (45000 + (r1 - 0.5) * 1000)%Q in
  let* r2 := Math_random in
  let change := ((r2 - 0.5) * 5)%Q in
  let* r3 := Math_random in
  let* r4 := Math_random in
  let* now1 := Date_now in
  let* now2 := Date_now in
  let* r5 := Math_random in
  ret {| Ticker24h.symbol := symbol;
         Ticker24h.priceChange := VString (toFixed 2 change);
         Ticker24h.priceChangePercent :=
           VString (num_toFixed 2
             (num_mul (num_div (Finite change) (Finite price)) (Finite 100)));
         Ticker24h.weightedAvgPrice := VString (toFixed 2 price);
         Ticker24h.prevClosePrice := VString (toFixed 2 (price - change)%Q);
         Ticker24h.lastPrice := VString (toFixed 2 price);
         Ticker24h.bidPrice := VString (toFixed 2 (price - 5)%Q);
         Ticker24h.askPrice := VString (toFixed 2 (price + 5)%Q);
         Ticker24h.openPrice := VString (toFixed 2 (price - change)%Q);
         Ticker24h.highPrice := VString (toFixed 2 (price + Math_abs change * 2)%Q);
         Ticker24h.lowPrice := VString (toFixed 2 (price - Math_abs change * 2)%Q);
         Ticker24h.volume := VString (toFixed 2 (r3 * 10000 + 1000)%Q);
         Ticker24h.quoteVolume := VString (toFixed 2 (r4 * 500000000 + 100000000)%Q);
         Ticker24h.openTime := int (now1 - 24 * 60 * 60 * 1000);
         Ticker24h.closeTime := int now2;
         Ticker24h.count := num (Math_floor (r5 * 100000 + 50000)%Q) |}.

Definition getMockKlines (limit : Z) : IO (list Kline.t) :=
  let* now := Date_now in
  Array_from limit (fun i =>
    let time := now - (limit - i - 1) * 24 * 60 * 60 * 1000 in
    let* r1 := Math_random in
    let basePrice := (45000 + (r1 - 0.5) * 5000)%Q in
    let* r2 := Math_random in
    let volatility := (r2 * 0.05)%Q in
    let open := basePrice in
    let* r3 := Math_random in
    let close := (open * (1 + (r3 - 0.5) * volatility))%Q in
    let* r4 := Math_random in
    let high := (Math_max open close * (1 + r4 * 0.02))%Q in
    let* r5 := Math_random in
    let low := (Math_min open close * (1 - r5 * 0.02))%Q in
    let* r6 := Math_random in
    let volume := (r6 * 10000 + 1000)%Q in
    let* r7 := Math_random in
    ret {| Kline.openTime := int time;
           Kline.open := VString (toFixed 2 open);
           Kline.high := VString (toFixed 2 high);
           Kline.low := VString (toFixed 2 low);
           Kline.close := VString (toFixed 2 close);
           Kline.volume := VString (toFixed 2 volume);
           Kline.closeTime := int (time + 24 * 60 * 60 * 1000 - 1);
           Kline.quoteAssetVolume := VString (toFixed 2 (volume * close)%Q);
           Kline.numberOfTrades := num (Math_floor (r7 * 10000 + 1000)%Q);
           Kline.takerBuyBaseAssetVolume := VString (toFixed 2 (volume * 0.6)%Q);
           Kline.takerBuyQuoteAssetVolume :=
             VString (toFixed 2 (volume * close * 0.6)%Q) |}).

(** *** The three data operations: the body of each [try] block, then
    the operation with its [catch] *)

Definition fetchOrderbook (symbol : string) (limit : Z) : IO Orderbook :=
  let* (status, body) := fetch in
  if negb (response_ok status) then throw (Error "Failed to fetch orderbook")
  else
    let* data := response_json body in
    let* rawBids := get_property data "bids" in
    let* bidItems := array_receiver rawBids "map" in
    let* bids := mapM toEntry bidItems in
    let* rawAsks := get_property data "asks" in
    let* askItems := array_receiver rawAsks "map" in
    let* asks := mapM toEntry askItems in
    let* lastUpdateId := get_property data "lastUpdateId" in
    ret {| symbol := symbol; bids := bids; asks := asks;
           lastUpdateId := lastUpdateId |}.

Definition getOrderbook (symbol : string) (limit : Z) : IO Orderbook :=
  try_catch (fetchOrderbook symbol limit)
            (fun error => getMockOrderbook symbol).

(** What [get24hTicker] returns: the body of the reply as it is, or the
    ticker of the fallback. *)
Inductive TickerResult :=
| Body (v : JSValue)
| Generated (ticker : Ticker24h.t).

Definition conforms_TickerResult (r : TickerResult) : bool :=
  match r with
  | Body _ => false
  | Generated ticker => Ticker24h.conforms ticker
  end.

Definition fetch24hTicker (symbol : string) : IO TickerResult :=
  let* (status, body) := fetch in
  if negb (response_ok status) then throw (Error "Failed to fetch 24h ticker")
  else
    let* data := response_json body in
    ret (Body data).

Definition get24hTicker (symbol : string) : IO TickerResult :=
  try_catch (fetch24hTicker symbol)
            (fun error => let* ticker := getMock24hTicker symbol in ret (Generated ticker)).

(** [k => ({ openTime: k[0], open: k[1], ... })] *)
Definition toKline (k : JSValue) : IO Kline.t :=
  let* k0 := get_index k 0 in
  let* k1 := get_index k 1 in
  let* k2 := get_index k 2 in
  let* k3 := get_index k 3 in
  let* k4 := get_index k 4 in
  let* k5 := get_index k 5 in
  let* k6 := get_index k 6 in
  let* k7 := get_index k 7 in
  let* k8 := get_index k 8 in
  let* k9 := get_index k 9 in
  let* k10 := get_index k 10 in
  ret {| Kline.openTime := k0;
         Kline.open := k1;
         Kline.high := k2;
         Kline.low := k3;
         Kline.close := k4;
         Kline.volume := k5;
         Kline.closeTime := k6;
         Kline.quoteAssetVolume := k7;
         Kline.numberOfTrades := k8;
         Kline.takerBuyBaseAssetVolume := k9;
         Kline.takerBuyQuoteAssetVolume := k10 |}.

Definition fetchKlines (symbol : string) (interval : string) (limit : Z)
  : IO (list Kline.t) :=
  let* (status, body) := fetch in
  if negb (response_ok status) then throw (Error "Failed to fetch klines")
  else
    let* data := response_json body in
    let* candles := array_receiver data "map" in
    mapM toKline candles.

Definition getKlines (symbol : string) (interval : string) (limit : Z)
  : IO (list Kline.t) :=
  try_catch (fetchKlines symbol interval limit)
            (fun error => getMockKlines limit).

(** *** From candles to the records of the calendar *)

Context `{DateEngine}.

(** The function [transformToFinancialData] maps over the candles. *)
Definition toFinancialData (kline : Kline.t) : IO FinancialData.t :=
  let* date := pure (Date_new (Kline.openTime kline)) in
  let* open := pure (parseFloat (Kline.open kline)) in
  let* close := pure (parseFloat (Kline.close kline)) in
  let* high := pure (parseFloat (Kline.high kline)) in
  let* low := pure (parseFloat (Kline.low kline)) in
  let* volume := pure (parseFloat (Kline.volume kline)) in
  let volatility := num_mul (num_div (num_sub high low) open) (Finite 100) in
  let performance := num_mul (num_div (num_sub close open) open) (Finite 100) in
  let liquidity := num_min (num_div volume (Finite 1000)) (Finite 100) in
  ret {| FinancialData.date := date;
         FinancialData.volatility := num_abs volatility;
         FinancialData.performance := performance;
         FinancialData.volume := volume;
         FinancialData.price := close;
         FinancialData.liquidity := liquidity;
         FinancialData.high := high;
         FinancialData.low := low;
         FinancialData.open := open;
         FinancialData.close := close |}.

(** The ticker is not used. *)
Definition transformToFinancialData (ticker : Ticker24h.t) (klines : list Kline.t)
  : IO (list FinancialData.t) :=
  mapM toFinancialData klines.

End Adapter.
End BinanceAPIService.

(* ===================================================================== *)
(** * The OKX adapter ([okx-api.ts]) *)
(* ===================================================================== *)

Module OKXAPIService.
Section Adapter.
Context `{Engine}.

(** [BTCUSDT] becomes [BTC-USDT]. *)
Definition formatSymbol (symbol : string) : string :=
  if String_includes symbol "USDT" then String_replace symbol "USDT" "-USDT"
  else symbol.

(** *** The fallbacks of the adapter *)

Definition getMockOrderbook (symbol : string) : IO Orderbook :=
  let basePrice := 65000%Q in
  let spread := 10%Q in
  let* bids := Array_from 20 (fun i =>
    let* r := Math_random in
    ret {| price := VString (toString (basePrice - spread - inject_Z i * 5)%Q);
           quantity := VString (toFixed 4 (r * 2)%Q) |}) in
  let* asks := Array_from 20 (fun i =>
    let* r := Math_random in
    ret {| price := VString (toString (basePrice + spread + inject_Z i * 5)%Q);
           quantity := VString (toFixed 4 (r * 2)%Q) |}) in
  let* now := Date_now in
  ret {| symbol := symbol; bids := bids; asks := asks; lastUpdateId := int now |}.

Definition getMock24hTicker (symbol : string) : IO Ticker24h.t :=
  let* r1 := Math_random in
  let lastPrice := (65000 + r1 * 1000)%Q in
  let* r2 := Math_random in
  let openPrice := (lastPrice * (0.98 + r2 * 0.04))%Q in
  let* r3 := Math_random in
  let high := (Math_max lastPrice openPrice * (1 + r3 * 0.02))%Q in
  let* r4 := Math_random in
  let low := (Math_min lastPrice openPrice * (1 - r4 * 0.02))%Q in
  let* r5 := Math_random in
  let* r6 := Math_random in
  let* now1 := Date_now in
  let* now2 := Date_now in
  let* r7 := Math_random in
  ret {| Ticker24h.symbol := symbol;
         Ticker24h.priceChange := VString (toFixed 2 (lastPrice - openPrice)%Q);
         Ticker24h.priceChangePercent :=
           VString (num_toFixed 2
             (num_mul (num_div (Finite (lastPrice - openPrice)%Q) (Finite openPrice))
                      (Finite 100)));
         Ticker24h.weightedAvgPrice := VString (toFixed 2 ((lastPrice + openPrice) / 2)%Q);
         Ticker24h.prevClosePrice := VString (toFixed 2 openPrice);
         Ticker24h.lastPrice := VString (toFixed 2 lastPrice);
         Ticker24h.bidPrice := VString (toFixed 2 (lastPrice - 5)%Q);
         Ticker24h.askPrice := VString (toFixed 2 (lastPrice + 5)%Q);
         Ticker24h.openPrice := VString (toFixed 2 openPrice);
         Ticker24h.highPrice := VString (toFixed 2 high);
         Ticker24h.lowPrice := VString (toFixed 2 low);
         Ticker24h.volume := VString (toFixed 2 (r5 * 1000)%Q);
         Ticker24h.quoteVolume := VString (toFixed 2 (r6 * 50000000)%Q);
         Ticker24h.openTime := int (now1 - 24 * 60 * 60 * 1000);
         Ticker24h.closeTime := int now2;
         Ticker24h.count := num (Math_floor (r7 * 10000)%Q) |}.

Definition getMockKlines (symbol : string) (limit : Z) : IO (list Kline.t) :=
  let* now := Date_now in
  let dayMs := 24 * 60 * 60 * 1000 in
  Array_from_acc limit (fun i currentPrice =>
    let openTime := now - (limit - i) * dayMs in
    let open := currentPrice in
    let* r1 := Math_random in
    let change := ((r1 - 0.5) * 0.1)%Q in
    let close := (open * (1 + change))%Q in
    let* r2 := Math_random in
    let high := (Math_max open close * (1 + r2 * 0.05))%Q in
    let* r3 := Math_random in
    let low := (Math_min open close * (1 - r3 * 0.05))%Q in
    let* r4 := Math_random in
    let volume := (r4 * 1000)%Q in
    let* r5 := Math_random in
    ret ({| Kline.openTime := int openTime;
            Kline.open := VString (toString open);
            Kline.high := VString (toString high);
            Kline.low := VString (toString low);
            Kline.close := VString (toString close);
            Kline.volume := VString (toString volume);
            Kline.closeTime := int (openTime + dayMs);
            Kline.quoteAssetVolume := VString (toString (volume * close)%Q);
            Kline.numberOfTrades := num (Math_floor (r5 * 1000)%Q);
            Kline.takerBuyBaseAssetVolume := VString (toString (volume * 0.6)%Q);
            Kline.takerBuyQuoteAssetVolume :=
              VString (toString (volume * close * 0.6)%Q) |},
         close)) 65000%Q.

(** *** The three data operations *)

(** [if (data.code !== '0' || !data.data[0]) throw ...; data.data[0]] *)
Definition firstRecord (data : JSValue) : IO JSValue :=
  let* code := get_property data "code" in
  if is_not_string_0 code then throw (Error "Invalid response format")
  else
    let* records := get_property data "data" in
    let* first := get_index records 0 in
    if falsy first then throw (Error "Invalid response format")
    else
      let* records' := get_property data "data" in
      get_index records' 0.

Definition fetchOrderbook (symbol : string) (limit : Z) : IO Orderbook :=
  let formattedSymbol := formatSymbol symbol in
  let* (status, body) := fetch in
  if negb (response_ok status) then throw (Error ("HTTP " +:+ pretty status))
  else
    let* data := response_json body in
    let* orderbook := firstRecord data in
    let* rawBids := get_property orderbook "bids" in
    let* bidItems := array_receiver rawBids "map" in
    let* bids := mapM toEntry bidItems in
    let* rawAsks := get_property orderbook "asks" in
    let* askItems := array_receiver rawAsks "map" in
    let* asks := mapM toEntry askItems in
    let* ts := get_property orderbook "ts" in
    let* lastUpdateId := pure (parseInt ts) in
    ret {| symbol := symbol; bids := bids; asks := asks;
           lastUpdateId := VNumber lastUpdateId |}.

Definition getOrderbook (symbol : string) (limit : Z) : IO Orderbook :=
  try_catch (fetchOrderbook symbol limit)
            (fun error => getMockOrderbook symbol).

Definition fetch24hTicker (symbol : string) : IO Ticker24h.t :=
  let formattedSymbol := formatSymbol symbol in
  let* (status, body) := fetch in
  if negb (response_ok status) then throw (Error ("HTTP " +:+ pretty status))
  else
    let* data := response_json body in
    let* ticker := firstRecord data in
    let* last := get_property ticker "last" in
    let* open24h := get_property ticker "open24h" in
    let* l1 := pure (parseFloat last) in
    let* o1 := pure (parseFloat open24h) in
    let* l2 := pure (parseFloat last) in
    let* o2 := pure (parseFloat open24h) in
    let* o3 := pure (parseFloat open24h) in
    let* bidPx := get_property ticker "bidPx" in
    let* askPx := get_property ticker "askPx" in
    let* high24h := get_property ticker "high24h" in
    let* low24h := get_property ticker "low24h" in
    let* vol24h := get_property ticker "vol24h" in
    let* volCcy24h := get_property ticker "volCcy24h" in
    let* ts := get_property ticker "ts" in
    let* t1 := pure (parseInt ts) in
    let* t2 := pure (parseInt ts) in
    ret {| Ticker24h.symbol := symbol;
           Ticker24h.priceChange := VString (Shortest (num_sub l1 o1));
           Ticker24h.priceChangePercent :=
             VString (Shortest (num_mul (num_div (num_sub l2 o2) o3) (Finite 100)));
           Ticker24h.weightedAvgPrice := last;
           Ticker24h.prevClosePrice := open24h;
           Ticker24h.lastPrice := last;
           Ticker24h.bidPrice := bidPx;
           Ticker24h.askPrice := askPx;
           Ticker24h.openPrice := open24h;
           Ticker24h.highPrice := high24h;
           Ticker24h.lowPrice := low24h;
           Ticker24h.volume := vol24h;
           Ticker24h.quoteVolume := volCcy24h;
           Ticker24h.openTime := VNumber (num_sub t1 (Finite (inject_Z (24 * 60 * 60 * 1000))));
           Ticker24h.closeTime := VNumber t2;
           Ticker24h.count := int 0 |}.

Definition get24hTicker (symbol : string) : IO Ticker24h.t :=
  try_catch (fetch24hTicker symbol)
            (fun error => getMock24hTicker symbol).

(** [candle => ({ openTime: parseInt(candle[0]), ... })] *)
Definition toKline (candle : JSValue) : IO Kline.t :=
  let* c0 := get_index candle 0 in
  let* t := pure (parseInt c0) in
  let* c1 := get_index candle 1 in
  let* c2 := get_index candle 2 in
  let* c3 := get_index candle 3 in
  let* c4 := get_index candle 4 in
  let* c5 := get_index candle 5 in
  let* c0' := get_index candle 0 in
  let* t' := pure (parseInt c0') in
  let* c6 := get_index candle 6 in
  ret {| Kline.openTime := VNumber t;
         Kline.open := c1;
         Kline.high := c2;
         Kline.low := c3;
         Kline.close := c4;
         Kline.volume := c5;
         Kline.closeTime :=
           VNumber (num_add t' (Finite (inject_Z (24 * 60 * 60 * 1000))));
         Kline.quoteAssetVolume := c6;
         Kline.numberOfTrades := int 0;
         Kline.takerBuyBaseAssetVolume := VString (Lit "0");
         Kline.takerBuyQuoteAssetVolume := VString (Lit "0") |}.

Definition fetchKlines (symbol : string) (interval : string) (limit : Z)
  : IO (list Kline.t) :=
  let formattedSymbol := formatSymbol symbol in
  let* (status, body) := fetch in
  if negb (response_ok status) then throw (Error ("HTTP " +:+ pretty status))
  else
    let* data := response_json body in
    let* code := get_property data "code" in
    if is_not_string_0 code then throw (Error "Invalid response format")
    else
      let* records := get_property data "data" in
      let* candles := array_receiver records "map" in
      let* klines := mapM toKline candles in
      ret (rev klines).

Definition getKlines (symbol : string) (interval : string) (limit : Z)
  : IO (list Kline.t) :=
  try_catch (fetchKlines symbol interval limit)
            (fun error => getMockKlines symbol limit).

(** *** From candles to the records of the calendar *)

Context `{DateEngine}.

(** The function [transformToFinancialData] maps over the candles, with
    the index of the candle. *)
Definition toFinancialData (klines : list Kline.t) (kline : Kline.t) (index : nat)
  : IO FinancialData.t :=
  let* open := pure (parseFloat (Kline.open kline)) in
  let* close := pure (parseFloat (Kline.close kline)) in
  let* high := pure (parseFloat (Kline.high kline)) in
  let* low := pure (parseFloat (Kline.low kline)) in
  let* volume := pure (parseFloat (Kline.volume kline)) in
  let priceRange := num_sub high low in
  let volatility := num_mul (num_div priceRange open) (Finite 100) in
  let performance := num_mul (num_div (num_sub close open) open) (Finite 100) in
  let* prevClose :=
    if (0 <? index)%nat then
      match klines !! (index - 1)%nat with
      | Some previous => pure (parseFloat (Kline.close previous))
      | None => throw (TypeError "Cannot read properties of undefined, reading close")
      end
    else ret open in
  let liquidity := num_mul volume close in
  let* date := pure (Date_new (Kline.openTime kline)) in
  ret {| FinancialData.date := date;
         FinancialData.volatility := volatility;
         FinancialData.performance := performance;
         FinancialData.volume := volume;
         FinancialData.price := close;
         FinancialData.liquidity := liquidity;
         FinancialData.high := high;
         FinancialData.low := low;
         FinancialData.open := open;
         FinancialData.close := close |}.

(** The ticker is not used. *)
Definition transformToFinancialData (ticker : Ticker24h.t) (klines : list Kline.t)
  : IO (list FinancialData.t) :=
  mapMi (toFinancialData klines) klines.

End Adapter.
End OKXAPIService.

(* ===================================================================== *)
(** * The Coinbase adapter ([coinbase-api.ts]) *)
(* ===================================================================== *)

Module CoinbaseAPIService.
Section Adapter.
Context `{Engine}.

(** [BTCUSDT] becomes [BTC-USD]. *)
Definition formatSymbol (symbol : string) : string :=
  if String_includes symbol "USDT" then String_replace symbol "USDT" "-USD"
  else symbol.

(** *** The fallbacks of the adapter *)

Definition getMockOrderbook (symbol : string) : IO Orderbook :=
  let basePrice := 65000%Q in
  let spread := 10%Q in
  let* bids := Array_from 20 (fun i =>
    let* r := Math_random in
    ret {| price := VString (toString (basePrice - spread - inject_Z i * 5)%Q);
           quantity := VString (toFixed 4 (r * 2)%Q) |}) in
  let* asks := Array_from 20 (fun i =>
    let* r := Math_random in
    ret {| price := VString (toString (basePrice + spread + inject_Z i * 5)%Q);
           quantity := VString (toFixed 4 (r * 2)%Q) |}) in
  let* now := Date_now in
  ret {| symbol := symbol; bids := bids; asks := asks; lastUpdateId := int now |}.

Definition getMock24hTicker (symbol : string) : IO Ticker24h.t :=
  let* r1 := Math_random in
  let lastPrice := (65000 + r1 * 1000)%Q in
  let* r2 := Math_random in
  let openPrice := (lastPrice * (0.98 + r2 * 0.04))%Q in
  let* r3 := Math_random in
  let high := (Math_max lastPrice openPrice * (1 + r3 * 0.02))%Q in
  let* r4 := Math_random in
  let low := (Math_min lastPrice openPrice * (1 - r4 * 0.02))%Q in
  let* r5 := Math_random in
  let* r6 := Math_random in
  let* now1 := Date_now in
  let* now2 := Date_now in
  let* r7 := Math_random in
  ret {| Ticker24h.symbol := symbol;
         Ticker24h.priceChange := VString (toFixed 2 (lastPrice - openPrice)%Q);
         Ticker24h.priceChangePercent :=
           VString (num_toFixed 2
             (num_mul (num_div (Finite (lastPrice - openPrice)%Q) (Finite openPrice))
                      (Finite 100)));
         Ticker24h.weightedAvgPrice := VString (toFixed 2 ((lastPrice + openPrice) / 2)%Q);
         Ticker24h.prevClosePrice := VString (toFixed 2 openPrice);
         Ticker24h.lastPrice := VString (toFixed 2 lastPrice);
         Ticker24h.bidPrice := VString (toFixed 2 (lastPrice - 5)%Q);
         Ticker24h.askPrice := VString (toFixed 2 (lastPrice + 5)%Q);
         Ticker24h.openPrice := VString (toFixed 2 openPrice);
         Ticker24h.highPrice := VString (toFixed 2 high);
         Ticker24h.lowPrice := VString (toFixed 2 low);
         Ticker24h.volume := VString (toFixed 2 (r5 * 1000)%Q);
         Ticker24h.quoteVolume := VString (toFixed 2 (r6 * 50000000)%Q);
         Ticker24h.openTime := int (now1 - 24 * 60 * 60 * 1000);
         Ticker24h.closeTime := int now2;
         Ticker24h.count := num (Math_floor (r7 * 10000)%Q) |}.

Definition getMockKlines (symbol : string) (limit : Z) : IO (list Kline.t) :=
  let* now := Date_now in
  let dayMs := 24 * 60 * 60 * 1000 in
  Array_from_acc limit (fun i currentPrice =>
    let openTime := now - (limit - i) * dayMs in
    let open := currentPrice in
    let* r1 := Math_random in
    let change := ((r1 - 0.5) * 0.1)%Q in
    let close := (open * (1 + change))%Q in
    let* r2 := Math_random in
    let high := (Math_max open close * (1 + r2 * 0.05))%Q in
    let* r3 := Math_random in
    let low := (Math_min open close * (1 - r3 * 0.05))%Q in
    let* r4 := Math_random in
    let volume := (r4 * 1000)%Q in
    let* r5 := Math_random in
    ret ({| Kline.openTime := int openTime;
            Kline.open := VString (toString open);
            Kline.high := VString (toString high);
            Kline.low := VString (toString low);
            Kline.close := VString (toString close);
            Kline.volume := VString (toString volume);
            Kline.closeTime := int (openTime + dayMs);
            Kline.quoteAssetVolume := VString (toString (volume * close)%Q);
            Kline.numberOfTrades := num (Math_floor (r5 * 1000)%Q);
            Kline.takerBuyBaseAssetVolume := VString (toString (volume * 0.6)%Q);
            Kline.takerBuyQuoteAssetVolume :=
              VString (toString (volume * close * 0.6)%Q) |},
         close)) 65000%Q.

(** *** The three data operations *)

Definition fetchOrderbook (symbol : string) (limit : Z) : IO Orderbook :=
  let formattedSymbol := formatSymbol symbol in
  let* (status, body) := fetch in
  if negb (response_ok status) then throw (Error ("HTTP " +:+ pretty status))
  else
    let* data := response_json body in
    let* rawBids := get_property data "bids" in
    let* bidItems := array_receiver rawBids "slice" in
    let* bids := mapM toEntry (Array_slice0 bidItems limit) in
    let* rawAsks := get_property data "asks" in
    let* askItems := array_receiver rawAsks "slice" in
    let* asks := mapM toEntry (Array_slice0 askItems limit) in
    let* now := Date_now in
    ret {| symbol := symbol; bids := bids; asks := asks; lastUpdateId := int now |}.

Definition getOrderbook (symbol : string) (limit : Z) : IO Orderbook :=
  try_catch (fetchOrderbook symbol limit)
            (fun error => getMockOrderbook symbol).

(** [await Promise.all([fetch(...), fetch(...)])]: both requests are
    sent; the first rejection, if any, is thrown. *)
Definition fetch_both : IO ((Z * ResponseBody) * (Z * ResponseBody)) :=
  let* reply1 := next_reply in
  let* reply2 := next_reply in
  match reply1, reply2 with
  | FetchRejects e, _ => throw e
  | _, FetchRejects e => throw e
  | Response status1 body1, Response status2 body2 =>
      ret ((status1, body1), (status2, body2))
  end.

Definition fetch24hTicker (symbol : string) : IO Ticker24h.t :=
  let formattedSymbol := formatSymbol symbol in
  let* ((tickerStatus, tickerBody), (statsStatus, statsBody)) := fetch_both in
  if negb (response_ok tickerStatus) || negb (response_ok statsStatus)
  then throw (Error "API request failed")
  else
    let* ticker := response_json tickerBody in
    let* stats := response_json statsBody in
    let* price := get_property ticker "price" in
    let* p1 := pure (parseFloat price) in
    let* open := get_property stats "open" in
    let* o1 := pure (parseFloat open) in
    let* p2 := pure (parseFloat price) in
    let* o2 := pure (parseFloat open) in
    let* o3 := pure (parseFloat open) in
    let* bid := get_property ticker "bid" in
    let* ask := get_property ticker "ask" in
    let* high := get_property stats "high" in
    let* low := get_property stats "low" in
    let* volume := get_property stats "volume" in
    let* volume_30day := get_property stats "volume_30day" in
    let* now1 := Date_now in
    let* now2 := Date_now in
    ret {| Ticker24h.symbol := symbol;
           Ticker24h.priceChange := VString (Shortest (num_sub p1 o1));
           Ticker24h.priceChangePercent :=
             VString (Shortest (num_mul (num_div (num_sub p2 o2) o3) (Finite 100)));
           Ticker24h.weightedAvgPrice := price;
           Ticker24h.prevClosePrice := open;
           Ticker24h.lastPrice := price;
           Ticker24h.bidPrice := bid;
           Ticker24h.askPrice := ask;
           Ticker24h.openPrice := open;
           Ticker24h.highPrice := high;
           Ticker24h.lowPrice := low;
           Ticker24h.volume := volume;
           Ticker24h.quoteVolume := volume_30day;
           Ticker24h.openTime := int (now1 - 24 * 60 * 60 * 1000);
           Ticker24h.closeTime := int now2;
           Ticker24h.count := int 0 |}.

Definition get24hTicker (symbol : string) : IO Ticker24h.t :=
  try_catch (fetch24hTicker symbol)
            (fun error => getMock24hTicker symbol).

(** [candle => ({ openTime: candle[0] * 1000, open: candle[3].toString(), ... })] *)
Definition toKline (candle : JSValue) : IO Kline.t :=
  let* c0 := get_index candle 0 in
  let* t := pure (toNumber c0) in
  let* c3 := get_index candle 3 in
  let* open := call_toString c3 in
  let* c2 := get_index candle 2 in
  let* high := call_toString c2 in
  let* c1 := get_index candle 1 in
  let* low := call_toString c1 in
  let* c4 := get_index candle 4 in
  let* close := call_toString c4 in
  let* c5 := get_index candle 5 in
  let* volume := call_toString c5 in
  let* c0' := get_index candle 0 in
  let* sum := pure (js_plus c0' (int 86400)) in
  let* t' := pure (toNumber sum) in
  ret {| Kline.openTime := VNumber (num_mul t (Finite 1000));
         Kline.open := open;
         Kline.high := high;
         Kline.low := low;
         Kline.close := close;
         Kline.volume := volume;
         Kline.closeTime := VNumber (num_mul t' (Finite 1000));
         Kline.quoteAssetVolume := VString (Lit "0");
         Kline.numberOfTrades := int 0;
         Kline.takerBuyBaseAssetVolume := VString (Lit "0");
         Kline.takerBuyQuoteAssetVolume := VString (Lit "0") |}.

(** [date.toISOString()] throws on a time value outside the range of
    [Date]. *)
Definition Date_toISOString (time : Z) : IO unit :=
  if 8640000000000000 <? Z.abs time then throw (RangeError "Invalid time value")
  else ret tt.

Definition fetchKlines (symbol : string) (interval : string) (limit : Z)
  : IO (list Kline.t) :=
  let formattedSymbol := formatSymbol symbol in
  let* end_ := Date_now in
  let start := end_ - limit * 24 * 60 * 60 * 1000 in
  let* _ := Date_toISOString start in
  let* _ := Date_toISOString end_ in
  let* (status, body) := fetch in
  if negb (response_ok status) then throw (Error ("HTTP " +:+ pretty status))
  else
    let* data := response_json body in
    let* candles := array_receiver data "map" in
    let* klines := mapM toKline candles in
    ret (rev klines).

Definition getKlines (symbol : string) (interval : string) (limit : Z)
  : IO (list Kline.t) :=
  try_catch (fetchKlines symbol interval limit)
            (fun error => getMockKlines symbol limit).

(** *** From candles to the records of the calendar *)

Context `{DateEngine}.

(** The function [transformToFinancialData] maps over the candles, with
    the index of the candle. *)
Definition toFinancialData (klines : list Kline.t) (kline : Kline.t) (index : nat)
  : IO FinancialData.t :=
  let* open := pure (parseFloat (Kline.open kline)) in
  let* close := pure (parseFloat (Kline.close kline)) in
  let* high := pure (parseFloat (Kline.high kline)) in
  let* low := pure (parseFloat (Kline.low kline)) in
  let* volume := pure (parseFloat (Kline.volume kline)) in
  let priceRange := num_sub high low in
  let volatility := num_mul (num_div priceRange open) (Finite 100) in
  let performance := num_mul (num_div (num_sub close open) open) (Finite 100) in
  let* prevClose :=
    if (0 <? index)%nat then
      match klines !! (index - 1)%nat with
      | Some previous => pure (parseFloat (Kline.close previous))
      | None => throw (TypeError "Cannot read properties of undefined, reading close")
      end
    else ret open in
  let liquidity := num_mul volume close in
  let* date := pure (Date_new (Kline.openTime kline)) in
  ret {| FinancialData.date := date;
         FinancialData.volatility := volatility;
         FinancialData.performance := performance;
         FinancialData.volume := volume;
         FinancialData.price := close;
         FinancialData.liquidity := liquidity;
         FinancialData.high := high;
         FinancialData.low := low;
         FinancialData.open := open;
         FinancialData.close := close |}.

(** The ticker is not used. *)
Definition transformToFinancialData (ticker : Ticker24h.t) (klines : list Kline.t)
  : IO (list FinancialData.t) :=
  mapMi (toFinancialData klines) klines.

End Adapter.
End CoinbaseAPIService.

(* ===================================================================== *)
(** * The aggregator and its health tracker ([api-manager.ts]) *)
(* ===================================================================== *)

Inductive APISource := coinbase | okx | kucoin | mock.

#[global] Instance APISource_eq_dec : EqDecision APISource.
Proof. solve_decision. Defined.

Definition APISource_code (s : APISource) : nat :=
  match s with coinbase => 0 | okx => 1 | kucoin => 2 | mock => 3 end.

Definition APISource_of_code (n : nat) : APISource :=
  match n with 0%nat => coinbase | 1%nat => okx | 2%nat => kucoin | _ => mock end.

#[global] Instance APISource_countable : Countable APISource :=
  inj_countable' APISource_code APISource_of_code
    (fun s => match s return APISource_of_code (APISource_code s) = s with
              | coinbase | okx | kucoin | mock => eq_refl
              end).

Definition APISource_name (s : APISource) : string :=
  match s with
  | coinbase => "coinbase" | okx => "okx" | kucoin => "kucoin" | mock => "mock"
  end.

Module APIHealth.
Record t := {
  source : APISource;
  isHealthy : bool;
  lastChecked : Z;
  responseTime : option Z;
  errorCount : nat;
  consecutiveFailures : nat
}.
End APIHealth.

Record RetryConfig := {
  maxRetries : nat;
  baseDelay : Z;
  maxDelay : Z
}.

(** An asynchronous function without arguments, such as
    [() => api.getOrderbook(symbol, limit)].  What a call does can depend
    on how often the function has been called before: [operation n] is
    its call number [n], counted from 0. *)
Definition Operation (T : Type) : Type := nat -> IO T.

(** What the aggregator expects of the object [getAPIService] returns. *)
Module Adapter.
Record t := {
  getOrderbook : string -> Z -> Operation Orderbook;
  get24hTicker : string -> Operation Ticker24h.t;
  getKlines : string -> string -> Z -> Operation (list Kline.t)
}.
End Adapter.

(** A value with its provenance tag. *)
Record Sourced (A : Type) := {
  data : A;
  source : APISource
}.
Arguments data {A} _.
Arguments source {A} _.

Record APIManagerService := {
  apiHealth : gmap APISource APIHealth.t;
  preferredOrder : list APISource;
  currentSource : APISource;
  fallbackToMock : bool;
  retryConfig : RetryConfig
}.

(** What an observer of the aggregator sees beside its results: the
    delays it awaited (oldest first) and how many times it called an
    operation of an adapter. *)
Record Trace := {
  delays : list Z;
  invocations : nat
}.

Record System := {
  manager : APIManagerService;
  world : World;
  trace : Trace
}.

Definition liftIO {A} (c : IO A) : Eff System A :=
  fun s =>
    let (o, w) := c (world s) in
    (o, {| manager := manager s; world := w; trace := trace s |}).

Definition update_manager (f : APIManagerService -> APIManagerService) : Eff System unit :=
  modify (fun s => {| manager := f (manager s); world := world s; trace := trace s |}).

Definition update_trace (f : Trace -> Trace) : Eff System unit :=
  modify (fun s => {| manager := manager s; world := world s; trace := f (trace s) |}).

Definition set_apiHealth (h : gmap APISource APIHealth.t) (m : APIManagerService) :=
  {| apiHealth := h; preferredOrder := preferredOrder m;
     currentSource := currentSource m; fallbackToMock := fallbackToMock m;
     retryConfig := retryConfig m |}.

Definition set_currentSource (s : APISource) (m : APIManagerService) :=
  {| apiHealth := apiHealth m; preferredOrder := preferredOrder m;
     currentSource := s; fallbackToMock := fallbackToMock m;
     retryConfig := retryConfig m |}.

Definition set_fallbackToMock (b : bool) (m : APIManagerService) :=
  {| apiHealth := apiHealth m; preferredOrder := preferredOrder m;
     currentSource := currentSource m; fallbackToMock := b;
     retryConfig := retryConfig m |}.

(** [await new Promise(resolve => setTimeout(resolve, delay))] *)
Definition sleep (delay : Z) : Eff System unit :=
  update_trace (fun t => {| delays := delays t ++ [delay]; invocations := invocations t |}).

(** [await operation()], for the call number [n] of [operation] *)
Definition invoke {T} (operation : Operation T) (n : nat) : Eff System T :=
  let* _ := update_trace (fun t =>
    {| delays := delays t; invocations := S (invocations t) |}) in
  liftIO (operation n).

Module APIManager.
Section Service.
Context `{Engine}.
Variables coinbaseAPI okxAPI kucoinAPI : Adapter.t.

Definition defaultRetryConfig : RetryConfig :=
  {| maxRetries := 3; baseDelay := 1000; maxDelay := 10000 |}.

Definition initialHealth (source : APISource) : APIHealth.t :=
  {| APIHealth.source := source;
     APIHealth.isHealthy := true;
     APIHealth.lastChecked := 0;
     APIHealth.responseTime := None;
     APIHealth.errorCount := 0;
     APIHealth.consecutiveFailures := 0 |}.

(** [new APIManagerService()] *)
Definition new : APIManagerService :=
  let preferredOrder := [coinbase; okx; kucoin] in
  {| apiHealth := foldl (fun health source => <[source := initialHealth source]> health)
                        ∅ preferredOrder;
     preferredOrder := preferredOrder;
     currentSource := coinbase;
     fallbackToMock := false;
     retryConfig := defaultRetryConfig |}.

Definition getAPIService (source : APISource) : Adapter.t :=
  match source with
  | coinbase => coinbaseAPI
  | okx => okxAPI
  | kucoin => kucoinAPI
  | _ => kucoinAPI
  end.

(** [Array.from(this.apiHealth.values())], in the order of the keys *)
Definition healthValues (m : APIManagerService) : list APIHealth.t :=
  (map_to_list (apiHealth m)).*2.

(** [Array.from(this.apiHealth.values()).every(health =>
      health.consecutiveFailures >= this.retryConfig.maxRetries)] *)
Definition allUnhealthy (m : APIManagerService) : bool :=
  forallb (fun health =>
             (maxRetries (retryConfig m) <=? APIHealth.consecutiveFailures health)%nat)
          (healthValues m).

Definition checkAndEnableMockFallback : Eff System unit :=
  let* m := gets manager in
  if allUnhealthy m && negb (fallbackToMock m)
  then update_manager (set_fallbackToMock true)
  else ret tt.

Definition updateHealth (source : APISource) (isHealthy : bool) (responseTime : option Z)
  : Eff System unit :=
  let* m := gets manager in
  match apiHealth m !! source with
  | Some health =>
      let* now := liftIO Date_now in
      let health' :=
        {| APIHealth.source := APIHealth.source health;
           APIHealth.isHealthy := isHealthy;
           APIHealth.lastChecked := now;
           APIHealth.responseTime := responseTime;
           APIHealth.errorCount :=
             if isHealthy then 0%nat else (APIHealth.errorCount health + 1)%nat;
           APIHealth.consecutiveFailures :=
             if isHealthy then 0%nat
             else (APIHealth.consecutiveFailures health + 1)%nat |} in
      let* _ := update_manager (fun m => set_apiHealth (<[source := health']> (apiHealth m)) m) in
      if (maxRetries (retryConfig m) <=? APIHealth.consecutiveFailures health')%nat
      then checkAndEnableMockFallback
      else ret tt
  | None => ret tt
  end.

Definition healthCheck (source : APISource) : Eff System bool :=
  try_catch
    (let* startTime := liftIO Date_now in
     let api := getAPIService source in
     let* _ := invoke (Adapter.get24hTicker api "BTCUSDT") 0 in
     let* now := liftIO Date_now in
     let responseTime := now - startTime in
     let* _ := updateHealth source true (Some responseTime) in
     ret true)
    (fun error =>
       let* _ := updateHealth source false None in
       ret false).

(** [Math.min(baseDelay * Math.pow(2, attempt), maxDelay)] *)
Definition backoffDelay (config : RetryConfig) (attempt : nat) : Z :=
  Z.min (baseDelay config * 2 ^ Z.of_nat attempt) (maxDelay config).

(** The body of the [for] loop either returns from the function or goes
    on to the next attempt. *)
Inductive Step (T : Type) :=
| Return (result : T)
| Continue.
Arguments Return {T} result.
Arguments Continue {T}.

(** [for (let attempt = 0; attempt < maxRetries; attempt++) { ... }]
    followed by [throw new Error('Max retries exceeded')];
    [remaining] is [maxRetries - attempt]. *)
Fixpoint retryLoop {T} (operation : Operation T) (source : APISource)
    (remaining attempt : nat) : Eff System T :=
  match remaining with
  | O => throw (Error "Max retries exceeded")
  | S remaining' =>
      let* step :=
        try_catch
          (let* result := invoke operation attempt in
           let* _ := updateHealth source true None in
           ret (Return result))
          (fun error =>
             let* _ := updateHealth source false None in
             let* config := gets (fun s => retryConfig (manager s)) in
             if Z.of_nat attempt =? Z.of_nat (maxRetries config) - 1
             then throw error
             else
               let delay := backoffDelay config attempt in
               let* _ := sleep delay in
               ret Continue) in
      match step with
      | Return result => ret result
      | Continue => retryLoop operation source remaining' (S attempt)
      end
  end.

Definition retryWithExponentialBackoff {T} (operation : Operation T) (source : APISource)
  : Eff System T :=
  let* m := gets manager in
  match apiHealth m !! source with
  | None => throw (Error ("No health info for source: " +:+ APISource_name source))
  | Some health => retryLoop operation source (maxRetries (retryConfig m)) 0
  end.

(** [{ symbol: orderbook.symbol, bids: orderbook.bids, asks: orderbook.asks,
      lastUpdateId: orderbook.lastUpdateId }] *)
Definition copyOrderbook (orderbook : Orderbook) : Orderbook :=
  {| symbol := symbol orderbook;
     bids := bids orderbook;
     asks := asks orderbook;
     lastUpdateId := lastUpdateId orderbook |}.

Definition getAPIForSource (source : APISource) : Eff System (Adapter.t * APISource) :=
  let* _ := update_manager (set_currentSource source) in
  ret (getAPIService source, source).

Definition testConnection (source : APISource) : Eff System bool :=
  healthCheck source.

Definition getOrderbook (symbol : string) (limit : Z) : Eff System (Sourced Orderbook) :=
  let* m := gets manager in
  if fallbackToMock m then
    let* orderbook := liftIO (MockDataService.generateOrderbook symbol) in
    ret {| data := copyOrderbook orderbook; source := mock |}
  else
    try_catch
      (let* current := gets (fun s => currentSource (manager s)) in
       let* (api, source) := getAPIForSource current in
       let* orderbook :=
         retryWithExponentialBackoff (Adapter.getOrderbook api symbol limit) source in
       ret {| data := copyOrderbook orderbook; source := source |})
      (fun error =>
         let* orderbook := liftIO (MockDataService.generateOrderbook symbol) in
         ret {| data := copyOrderbook orderbook; source := mock |}).

Definition get24hTicker (symbol : string) : Eff System (Sourced Ticker24h.t) :=
  let* m := gets manager in
  if fallbackToMock m then
    let* ticker := liftIO (MockDataService.generate24hTicker symbol) in
    ret {| data := ticker; source := mock |}
  else
    try_catch
      (let* current := gets (fun s => currentSource (manager s)) in
       let* (api, source) := getAPIForSource current in
       let* ticker :=
         retryWithExponentialBackoff (Adapter.get24hTicker api symbol) source in
       ret {| data := ticker; source := source |})
      (fun error =>
         let* ticker := liftIO (MockDataService.generate24hTicker symbol) in
         ret {| data := ticker; source := mock |}).

Definition getKlines (symbol : string) (interval : string) (limit : Z)
  : Eff System (Sourced (list Kline.t)) :=
  let* m := gets manager in
  if fallbackToMock m then
    let* klines := liftIO (MockDataService.generateKlines symbol interval limit) in
    ret {| data := klines; source := mock |}
  else
    try_catch
      (let* current := gets (fun s => currentSource (manager s)) in
       let* (api, source) := getAPIForSource current in
       let* klines :=
         retryWithExponentialBackoff (Adapter.getKlines api symbol interval limit) source in
       ret {| data := klines; source := source |})
      (fun error =>
         let* klines := liftIO (MockDataService.generateKlines symbol interval limit) in
         ret {| data := klines; source := mock |}).

Definition getCurrentSource : Eff System APISource :=
  gets (fun s => currentSource (manager s)).

Definition getAPIHealth : Eff System (list APIHealth.t) :=
  gets (fun s => healthValues (manager s)).

Definition switchToAPI (source : APISource) : Eff System bool :=
  let* m := gets manager in
  if bool_decide (source ∈ preferredOrder m) then
    let* _ := update_manager (set_currentSource source) in
    ret true
  else ret false.

Definition forceSwitch (source : APISource) : Eff System unit :=
  let* _ := update_manager (set_currentSource source) in
  update_manager (set_fallbackToMock false).

Definition getIsMockMode : Eff System bool :=
  gets (fun s => fallbackToMock (manager s)).

Definition enableMockMode : Eff System unit :=
  update_manager (set_fallbackToMock true).

Definition disableMockMode : Eff System unit :=
  update_manager (set_fallbackToMock false).

End Service.
End APIManager.

(** ** The singletons the modules export *)

Section Singletons.
Context `{Engine}.

(** [kucoinAPI], [okxAPI] and [coinbaseAPI]: what a call does is the same
    whatever the number of the call. *)
Definition kucoinAPI : Adapter.t :=
  {| Adapter.getOrderbook := fun symbol limit _ => KuCoinAPIService.getOrderbook symbol limit;
     Adapter.get24hTicker := fun symbol _ => KuCoinAPIService.get24hTicker symbol;
     Adapter.getKlines := fun symbol interval limit _ =>
                            KuCoinAPIService.getKlines symbol interval limit |}.

Definition okxAPI : Adapter.t :=
  {| Adapter.getOrderbook := fun symbol limit _ => OKXAPIService.getOrderbook symbol limit;
     Adapter.get24hTicker := fun symbol _ => OKXAPIService.get24hTicker symbol;
     Adapter.getKlines := fun symbol interval limit _ =>
                            OKXAPIService.getKlines symbol interval limit |}.

Definition coinbaseAPI : Adapter.t :=
  {| Adapter.getOrderbook := fun symbol limit _ => CoinbaseAPIService.getOrderbook symbol limit;
     Adapter.get24hTicker := fun symbol _ => CoinbaseAPIService.get24hTicker symbol;
     Adapter.getKlines := fun symbol interval limit _ =>
                            CoinbaseAPIService.getKlines symbol interval limit |}.

End Singletons.

(** [apiManager]: the aggregator over the three adapters of the
    repository *)
Module apiManager.
Section Instance.
Context `{Engine}.

Definition getOrderbook := APIManager.getOrderbook coinbaseAPI okxAPI kucoinAPI.
Definition get24hTicker := APIManager.get24hTicker coinbaseAPI okxAPI kucoinAPI.
Definition getKlines := APIManager.getKlines coinbaseAPI okxAPI kucoinAPI.
Definition testConnection := APIManager.testConnection coinbaseAPI okxAPI kucoinAPI.

Context `{DateEngine}.

(** [this.getAPIService(source).transformToFinancialData] *)
Definition transformerOf (source : APISource)
  : Ticker24h.t -> list Kline.t -> IO (list FinancialData.t) :=
  match source with
  | coinbase => CoinbaseAPIService.transformToFinancialData
  | okx => OKXAPIService.transformToFinancialData
  | kucoin => KuCoinAPIService.transformToFinancialData
  | _ => KuCoinAPIService.transformToFinancialData
  end.

Definition transformToFinancialData (ticker : Ticker24h.t) (klines : list Kline.t)
  : Eff System (list FinancialData.t) :=
  let* m := gets manager in
  if fallbackToMock m
  then liftIO (MockDataService.transformToFinancialData ticker klines)
  else liftIO (transformerOf (currentSource m) ticker klines).

End Instance.
End apiManager.

(* ===================================================================== *)
(** * The publish/subscribe hubs *)
(* ===================================================================== *)

(** A subscriber is a function; two subscriptions are the same exactly
    when they are the same function object.  A function object is
    represented by a name, and what calling it does by [behaviour]: it
    returns or it throws.  (A subscriber that subscribes or unsubscribes
    while it is being notified is not modelled.) *)
Definition Callback : Type := nat.

(** [Set<Callback>]: the members in the order they were added *)
Definition Set_add (x : Callback) (members : list Callback) : list Callback :=
  if bool_decide (x ∈ members) then members else members ++ [x].

Definition Set_delete (x : Callback) (members : list Callback) : list Callback :=
  filter (fun y => y ≠ x) members.

Record Hub := {
  subscribers : gmap string (list Callback);
  (** the calls made to subscribers so far, oldest first *)
  calls : list (Callback * JSValue)
}.

Section Hubs.
Variable behaviour : Callback -> JSValue -> Outcome unit.

(** [callback(data)] *)
Definition call (callback : Callback) (data : JSValue) : Eff Hub unit :=
  fun hub =>
    (behaviour callback data,
     {| subscribers := subscribers hub; calls := calls hub ++ [(callback, data)] |}).

(** [members.forEach(f)] *)
Fixpoint forEach (f : Callback -> Eff Hub unit) (members : list Callback) : Eff Hub unit :=
  match members with
  | [] => ret tt
  | x :: rest => let* _ := f x in forEach f rest
  end.

End Hubs.

(** ** The state of the simulated feed *)

(** [connectionState]; the fourth state is ['error']. *)
Inductive ConnectionState := connecting | connected | disconnected | errored.

(** An orderbook as the object a subscriber receives. *)
Definition entryValue (e : OrderbookEntry) : JSValue :=
  VObject [("price", price e); ("quantity", quantity e)].

Definition orderbookValue (o : Orderbook) : JSValue :=
  VObject [("symbol", VString (Lit (symbol o)));
           ("bids", VArray (map entryValue (bids o)));
           ("asks", VArray (map entryValue (asks o)));
           ("lastUpdateId", lastUpdateId o)].

(** The instance of [EnhancedWebSocketService] with what it uses of the
    runtime: the timers and the world.  [ws] and [pingInterval] are
    never assigned anything but [null] and are left out.
    - [intervals] are the handles of the interval timers that run; a
      handle is a positive number, so it is truthy;
    - [timeouts] are the pending [setTimeout] callbacks, each by the
      symbol its closure holds, oldest first. *)
Record Feed := {
  feedHub : Hub;
  connectionState : ConnectionState;
  lastOrderbook : option Orderbook;
  mockDataInterval : option nat;
  isUsingMockData : bool;
  intervals : list nat;
  timeouts : list (option string);
  nextTimer : nat;
  feedWorld : World
}.

Definition set_feedHub (h : Hub) (s : Feed) : Feed :=
  {| feedHub := h; connectionState := connectionState s;
     lastOrderbook := lastOrderbook s; mockDataInterval := mockDataInterval s;
     isUsingMockData := isUsingMockData s; intervals := intervals s;
     timeouts := timeouts s; nextTimer := nextTimer s; feedWorld := feedWorld s |}.

Definition set_connectionState (c : ConnectionState) (s : Feed) : Feed :=
  {| feedHub := feedHub s; connectionState := c;
     lastOrderbook := lastOrderbook s; mockDataInterval := mockDataInterval s;
     isUsingMockData := isUsingMockData s; intervals := intervals s;
     timeouts := timeouts s; nextTimer := nextTimer s; feedWorld := feedWorld s |}.

Definition set_lastOrderbook (o : option Orderbook) (s : Feed) : Feed :=
  {| feedHub := feedHub s; connectionState := connectionState s;
     lastOrderbook := o; mockDataInterval := mockDataInterval s;
     isUsingMockData := isUsingMockData s; intervals := intervals s;
     timeouts := timeouts s; nextTimer := nextTimer s; feedWorld := feedWorld s |}.

Definition set_mockDataInterval (t : option nat) (s : Feed) : Feed :=
  {| feedHub := feedHub s; connectionState := connectionState s;
     lastOrderbook := lastOrderbook s; mockDataInterval := t;
     isUsingMockData := isUsingMockData s; intervals := intervals s;
     timeouts := timeouts s; nextTimer := nextTimer s; feedWorld := feedWorld s |}.

Definition set_isUsingMockData (b : bool) (s : Feed) : Feed :=
  {| feedHub := feedHub s; connectionState := connectionState s;
     lastOrderbook := lastOrderbook s; mockDataInterval := mockDataInterval s;
     isUsingMockData := b; intervals := intervals s;
     timeouts := timeouts s; nextTimer := nextTimer s; feedWorld := feedWorld s |}.

Definition set_feedWorld (w : World) (s : Feed) : Feed :=
  {| feedHub := feedHub s; connectionState := connectionState s;
     lastOrderbook := lastOrderbook s; mockDataInterval := mockDataInterval s;
     isUsingMockData := isUsingMockData s; intervals := intervals s;
     timeouts := timeouts s; nextTimer := nextTimer s; feedWorld := w |}.

(** A computation on the subscribers, and one on the world, run on the
    instance. *)
Definition onHub {A} (c : Eff Hub A) : Eff Feed A :=
  fun s => let (o, h) := c (feedHub s) in (o, set_feedHub h s).

Definition onWorld {A} (c : IO A) : Eff Feed A :=
  fun s => let (o, w) := c (feedWorld s) in (o, set_feedWorld w s).

(** [setInterval(callback, delay)]: a timer with a new handle runs. *)
Definition setInterval : Eff Feed nat :=
  fun s =>
    (Ok (nextTimer s),
     {| feedHub := feedHub s; connectionState := connectionState s;
        lastOrderbook := lastOrderbook s; mockDataInterval := mockDataInterval s;
        isUsingMockData := isUsingMockData s;
        intervals := intervals s ++ [nextTimer s];
        timeouts := timeouts s; nextTimer := S (nextTimer s);
        feedWorld := feedWorld s |}).

(** [clearInterval(handle)] *)
Definition clearInterval (handle : nat) : Eff Feed unit :=
  modify (fun s =>
    {| feedHub := feedHub s; connectionState := connectionState s;
       lastOrderbook := lastOrderbook s; mockDataInterval := mockDataInterval s;
       isUsingMockData := isUsingMockData s;
       intervals := filter (fun t => t <> handle) (intervals s);
       timeouts := timeouts s; nextTimer := nextTimer s;
       feedWorld := feedWorld s |}).

(** [setTimeout(() => this.connect(symbol), delay)] *)
Definition setTimeout (symbol : option string) : Eff Feed unit :=
  modify (fun s =>
    {| feedHub := feedHub s; connectionState := connectionState s;
       lastOrderbook := lastOrderbook s; mockDataInterval := mockDataInterval s;
       isUsingMockData := isUsingMockData s; intervals := intervals s;
       timeouts := timeouts s ++ [symbol]; nextTimer := S (nextTimer s);
       feedWorld := feedWorld s |}).

(** ** [enhanced-websocket.ts] *)
Module EnhancedWebSocketService.
Section Service.
Variable behaviour : Callback -> JSValue -> Outcome unit.

(** The function [subscribe] returns *)
Definition unsubscribe (channel : string) (callback : Callback) : Eff Hub unit :=
  let* subs := gets subscribers in
  match subs !! channel with
  | Some channelSubscribers =>
      let channelSubscribers' := Set_delete callback channelSubscribers in
      if (length channelSubscribers' =? 0)%nat
      then modify (fun hub => {| subscribers := delete channel (subscribers hub);
                                 calls := calls hub |})
      else modify (fun hub => {| subscribers := <[channel := channelSubscribers']> (subscribers hub);
                                 calls := calls hub |})
  | None => ret tt
  end.

Definition subscribe (channel : string) (callback : Callback) : Eff Hub (Eff Hub unit) :=
  let* subs := gets subscribers in
  let* _ :=
    match subs !! channel with
    | None => modify (fun hub => {| subscribers := <[channel := []]> (subscribers hub);
                                    calls := calls hub |})
    | Some _ => ret tt
    end in
  let* _ :=
    modify (fun hub =>
      {| subscribers :=
           <[channel := Set_add callback (default [] (subscribers hub !! channel))]>
             (subscribers hub);
         calls := calls hub |}) in
  ret (unsubscribe channel callback).

Definition notifySubscribers (channel : string) (data : JSValue) : Eff Hub unit :=
  let* subs := gets subscribers in
  match subs !! channel with
  | Some channelSubscribers =>
      forEach (fun callback =>
                 try_catch (call behaviour callback data)
                           (fun error => ret tt))
              channelSubscribers
  | None => ret tt
  end.

Definition disconnect : Eff Hub unit :=
  modify (fun hub => {| subscribers := ∅; calls := calls hub |}).

(** *** The simulated feed *)

Context `{Engine}.

(** [{ status: 'connected', isProxy: true }] *)
Definition connectedMessage : JSValue :=
  VObject [("status", VString (Lit "connected")); ("isProxy", VBool true)].

(** The callback of [setInterval] in [startMockDataSimulation] *)
Definition tick : Eff Feed unit :=
  let* last := gets lastOrderbook in
  match last with
  | Some current =>
      let* updated := onWorld (MockDataService.generateRealtimeUpdate (Some current)) in
      let* _ := modify (set_lastOrderbook (Some updated)) in
      onHub (notifySubscribers "orderbook" (orderbookValue updated))
  | None => ret tt
  end.

Definition startMockDataSimulation (symbol : string) : Eff Feed unit :=
  let* orderbook := onWorld (MockDataService.generateOrderbook symbol) in
  let* _ := modify (set_lastOrderbook (Some orderbook)) in
  let* handle := setInterval in
  modify (set_mockDataInterval (Some handle)).

Definition enableMockDataMode (symbol : string) : Eff Feed unit :=
  let* _ := modify (set_isUsingMockData true) in
  let* _ := modify (set_connectionState connected) in
  let* _ := startMockDataSimulation symbol in
  onHub (notifySubscribers "connection" connectedMessage).

(** [symbol] is [None] when the argument is left out or [undefined]. *)
Definition connect (symbol : option string) : Eff Feed unit :=
  enableMockDataMode (default "btcusdt" symbol).

(** [disconnect] of the instance; [this.subscribers.clear()] is the
    [disconnect] above. *)
Definition disconnectFeed : Eff Feed unit :=
  let* timer := gets mockDataInterval in
  let* _ :=
    match timer with
    | Some handle =>
        let* _ := clearInterval handle in
        modify (set_mockDataInterval None)
    | None => ret tt
    end in
  let* _ := modify (set_connectionState disconnected) in
  let* _ := onHub disconnect in
  modify (set_isUsingMockData false).

Definition getConnectionStatus : Eff Feed ConnectionState := gets connectionState.

Definition forceReconnect (symbol : option string) : Eff Feed unit :=
  let* _ := disconnectFeed in
  setTimeout symbol.

Definition getIsUsingMockData : Eff Feed bool := gets isUsingMockData.

(** What the runtime does when the interval timer [handle] is due, and
    when the oldest pending timeout is due. *)
Definition fire (handle : nat) : Eff Feed unit :=
  let* running := gets intervals in
  if bool_decide (handle ∈ running) then tick else ret tt.

Definition expire : Eff Feed unit :=
  let* pending := gets timeouts in
  match pending with
  | symbol :: rest =>
      let* _ := modify (fun s =>
        {| feedHub := feedHub s; connectionState := connectionState s;
           lastOrderbook := lastOrderbook s; mockDataInterval := mockDataInterval s;
           isUsingMockData := isUsingMockData s; intervals := intervals s;
           timeouts := rest; nextTimer := nextTimer s; feedWorld := feedWorld s |}) in
      connect symbol
  | [] => ret tt
  end.

End Service.
End EnhancedWebSocketService.

(** ** [websocket.ts] *)
Module WebSocketService.
Section Service.
Variable behaviour : Callback -> JSValue -> Outcome unit.

(** The function [subscribe] returns *)
Definition unsubscribe (channel : string) (callback : Callback) : Eff Hub unit :=
  let* subs := gets subscribers in
  match subs !! channel with
  | Some callbacks =>
      let callbacks' := Set_delete callback callbacks in
      if (length callbacks' =? 0)%nat
      then modify (fun hub => {| subscribers := delete channel (subscribers hub);
                                 calls := calls hub |})
      else modify (fun hub => {| subscribers := <[channel := callbacks']> (subscribers hub);
                                 calls := calls hub |})
  | None => ret tt
  end.

Definition subscribe (channel : string) (callback : Callback) : Eff Hub (Eff Hub unit) :=
  let* subs := gets subscribers in
  let* _ :=
    match subs !! channel with
    | None => modify (fun hub => {| subscribers := <[channel := []]> (subscribers hub);
                                    calls := calls hub |})
    | Some _ => ret tt
    end in
  let* _ :=
    modify (fun hub =>
      {| subscribers :=
           <[channel := Set_add callback (default [] (subscribers hub !! channel))]>
             (subscribers hub);
         calls := calls hub |}) in
  ret (unsubscribe channel callback).

Definition notifySubscribers (channel : string) (data : JSValue) : Eff Hub unit :=
  let* subs := gets subscribers in
  match subs !! channel with
  | Some callbacks => forEach (fun callback => call behaviour callback data) callbacks
  | None => ret tt
  end.

Definition disconnect : Eff Hub unit :=
  modify (fun hub => {| subscribers := ∅; calls := calls hub |}).

End Service.
End WebSocketService.

(* ===================================================================== *)
(** * The vocabulary of the properties *)
(* ===================================================================== *)

(** ** Sorting *)

(** Insertion sort with a comparison that has no effect: what
    [Array_sort] computes when the comparison neither throws nor
    touches the state. *)
Fixpoint insert_by {A} (after : A -> A -> bool) (x : A) (sorted : list A) : list A :=
  match sorted with
  | [] => [x]
  | y :: rest => if after x y then y :: insert_by after x rest else x :: y :: rest
  end.

Fixpoint sort_by {A} (after : A -> A -> bool) (items : list A) : list A :=
  match items with
  | [] => []
  | x :: rest => insert_by after x (sort_by after rest)
  end.

(** The order of two items by rank. *)
Definition rank_le {A} (rank : A -> Q) (x y : A) : Prop := (rank x <= rank y)%Q.

(** ** Prices of the generated orderbook *)

(** The number a price denotes, when the price is a string that renders
    a number. *)
Definition priceNumber (e : OrderbookEntry) : JSNumber :=
  match price e with
  | VString (Fixed d neg m) => Finite (fixedValue d neg m)
  | VString (Shortest x) => x
  | _ => NaN
  end.

Definition rendersNumber (v : JSValue) : Prop :=
  match v with
  | VString (Fixed _ _ _) | VString (Shortest _) => True
  | _ => False
  end.

Section Prices.
Context `{Engine}.

(** The order of two levels by price, as numbers. *)
Definition price_le (a b : OrderbookEntry) : Prop :=
  exists x y, parseFloat (price a) = Ok (Finite x)
              /\ parseFloat (price b) = Ok (Finite y) /\ (x <= y)%Q.

Definition price_lt (a b : OrderbookEntry) : Prop :=
  exists x y, parseFloat (price a) = Ok (Finite x)
              /\ parseFloat (price b) = Ok (Finite y) /\ (x < y)%Q.

End Prices.

(** The base price and the spread of an orderbook generated in [w]. *)
Definition basePriceOf (w : World) : Q :=
  (45000 + (randomDraws w (randomCursor w) - 0.5) * 10000)%Q.

Definition spreadOf (w : World) : Q := (basePriceOf w * 0.0002)%Q.

(** The bid and the ask generated for index [i] from two draws. *)
Definition bidLevel (w : World) (i : Z) (e : OrderbookEntry) : Prop :=
  exists n1 n2,
    e = {| price := VString (toFixed 2
             (basePriceOf w - spreadOf w / 2 - (inject_Z i + 1) * randomDraws w n1 * 50)%Q);
           quantity := VString (toFixed 4 (randomDraws w n2 * 2 + 0.1)%Q) |}.

Definition askLevel (w : World) (i : Z) (e : OrderbookEntry) : Prop :=
  exists n1 n2,
    e = {| price := VString (toFixed 2
             (basePriceOf w + spreadOf w / 2 + (inject_Z i + 1) * randomDraws w n1 * 50)%Q);
           quantity := VString (toFixed 4 (randomDraws w n2 * 2 + 0.1)%Q) |}.

Definition levelIndices : list Z := map Z.of_nat (seq 0 20).

(** The price, in hundredths, of a level whose price has two decimals. *)
Definition hundredths (e : OrderbookEntry) : Z :=
  match price e with
  | VString (Fixed _ _ m) => m
  | _ => 0
  end.

Definition twoDecimals (e : OrderbookEntry) : Prop :=
  price e = VString (Fixed 2 false (hundredths e)).

(** The best possible bid and ask of an orderbook generated in [w], in
    hundredths. *)
Definition bestBid (w : World) : Z :=
  Qfloor ((basePriceOf w - spreadOf w / 2) * 100 + (1 # 2))%Q.

Definition bestAsk (w : World) : Z :=
  Qfloor ((basePriceOf w + spreadOf w / 2) * 100 + (1 # 2))%Q.

Definition afterDescending (a b : OrderbookEntry) : bool :=
  sorts_after (num_sub (priceNumber b) (priceNumber a)).

Definition afterAscending (a b : OrderbookEntry) : bool :=
  sorts_after (num_sub (priceNumber a) (priceNumber b)).

(** ** The health tracker and the retry loop *)


(** What [updateHealth] writes into the record of a tracked source. *)
Definition updatedHealth (health : APIHealth.t) (isHealthy : bool)
    (responseTime : option Z) (now : Z) : APIHealth.t :=
  {| APIHealth.source := APIHealth.source health;
     APIHealth.isHealthy := isHealthy;
     APIHealth.lastChecked := now;
     APIHealth.responseTime := responseTime;
     APIHealth.errorCount :=
       if isHealthy then 0%nat else (APIHealth.errorCount health + 1)%nat;
     APIHealth.consecutiveFailures :=
       if isHealthy then 0%nat else (APIHealth.consecutiveFailures health + 1)%nat |}.

(** The call number [i] of [operation] throws, whatever the world. *)
Definition throws_at {T} (operation : Operation T) (i : nat) : Prop :=
  forall w, exists e w', operation i w = (Throw e, w').

(** The call number [i] of [operation] returns [v], whatever the world. *)
Definition returns_at {T} (operation : Operation T) (i : nat) (v : T) : Prop :=
  forall w, exists w', operation i w = (Ok v, w').

Section DataCallPattern.
Variables coinbaseAPI okxAPI kucoinAPI : Adapter.t.

(** The pattern the three data calls follow: [operationOf api] is the
    operation asked of the adapter, [generate] the synthetic substitute
    and [shape] what is done to the value before it is tagged. *)
Definition dataCall {T} (operationOf : Adapter.t -> Operation T) (generate : IO T)
    (shape : T -> T) : Eff System (Sourced T) :=
  let* m := gets manager in
  if fallbackToMock m then
    let* value := liftIO generate in
    ret {| data := shape value; source := mock |}
  else
    try_catch
      (let* current := gets (fun s => currentSource (manager s)) in
       let* (api, source) := APIManager.getAPIForSource coinbaseAPI okxAPI kucoinAPI current in
       let* value := APIManager.retryWithExponentialBackoff (operationOf api) source in
       ret {| data := shape value; source := source |})
      (fun error =>
         let* value := liftIO generate in
         ret {| data := shape value; source := mock |}).

End DataCallPattern.

(** The aggregator keeps a health record for the three exchanges only. *)
Definition tracks_real_sources (m : APIManagerService) : Prop :=
  apiHealth m !! mock = None.

(** ** The adapters *)

(** A reply that is a failure of the transport: the request fails, the
    status is not 2xx, or the body is no JSON. *)
Definition failed_reply (reply : FetchResult) : Prop :=
  match reply with
  | FetchRejects _ => True
  | Response status body => response_ok status = false \/ exists e, body = InvalidJSON e
  end.

(** The next request of the program in [w] fails so. *)
Definition transport_fails (w : World) : Prop :=
  failed_reply (networkReplies w (networkCursor w)).

(** An operation absorbs its failures: it returns in every world, and in
    a world where [fails] holds what it returns is what [fallback]
    generates, of the shape [conforms]. *)
Definition absorbs {A} (operation fallback : IO A) (conforms : A -> bool)
    (fails : World -> Prop) : Prop :=
  forall w,
    (exists v w', operation w = (Ok v, w'))
    /\ (fails w ->
        exists w1 v w',
          operation w = (Ok v, w') /\ fallback w1 = (Ok v, w') /\ conforms v = true).

(** ** The hubs *)

(** The hub after [members] have been called with [data], in order. *)
Definition delivered (members : list Callback) (data : JSValue) (hub : Hub) : Hub :=
  {| subscribers := subscribers hub;
     calls := calls hub ++ map (fun callback => (callback, data)) members |}.


(** The subscribers of a channel. *)
Definition membersOf (channel : string) (hub : Hub) : list Callback :=
  default [] (subscribers hub !! channel).

(** No channel lists a subscriber twice. *)
Definition hub_wf (hub : Hub) : Prop :=
  forall channel members, subscribers hub !! channel = Some members -> NoDup members.

(** The hub after [callback] has subscribed to [channel], and after it
    has unsubscribed. *)
Definition subscribed (channel : string) (callback : Callback) (hub : Hub) : Hub :=
  {| subscribers := <[channel := Set_add callback (membersOf channel hub)]> (subscribers hub);
     calls := calls hub |}.

Definition unsubscribed (channel : string) (callback : Callback) (hub : Hub) : Hub :=
  match subscribers hub !! channel with
  | Some members =>
      match Set_delete callback members with
      | [] => {| subscribers := delete channel (subscribers hub); calls := calls hub |}
      | rest => {| subscribers := <[channel := rest]> (subscribers hub); calls := calls hub |}
      end
  | None => hub
  end.

(** What the claims say of a publication to [channel]: every subscriber
    of the channel is called, in the order of subscription, and
    [notifySubscribers] returns. *)
Definition reaches_every_subscriber
    (notifySubscribers : string -> JSValue -> Eff Hub unit)
    (channel : string) (data : JSValue) (hub : Hub) : Prop :=
  notifySubscribers channel data hub = (Ok tt, delivered (membersOf channel hub) data hub).


(* ===================================================================== *)
(** * Inputs for the examples *)
(* ===================================================================== *)

(** An instance of [Engine] to run the examples with.  No example
    reaches one of its functions. *)
Definition exampleEngine : Engine :=
  {| parseFloat_other := fun _ => Ok NaN;
     parseInt := fun _ => Ok NaN;
     toNumber_other := fun _ => Ok NaN;
     plus_other := fun _ _ => Ok (VNumber NaN);
     toString_other := fun _ => Ok (Lit "[object]");
     string_at := fun _ _ => VUndefined;
     string_iter := fun _ => [] |}.

(** A world with the given draws and network replies; the clock starts
    at 1700000000000 and advances by one millisecond per reading. *)
Definition exampleWorld (draws : nat -> Q) (replies : nat -> FetchResult) : World :=
  {| timeReadings := fun n => Z.of_nat n + 1700000000000;
     timeCursor := 0;
     randomDraws := draws;
     randomCursor := 0;
     networkReplies := replies;
     networkCursor := 0 |}.

(** Every draw is one half. *)
Definition evenDraws (n : nat) : Q := (1 # 2)%Q.

(** The draw for the price of the second bid is one quarter, every other
    draw is one half. *)
Definition tieDraws (n : nat) : Q :=
  match n with
  | 3%nat => (1 # 4)%Q
  | _ => (1 # 2)%Q
  end.

(** The network is down: every request fails. *)
Definition networkDown (n : nat) : FetchResult :=
  FetchRejects (TypeError "Failed to fetch").

(** Every request is answered with status 503 and a body that is no JSON. *)
Definition serviceUnavailable (n : nat) : FetchResult :=
  Response 503 (InvalidJSON (SyntaxError "Unexpected token < in JSON")).

(** Every request is answered with status 200 and a body that is no JSON. *)
Definition notJSON (n : nat) : FetchResult :=
  Response 200 (InvalidJSON (SyntaxError "Unexpected token < in JSON")).

(** The aggregator as constructed, in a world with the given draws and
    replies, with nothing observed yet. *)
Definition exampleSystem (draws : nat -> Q) (replies : nat -> FetchResult) : System :=
  {| manager := APIManager.new;
     world := exampleWorld draws replies;
     trace := {| delays := []; invocations := 0 |} |}.

(** An orderbook with one level on each side. *)
Definition exampleOrderbook : Orderbook :=
  {| symbol := "BTCUSDT";
     bids := [{| price := VString (Lit "64999.50"); quantity := VString (Lit "0.25") |}];
     asks := [{| price := VString (Lit "65000.50"); quantity := VString (Lit "0.75") |}];
     lastUpdateId := int 42 |}.

Definition exampleTicker : Ticker24h.t :=
  {| Ticker24h.symbol := "BTCUSDT";
     Ticker24h.priceChange := VString (Lit "100.00");
     Ticker24h.priceChangePercent := VString (Lit "0.15");
     Ticker24h.weightedAvgPrice := VString (Lit "64950.00");
     Ticker24h.prevClosePrice := VString (Lit "64900.00");
     Ticker24h.lastPrice := VString (Lit "65000.00");
     Ticker24h.bidPrice := VString (Lit "64999.50");
     Ticker24h.askPrice := VString (Lit "65000.50");
     Ticker24h.openPrice := VString (Lit "64900.00");
     Ticker24h.highPrice := VString (Lit "65100.00");
     Ticker24h.lowPrice := VString (Lit "64800.00");
     Ticker24h.volume := VString (Lit "1234.50");
     Ticker24h.quoteVolume := VString (Lit "80000000.00");
     Ticker24h.openTime := int 1699913600000;
     Ticker24h.closeTime := int 1700000000000;
     Ticker24h.count := int 0 |}.

(** A test double for an adapter: each of its operations throws on its
    first [failures] calls and returns a fixed value from then on. *)
Definition flaky {T} (failures : nat) (value : T) : Operation T :=
  fun n => if (n <? failures)%nat then throw (Error "connection refused") else ret value.

Definition flakyAdapter (failures : nat) : Adapter.t :=
  {| Adapter.getOrderbook := fun symbol limit => flaky failures exampleOrderbook;
     Adapter.get24hTicker := fun symbol => flaky failures exampleTicker;
     Adapter.getKlines := fun symbol interval limit => flaky failures [] |}.

(** The state a computation leaves. *)
Definition exec {S A} (c : Eff S A) (s : S) : S := (c s).2.

(** An adapter that is unreachable: each of its operations throws on
    every call. *)
Definition unreachableAdapter : Adapter.t :=
  {| Adapter.getOrderbook := fun symbol limit n => throw (Error "connection refused");
     Adapter.get24hTicker := fun symbol n => throw (Error "connection refused");
     Adapter.getKlines := fun symbol interval limit n => throw (Error "connection refused") |}.

(** The aggregator over unreachable adapters after three failed probes
    of coinbase, three of okx and two of kucoin. *)
Definition strainedSystem : System :=
  let probe := APIManager.testConnection unreachableAdapter unreachableAdapter
                                         unreachableAdapter in
  exec (let* _ := probe coinbase in
        let* _ := probe coinbase in
        let* _ := probe coinbase in
        let* _ := probe okx in
        let* _ := probe okx in
        let* _ := probe okx in
        let* _ := probe kucoin in
        probe kucoin)
       (exampleSystem evenDraws networkDown).

(** Subscriber 0 throws on every datum; every other subscriber returns. *)
Definition faulty (callback : Callback) (data : JSValue) : Outcome unit :=
  match callback with
  | O => Throw (Error "subscriber failed")
  | _ => Ok tt
  end.

(** A hub without subscribers. *)
Definition emptyHub : Hub := {| subscribers := ∅; calls := [] |}.

(* ===================================================================== *)
(** * Further vocabulary *)
(* ===================================================================== *)

(** ** The aggregator as its callers use it *)

(** A call of a public method of the aggregator. *)
Inductive Request :=
| GetOrderbook (symbol : string) (limit : Z)
| Get24hTicker (symbol : string)
| GetKlines (symbol interval : string) (limit : Z)
| TestConnection (source : APISource)
| SwitchToAPI (source : APISource)
| ForceSwitch (source : APISource)
| EnableMockMode
| DisableMockMode.

Section Requests.
Context `{Engine}.
Variables coinbaseAPI okxAPI kucoinAPI : Adapter.t.

(** The call, its result dropped. *)
Definition perform (request : Request) : Eff System unit :=
  match request with
  | GetOrderbook symbol limit =>
      let* _ := APIManager.getOrderbook coinbaseAPI okxAPI kucoinAPI symbol limit in ret tt
  | Get24hTicker symbol =>
      let* _ := APIManager.get24hTicker coinbaseAPI okxAPI kucoinAPI symbol in ret tt
  | GetKlines symbol interval limit =>
      let* _ := APIManager.getKlines coinbaseAPI okxAPI kucoinAPI symbol interval limit in
      ret tt
  | TestConnection source =>
      let* _ := APIManager.testConnection coinbaseAPI okxAPI kucoinAPI source in ret tt
  | SwitchToAPI source => let* _ := APIManager.switchToAPI source in ret tt
  | ForceSwitch source => APIManager.forceSwitch source
  | EnableMockMode => APIManager.enableMockMode
  | DisableMockMode => APIManager.disableMockMode
  end.

(** The state after a sequence of calls, one after the other; a call
    that throws leaves the state it reached. *)
Definition after (requests : list Request) (s : System) : System :=
  foldl (fun s request => exec (perform request) s) s requests.

End Requests.

(** The aggregator when it has just been constructed. *)
Definition constructed (w : World) : System :=
  {| manager := APIManager.new; world := w; trace := {| delays := []; invocations := 0 |} |}.

(** A call that can lower the fall-back flag. *)
Definition resets_latch (request : Request) : bool :=
  match request with
  | ForceSwitch _ | DisableMockMode => true
  | _ => false
  end.




(** What probing and requesting can do to the manager: select a source,
    replace the record of a tracked source as [updateHealth] does, raise
    the fall-back flag when every record is exhausted. *)
Inductive manager_step : APIManagerService -> APIManagerService -> Prop :=
| step_select source m :
    manager_step m (set_currentSource source m)
| step_record source health isHealthy responseTime now m :
    apiHealth m !! source = Some health ->
    manager_step m (set_apiHealth
                      (<[source := updatedHealth health isHealthy responseTime now]>
                         (apiHealth m)) m)
| step_raise m :
    APIManager.allUnhealthy m = true ->
    manager_step m (set_fallbackToMock true m).

Definition evolves : APIManagerService -> APIManagerService -> Prop := rtc manager_step.

(** The sum of the delays awaited. *)
Definition totalDelay (awaited : list Z) : Z := foldr Z.add 0 awaited.

(** A call that asks for data. *)
Definition is_data_request (request : Request) : bool :=
  match request with
  | GetOrderbook _ _ | Get24hTicker _ | GetKlines _ _ _ => true
  | _ => false
  end.

(** Between [s] and [s'] an operation of an adapter was called [k]
    times, at most [maxRetries] times, and the first [k - 1] delays of
    the backoff schedule were awaited, in order. *)
Definition effort_within (config : RetryConfig) (s s' : System) (k : nat) : Prop :=
  (k <= maxRetries config)%nat
  /\ invocations (trace s') = (invocations (trace s) + k)%nat
  /\ delays (trace s')
     = delays (trace s) ++ map (APIManager.backoffDelay config) (seq 0 (k - 1)).

(** ** The hubs *)

(** No channel is kept with an empty set of subscribers. *)
Definition no_empty_channel (hub : Hub) : Prop :=
  forall channel, subscribers hub !! channel <> Some [].

(** The two hubs have the same [subscribe], closure included, and the
    same [disconnect]; what differs is [notifySubscribers]. *)
Inductive HubKind := Enhanced | Plain.

Definition subscribe_of (kind : HubKind) : string -> Callback -> Eff Hub (Eff Hub unit) :=
  match kind with
  | Enhanced => EnhancedWebSocketService.subscribe
  | Plain => WebSocketService.subscribe
  end.

Definition disconnect_of (kind : HubKind) : Eff Hub unit :=
  match kind with
  | Enhanced => EnhancedWebSocketService.disconnect
  | Plain => WebSocketService.disconnect
  end.

Definition notifySubscribers_of (kind : HubKind)
    (behaviour : Callback -> JSValue -> Outcome unit) : string -> JSValue -> Eff Hub unit :=
  match kind with
  | Enhanced => EnhancedWebSocketService.notifySubscribers behaviour
  | Plain => WebSocketService.notifySubscribers behaviour
  end.

(** ** Generated data *)

Section Ladders.
Context `{Engine}.

(** [levels] are [n] levels whose prices, read as numbers, are [first],
    [first + step], [first + 2 step], ... *)
Definition ladder (first step : Q) (n : nat) (levels : list OrderbookEntry) : Prop :=
  length levels = n
  /\ forall i level, levels !! i = Some level ->
       exists x, parseFloat (price level) = Ok (Finite x)
                 /\ (x == first + inject_Z (Z.of_nat i) * step)%Q.

End Ladders.

(** The pattern of the fallback orderbooks of the adapters: [n] bids and
    [n] asks whose prices depend on the index alone and whose quantities
    are drawn, then a reading of the clock. *)
Definition fallbackOrderbook (n : Z) (bidPrice askPrice : Z -> Q) (quantityOf : Q -> Q)
    (symbol : string) : IO Orderbook :=
  let* bids := Array_from n (fun i =>
    let* r := Math_random in
    ret {| price := VString (toString (bidPrice i));
           quantity := VString (toFixed 4 (quantityOf r)) |}) in
  let* asks := Array_from n (fun i =>
    let* r := Math_random in
    ret {| price := VString (toString (askPrice i));
           quantity := VString (toFixed 4 (quantityOf r)) |}) in
  let* now := Date_now in
  ret {| symbol := symbol; bids := bids; asks := asks; lastUpdateId := int now |}.

Section OrderedBooks.
Context `{Engine}.

(** Bids strictly descending, asks strictly ascending, every ask above
    every bid. *)
Definition strictly_ordered (orderbook : Orderbook) : Prop :=
  (forall i a b, bids orderbook !! i = Some a -> bids orderbook !! S i = Some b ->
                 price_lt b a)
  /\ (forall i a b, asks orderbook !! i = Some a -> asks orderbook !! S i = Some b ->
                    price_lt a b)
  /\ (forall a b, In a (asks orderbook) -> In b (bids orderbook) -> price_lt b a).

End OrderedBooks.

(** The number a string written by [toFixed] or [toString] denotes. *)
Definition renderedValue (s : JSString) : Q :=
  match s with
  | Fixed d neg m => fixedValue d neg m
  | Shortest (Finite x) => x
  | _ => 0
  end.

Section Readings.
Context `{Engine}.

(** Two fields read as numbers, the first at most the second. *)
Definition reads_le (u v : JSValue) : Prop :=
  exists x y, parseFloat u = Ok (Finite x) /\ parseFloat v = Ok (Finite y) /\ (x <= y)%Q.

(** The candle is consistent: its low is at most its open and its close,
    which are at most its high. *)
Definition consistent_candle (k : Kline.t) : Prop :=
  reads_le (Kline.low k) (Kline.open k) /\ reads_le (Kline.low k) (Kline.close k)
  /\ reads_le (Kline.open k) (Kline.high k) /\ reads_le (Kline.close k) (Kline.high k).

End Readings.

(** The results of a loop that threads a variable through its
    iterations: [R x v y v'] relates the item, the variable before, the
    result and the variable after. *)
Inductive chained {A B V} (R : A -> V -> B -> V -> Prop) : list A -> V -> list B -> Prop :=
| chained_nil v : chained R [] v []
| chained_cons x xs v y v' ys :
    R x v y v' -> chained R xs v' ys -> chained R (x :: xs) v (y :: ys).

(** Twenty-four hours, in milliseconds. *)
Definition dayMs : Z := 24 * 60 * 60 * 1000.

Section Candles.
Context `{Engine}.

(** What one iteration of [generateKlines] produces for index [i] when
    the price is [v] before and [v'] after. *)
Definition candle_step (now limit : Z) (i : Z) (v : Q) (k : Kline.t) (v' : Q) : Prop :=
  Kline.open k = VString (toFixed 2 v)
  /\ Kline.close k = VString (toFixed 2 v')
  /\ Kline.openTime k = int (now - (limit - i - 1) * dayMs)
  /\ Kline.closeTime k = int (now - (limit - i - 1) * dayMs + dayMs - 1)
  /\ consistent_candle k
  /\ Kline.conforms k = true.

End Candles.

Section Tickers.
Context `{Engine}.

(** The ticker is consistent: its low is at most its open and its last
    price, which are at most its high, and the last price lies between
    the bid and the ask. *)
Definition consistent_ticker (t : Ticker24h.t) : Prop :=
  reads_le (Ticker24h.lowPrice t) (Ticker24h.openPrice t)
  /\ reads_le (Ticker24h.lowPrice t) (Ticker24h.lastPrice t)
  /\ reads_le (Ticker24h.openPrice t) (Ticker24h.highPrice t)
  /\ reads_le (Ticker24h.lastPrice t) (Ticker24h.highPrice t)
  /\ reads_le (Ticker24h.bidPrice t) (Ticker24h.lastPrice t)
  /\ reads_le (Ticker24h.lastPrice t) (Ticker24h.askPrice t).

End Tickers.

(** ** The updates of the synthetic orderbook *)

(** The number the price of a level denotes, when the price is a string
    written by [toFixed] or [toString]. *)
Definition priceValue (e : OrderbookEntry) : Q :=
  match price e with
  | VString s => renderedValue s
  | _ => 0
  end.

Section Updates.
Context `{Engine}.

(** The price and the quantity of the level read as finite numbers. *)
Definition readable_level (e : OrderbookEntry) : Prop :=
  exists p q, parseFloat (price e) = Ok (Finite p)
              /\ parseFloat (quantity e) = Ok (Finite q).

Definition readable (book : Orderbook) : Prop :=
  Forall readable_level (bids book) /\ Forall readable_level (asks book).

(** [new] is [old] with its price multiplied by [f] and rounded to two
    decimals, and its quantity multiplied by [g] and rounded to four. *)
Definition moved_by (f g : Q) (old new : OrderbookEntry) : Prop :=
  exists p q, parseFloat (price old) = Ok (Finite p)
              /\ parseFloat (quantity old) = Ok (Finite q)
              /\ price new = VString (toFixed 2 (p * f))
              /\ quantity new = VString (toFixed 4 (q * g)).


(** Bid prices never increase and ask prices never decrease from one
    level to the next. *)
Definition ordered (book : Orderbook) : Prop :=
  (forall i a b, bids book !! i = Some a -> bids book !! S i = Some b -> price_le b a)
  /\ (forall i a b, asks book !! i = Some a -> asks book !! S i = Some b -> price_le a b).

End Updates.

(** The draws and the readings of the clock of [w0] are those of [w],
    and the clock has not been read since. *)
Definition same_oracles (w w0 : World) : Prop :=
  randomDraws w0 = randomDraws w /\ timeReadings w0 = timeReadings w
  /\ timeCursor w0 = timeCursor w.

(** The price and the quantity of the level were written by [toFixed]. *)
Definition rounded (e : OrderbookEntry) : Prop :=
  exists x y, price e = VString (toFixed 2 x) /\ quantity e = VString (toFixed 4 y).

(** ** The records of the calendar *)

Section CalendarRecords.
Context `{Engine}.

(** The candle opens at [t] and its open, close, high, low and volume
    read as the finite numbers [o], [c], [h], [l] and [v]. *)
Definition candle_reads (k : Kline.t) (t : JSNumber) (o c h l v : Q) : Prop :=
  Kline.openTime k = VNumber t
  /\ parseFloat (Kline.open k) = Ok (Finite o)
  /\ parseFloat (Kline.close k) = Ok (Finite c)
  /\ parseFloat (Kline.high k) = Ok (Finite h)
  /\ parseFloat (Kline.low k) = Ok (Finite l)
  /\ parseFloat (Kline.volume k) = Ok (Finite v).

(** The candle reads as finite numbers and its open is not zero. *)
Definition readable_candle (k : Kline.t) : Prop :=
  exists t o c h l v, candle_reads k t o c h l v /\ ~ (o == 0)%Q.

(** The fields of a record that do not depend on the adapter. *)
Definition record_of (k : Kline.t) (t : JSNumber) (o c h l v : Q) (r : FinancialData.t)
  : Prop :=
  candle_reads k t o c h l v
  /\ FinancialData.date r = DateOf (TimeClip t)
  /\ FinancialData.open r = Finite o
  /\ FinancialData.close r = Finite c
  /\ FinancialData.high r = Finite h
  /\ FinancialData.low r = Finite l
  /\ FinancialData.volume r = Finite v
  /\ FinancialData.price r = Finite c
  /\ FinancialData.performance r = Finite ((c - o) / o * 100).

(** The record of a candle with the volatility as a magnitude and the
    liquidity as a score of at most 100. *)
Definition capped_record (k : Kline.t) (r : FinancialData.t) : Prop :=
  exists t o c h l v x y,
    record_of k t o c h l v r
    /\ FinancialData.volatility r = Finite x
    /\ (x == Qabs ((h - l) / o * 100))%Q /\ (0 <= x)%Q
    /\ FinancialData.liquidity r = Finite y
    /\ (y <= v / 1000)%Q /\ (y <= 100)%Q /\ (y == v / 1000 \/ y == 100)%Q.

(** The record of a candle with the volatility signed and the liquidity
    as the traded value. *)
Definition product_record (k : Kline.t) (r : FinancialData.t) : Prop :=
  exists t o c h l v,
    record_of k t o c h l v r
    /\ FinancialData.volatility r = Finite ((h - l) / o * 100)
    /\ FinancialData.liquidity r = Finite (v * c).

End CalendarRecords.


(** A date constructor for the examples: what is not a number gives an
    invalid date. *)
Definition exampleDateEngine : DateEngine :=
  {| Date_of_other := fun _ => Ok NaN |}.





(** ** The simulated feed *)

(** An instance that has just been constructed, in the world [w]. *)
Definition newFeed (w : World) : Feed :=
  {| feedHub := emptyHub; connectionState := disconnected; lastOrderbook := None;
     mockDataInterval := None; isUsingMockData := false; intervals := [];
     timeouts := []; nextTimer := 1; feedWorld := w |}.

(** What can happen to a connected instance: an interval timer is due, a
    function subscribes, a function unsubscribes. *)
Inductive FeedEvent :=
| Fires (handle : nat)
| Subscribes (channel : string) (callback : Callback)
| Unsubscribes (channel : string) (callback : Callback).

Section Feeds.
Context `{Engine}.
Variable behaviour : Callback -> JSValue -> Outcome unit.

Definition happen (event : FeedEvent) : Eff Feed unit :=
  match event with
  | Fires handle => EnhancedWebSocketService.fire behaviour handle
  | Subscribes channel callback =>
      let* _ := onHub (EnhancedWebSocketService.subscribe channel callback) in
      ret tt
  | Unsubscribes channel callback =>
      onHub (EnhancedWebSocketService.unsubscribe channel callback)
  end.

(** The events one after the other, up to the first that throws. *)
Fixpoint happenAll (events : list FeedEvent) : Eff Feed unit :=
  match events with
  | [] => ret tt
  | event :: rest => let* _ := happen event in happenAll rest
  end.

(** The instance holds an orderbook of [name] with 20 bids and 20 asks
    whose prices and quantities read as finite numbers. *)
Definition feeding (name : string) (feed : Feed) : Prop :=
  exists book,
    lastOrderbook feed = Some book /\ symbol book = name
    /\ length (bids book) = 20%nat /\ length (asks book) = 20%nat
    /\ readable book.

(** What the timer publishes on the feed of [name]: an orderbook of
    [name] with 20 bids and 20 asks in the order of their prices. *)
Definition feed_message (name : string) (data : JSValue) : Prop :=
  exists book,
    data = orderbookValue book /\ symbol book = name
    /\ length (bids book) = 20%nat /\ length (asks book) = 20%nat
    /\ ordered book.

End Feeds.

(** The handles of the timers that run are older than the next
    handle. *)
Definition timers_fresh (feed : Feed) : Prop :=
  Forall (fun handle => (handle < nextTimer feed)%nat) (intervals feed).

(** ** The replies of the exchanges *)

(** The level an entry [[price, quantity, ...]] of a reply denotes. *)
Definition levelOfPair (item : JSValue) : OrderbookEntry :=
  match item with
  | VArray fields => {| price := nth 0 fields VUndefined; quantity := nth 1 fields VUndefined |}
  | _ => {| price := VUndefined; quantity := VUndefined |}
  end.

Definition is_array (v : JSValue) : bool :=
  match v with VArray _ => true | _ => false end.

(** The next reply of the network is a response with a status from 200
    to 299 whose body is the JSON value [payload]. *)
Definition replies_with (w : World) (payload : JSValue) : Prop :=
  exists status,
    response_ok status = true
    /\ networkReplies w (networkCursor w) = Response status (JSON payload).

(** A network that answers every request with status 200 and the same
    JSON value. *)
Definition answering (payload : JSValue) (n : nat) : FetchResult :=
  Response 200 (JSON payload).

(** The entries of a reply of Coinbase: price, size, number of
    orders. *)
Definition exampleBidItems : list JSValue :=
  [VArray [VString (Lit "64990.50"); VString (Lit "0.2500"); int 3];
   VArray [VString (Lit "64990.00"); VString (Lit "1.0000"); int 1]].

Definition exampleAskItems : list JSValue :=
  [VArray [VString (Lit "65010.00"); VString (Lit "0.5000"); int 2];
   VArray [VString (Lit "65010.50"); VString (Lit "2.0000"); int 5]].

Definition exampleBookFields : list (string * JSValue) :=
  [("bids", VArray exampleBidItems); ("asks", VArray exampleAskItems);
   ("sequence", int 1)].

(** ** The fallback candles of the adapters *)

Section FallbackCandles.
Context `{Engine}.

(** A well-formed candle with the given opening and closing times. *)
Definition daily_candle (opens closes : Z) (k : Kline.t) : Prop :=
  Kline.openTime k = int opens
  /\ Kline.closeTime k = int closes
  /\ consistent_candle k
  /\ Kline.conforms k = true.

(** What one iteration of the [getMockKlines] of the OKX and Coinbase
    adapters produces for index [i] when the price is [v] before and
    [v'] after. *)
Definition adjoining_step (now limit : Z) (i : Z) (v : Q) (k : Kline.t) (v' : Q) : Prop :=
  Kline.open k = VString (toString v)
  /\ Kline.close k = VString (toString v')
  /\ daily_candle (now - (limit - i) * dayMs) (now - (limit - i) * dayMs + dayMs) k.

End FallbackCandles.

(** ** The selection of the source *)

(** The calls that select a source. *)
Definition selects (request : Request) : bool :=
  match request with
  | SwitchToAPI _ | ForceSwitch _ => true
  | _ => false
  end.

(** Run in [s], the computation leaves the current source as it is. *)
Definition keeps_source_at {A} (c : Eff System A) (s : System) : Prop :=
  currentSource (manager (exec c s)) = currentSource (manager s).

(** ** The calendar in mock mode *)

(** The least a price can be after [i] days of the generator, relative
    to the first day: a day takes at most 1.6 % off. *)
Fixpoint decay (i : nat) : Q :=
  match i with
  | O => 1
  | S i => (0.984 * decay i)%Q
  end.

Section MockCalendar.
Context `{Engine}.

(** What one iteration of [generateKlines] produces, as far as the
    calendar uses it, when the price is [v] before and [v'] after. *)
Definition tradable_step (i : Z) (v : Q) (k : Kline.t) (v' : Q) : Prop :=
  (0.984 * v <= v')%Q
  /\ exists t high low volume,
       Kline.openTime k = VNumber t
       /\ Kline.open k = VString (toFixed 2 v)
       /\ Kline.close k = VString (toFixed 2 v')
       /\ Kline.high k = VString (toFixed 2 high)
       /\ Kline.low k = VString (toFixed 2 low)
       /\ Kline.volume k = VString (toFixed 2 volume)
       /\ (5000 <= volume /\ volume < 25000)%Q.

(** A record of the calendar with finite figures: a volatility that is
    not negative, a liquidity from 5 to 25 and a positive price. *)
Definition sane_record (r : FinancialData.t) : Prop :=
  exists x y p c,
    FinancialData.volatility r = Finite x /\ (0 <= x)%Q
    /\ FinancialData.liquidity r = Finite y /\ (5 <= y /\ y <= 25)%Q
    /\ FinancialData.performance r = Finite p
    /\ FinancialData.price r = Finite c /\ (0 < c)%Q.

End MockCalendar.

(** ** A count that is no array length *)

(** What [Array.from({ length })] throws for a length above
    [2^32 - 1]. *)
Definition invalidArrayLength : JSError := RangeError "Invalid array length".

(* ===================================================================== *)
(** * Properties: reading the world *)
(* ===================================================================== *)

Lemma bind_Math_random {A} (k : Q -> IO A) w :
  bind Math_random k w = k (randomDraws w (randomCursor w)) (afterDraw w).
Proof. reflexivity. Qed.

Lemma bind_Date_now {A} (k : Z -> IO A) w :
  bind Date_now k w = k (timeReadings w (timeCursor w)) (afterReading w).
Proof. reflexivity. Qed.

Lemma bind_next_reply {A} (k : FetchResult -> IO A) w :
  bind next_reply k w = k (networkReplies w (networkCursor w)) (afterReply w).
Proof. reflexivity. Qed.

(** Run the reads at the head of a computation. *)
Ltac run_reads :=
  repeat (first [rewrite bind_Math_random | rewrite bind_Date_now]; cbv beta zeta).

(* ===================================================================== *)
(** * Properties: loops over arrays *)
(* ===================================================================== *)

(** A callback that always returns, started in a state that satisfies
    [I], maps every item: [I] is kept and each result is related to its
    item by [P]. *)
Lemma mapM_returns {S A B} (f : A -> Eff S B) (I : S -> Prop) (P : A -> B -> Prop) items :
  (forall x s, In x items -> I s -> exists y s', f x s = (Ok y, s') /\ I s' /\ P x y) ->
  forall s, I s ->
  exists ys s', mapM f items s = (Ok ys, s') /\ I s' /\ Forall2 P items ys.
Proof.
  induction items as [|x rest IH]; intros Hf s Hs.
  - exists [], s. repeat split; [done|constructor].
  - destruct (Hf x s) as (y & s1 & Hx & Hs1 & Hy); [by left|done|].
    destruct (IH (fun x s Hin => Hf x s (or_intror Hin)) s1 Hs1) as (ys & s2 & Hrest & Hs2 & Hys).
    exists (y :: ys), s2. cbn [mapM]. unfold bind. rewrite Hx, Hrest.
    repeat split; [done|by constructor].
Qed.

Lemma mapM_acc_returns {S A B V} (f : A -> V -> Eff S (B * V)) (P : B -> Prop) items :
  (forall x v s, exists y v' s', f x v s = (Ok (y, v'), s') /\ P y) ->
  forall v s, exists ys s', mapM_acc f items v s = (Ok ys, s') /\ Forall P ys.
Proof.
  intros Hf. induction items as [|x rest IH]; intros v s.
  - exists [], s. split; [done|constructor].
  - destruct (Hf x v s) as (y & v' & s1 & Hx & Hy).
    destruct (IH v' s1) as (ys & s2 & Hrest & Hys).
    exists (y :: ys), s2. cbn [mapM_acc]. unfold bind. rewrite Hx, Hrest.
    split; [done|by constructor].
Qed.

Lemma Forall2_length_eq {A B} (P : A -> B -> Prop) l1 l2 :
  Forall2 P l1 l2 -> length l2 = length l1.
Proof. induction 1; cbn; congruence. Qed.

Lemma Forall2_right {A B} (P : A -> B -> Prop) (Q : B -> Prop) l1 l2 :
  (forall x y, In x l1 -> P x y -> Q y) -> Forall2 P l1 l2 -> Forall Q l2.
Proof.
  intros HPQ Hall. induction Hall as [|x y l1 l2 Hxy Hall IH]; constructor.
  - apply (HPQ x); [by left|done].
  - apply IH. intros x' y' Hin. apply HPQ. by right.
Qed.

(** [Array.from] with a length that is an array length. *)
Lemma Array_from_returns {A} (len : Z) (f : Z -> IO A) (I : World -> Prop) (P : Z -> A -> Prop) :
  len <= 4294967295 ->
  (forall i w, 0 <= i < len -> I w -> exists y w', f i w = (Ok y, w') /\ I w' /\ P i y) ->
  forall w, I w ->
  exists ys w', Array_from len f w = (Ok ys, w') /\ I w'
    /\ Forall2 P (map Z.of_nat (seq 0 (Z.to_nat len))) ys.
Proof.
  intros Hlen Hf w Hw. unfold Array_from.
  assert ((4294967295 <? len) = false) as -> by (apply Z.ltb_ge; lia).
  apply mapM_returns; [|done].
  intros i w0 Hin. apply Hf.
  apply in_map_iff in Hin as (n & <- & Hn). apply in_seq in Hn. lia.
Qed.

(* ===================================================================== *)
(** * Properties: sorting *)
(* ===================================================================== *)

Lemma insert_by_perm {A} (after : A -> A -> bool) x sorted :
  Permutation (insert_by after x sorted) (x :: sorted).
Proof.
  induction sorted as [|y rest IH]; cbn; [done|].
  destruct (after x y); [|done].
  rewrite IH. apply perm_swap.
Qed.

Lemma sort_by_perm {A} (after : A -> A -> bool) items :
  Permutation (sort_by after items) items.
Proof.
  induction items as [|x rest IH]; cbn; [done|].
  rewrite insert_by_perm. by constructor.
Qed.

Section SortedByRank.
Context {A : Type} (after : A -> A -> bool) (rank : A -> Q) (R : A -> Prop).
Hypothesis after_rank : forall x y, R x -> R y -> after x y = Qlt_bool (rank y) (rank x).

Lemma Qlt_bool_true x y : Qlt_bool x y = true <-> (x < y)%Q.
Proof.
  unfold Qlt_bool. rewrite negb_true_iff. split.
  - intros Hb. apply Qnot_le_lt. intros Hle. apply Qle_bool_iff in Hle. congruence.
  - intros Hlt. destruct (Qle_bool y x) eqn:E; [|reflexivity].
    apply Qle_bool_iff in E. exfalso. apply (Qlt_not_le _ _ Hlt E).
Qed.

Lemma Qlt_bool_false x y : Qlt_bool x y = false <-> (y <= x)%Q.
Proof. unfold Qlt_bool. rewrite negb_false_iff. apply Qle_bool_iff. Qed.

Lemma insert_by_sorted x sorted :
  R x -> Forall R sorted ->
  StronglySorted (rank_le rank) sorted ->
  StronglySorted (rank_le rank) (insert_by after x sorted).
Proof.
  intros Hx HR Hsorted. induction Hsorted as [|y rest Hrest IH Hy]; cbn.
  - repeat constructor.
  - apply Forall_cons_iff in HR as [HRy HRrest].
    rewrite (after_rank x y Hx HRy).
    destruct (Qlt_bool (rank y) (rank x)) eqn:Hcmp.
    + apply Qlt_bool_true in Hcmp. constructor; [by apply IH|].
      rewrite (insert_by_perm after x rest). constructor; [|done].
      unfold rank_le. by apply Qlt_le_weak.
    + apply Qlt_bool_false in Hcmp. constructor; [by constructor|].
      constructor; [done|].
      eapply Forall_impl; [exact Hy|]. intros z Hz. unfold rank_le in *.
      by apply (Qle_trans _ (rank y)).
Qed.

Lemma sort_by_sorted items :
  Forall R items -> StronglySorted (rank_le rank) (sort_by after items).
Proof.
  induction items as [|x rest IH]; intros HR; cbn; [constructor|].
  apply Forall_cons_iff in HR as [Hx Hrest].
  apply insert_by_sorted; [done| |by apply IH].
  by rewrite (sort_by_perm after rest).
Qed.

End SortedByRank.

(** Neighbours in a sorted list are in order. *)
Lemma StronglySorted_neighbours {A} (le : A -> A -> Prop) (l : list A) i a b :
  StronglySorted le l -> l !! i = Some a -> l !! S i = Some b -> le a b.
Proof.
  intros Hsorted. revert i a b.
  induction Hsorted as [|x rest Hrest IH Hx]; intros i a b Ha Hb.
  - done.
  - destruct i as [|i]; cbn in *.
    + injection Ha as <-. rewrite Forall_forall in Hx. apply Hx.
      by eapply list_elem_of_lookup_2.
    + by apply (IH i).
Qed.

(** [Array_sort] with a comparison that returns [compare x y] on the
    items at hand, without touching the state. *)
Lemma sort_insert_pure {S A} (compare : A -> A -> Eff S JSNumber)
    (result : A -> A -> JSNumber) (R : A -> Prop) x sorted s :
  (forall x y s, R x -> R y -> compare x y s = (Ok (result x y), s)) ->
  R x -> Forall R sorted ->
  sort_insert compare x sorted s
  = (Ok (insert_by (fun x y => sorts_after (result x y)) x sorted), s).
Proof.
  intros Hpure Hx. induction sorted as [|y rest IH]; intros HR; cbn; [done|].
  apply Forall_cons_iff in HR as [Hy Hrest].
  unfold bind at 1. rewrite (Hpure x y s Hx Hy).
  destruct (sorts_after (result x y)); [|done].
  unfold bind. by rewrite (IH Hrest).
Qed.

Lemma Array_sort_pure {S A} (compare : A -> A -> Eff S JSNumber)
    (result : A -> A -> JSNumber) (R : A -> Prop) items s :
  (forall x y s, R x -> R y -> compare x y s = (Ok (result x y), s)) ->
  Forall R items ->
  Array_sort compare items s
  = (Ok (sort_by (fun x y => sorts_after (result x y)) items), s).
Proof.
  intros Hpure. induction items as [|x rest IH]; intros HR; cbn; [done|].
  apply Forall_cons_iff in HR as [Hx Hrest].
  unfold bind. rewrite (IH Hrest).
  apply (sort_insert_pure compare result R); [done|done|].
  by rewrite (sort_by_perm _ rest).
Qed.

(* ===================================================================== *)
(** * Properties: the synthetic orderbook *)
(* ===================================================================== *)

Section GeneratedOrderbook.
Context `{Engine}.

Lemma toFixed_renders d x : rendersNumber (VString (toFixed d x)).
Proof. unfold toFixed. by destruct (Qle_bool _ _). Qed.

Lemma parseFloat_rendered e :
  rendersNumber (price e) -> parseFloat (price e) = Ok (priceNumber e).
Proof. unfold priceNumber. by destruct (price e) as [| | | |[]| |]. Qed.

Lemma byPriceDescending_pure a b (w : World) :
  rendersNumber (price a) -> rendersNumber (price b) ->
  MockDataService.byPriceDescending a b w
  = (Ok (num_sub (priceNumber b) (priceNumber a)), w).
Proof.
  intros Ha Hb. unfold MockDataService.byPriceDescending, bind, pure, ret.
  by rewrite (parseFloat_rendered b Hb), (parseFloat_rendered a Ha).
Qed.

Lemma byPriceAscending_pure a b (w : World) :
  rendersNumber (price a) -> rendersNumber (price b) ->
  MockDataService.byPriceAscending a b w
  = (Ok (num_sub (priceNumber a) (priceNumber b)), w).
Proof.
  intros Ha Hb. unfold MockDataService.byPriceAscending, bind, pure, ret.
  by rewrite (parseFloat_rendered b Hb), (parseFloat_rendered a Ha).
Qed.

(** [generateOrderbook] always returns: twenty bids and twenty asks,
    each built from two draws, sorted by price. *)
Lemma generateOrderbook_shape symbol w :
  exists rawBids rawAsks now w',
    MockDataService.generateOrderbook symbol w
    = (Ok {| symbol := symbol;
             bids := sort_by (fun a b => sorts_after (num_sub (priceNumber b) (priceNumber a)))
                             rawBids;
             asks := sort_by (fun a b => sorts_after (num_sub (priceNumber a) (priceNumber b)))
                             rawAsks;
             lastUpdateId := int now |}, w')
    /\ Forall2 (bidLevel w) levelIndices rawBids
    /\ Forall2 (askLevel w) levelIndices rawAsks.
Proof.
  unfold MockDataService.generateOrderbook.
  rewrite bind_Math_random. cbv beta zeta.
  set (w1 := afterDraw w).
  set (same := fun w0 : World => randomDraws w0 = randomDraws w).
  fold (basePriceOf w). fold (spreadOf w).
  match goal with
  | |- context [Array_from 20 ?f] =>
      destruct (Array_from_returns 20 f same (bidLevel w)) with (w := w1)
        as (rawBids & w2 & Hbids & Hsame2 & Hshape2)
  end.
  { lia. }
  { intros i w0 _ Hw0. run_reads. unfold ret.
    eexists _, _. split; [reflexivity|]. split; [exact Hw0|].
    exists (randomCursor w0), (S (randomCursor w0)). by rewrite <- Hw0. }
  { done. }
  unfold bind at 1. rewrite Hbids.
  match goal with
  | |- context [Array_from 20 ?f] =>
      destruct (Array_from_returns 20 f same (askLevel w)) with (w := w2)
        as (rawAsks & w3 & Hasks & Hsame3 & Hshape3)
  end.
  { lia. }
  { intros i w0 _ Hw0. run_reads. unfold ret.
    eexists _, _. split; [reflexivity|]. split; [exact Hw0|].
    exists (randomCursor w0), (S (randomCursor w0)). by rewrite <- Hw0. }
  { done. }
  unfold bind at 1. rewrite Hasks.
  assert (Hrb : Forall (fun e => rendersNumber (price e)) rawBids).
  { eapply Forall2_right; [|exact Hshape2].
    intros i e _ (n1 & n2 & ->). apply toFixed_renders. }
  assert (Hra : Forall (fun e => rendersNumber (price e)) rawAsks).
  { eapply Forall2_right; [|exact Hshape3].
    intros i e _ (n1 & n2 & ->). apply toFixed_renders. }
  unfold bind at 1.
  rewrite (Array_sort_pure MockDataService.byPriceDescending
             (fun a b => num_sub (priceNumber b) (priceNumber a))
             (fun e => rendersNumber (price e)));
    [|intros; by apply byPriceDescending_pure|done].
  unfold bind at 1.
  rewrite (Array_sort_pure MockDataService.byPriceAscending
             (fun a b => num_sub (priceNumber a) (priceNumber b))
             (fun e => rendersNumber (price e)));
    [|intros; by apply byPriceAscending_pure|done].
  run_reads. unfold ret.
  eexists rawBids, rawAsks, _, _. split; [reflexivity|]. split; done.
Qed.

End GeneratedOrderbook.

Section OrderbookLevels.
Context `{Engine}.

Lemma toFixed_nonneg d x :
  (0 <= x)%Q -> (x < 10 ^ 21)%Q ->
  toFixed d x = Fixed d false (Qfloor (x * 10 ^ Z.of_nat d + (1 # 2))%Q).
Proof.
  intros Hx Hbig. unfold toFixed.
  assert (Habs : (Qabs x == x)%Q) by (apply Qabs_pos; exact Hx).
  destruct (Qle_bool (10 ^ 21) (Qabs x)) eqn:E.
  - apply Qle_bool_iff in E. rewrite Habs in E. exfalso. apply (Qlt_not_le _ _ Hbig E).
  - assert (Qlt_bool x 0 = false) as -> by (apply Qlt_bool_false; exact Hx).
    f_equal. apply Qfloor_comp. rewrite Habs. reflexivity.
Qed.

Lemma Qfloor_lt_of_gap x y : (x + 1 <= y)%Q -> Qfloor x < Qfloor y.
Proof.
  intros Hgap.
  pose proof (Qfloor_le x) as Hx. pose proof (Qlt_floor y) as Hy.
  rewrite inject_Z_plus in Hy.
  rewrite Zlt_Qlt. change (inject_Z 1) with 1%Q in Hy. lra.
Qed.

Lemma twoDecimals_renders e : twoDecimals e -> rendersNumber (price e).
Proof. unfold twoDecimals. by intros ->. Qed.

Lemma twoDecimals_number e :
  twoDecimals e -> priceNumber e = Finite (inject_Z (hundredths e) / 100)%Q.
Proof. unfold twoDecimals, priceNumber. by intros ->. Qed.

Lemma twoDecimals_parse e :
  twoDecimals e -> parseFloat (price e) = Ok (Finite (inject_Z (hundredths e) / 100)%Q).
Proof.
  intros He. rewrite parseFloat_rendered by by apply twoDecimals_renders.
  by rewrite twoDecimals_number.
Qed.

Lemma hundredths_le a b :
  twoDecimals a -> twoDecimals b -> hundredths a <= hundredths b -> price_le a b.
Proof.
  intros Ha Hb Hle. eexists _, _.
  split; [by apply twoDecimals_parse|]. split; [by apply twoDecimals_parse|].
  rewrite Zle_Qle in Hle. unfold Qdiv. by apply Qmult_le_compat_r.
Qed.

Lemma hundredths_lt a b :
  twoDecimals a -> twoDecimals b -> hundredths a < hundredths b -> price_lt a b.
Proof.
  intros Ha Hb Hlt. eexists _, _.
  split; [by apply twoDecimals_parse|]. split; [by apply twoDecimals_parse|].
  rewrite Zlt_Qlt in Hlt. unfold Qdiv. by apply Qmult_lt_compat_r.
Qed.

Lemma basePrice_range w :
  valid_draws w -> (40000 <= basePriceOf w /\ basePriceOf w < 50000)%Q.
Proof.
  intros Hw. destruct (Hw (randomCursor w)) as [H0 H1]. unfold basePriceOf. lra.
Qed.

Lemma bestBid_lt_bestAsk w : valid_draws w -> bestBid w < bestAsk w.
Proof.
  intros Hw. apply basePrice_range in Hw. unfold bestBid, bestAsk, spreadOf.
  apply Qfloor_lt_of_gap. unfold Qdiv. change (/ 2)%Q with (1 # 2)%Q. lra.
Qed.

Lemma ten_pow_21 : (10 ^ 21 == 1000000000000000000000)%Q.
Proof. reflexivity. Qed.

Lemma bidLevel_bound w i e :
  valid_draws w -> 0 <= i < 20 -> bidLevel w i e ->
  twoDecimals e /\ hundredths e <= bestBid w.
Proof.
  intros Hw Hi (n1 & n2 & ->).
  pose proof (basePrice_range w Hw) as Hbase.
  destruct (Hw n1) as [Hp0 Hp1].
  set (p := randomDraws w n1) in *.
  assert (Hi0 : (0 <= inject_Z i)%Q) by (change 0%Q with (inject_Z 0); rewrite <- Zle_Qle; lia).
  assert (Hi1 : (inject_Z i <= 19)%Q) by (change 19%Q with (inject_Z 19); rewrite <- Zle_Qle; lia).
  assert (Hstep0 : (0 <= (inject_Z i + 1) * p)%Q) by (apply Qmult_le_0_compat; lra).
  assert (Hstep1 : ((inject_Z i + 1) * p <= 20)%Q).
  { apply Qle_trans with ((inject_Z i + 1) * 1)%Q; [|lra].
    apply Qmult_le_l; lra. }
  unfold twoDecimals, hundredths, bestBid. cbn [price].
  unfold spreadOf, Qdiv. change (/ 2)%Q with (1 # 2)%Q.
  rewrite toFixed_nonneg.
  - split; [reflexivity|]. apply Qfloor_resp_le.
    change (10 ^ Z.of_nat 2)%Q with 100%Q. lra.
  - lra.
  - rewrite ten_pow_21. lra.
Qed.

Lemma askLevel_bound w i e :
  valid_draws w -> 0 <= i < 20 -> askLevel w i e ->
  twoDecimals e /\ bestAsk w <= hundredths e.
Proof.
  intros Hw Hi (n1 & n2 & ->).
  pose proof (basePrice_range w Hw) as Hbase.
  destruct (Hw n1) as [Hp0 Hp1].
  set (p := randomDraws w n1) in *.
  assert (Hi0 : (0 <= inject_Z i)%Q) by (change 0%Q with (inject_Z 0); rewrite <- Zle_Qle; lia).
  assert (Hi1 : (inject_Z i <= 19)%Q) by (change 19%Q with (inject_Z 19); rewrite <- Zle_Qle; lia).
  assert (Hstep0 : (0 <= (inject_Z i + 1) * p)%Q) by (apply Qmult_le_0_compat; lra).
  assert (Hstep1 : ((inject_Z i + 1) * p <= 20)%Q).
  { apply Qle_trans with ((inject_Z i + 1) * 1)%Q; [|lra].
    apply Qmult_le_l; lra. }
  unfold twoDecimals, hundredths, bestAsk. cbn [price].
  unfold spreadOf, Qdiv. change (/ 2)%Q with (1 # 2)%Q.
  rewrite toFixed_nonneg.
  - split; [reflexivity|]. apply Qfloor_resp_le.
    change (10 ^ Z.of_nat 2)%Q with 100%Q. lra.
  - lra.
  - rewrite ten_pow_21. lra.
Qed.

Lemma levelIndices_range i : In i levelIndices -> 0 <= i < 20.
Proof.
  unfold levelIndices. intros Hin.
  apply in_map_iff in Hin as (n & <- & Hn). apply in_seq in Hn. lia.
Qed.

End OrderbookLevels.

Section OrderbookTheorems.
Context `{Engine}.

Lemma Qlt_bool_ext a b c d : ((a < b)%Q <-> (c < d)%Q) -> Qlt_bool a b = Qlt_bool c d.
Proof.
  intros Hiff. destruct (Qlt_bool c d) eqn:Hcd.
  - apply Qlt_bool_true. apply Hiff. by apply Qlt_bool_true.
  - destruct (Qlt_bool a b) eqn:Hab; [|done].
    apply Qlt_bool_true, Hiff, Qlt_bool_true in Hab. congruence.
Qed.

Lemma afterDescending_rank a b :
  twoDecimals a -> twoDecimals b ->
  afterDescending a b
  = Qlt_bool (inject_Z (- hundredths b)) (inject_Z (- hundredths a)).
Proof.
  intros Ha Hb. unfold afterDescending.
  rewrite (twoDecimals_number a Ha), (twoDecimals_number b Hb).
  cbn [num_sub num_neg num_add sorts_after].
  apply Qlt_bool_ext. rewrite !inject_Z_opp.
  unfold Qdiv. change (/ 100)%Q with (1 # 100)%Q. split; intros; lra.
Qed.

Lemma afterAscending_rank a b :
  twoDecimals a -> twoDecimals b ->
  afterAscending a b = Qlt_bool (inject_Z (hundredths b)) (inject_Z (hundredths a)).
Proof.
  intros Ha Hb. unfold afterAscending.
  rewrite (twoDecimals_number a Ha), (twoDecimals_number b Hb).
  cbn [num_sub num_neg num_add sorts_after].
  apply Qlt_bool_ext.
  unfold Qdiv. change (/ 100)%Q with (1 # 100)%Q. split; intros; lra.
Qed.

(** [generateOrderbook] never throws and its result has the shape of an
    [Orderbook]. *)
Lemma generateOrderbook_returns symbol w :
  exists orderbook w',
    MockDataService.generateOrderbook symbol w = (Ok orderbook, w')
    /\ conforms_Orderbook orderbook = true.
Proof.
  destruct (generateOrderbook_shape symbol w)
    as (rawBids & rawAsks & now & w' & Hrun & Hbids & Hasks).
  eexists _, _. split; [exact Hrun|].
  unfold conforms_Orderbook. cbn [bids asks lastUpdateId int is_number].
  rewrite andb_true_r. apply andb_true_intro. split.
  - apply forallb_forall. intros e He.
    apply (Permutation_in _ (sort_by_perm _ rawBids)) in He.
    assert (Hall : Forall (fun e => conforms_OrderbookEntry e = true) rawBids).
    { eapply Forall2_right; [|exact Hbids]. by intros i e0 _ (n1 & n2 & ->). }
    rewrite Forall_forall in Hall. apply Hall. by apply list_elem_of_In.
  - apply forallb_forall. intros e He.
    apply (Permutation_in _ (sort_by_perm _ rawAsks)) in He.
    assert (Hall : Forall (fun e => conforms_OrderbookEntry e = true) rawAsks).
    { eapply Forall2_right; [|exact Hasks]. by intros i e0 _ (n1 & n2 & ->). }
    rewrite Forall_forall in Hall. apply Hall. by apply list_elem_of_In.
Qed.

(** C8, as amended.  For every symbol and every sequence of random draws
    in [[0, 1)], [generateOrderbook] returns exactly 20 bid levels and 20
    ask levels; the bid prices never increase and the ask prices never
    decrease from one level to the next (two neighbours can carry the
    same price); every ask price, [asks[0].price] in particular, is above
    every bid price. *)
Theorem generateOrderbook_levels symbol w :
  valid_draws w ->
  exists orderbook w',
    MockDataService.generateOrderbook symbol w = (Ok orderbook, w')
    /\ length (bids orderbook) = 20%nat
    /\ length (asks orderbook) = 20%nat
    /\ (forall i a b, bids orderbook !! i = Some a -> bids orderbook !! S i = Some b ->
                      price_le b a)
    /\ (forall i a b, asks orderbook !! i = Some a -> asks orderbook !! S i = Some b ->
                      price_le a b)
    /\ (forall a b, In a (asks orderbook) -> In b (bids orderbook) -> price_lt b a).
Proof.
  intros Hw.
  destruct (generateOrderbook_shape symbol w)
    as (rawBids & rawAsks & now & w' & Hrun & Hbids & Hasks).
  assert (HB : Forall (fun e => twoDecimals e /\ hundredths e <= bestBid w) rawBids).
  { eapply Forall2_right; [|exact Hbids].
    intros i e Hi. apply bidLevel_bound; [done|by apply levelIndices_range]. }
  assert (HA : Forall (fun e => twoDecimals e /\ bestAsk w <= hundredths e) rawAsks).
  { eapply Forall2_right; [|exact Hasks].
    intros i e Hi. apply askLevel_bound; [done|by apply levelIndices_range]. }
  fold afterDescending afterAscending in Hrun.
  eexists _, _. split; [exact Hrun|]. cbn [bids asks].
  assert (HB2 : Forall twoDecimals rawBids) by (eapply Forall_impl; [exact HB|]; by intros e []).
  assert (HA2 : Forall twoDecimals rawAsks) by (eapply Forall_impl; [exact HA|]; by intros e []).
  split; [|split; [|split; [|split]]].
  - rewrite (Permutation_length (sort_by_perm _ rawBids)).
    by rewrite (Forall2_length_eq _ _ _ Hbids).
  - rewrite (Permutation_length (sort_by_perm _ rawAsks)).
    by rewrite (Forall2_length_eq _ _ _ Hasks).
  - intros i a b Ha Hb.
    pose proof (sort_by_sorted afterDescending (fun e => inject_Z (- hundredths e))
                  twoDecimals afterDescending_rank rawBids HB2) as Hsorted.
    pose proof (StronglySorted_neighbours _ _ i a b Hsorted Ha Hb) as Hab.
    unfold rank_le in Hab. rewrite <- Zle_Qle in Hab.
    assert (Hin : forall e, sort_by afterDescending rawBids !! i = Some e \/
                            sort_by afterDescending rawBids !! S i = Some e -> twoDecimals e).
    { intros e He. rewrite Forall_forall in HB2. apply HB2.
      rewrite <- (sort_by_perm afterDescending rawBids).
      destruct He as [He|He]; by eapply list_elem_of_lookup_2. }
    apply hundredths_le; [apply Hin; by right|apply Hin; by left|lia].
  - intros i a b Ha Hb.
    pose proof (sort_by_sorted afterAscending (fun e => inject_Z (hundredths e))
                  twoDecimals afterAscending_rank rawAsks HA2) as Hsorted.
    pose proof (StronglySorted_neighbours _ _ i a b Hsorted Ha Hb) as Hab.
    unfold rank_le in Hab. rewrite <- Zle_Qle in Hab.
    assert (Hin : forall e, sort_by afterAscending rawAsks !! i = Some e \/
                            sort_by afterAscending rawAsks !! S i = Some e -> twoDecimals e).
    { intros e He. rewrite Forall_forall in HA2. apply HA2.
      rewrite <- (sort_by_perm afterAscending rawAsks).
      destruct He as [He|He]; by eapply list_elem_of_lookup_2. }
    apply hundredths_le; [apply Hin; by left|apply Hin; by right|lia].
  - intros a b Ha Hb.
    apply (Permutation_in _ (sort_by_perm _ rawAsks)), list_elem_of_In in Ha.
    apply (Permutation_in _ (sort_by_perm _ rawBids)), list_elem_of_In in Hb.
    rewrite Forall_forall in HA, HB.
    destruct (HA a Ha) as [Ha2 Hale]. destruct (HB b Hb) as [Hb2 Hble].
    pose proof (bestBid_lt_bestAsk w Hw).
    apply hundredths_lt; [done|done|lia].
Qed.

End OrderbookTheorems.

(* ===================================================================== *)
(** * Properties: the synthetic ticker and candles *)
(* ===================================================================== *)

Section GeneratedTickerAndKlines.
Context `{Engine}.

Lemma is_string_toFixed d x : is_string (VString (toFixed d x)) = true.
Proof. reflexivity. Qed.

(** [generate24hTicker] never throws and its result has the shape of a
    [Ticker24h]. *)
Lemma generate24hTicker_returns symbol w :
  exists ticker w',
    MockDataService.generate24hTicker symbol w = (Ok ticker, w')
    /\ Ticker24h.conforms ticker = true.
Proof.
  unfold MockDataService.generate24hTicker. run_reads. unfold ret.
  eexists _, _. split; reflexivity.
Qed.

(** [generateKlines] with a count that is an array length never throws
    and each candle it returns has the shape of a [Kline]. *)
Lemma generateKlines_returns symbol interval limit w :
  limit <= 4294967295 ->
  exists klines w',
    MockDataService.generateKlines symbol interval limit w = (Ok klines, w')
    /\ forallb Kline.conforms klines = true.
Proof.
  intros Hlimit. unfold MockDataService.generateKlines. run_reads.
  unfold Array_from_acc.
  assert ((4294967295 <? limit) = false) as -> by (apply Z.ltb_ge; lia).
  match goal with
  | |- context [mapM_acc ?f ?items ?start ?w0] =>
      assert (Hf : forall i price w1, exists k price' w2,
                 f i price w1 = (Ok (k, price'), w2) /\ Kline.conforms k = true);
      [|destruct (mapM_acc_returns f (fun k => Kline.conforms k = true) items Hf start w0)
          as (klines & w' & Hrun & Hall)]
  end.
  { intros i price w0. run_reads. unfold ret.
    eexists _, _, _. split; reflexivity. }
  exists klines, w'. split; [exact Hrun|].
  apply forallb_forall. intros k Hk. rewrite Forall_forall in Hall.
  apply Hall. by apply list_elem_of_In.
Qed.

(** Above that length [Array.from] throws, and so does [generateKlines]. *)
Lemma generateKlines_throws symbol interval limit w :
  4294967295 < limit ->
  exists e w', MockDataService.generateKlines symbol interval limit w = (Throw e, w').
Proof.
  intros Hlimit. unfold MockDataService.generateKlines. run_reads.
  unfold Array_from_acc.
  assert ((4294967295 <? limit) = true) as -> by (apply Z.ltb_lt; lia).
  unfold throw. by eexists _, _.
Qed.

End GeneratedTickerAndKlines.

(* ===================================================================== *)
(** * Properties: the effect monad *)
(* ===================================================================== *)

Lemma bind_ok {S A B} (c : Eff S A) (k : A -> Eff S B) s a s' :
  c s = (Ok a, s') -> bind c k s = k a s'.
Proof. intros Hc. unfold bind. by rewrite Hc. Qed.

Lemma bind_throw {S A B} (c : Eff S A) (k : A -> Eff S B) s e s' :
  c s = (Throw e, s') -> bind c k s = (Throw e, s').
Proof. intros Hc. unfold bind. by rewrite Hc. Qed.

Lemma try_catch_ok {S A} (c : Eff S A) h s a s' :
  c s = (Ok a, s') -> try_catch c h s = (Ok a, s').
Proof. intros Hc. unfold try_catch. by rewrite Hc. Qed.

Lemma try_catch_throw {S A} (c : Eff S A) h s e s' :
  c s = (Throw e, s') -> try_catch c h s = h e s'.
Proof. intros Hc. unfold try_catch. by rewrite Hc. Qed.

Lemma liftIO_run {A} (c : IO A) s o w :
  c (world s) = (o, w) ->
  liftIO c s = (o, {| manager := manager s; world := w; trace := trace s |}).
Proof. intros Hc. unfold liftIO. by rewrite Hc. Qed.

(* ===================================================================== *)
(** * Properties: the health tracker *)
(* ===================================================================== *)

Section HealthTracker.
Context `{Engine}.



(** [updateHealth] on a tracked source never throws; it replaces the
    record of the source, reads the clock once and can only raise the
    fall-back flag. *)
Lemma updateHealth_tracked s source isHealthy responseTime health :
  apiHealth (manager s) !! source = Some health ->
  exists s',
    APIManager.updateHealth source isHealthy responseTime s = (Ok tt, s')
    /\ apiHealth (manager s')
       = <[source := updatedHealth health isHealthy responseTime
                       (timeReadings (world s) (timeCursor (world s)))]>
           (apiHealth (manager s))
    /\ retryConfig (manager s') = retryConfig (manager s)
    /\ currentSource (manager s') = currentSource (manager s)
    /\ preferredOrder (manager s') = preferredOrder (manager s)
    /\ trace s' = trace s
    /\ world s' = (Date_now (world s)).2
    /\ fallbackToMock (manager s')
       = fallbackToMock (manager s)
         || ((maxRetries (retryConfig (manager s))
              <=? (if isHealthy then 0 else APIHealth.consecutiveFailures health + 1))%nat
             && APIManager.allUnhealthy (manager s')).
Proof.
  intros Htracked.
  unfold APIManager.updateHealth, bind, gets. rewrite Htracked.
  unfold liftIO, update_manager, modify. cbn [Date_now gets fst snd world manager trace].
  fold (updatedHealth health isHealthy responseTime
          (timeReadings (world s) (timeCursor (world s)))).
  set (health' := updatedHealth _ _ _ _).
  change (APIHealth.consecutiveFailures health')
    with (if isHealthy then 0%nat else (APIHealth.consecutiveFailures health + 1)%nat).
  destruct (_ <=? _)%nat eqn:Hcf.
  - unfold APIManager.checkAndEnableMockFallback, bind, gets, update_manager, modify, ret.
    cbn [manager world trace].
    set (m' := set_apiHealth _ _).
    change (fallbackToMock m') with (fallbackToMock (manager s)).
    destruct (APIManager.allUnhealthy m') eqn:Hall; cbn [andb].
    + destruct (fallbackToMock (manager s)) eqn:Hflag; cbn [negb];
        eexists; (split; [reflexivity|]); cbn; rewrite ?Hflag;
        repeat split; try reflexivity; rewrite ?Hall; done.
    + eexists. split; [reflexivity|]. cbn. rewrite Hall.
      repeat split; try reflexivity. by rewrite orb_false_r.
  - eexists. split; [reflexivity|]. cbn.
    repeat split; try reflexivity. by rewrite orb_false_r.
Qed.

(** [updateHealth] on a source without a record does nothing. *)
Lemma updateHealth_untracked s source isHealthy responseTime :
  apiHealth (manager s) !! source = None ->
  APIManager.updateHealth source isHealthy responseTime s = (Ok tt, s).
Proof.
  intros Hnone. unfold APIManager.updateHealth, bind, gets. by rewrite Hnone.
Qed.

End HealthTracker.

(* ===================================================================== *)
(** * Properties: the retry loop *)
(* ===================================================================== *)

Section RetryLoop.
Context `{Engine}.
Context {T : Type}.

Lemma invoke_run (operation : Operation T) n s o w :
  operation n (world s) = (o, w) ->
  invoke operation n s
  = (o, {| manager := manager s; world := w;
           trace := {| delays := delays (trace s);
                       invocations := S (invocations (trace s)) |} |}).
Proof.
  intros Hop. unfold invoke, bind, update_trace, modify, liftIO.
  cbn [world manager trace]. by rewrite Hop.
Qed.

(** One failed attempt that is not the last one: the record of the source
    counts one more failure, the delay of the attempt is awaited and the
    loop goes on. *)
Lemma retryLoop_failed_attempt (operation : Operation T) source remaining attempt s health :
  (attempt + S (S remaining) = maxRetries (retryConfig (manager s)))%nat ->
  apiHealth (manager s) !! source = Some health ->
  throws_at operation attempt ->
  exists s' health',
    APIManager.retryLoop operation source (S (S remaining)) attempt s
    = APIManager.retryLoop operation source (S remaining) (S attempt) s'
    /\ apiHealth (manager s') !! source = Some health'
    /\ APIHealth.consecutiveFailures health'
       = (APIHealth.consecutiveFailures health + 1)%nat
    /\ APIHealth.errorCount health' = (APIHealth.errorCount health + 1)%nat
    /\ APIHealth.isHealthy health' = false
    /\ (forall other, other <> source ->
          apiHealth (manager s') !! other = apiHealth (manager s) !! other)
    /\ retryConfig (manager s') = retryConfig (manager s)
    /\ currentSource (manager s') = currentSource (manager s)
    /\ delays (trace s')
       = delays (trace s) ++ [APIManager.backoffDelay (retryConfig (manager s)) attempt]
    /\ invocations (trace s') = S (invocations (trace s)).
Proof.
  intros Hcount Htracked Hthrows.
  destruct (Hthrows (world s)) as (e & w' & Hop).
  cbn [APIManager.retryLoop]. unfold bind at 1. unfold try_catch.
  unfold bind at 1. rewrite (invoke_run _ _ _ _ _ Hop).
  unfold bind at 1.
  match goal with
  | |- context [APIManager.updateHealth _ _ _ ?st] =>
      destruct (updateHealth_tracked st source false None health Htracked)
        as (s1 & Hrun & Hmap & Hcfg & Hcur & Hord & Htrace & Hworld & Hflag)
  end.
  rewrite Hrun. unfold bind at 1. unfold gets at 1. cbn [fst snd].
  rewrite Hcfg. cbn [manager].
  assert ((Z.of_nat attempt =? Z.of_nat (maxRetries (retryConfig (manager s))) - 1) = false)
    as -> by (apply Z.eqb_neq; lia).
  unfold bind at 1. unfold sleep, update_trace, modify, ret. cbn [fst snd].
  eexists _, _. split; [reflexivity|].
  cbn [manager trace world]. rewrite Hmap, Hcfg, Hcur, Htrace. cbn [manager trace delays invocations].
  split; [apply lookup_insert_eq|].
  repeat split; try reflexivity.
  intros other Hne. by rewrite lookup_insert_ne.
Qed.


(** An attempt succeeds: the result leaves the loop and the record of the
    source is reset to healthy. *)
Lemma retryLoop_attempt_succeeds (operation : Operation T) source remaining attempt s health v :
  apiHealth (manager s) !! source = Some health ->
  returns_at operation attempt v ->
  exists s' health',
    APIManager.retryLoop operation source (S remaining) attempt s = (Ok v, s')
    /\ apiHealth (manager s') !! source = Some health'
    /\ APIHealth.consecutiveFailures health' = 0%nat
    /\ APIHealth.errorCount health' = 0%nat
    /\ APIHealth.isHealthy health' = true
    /\ (forall other, other <> source ->
          apiHealth (manager s') !! other = apiHealth (manager s) !! other)
    /\ retryConfig (manager s') = retryConfig (manager s)
    /\ currentSource (manager s') = currentSource (manager s)
    /\ delays (trace s') = delays (trace s)
    /\ invocations (trace s') = S (invocations (trace s)).
Proof.
  intros Htracked Hreturns.
  destruct (Hreturns (world s)) as (w' & Hop).
  cbn [APIManager.retryLoop]. unfold bind at 1. unfold try_catch.
  unfold bind at 1. rewrite (invoke_run _ _ _ _ _ Hop).
  unfold bind at 1.
  match goal with
  | |- context [APIManager.updateHealth _ _ _ ?st] =>
      destruct (updateHealth_tracked st source true None health Htracked)
        as (s1 & Hrun & Hmap & Hcfg & Hcur & Hord & Htrace & Hworld & Hflag)
  end.
  rewrite Hrun. unfold ret.
  eexists _, _. split; [reflexivity|].
  rewrite Hmap, Hcfg, Hcur, Htrace. cbn [manager trace delays invocations].
  split; [apply lookup_insert_eq|].
  repeat split; try reflexivity.
  intros other Hne. by rewrite lookup_insert_ne.
Qed.

(** [k] failed attempts, none of them the last one. *)
Lemma retryLoop_failed_attempts (operation : Operation T) source k :
  forall remaining attempt s health,
  (attempt + k + S remaining = maxRetries (retryConfig (manager s)))%nat ->
  apiHealth (manager s) !! source = Some health ->
  (forall i, (attempt <= i < attempt + k)%nat -> throws_at operation i) ->
  exists s' health',
    APIManager.retryLoop operation source (k + S remaining) attempt s
    = APIManager.retryLoop operation source (S remaining) (attempt + k) s'
    /\ apiHealth (manager s') !! source = Some health'
    /\ APIHealth.consecutiveFailures health'
       = (APIHealth.consecutiveFailures health + k)%nat
    /\ APIHealth.errorCount health' = (APIHealth.errorCount health + k)%nat
    /\ APIHealth.isHealthy health'
       = match k with O => APIHealth.isHealthy health | _ => false end
    /\ (forall other, other <> source ->
          apiHealth (manager s') !! other = apiHealth (manager s) !! other)
    /\ retryConfig (manager s') = retryConfig (manager s)
    /\ currentSource (manager s') = currentSource (manager s)
    /\ delays (trace s')
       = delays (trace s)
         ++ map (APIManager.backoffDelay (retryConfig (manager s))) (seq attempt k)
    /\ invocations (trace s') = (invocations (trace s) + k)%nat.
Proof.
  induction k as [|k IH]; intros remaining attempt s health Hcount Htracked Hthrows.
  - exists s, health. rewrite !Nat.add_0_r. cbn [seq map Nat.add].
    rewrite app_nil_r. repeat split; try reflexivity. done.
  - destruct (retryLoop_failed_attempt operation source (k + remaining) attempt s health)
      as (s1 & h1 & Hstep & Htr1 & Hcf1 & Hec1 & Hun1 & Hoth1 & Hcfg1 & Hcur1 & Hdel1 & Hinv1).
    { lia. } { done. } { apply Hthrows. lia. }
    destruct (IH remaining (S attempt) s1 h1)
      as (s2 & h2 & Hrest & Htr2 & Hcf2 & Hec2 & Hun2 & Hoth2 & Hcfg2 & Hcur2 & Hdel2 & Hinv2).
    { rewrite Hcfg1. lia. } { done. } { intros i Hi. apply Hthrows. lia. }
    exists s2, h2.
    replace (S k + S remaining)%nat with (S (S (k + remaining))) by lia.
    rewrite Hstep.
    replace (S (k + remaining)) with (k + S remaining)%nat by lia.
    rewrite Hrest.
    replace (S attempt + k)%nat with (attempt + S k)%nat by lia.
    split; [reflexivity|]. split; [done|].
    split; [lia|]. split; [lia|].
    split; [rewrite Hun2; by destruct k|].
    split; [intros other Hne; rewrite Hoth2, Hoth1; done|].
    split; [congruence|]. split; [congruence|].
    split; [|lia].
    rewrite Hdel2, Hdel1, Hcfg1, <- app_assoc. reflexivity.
Qed.

End RetryLoop.

Section RetryOutcome.
Context `{Engine}.
Context {T : Type}.


(** The first [k] attempts fail and the next one succeeds: its result
    leaves [retryWithExponentialBackoff], after [k + 1] calls of the
    operation and the delays of the [k] failed attempts. *)
Lemma retry_succeeds_after (operation : Operation T) source s health k v :
  apiHealth (manager s) !! source = Some health ->
  (k < maxRetries (retryConfig (manager s)))%nat ->
  (forall i, (i < k)%nat -> throws_at operation i) ->
  returns_at operation k v ->
  exists s' health',
    APIManager.retryWithExponentialBackoff operation source s = (Ok v, s')
    /\ apiHealth (manager s') !! source = Some health'
    /\ APIHealth.consecutiveFailures health' = 0%nat
    /\ APIHealth.errorCount health' = 0%nat
    /\ APIHealth.isHealthy health' = true
    /\ (forall other, other <> source ->
          apiHealth (manager s') !! other = apiHealth (manager s) !! other)
    /\ retryConfig (manager s') = retryConfig (manager s)
    /\ currentSource (manager s') = currentSource (manager s)
    /\ delays (trace s')
       = delays (trace s)
         ++ map (APIManager.backoffDelay (retryConfig (manager s))) (seq 0 k)
    /\ invocations (trace s') = (invocations (trace s) + k + 1)%nat.
Proof.
  intros Htracked Hk Hthrows Hreturns.
  unfold APIManager.retryWithExponentialBackoff, bind, gets. rewrite Htracked.
  set (n := maxRetries (retryConfig (manager s))) in *.
  destruct (retryLoop_failed_attempts operation source k (n - k - 1) 0%nat s health)
    as (s1 & h1 & Hloop & Htr1 & Hcf1 & Hec1 & Hun1 & Hoth1 & Hcfg1 & Hcur1 & Hdel1 & Hinv1).
  { fold n. lia. } { done. } { intros i Hi. apply Hthrows. lia. }
  destruct (retryLoop_attempt_succeeds operation source (n - k - 1) k s1 h1 v)
    as (s2 & h2 & Hlast & Htr2 & Hcf2 & Hec2 & Hun2 & Hoth2 & Hcfg2 & Hcur2 & Hdel2 & Hinv2).
  { done. } { done. }
  exists s2, h2.
  replace n with (k + S (n - k - 1))%nat at 1 by lia. rewrite Hloop. cbn [Nat.add]. rewrite Hlast.
  split; [reflexivity|]. split; [done|].
  split; [done|]. split; [done|]. split; [done|].
  split; [intros other Hne; rewrite Hoth2, Hoth1; done|].
  split; [congruence|]. split; [congruence|].
  split; [|lia].
  rewrite Hdel2, Hdel1. reflexivity.
Qed.

End RetryOutcome.

(* ===================================================================== *)
(** * Properties: the three data calls *)
(* ===================================================================== *)

Section DataCalls.
Context `{Engine}.
Variables coinbaseAPI okxAPI kucoinAPI : Adapter.t.

Lemma getOrderbook_dataCall symbol limit :
  APIManager.getOrderbook coinbaseAPI okxAPI kucoinAPI symbol limit
  = dataCall coinbaseAPI okxAPI kucoinAPI (fun api => Adapter.getOrderbook api symbol limit)
             (MockDataService.generateOrderbook symbol) APIManager.copyOrderbook.
Proof. reflexivity. Qed.

Lemma get24hTicker_dataCall symbol :
  APIManager.get24hTicker coinbaseAPI okxAPI kucoinAPI symbol
  = dataCall coinbaseAPI okxAPI kucoinAPI (fun api => Adapter.get24hTicker api symbol)
             (MockDataService.generate24hTicker symbol) (fun ticker => ticker).
Proof. reflexivity. Qed.

Lemma getKlines_dataCall symbol interval limit :
  APIManager.getKlines coinbaseAPI okxAPI kucoinAPI symbol interval limit
  = dataCall coinbaseAPI okxAPI kucoinAPI (fun api => Adapter.getKlines api symbol interval limit)
             (MockDataService.generateKlines symbol interval limit) (fun klines => klines).
Proof. reflexivity. Qed.

Context {T : Type}.
Variable operationOf : Adapter.t -> Operation T.
Variable generate : IO T.
Variable shape : T -> T.

(** In fall-back mode a data call is the generator alone: the manager and
    the trace are left as they were. *)
Lemma dataCall_in_mock_mode s value w :
  fallbackToMock (manager s) = true ->
  generate (world s) = (Ok value, w) ->
  dataCall coinbaseAPI okxAPI kucoinAPI operationOf generate shape s
  = (Ok {| data := shape value; source := mock |},
     {| manager := manager s; world := w; trace := trace s |}).
Proof.
  intros Hmock Hgen. unfold dataCall, bind, gets. rewrite Hmock.
  by rewrite (liftIO_run _ _ _ _ Hgen).
Qed.



End DataCalls.

(* ===================================================================== *)
(** * The claims about the aggregator *)
(* ===================================================================== *)

Lemma new_tracks_real_sources : tracks_real_sources APIManager.new.
Proof. reflexivity. Qed.


Section AggregatorClaims.
Context `{Engine}.
Variables coinbaseAPI okxAPI kucoinAPI : Adapter.t.

Abbreviation getAPIService := (APIManager.getAPIService coinbaseAPI okxAPI kucoinAPI).
Abbreviation getOrderbook := (APIManager.getOrderbook coinbaseAPI okxAPI kucoinAPI).
Abbreviation get24hTicker := (APIManager.get24hTicker coinbaseAPI okxAPI kucoinAPI).
Abbreviation getKlines := (APIManager.getKlines coinbaseAPI okxAPI kucoinAPI).
Abbreviation healthCheck := (APIManager.healthCheck coinbaseAPI okxAPI kucoinAPI).



End AggregatorClaims.

Section TrackerClaims.
Context `{Engine}.
Variables coinbaseAPI okxAPI kucoinAPI : Adapter.t.

Abbreviation getAPIService' := (APIManager.getAPIService coinbaseAPI okxAPI kucoinAPI).
Abbreviation getOrderbook' := (APIManager.getOrderbook coinbaseAPI okxAPI kucoinAPI).
Abbreviation get24hTicker' := (APIManager.get24hTicker coinbaseAPI okxAPI kucoinAPI).
Abbreviation getKlines' := (APIManager.getKlines coinbaseAPI okxAPI kucoinAPI).
Abbreviation healthCheck' := (APIManager.healthCheck coinbaseAPI okxAPI kucoinAPI).


(** C4, as amended.  [forceSwitch(source)] makes [source] the current
    source and clears the fall-back mode: afterwards [getIsMockMode()]
    returns [false] and [getCurrentSource()] returns [source], for
    [okx] in particular.  [switchToAPI(source)] makes a source of the
    preferred order the current one and changes nothing for another
    source; in both cases it leaves the fall-back mode as it was. *)
Theorem switching_and_the_latch source s :
  (exists s',
     APIManager.forceSwitch source s = (Ok tt, s')
     /\ APIManager.getIsMockMode s' = (Ok false, s')
     /\ APIManager.getCurrentSource s' = (Ok source, s'))
  /\ (exists s',
        APIManager.switchToAPI source s
        = (Ok (bool_decide (source ∈ preferredOrder (manager s))), s')
        /\ fallbackToMock (manager s') = fallbackToMock (manager s)
        /\ currentSource (manager s')
           = if bool_decide (source ∈ preferredOrder (manager s))
             then source else currentSource (manager s)).
Proof.
  split.
  - eexists. split; [reflexivity|]. split; reflexivity.
  - unfold APIManager.switchToAPI, bind, gets.
    destruct (bool_decide (source ∈ preferredOrder (manager s)));
      eexists; (split; [reflexivity|]); split; reflexivity.
Qed.

(** A probe whose request returns records a success. *)
Lemma healthCheck_success source health ticker s :
  apiHealth (manager s) !! source = Some health ->
  returns_at (Adapter.get24hTicker (getAPIService' source) "BTCUSDT") 0 ticker ->
  exists s' health',
    healthCheck' source s = (Ok true, s')
    /\ apiHealth (manager s') !! source = Some health'
    /\ APIHealth.isHealthy health' = true
    /\ APIHealth.consecutiveFailures health' = 0%nat
    /\ APIHealth.errorCount health' = 0%nat.
Proof.
  intros Htracked Hreturns.
  unfold APIManager.healthCheck, try_catch.
  unfold bind at 1. unfold liftIO at 1. cbn [Date_now].
  destruct (Hreturns (afterReading (world s))) as (w' & Hop).
  unfold bind at 1.
  match goal with
  | |- context [invoke ?op ?n ?st] => rewrite (invoke_run op n st (Ok ticker) w' Hop)
  end.
  unfold bind at 1. unfold liftIO at 1. cbn [Date_now world].
  unfold bind at 1.
  match goal with
  | |- context [APIManager.updateHealth _ _ ?rt ?st] =>
      destruct (updateHealth_tracked st source true rt health Htracked)
        as (s1 & Hrun & Hmap & _)
  end.
  rewrite Hrun. unfold ret.
  eexists _, _. split; [reflexivity|]. rewrite Hmap.
  split; [apply lookup_insert_eq|]. repeat split.
Qed.

(** C6, as amended.  A success recorded for a tracked source makes its
    health record healthy and sets both [consecutiveFailures] and
    [errorCount] to 0, and leaves the records of the other sources as
    they were.  So does a probe whose request returns, and so does a
    data request that returns on one of its [maxRetries] attempts. *)
Theorem success_resets_both_counters {T} (operation : Operation T) source health s :
  apiHealth (manager s) !! source = Some health ->
  (forall responseTime,
   exists s' health',
     APIManager.updateHealth source true responseTime s = (Ok tt, s')
     /\ apiHealth (manager s') !! source = Some health'
     /\ APIHealth.isHealthy health' = true
     /\ APIHealth.consecutiveFailures health' = 0%nat
     /\ APIHealth.errorCount health' = 0%nat
     /\ (forall other, other <> source ->
           apiHealth (manager s') !! other = apiHealth (manager s) !! other))
  /\ (forall ticker,
      returns_at (Adapter.get24hTicker (getAPIService' source) "BTCUSDT") 0 ticker ->
      exists s' health',
        healthCheck' source s = (Ok true, s')
        /\ apiHealth (manager s') !! source = Some health'
        /\ APIHealth.isHealthy health' = true
        /\ APIHealth.consecutiveFailures health' = 0%nat
        /\ APIHealth.errorCount health' = 0%nat)
  /\ (forall k v,
      (k < maxRetries (retryConfig (manager s)))%nat ->
      (forall i, (i < k)%nat -> throws_at operation i) ->
      returns_at operation k v ->
      exists s' health',
        APIManager.retryWithExponentialBackoff operation source s = (Ok v, s')
        /\ apiHealth (manager s') !! source = Some health'
        /\ APIHealth.isHealthy health' = true
        /\ APIHealth.consecutiveFailures health' = 0%nat
        /\ APIHealth.errorCount health' = 0%nat).
Proof.
  intros Htracked. split; [|split].
  - intros responseTime.
    destruct (updateHealth_tracked s source true responseTime health Htracked)
      as (s' & Hrun & Hmap & _).
    eexists s', _. split; [exact Hrun|]. rewrite Hmap.
    split; [apply lookup_insert_eq|]. repeat split.
    intros other Hne. by rewrite lookup_insert_ne.
  - intros ticker Hreturns. by eapply healthCheck_success.
  - intros k v Hk Hthrows Hreturns.
    destruct (retry_succeeds_after operation source s health k v
                Htracked Hk Hthrows Hreturns)
      as (s' & h' & Hrun & Hlookup & Hcf & Hec & Hhealthy & _).
    exists s', h'. exact (conj Hrun (conj Hlookup (conj Hhealthy (conj Hcf Hec)))).
Qed.



End TrackerClaims.

(* ===================================================================== *)
(** * The claims about the aggregator on examples *)
(* ===================================================================== *)

Lemma flaky_throws {T} failures (value : T) i :
  (i < failures)%nat -> throws_at (flaky failures value) i.
Proof.
  intros Hi w. unfold flaky.
  assert ((i <? failures)%nat = true) as -> by by apply Nat.ltb_lt.
  by eexists _, _.
Qed.

Lemma flaky_returns {T} failures (value : T) : returns_at (flaky failures value) failures value.
Proof.
  intros w. unfold flaky. rewrite Nat.ltb_irrefl. by eexists.
Qed.




(* ===================================================================== *)
(** * Properties: the adapters *)
(* ===================================================================== *)

Lemma try_catch_absorbs {A} (body fallback : IO A) (conforms : A -> bool)
    (fails : World -> Prop) :
  (forall w, exists v w', fallback w = (Ok v, w') /\ conforms v = true) ->
  (forall w, fails w -> exists e w1, body w = (Throw e, w1)) ->
  absorbs (try_catch body (fun error => fallback)) fallback conforms fails.
Proof.
  intros Hfallback Hbody w. split.
  - unfold try_catch. destruct (body w) as [[v|e] w1].
    + by exists v, w1.
    + destruct (Hfallback w1) as (v & w' & Hrun & _). by exists v, w'.
  - intros Hfails. destruct (Hbody w Hfails) as (e & w1 & Hthrow).
    destruct (Hfallback w1) as (v & w' & Hrun & Hshape).
    exists w1, v, w'. unfold try_catch. rewrite Hthrow. done.
Qed.

Lemma bind_fetch {A} (k : Z * ResponseBody -> IO A) w :
  bind fetch k w
  = match networkReplies w (networkCursor w) with
    | FetchRejects e => (Throw e, afterReply w)
    | Response status body => k (status, body) (afterReply w)
    end.
Proof.
  unfold fetch, bind, next_reply, throw, ret.
  by destruct (networkReplies w (networkCursor w)).
Qed.

Lemma bind_response_json_invalid {A} e (k : JSValue -> IO A) w :
  bind (response_json (InvalidJSON e)) k w = (Throw e, w).
Proof. reflexivity. Qed.

(** The request of an operation fails: the [try] block throws. *)
Ltac transport_failure Hfails :=
  let e := fresh "e" in
  let status := fresh "status" in
  let body := fresh "body" in
  let Hstatus := fresh "Hstatus" in
  unfold transport_fails, failed_reply in Hfails;
  run_reads; rewrite bind_fetch;
  cbn [networkReplies networkCursor afterReading afterDraw];
  match type of Hfails with
  | context [networkReplies ?w ?n] => destruct (networkReplies w n) as [e|status body]
  end;
  [by eexists _, _|];
  destruct Hfails as [Hstatus|[e ->]];
  [rewrite Hstatus; cbn [negb]; unfold throw; by eexists _, _|];
  destruct (response_ok status); cbn [negb]; unfold throw;
  try rewrite bind_response_json_invalid; by eexists _, _.

Section Arrays.
Context `{Engine}.

Lemma forallb_of_Forall2 {A B} (P : B -> bool) (items : list A) (ys : list B) :
  Forall2 (fun _ y => P y = true) items ys -> forallb P ys = true.
Proof. induction 1; cbn; [done|]. by apply andb_true_intro. Qed.

(** An array of levels whose price and quantity are strings *)
Lemma levels_return len (f : Z -> IO OrderbookEntry) w :
  len <= 4294967295 ->
  (forall i w0, exists e w1, f i w0 = (Ok e, w1) /\ conforms_OrderbookEntry e = true) ->
  exists levels w',
    Array_from len f w = (Ok levels, w') /\ forallb conforms_OrderbookEntry levels = true.
Proof.
  intros Hlen Hf.
  destruct (Array_from_returns len f (fun _ => True)
              (fun _ e => conforms_OrderbookEntry e = true) Hlen) with (w := w)
    as (levels & w' & Hrun & _ & Hall); [|done|].
  - intros i w0 _ _. destruct (Hf i w0) as (e & w1 & He & Hshape). by exists e, w1.
  - exists levels, w'. split; [done|]. by eapply forallb_of_Forall2.
Qed.


End Arrays.

(** The fallback orderbooks: two arrays of levels and a reading of the
    clock. *)
Ltac mock_orderbook_returns w :=
  let bidLevels := fresh "bidLevels" in
  let askLevels := fresh "askLevels" in
  let w1 := fresh "w" in
  let w2 := fresh "w" in
  let Hbids := fresh "Hbids" in
  let Hasks := fresh "Hasks" in
  let Hshape1 := fresh "Hshape" in
  let Hshape2 := fresh "Hshape" in
  cbv zeta;
  match goal with
  | |- context [bind (Array_from ?len ?f) ?k w] =>
      destruct (levels_return len f w) as (bidLevels & w1 & Hbids & Hshape1);
      [lia|intros ? ?; run_reads; by eexists _, _|]
  end;
  unfold bind at 1; rewrite Hbids;
  match goal with
  | |- context [bind (Array_from ?len ?f) ?k w1] =>
      destruct (levels_return len f w1) as (askLevels & w2 & Hasks & Hshape2);
      [lia|intros ? ?; run_reads; by eexists _, _|]
  end;
  unfold bind at 1; rewrite Hasks; run_reads;
  eexists _, _; split; [reflexivity|];
  unfold conforms_Orderbook; cbn [bids asks lastUpdateId];
  by rewrite Hshape1, Hshape2.


Section Fallbacks.
Context `{Engine}.

Lemma KuCoin_getMockOrderbook_returns symbol w :
  exists orderbook w',
    KuCoinAPIService.getMockOrderbook symbol w = (Ok orderbook, w')
    /\ conforms_Orderbook orderbook = true.
Proof. unfold KuCoinAPIService.getMockOrderbook. mock_orderbook_returns w. Qed.



Lemma KuCoin_getMock24hTicker_returns symbol w :
  exists ticker w',
    KuCoinAPIService.getMock24hTicker symbol w = (Ok ticker, w')
    /\ Ticker24h.conforms ticker = true.
Proof.
  unfold KuCoinAPIService.getMock24hTicker. run_reads. unfold ret.
  eexists _, _. split; reflexivity.
Qed.



Lemma KuCoin_getMockKlines_returns limit w :
  limit <= 4294967295 ->
  exists klines w',
    KuCoinAPIService.getMockKlines limit w = (Ok klines, w')
    /\ forallb Kline.conforms klines = true.
Proof.
  intros Hlimit. unfold KuCoinAPIService.getMockKlines. run_reads.
  match goal with
  | |- context [Array_from limit ?f ?w0] =>
      destruct (Array_from_returns limit f (fun _ => True)
                  (fun _ k => Kline.conforms k = true) Hlimit) with (w := w0)
        as (klines & w' & Hrun & _ & Hall); [|done|]
  end.
  - intros i w0 _ _. run_reads. unfold ret. eexists _, _. split; [reflexivity|]. by split.
  - exists klines, w'. split; [exact Hrun|]. by eapply forallb_of_Forall2.
Qed.



End Fallbacks.

Section FailedRequests.
Context `{Engine}.



Lemma KuCoin_fetchKlines_fails symbol interval limit w :
  transport_fails w ->
  exists e w1, KuCoinAPIService.fetchKlines symbol interval limit w = (Throw e, w1).
Proof. intros Hfails. unfold KuCoinAPIService.fetchKlines. transport_failure Hfails. Qed.



Lemma OKX_fetchKlines_fails symbol interval limit w :
  transport_fails w ->
  exists e w1, OKXAPIService.fetchKlines symbol interval limit w = (Throw e, w1).
Proof. intros Hfails. unfold OKXAPIService.fetchKlines. transport_failure Hfails. Qed.



Lemma Coinbase_fetchKlines_fails symbol interval limit w :
  transport_fails w ->
  exists e w1, CoinbaseAPIService.fetchKlines symbol interval limit w = (Throw e, w1).
Proof.
  intros Hfails. unfold CoinbaseAPIService.fetchKlines. run_reads.
  unfold CoinbaseAPIService.Date_toISOString.
  unfold bind at 1. destruct (_ <? _); [by eexists _, _|]. unfold ret at 1.
  unfold bind at 1. destruct (_ <? _); [by eexists _, _|]. unfold ret at 1.
  transport_failure Hfails.
Qed.

End FailedRequests.



(* ===================================================================== *)
(** * The claims on examples *)
(* ===================================================================== *)

(** C4: after [enableMockMode()], [switchToAPI('okx')] returns [true]
    and makes okx the current source, and [getIsMockMode()] still
    returns [true]. *)
Lemma switchToAPI_keeps_the_latch :
  exists s1 s2,
    APIManager.enableMockMode (exampleSystem evenDraws networkDown) = (Ok tt, s1)
    /\ APIManager.getIsMockMode s1 = (Ok true, s1)
    /\ APIManager.switchToAPI okx s1 = (Ok true, s2)
    /\ APIManager.getCurrentSource s2 = (Ok okx, s2)
    /\ APIManager.getIsMockMode s2 = (Ok true, s2).
Proof.
  eexists _, _. split; [reflexivity|]. split; [reflexivity|].
  split; [reflexivity|]. split; reflexivity.
Qed.

(** C6 on an example: kucoin has failed two probes.  A success is
    recorded for it; a probe of it succeeds; an orderbook request
    through it succeeds on the second attempt. *)
Lemma success_resets_both_counters_witness :
  let api := unreachableAdapter in
  (exists s' health',
     APIManager.updateHealth kucoin true (Some 120) strainedSystem = (Ok tt, s')
     /\ apiHealth (manager s') !! kucoin = Some health'
     /\ APIHealth.isHealthy health' = true
     /\ APIHealth.consecutiveFailures health' = 0%nat
     /\ APIHealth.errorCount health' = 0%nat)
  /\ (exists s' health',
        APIManager.healthCheck api api (flakyAdapter 0) kucoin strainedSystem = (Ok true, s')
        /\ apiHealth (manager s') !! kucoin = Some health'
        /\ APIHealth.isHealthy health' = true
        /\ APIHealth.consecutiveFailures health' = 0%nat
        /\ APIHealth.errorCount health' = 0%nat)
  /\ (exists s' health',
        APIManager.retryWithExponentialBackoff
          (Adapter.getOrderbook (flakyAdapter 1) "BTCUSDT" 20) kucoin strainedSystem
        = (Ok exampleOrderbook, s')
        /\ apiHealth (manager s') !! kucoin = Some health'
        /\ APIHealth.isHealthy health' = true
        /\ APIHealth.consecutiveFailures health' = 0%nat
        /\ APIHealth.errorCount health' = 0%nat).
Proof.
  intros api.
  assert (Htracked : exists health, apiHealth (manager strainedSystem) !! kucoin = Some health).
  { vm_compute. eexists. reflexivity. }
  destruct Htracked as [health Htracked].
  destruct (success_resets_both_counters api api (flakyAdapter 0)
              (Adapter.getOrderbook (flakyAdapter 1) "BTCUSDT" 20)
              kucoin health strainedSystem Htracked) as (Hupdate & Hprobe & Hrequest).
  split; [|split].
  - destruct (Hupdate (Some 120))
      as (s' & health' & Hrun & Hhealth & Hhealthy & Hcf & Hec & _).
    exists s', health'.
    exact (conj Hrun (conj Hhealth (conj Hhealthy (conj Hcf Hec)))).
  - apply (Hprobe exampleTicker). apply flaky_returns.
  - apply (Hrequest 1%nat exampleOrderbook).
    + vm_compute. lia.
    + intros i Hi. by apply flaky_throws.
    + apply flaky_returns.
Defined.

(** C6: kucoin has failed two probes, so its [errorCount] is 2; the
    probe that follows succeeds, and its [errorCount] is 0. *)
Lemma success_clears_errorCount :
  exists before s' after,
    apiHealth (manager strainedSystem) !! kucoin = Some before
    /\ APIHealth.errorCount before = 2%nat
    /\ APIManager.testConnection unreachableAdapter unreachableAdapter (flakyAdapter 0)
         kucoin strainedSystem = (Ok true, s')
    /\ apiHealth (manager s') !! kucoin = Some after
    /\ APIHealth.isHealthy after = true
    /\ APIHealth.consecutiveFailures after = 0%nat
    /\ APIHealth.errorCount after = 0%nat.
Proof.
  eexists _, _, _.
  split; [vm_compute; reflexivity|]. split; [reflexivity|].
  split; [vm_compute; reflexivity|]. split; [vm_compute; reflexivity|].
  split; [reflexivity|]. split; reflexivity.
Qed.





Lemma tieDraws_valid replies : valid_draws (exampleWorld tieDraws replies).
Proof.
  intros n. cbn [randomDraws exampleWorld]. unfold tieDraws.
  destruct n as [|[|[|[|n]]]]; lra.
Qed.

(** C8 on an example: the orderbook of ETHUSDT when every draw is one
    half. *)
Lemma generateOrderbook_levels_witness :
  exists orderbook w',
    MockDataService.generateOrderbook (H := exampleEngine) "ETHUSDT"
      (exampleWorld evenDraws networkDown) = (Ok orderbook, w')
    /\ length (bids orderbook) = 20%nat
    /\ length (asks orderbook) = 20%nat
    /\ (forall i a b, bids orderbook !! i = Some a -> bids orderbook !! S i = Some b ->
                      price_le (H := exampleEngine) b a)
    /\ (forall i a b, asks orderbook !! i = Some a -> asks orderbook !! S i = Some b ->
                      price_le (H := exampleEngine) a b)
    /\ (forall a b, In a (asks orderbook) -> In b (bids orderbook) ->
                    price_lt (H := exampleEngine) b a).
Proof.
  apply (generateOrderbook_levels (H := exampleEngine) "ETHUSDT"
           (exampleWorld evenDraws networkDown)).
  intros n. cbn [randomDraws exampleWorld]. unfold evenDraws. lra.
Defined.

(** C8: the draws are one half, except the draw for the price of the
    second bid level, which is one quarter.  The first two bid levels of
    the orderbook of ETHUSDT both carry the price 44970.50. *)
Lemma generateOrderbook_equal_bids :
  exists orderbook a b,
    valid_draws (exampleWorld tieDraws networkDown)
    /\ (MockDataService.generateOrderbook (H := exampleEngine) "ETHUSDT"
          (exampleWorld tieDraws networkDown)).1 = Ok orderbook
    /\ bids orderbook !! 0%nat = Some a
    /\ bids orderbook !! 1%nat = Some b
    /\ price a = VString (Fixed 2 false 4497050)
    /\ price b = VString (Fixed 2 false 4497050)
    /\ parseFloat (H := exampleEngine) (price a) = Ok (Finite (4497050 # 100))
    /\ parseFloat (H := exampleEngine) (price b) = Ok (Finite (4497050 # 100)).
Proof.
  eexists _, _, _. split; [apply tieDraws_valid|].
  split; [vm_compute; reflexivity|].
  split; [reflexivity|]. split; [reflexivity|].
  split; [reflexivity|]. split; [reflexivity|].
  split; vm_compute; reflexivity.
Qed.

(* ===================================================================== *)
(** * Properties: the publish/subscribe hubs *)
(* ===================================================================== *)

Section HubProperties.
Variable behaviour : Callback -> JSValue -> Outcome unit.

Lemma delivered_nil data hub : delivered [] data hub = hub.
Proof. destruct hub. unfold delivered. cbn. by rewrite app_nil_r. Qed.

Lemma delivered_cons c members data hub :
  delivered (c :: members) data hub = delivered members data (delivered [c] data hub).
Proof. unfold delivered. cbn. by rewrite <- app_assoc. Qed.

Lemma call_run c data hub :
  call behaviour c data hub = (behaviour c data, delivered [c] data hub).
Proof. reflexivity. Qed.

(** With the [try] around each call, every member is called. *)
Lemma forEach_isolated members data hub :
  forEach (fun callback => try_catch (call behaviour callback data) (fun error => ret tt))
          members hub
  = (Ok tt, delivered members data hub).
Proof.
  revert hub. induction members as [|c rest IH]; intros hub.
  - cbn. unfold ret. by rewrite delivered_nil.
  - cbn [forEach]. unfold bind at 1. unfold try_catch at 1. rewrite call_run.
    rewrite (delivered_cons c rest).
    destruct (behaviour c data) as [[]|e]; apply IH.
Qed.

(** Without it, every member is called when none throws ... *)
Lemma forEach_all_return members data hub :
  Forall (fun c => behaviour c data = Ok tt) members ->
  forEach (fun callback => call behaviour callback data) members hub
  = (Ok tt, delivered members data hub).
Proof.
  intros Hall. revert hub. induction Hall as [|c rest Hc Hall IH]; intros hub.
  - cbn. unfold ret. by rewrite delivered_nil.
  - cbn [forEach]. unfold bind at 1. rewrite call_run, Hc, (delivered_cons c rest). apply IH.
Qed.

(** ... and the first member that throws is the last one called. *)
Lemma forEach_stops before c after data hub e :
  Forall (fun c => behaviour c data = Ok tt) before ->
  behaviour c data = Throw e ->
  forEach (fun callback => call behaviour callback data) (before ++ c :: after) hub
  = (Throw e, delivered (before ++ [c]) data hub).
Proof.
  intros Hall Hc. revert hub. induction Hall as [|b rest Hb Hall IH]; intros hub.
  - cbn [app forEach]. unfold bind at 1. by rewrite call_run, Hc.
  - cbn [app forEach]. unfold bind at 1. rewrite call_run, Hb.
    rewrite (delivered_cons b (rest ++ [c])). apply IH.
Qed.

Lemma Enhanced_notifySubscribers_delivers channel data hub :
  EnhancedWebSocketService.notifySubscribers behaviour channel data hub
  = (Ok tt, delivered (membersOf channel hub) data hub).
Proof.
  unfold EnhancedWebSocketService.notifySubscribers, membersOf, bind, gets.
  destruct (subscribers hub !! channel) as [members|]; cbn.
  - apply forEach_isolated.
  - unfold ret. by rewrite delivered_nil.
Qed.

Lemma notifySubscribers_all_return channel data hub :
  Forall (fun c => behaviour c data = Ok tt) (membersOf channel hub) ->
  WebSocketService.notifySubscribers behaviour channel data hub
  = (Ok tt, delivered (membersOf channel hub) data hub).
Proof.
  unfold WebSocketService.notifySubscribers, membersOf, bind, gets.
  destruct (subscribers hub !! channel) as [members|]; cbn.
  - apply forEach_all_return.
  - intros _. unfold ret. by rewrite delivered_nil.
Qed.

Lemma notifySubscribers_stops channel data hub before c after e :
  membersOf channel hub = before ++ c :: after ->
  Forall (fun c => behaviour c data = Ok tt) before ->
  behaviour c data = Throw e ->
  WebSocketService.notifySubscribers behaviour channel data hub
  = (Throw e, delivered (before ++ [c]) data hub).
Proof.
  unfold WebSocketService.notifySubscribers, membersOf, bind, gets.
  destruct (subscribers hub !! channel) as [members|]; cbn.
  - intros ->. apply forEach_stops.
  - intros Hnil. by destruct before.
Qed.

End HubProperties.

(** ** Subscribing and unsubscribing *)

Lemma Set_add_elem x members : x ∈ Set_add x members.
Proof.
  unfold Set_add. case_bool_decide; [done|]. apply elem_of_app. right. by left.
Qed.


Lemma Set_add_NoDup x members : NoDup members -> NoDup (Set_add x members).
Proof.
  intros Hnd. unfold Set_add. case_bool_decide; [done|].
  apply NoDup_app. split; [done|]. split; [|apply NoDup_singleton].
  intros y Hy Hin. apply list_elem_of_singleton in Hin. by subst.
Qed.

Lemma Set_delete_not_elem x members : x ∉ Set_delete x members.
Proof. unfold Set_delete. rewrite list_elem_of_filter. by intros [? _]. Qed.

Lemma Set_delete_NoDup x members : NoDup members -> NoDup (Set_delete x members).
Proof. apply NoDup_filter. Qed.

Lemma membersOf_subscribed channel callback hub :
  membersOf channel (subscribed channel callback hub)
  = Set_add callback (membersOf channel hub).
Proof. unfold membersOf at 1, subscribed. cbn. by rewrite lookup_insert_eq. Qed.

Lemma membersOf_subscribed_ne channel other callback hub :
  channel <> other ->
  membersOf other (subscribed channel callback hub) = membersOf other hub.
Proof. intros Hne. unfold membersOf, subscribed. cbn. by rewrite lookup_insert_ne. Qed.

Lemma membersOf_unsubscribed channel callback hub :
  membersOf channel (unsubscribed channel callback hub)
  = Set_delete callback (membersOf channel hub).
Proof.
  unfold unsubscribed, membersOf.
  destruct (subscribers hub !! channel) as [members|] eqn:Hlookup; cbn.
  - destruct (Set_delete callback members) as [|c rest] eqn:Hrest; cbn.
    + by rewrite lookup_delete_eq.
    + by rewrite lookup_insert_eq.
  - by rewrite Hlookup.
Qed.


Lemma subscribed_wf channel callback hub : hub_wf hub -> hub_wf (subscribed channel callback hub).
Proof.
  intros Hwf other members. unfold subscribed. cbn.
  destruct (decide (channel = other)) as [<-|Hne].
  - rewrite lookup_insert_eq. intros [= <-]. apply Set_add_NoDup.
    unfold membersOf. destruct (subscribers hub !! channel) eqn:Hl; cbn.
    + by eapply Hwf.
    + apply NoDup_nil_2.
  - rewrite lookup_insert_ne by done. apply Hwf.
Qed.

Lemma emptyHub_wf : hub_wf emptyHub.
Proof. intros channel members. unfold emptyHub. cbn. by rewrite lookup_empty. Qed.

Lemma Enhanced_subscribe_run channel callback hub :
  EnhancedWebSocketService.subscribe channel callback hub
  = (Ok (EnhancedWebSocketService.unsubscribe channel callback),
     subscribed channel callback hub).
Proof.
  unfold EnhancedWebSocketService.subscribe, subscribed, membersOf, bind, gets, modify, ret.
  destruct (subscribers hub !! channel) as [members|] eqn:Hlookup; cbn.
  - by rewrite Hlookup.
  - by rewrite lookup_insert_eq, insert_insert_eq.
Qed.

Lemma subscribe_run channel callback hub :
  WebSocketService.subscribe channel callback hub
  = (Ok (WebSocketService.unsubscribe channel callback), subscribed channel callback hub).
Proof.
  unfold WebSocketService.subscribe, subscribed, membersOf, bind, gets, modify, ret.
  destruct (subscribers hub !! channel) as [members|] eqn:Hlookup; cbn.
  - by rewrite Hlookup.
  - by rewrite lookup_insert_eq, insert_insert_eq.
Qed.

Lemma Enhanced_unsubscribe_run channel callback hub :
  EnhancedWebSocketService.unsubscribe channel callback hub
  = (Ok tt, unsubscribed channel callback hub).
Proof.
  unfold EnhancedWebSocketService.unsubscribe, unsubscribed, bind, gets, modify, ret.
  destruct (subscribers hub !! channel) as [members|]; [|done].
  by destruct (Set_delete callback members).
Qed.

Lemma unsubscribe_run channel callback hub :
  WebSocketService.unsubscribe channel callback hub
  = (Ok tt, unsubscribed channel callback hub).
Proof.
  unfold WebSocketService.unsubscribe, unsubscribed, bind, gets, modify, ret.
  destruct (subscribers hub !! channel) as [members|]; [|done].
  by destruct (Set_delete callback members).
Qed.



(** C9.  [EnhancedWebSocketService.notifySubscribers] calls every
    subscriber of the channel and returns, whatever the subscribers do.
    [WebSocketService.notifySubscribers] does so when no subscriber
    throws; otherwise the first subscriber that throws is the last one
    it calls, and its exception leaves [notifySubscribers].  With the
    subscribers 0 and 1 of [orderbook], of which 0 throws, it calls 0
    and does not call 1. *)
Theorem publish_with_a_throwing_subscriber :
  (forall behaviour channel data hub,
     reaches_every_subscriber (EnhancedWebSocketService.notifySubscribers behaviour)
       channel data hub)
  /\ (forall behaviour channel data hub,
        Forall (fun c => behaviour c data = Ok tt) (membersOf channel hub) ->
        reaches_every_subscriber (WebSocketService.notifySubscribers behaviour)
          channel data hub)
  /\ (forall behaviour channel data hub before c after e,
        membersOf channel hub = before ++ c :: after ->
        Forall (fun c => behaviour c data = Ok tt) before ->
        behaviour c data = Throw e ->
        WebSocketService.notifySubscribers behaviour channel data hub
        = (Throw e, delivered (before ++ [c]) data hub))
  /\ (exists hub,
        (let* _ := WebSocketService.subscribe "orderbook" 0%nat in
         let* _ := WebSocketService.subscribe "orderbook" 1%nat in
         WebSocketService.notifySubscribers faulty "orderbook" VNull) emptyHub
        = (Throw (Error "subscriber failed"), hub)
        /\ membersOf "orderbook" hub = [0%nat; 1%nat]
        /\ calls hub = [(0%nat, VNull)]).
Proof.
  split; [|split; [|split]].
  - intros. apply Enhanced_notifySubscribers_delivers.
  - intros. by apply notifySubscribers_all_return.
  - intros. by eapply notifySubscribers_stops.
  - eexists. split; [vm_compute; reflexivity|]. split; vm_compute; reflexivity.
Qed.


(* ===================================================================== *)
(** * Further properties: what probing and requesting do to the manager *)
(* ===================================================================== *)

Lemma evolves_refl m : evolves m m.
Proof. apply rtc_refl. Qed.

Lemma evolves_trans m1 m2 m3 : evolves m1 m2 -> evolves m2 m3 -> evolves m1 m3.
Proof. apply rtc_trans. Qed.

Lemma evolves_step m1 m2 : manager_step m1 m2 -> evolves m1 m2.
Proof. apply rtc_once. Qed.

(** A property that every step keeps is kept. *)
Lemma evolves_keeps (P : APIManagerService -> Prop) m m' :
  (forall m1 m2, manager_step m1 m2 -> P m1 -> P m2) ->
  evolves m m' -> P m -> P m'.
Proof. intros Hstep Hev. induction Hev; eauto. Qed.

Lemma evolves_retryConfig m m' : evolves m m' -> retryConfig m' = retryConfig m.
Proof.
  intros Hev. apply (evolves_keeps (fun m0 => retryConfig m0 = retryConfig m) m m'); [|done..].
  intros m1 m2 Hstep <-. by destruct Hstep.
Qed.

Section Evolution.
Context `{Engine}.
Variables coinbaseAPI okxAPI kucoinAPI : Adapter.t.

(** [updateHealth] never throws and leaves the world one reading of the
    clock later at most; it touches neither the trace nor the world
    beyond that. *)
Lemma updateHealth_evolves source isHealthy responseTime s :
  exists s',
    APIManager.updateHealth source isHealthy responseTime s = (Ok tt, s')
    /\ evolves (manager s) (manager s')
    /\ trace s' = trace s.
Proof.
  unfold APIManager.updateHealth, bind, gets.
  destruct (apiHealth (manager s) !! source) as [health|] eqn:Hlookup.
  - unfold liftIO, update_manager, modify. cbn [Date_now fst snd world manager trace].
    fold (updatedHealth health isHealthy responseTime
            (timeReadings (world s) (timeCursor (world s)))).
    pose proof (step_record source health isHealthy responseTime
                  (timeReadings (world s) (timeCursor (world s))) _ Hlookup) as Hstep.
    destruct (_ <=? _)%nat.
    + unfold APIManager.checkAndEnableMockFallback, bind, gets. cbn [manager].
      destruct (APIManager.allUnhealthy _ && negb _) eqn:Hall.
      * eexists. split; [reflexivity|]. cbn [manager trace]. split; [|done].
        apply andb_true_iff in Hall as [Hall _].
        eapply evolves_trans; [by apply evolves_step|].
        by apply evolves_step, step_raise.
      * eexists. split; [reflexivity|]. cbn [manager trace].
        split; [by apply evolves_step|done].
    + eexists. split; [reflexivity|]. cbn [manager trace].
      split; [by apply evolves_step|done].
  - eexists. split; [reflexivity|]. split; [apply evolves_refl|done].
Qed.

(** A probe never throws, whatever the adapter does, and calls the
    adapter once. *)
Lemma healthCheck_evolves source s :
  exists ok s',
    APIManager.healthCheck coinbaseAPI okxAPI kucoinAPI source s = (Ok ok, s')
    /\ evolves (manager s) (manager s')
    /\ delays (trace s') = delays (trace s)
    /\ invocations (trace s') = S (invocations (trace s)).
Proof.
  unfold APIManager.healthCheck, try_catch.
  unfold bind at 1. unfold liftIO at 1. cbn [Date_now].
  unfold bind at 1.
  match goal with
  | |- context [invoke ?op ?n ?st] =>
      destruct (op n (world st)) as [o w'] eqn:Hop;
      rewrite (invoke_run op n st o w' Hop)
  end.
  destruct o as [ticker|e].
  - unfold bind at 1. unfold liftIO at 1. cbn [Date_now world].
    unfold bind at 1.
    match goal with
    | |- context [APIManager.updateHealth ?src ?ok ?rt ?st] =>
        destruct (updateHealth_evolves src ok rt st) as (s1 & Hrun & Hev & Htrace)
    end.
    rewrite Hrun. unfold ret. eexists _, _. split; [reflexivity|].
    split; [exact Hev|]. rewrite Htrace. by cbn.
  - unfold bind at 1.
    match goal with
    | |- context [APIManager.updateHealth ?src ?ok ?rt ?st] =>
        destruct (updateHealth_evolves src ok rt st) as (s1 & Hrun & Hev & Htrace)
    end.
    rewrite Hrun. unfold ret. eexists _, _. split; [reflexivity|].
    split; [exact Hev|]. rewrite Htrace. by cbn.
Qed.

(** The retry loop on any operation: it calls the operation [k] times,
    at least once and at most as often as attempts remain, and awaits
    the first [k - 1] delays of the schedule between the calls. *)
Lemma retryLoop_outcome {T} (operation : Operation T) source remaining :
  forall attempt s,
  (attempt + remaining = maxRetries (retryConfig (manager s)))%nat ->
  exists o s' k,
    APIManager.retryLoop operation source remaining attempt s = (o, s')
    /\ evolves (manager s) (manager s')
    /\ (k <= remaining)%nat
    /\ ((0 < remaining)%nat -> (0 < k)%nat)
    /\ invocations (trace s') = (invocations (trace s) + k)%nat
    /\ delays (trace s')
       = delays (trace s)
         ++ map (APIManager.backoffDelay (retryConfig (manager s))) (seq attempt (k - 1)).
Proof.
  induction remaining as [|rem IH]; intros attempt s Hcount.
  - exists (Throw (Error "Max retries exceeded")), s, 0%nat.
    split; [reflexivity|]. split; [apply evolves_refl|].
    split; [lia|]. split; [lia|]. split; [lia|]. cbn. by rewrite app_nil_r.
  - cbn [APIManager.retryLoop]. unfold bind at 1. unfold try_catch. unfold bind at 1.
    destruct (operation attempt (world s)) as [o w'] eqn:Hop.
    rewrite (invoke_run _ _ _ _ _ Hop).
    destruct o as [v|e].
    + unfold bind at 1.
      match goal with
      | |- context [APIManager.updateHealth ?src ?ok ?rt ?st] =>
          destruct (updateHealth_evolves src ok rt st) as (s1 & Hrun & Hev & Htrace)
      end.
      rewrite Hrun. unfold ret. exists (Ok v), s1, 1%nat.
      split; [reflexivity|]. split; [exact Hev|].
      split; [lia|]. split; [lia|]. rewrite Htrace. cbn [trace invocations delays seq map Nat.sub].
      split; [lia|]. by rewrite app_nil_r.
    + unfold bind at 1.
      match goal with
      | |- context [APIManager.updateHealth ?src ?ok ?rt ?st] =>
          destruct (updateHealth_evolves src ok rt st) as (s1 & Hrun & Hev & Htrace)
      end.
      rewrite Hrun. unfold bind at 1. unfold gets at 1. cbn [manager] in Hev.
      pose proof (evolves_retryConfig _ _ Hev) as Hcfg. rewrite Hcfg.
      destruct (Z.of_nat attempt =? Z.of_nat (maxRetries (retryConfig (manager s))) - 1)
        eqn:Hlast.
      * unfold throw. exists (Throw e), s1, 1%nat.
        split; [reflexivity|]. split; [exact Hev|].
        split; [lia|]. split; [lia|]. rewrite Htrace.
        cbn [trace invocations delays seq map Nat.sub].
        split; [lia|]. by rewrite app_nil_r.
      * apply Z.eqb_neq in Hlast.
        unfold bind at 1. unfold sleep, update_trace, modify, ret.
        match goal with
        | |- context [APIManager.retryLoop _ _ rem (S attempt) ?st] =>
            destruct (IH (S attempt) st) as (o & s' & k & Hloop & Hev' & Hk & Hpos & Hinv & Hdel)
        end.
        { cbn [manager]. rewrite Hcfg. lia. }
        cbn [manager trace delays invocations] in Hev', Hinv, Hdel.
        rewrite Hcfg in Hdel. rewrite Htrace in Hinv, Hdel.
        cbn [trace delays invocations] in Hinv, Hdel.
        assert (0 < k)%nat as Hk1 by (apply Hpos; lia).
        exists o, s', (S k). split; [exact Hloop|].
        split; [by eapply evolves_trans|].
        split; [lia|]. split; [lia|]. split; [lia|].
        rewrite Hdel, <- app_assoc. f_equal.
        replace (S k - 1)%nat with (S (k - 1)) by lia. reflexivity.
Qed.

(** [retryWithExponentialBackoff] on any operation. *)
Lemma retry_outcome {T} (operation : Operation T) source s :
  exists o s' k,
    APIManager.retryWithExponentialBackoff operation source s = (o, s')
    /\ evolves (manager s) (manager s')
    /\ (k <= maxRetries (retryConfig (manager s)))%nat
    /\ (forall v, o = Ok v -> (0 < k)%nat)
    /\ (apiHealth (manager s) !! source = None -> k = 0%nat /\ s' = s)
    /\ invocations (trace s') = (invocations (trace s) + k)%nat
    /\ delays (trace s')
       = delays (trace s)
         ++ map (APIManager.backoffDelay (retryConfig (manager s))) (seq 0 (k - 1)).
Proof.
  unfold APIManager.retryWithExponentialBackoff, bind, gets.
  destruct (apiHealth (manager s) !! source) as [health|] eqn:Hlookup.
  - destruct (retryLoop_outcome operation source (maxRetries (retryConfig (manager s))) 0 s)
      as (o & s' & k & Hloop & Hev & Hk & Hpos & Hinv & Hdel); [lia|].
    exists o, s', k. split; [exact Hloop|]. split; [exact Hev|]. split; [exact Hk|].
    split.
    { intros v ->. apply Hpos.
      destruct (maxRetries (retryConfig (manager s))); [discriminate Hloop|lia]. }
    split; [done|]. by split.
  - eexists _, s, 0%nat. split; [reflexivity|]. split; [apply evolves_refl|].
    split; [lia|]. split; [done|]. split; [done|]. split; [lia|]. cbn. by rewrite app_nil_r.
Qed.

(** The pattern of the three data calls, on any adapters. *)
Lemma dataCall_outcome {T} (operationOf : Adapter.t -> Operation T) (generate : IO T)
    (shape : T -> T) s :
  exists o s' k,
    dataCall coinbaseAPI okxAPI kucoinAPI operationOf generate shape s = (o, s')
    /\ evolves (manager s) (manager s')
    /\ (k <= maxRetries (retryConfig (manager s)))%nat
    /\ invocations (trace s') = (invocations (trace s) + k)%nat
    /\ delays (trace s')
       = delays (trace s)
         ++ map (APIManager.backoffDelay (retryConfig (manager s))) (seq 0 (k - 1))
    /\ (fallbackToMock (manager s) = true -> k = 0%nat /\ manager s' = manager s)
    /\ (apiHealth (manager s) !! currentSource (manager s) = None ->
        k = 0%nat /\ manager s' = set_currentSource (currentSource (manager s)) (manager s))
    /\ ((forall w, exists v w', generate w = (Ok v, w')) ->
        exists result,
          o = Ok result
          /\ (source result = mock \/ source result = currentSource (manager s))
          /\ (k = 0%nat -> source result = mock)).
Proof.
  unfold dataCall. unfold bind at 1. unfold gets at 1.
  destruct (fallbackToMock (manager s)) eqn:Hmock.
  - unfold bind, liftIO, ret. destruct (generate (world s)) as [o w] eqn:Hgen.
    destruct o as [v|e].
    + eexists _, _, 0%nat. split; [reflexivity|]. cbn [manager trace].
      split; [apply evolves_refl|]. split; [lia|]. split; [lia|].
      split; [cbn; by rewrite app_nil_r|]. split; [done|].
      split; [intros _; split; [done|by destruct (manager s)]|].
      intros _. eexists. split; [reflexivity|]. cbn. by split; [left|].
    + eexists _, _, 0%nat. split; [reflexivity|]. cbn [manager trace].
      split; [apply evolves_refl|]. split; [lia|]. split; [lia|].
      split; [cbn; by rewrite app_nil_r|]. split; [done|].
      split; [intros _; split; [done|by destruct (manager s)]|].
      intros Htotal. destruct (Htotal (world s)) as (v & w' & Hv). congruence.
  - unfold try_catch. unfold bind at 1. unfold gets at 1.
    unfold bind at 1. unfold APIManager.getAPIForSource at 1.
    unfold bind at 1. unfold update_manager, modify, ret.
    unfold bind at 1.
    match goal with
    | |- context [APIManager.retryWithExponentialBackoff ?op ?src ?st] =>
        destruct (retry_outcome op src st)
          as (o & s1 & k & Hrun & Hev & Hk & Hpos & Hnone & Hinv & Hdel)
    end.
    cbn [manager trace retryConfig set_currentSource apiHealth] in Hev, Hk, Hnone, Hinv, Hdel.
    rewrite Hrun.
    assert (Hev0 : evolves (manager s) (manager s1)).
    { eapply evolves_trans; [|exact Hev]. apply evolves_step, step_select. }
    destruct o as [v|e].
    + eexists _, s1, k. split; [reflexivity|]. split; [exact Hev0|].
      split; [exact Hk|]. split; [exact Hinv|]. split; [exact Hdel|].
      split; [done|].
      split; [intros Hu; destruct (Hnone Hu) as [-> ->]; by split|].
      intros _. eexists. split; [reflexivity|]. cbn. split; [by right|].
      intros ->. specialize (Hpos v eq_refl). lia.
    + unfold bind at 1. unfold liftIO.
      destruct (generate (world s1)) as [o w] eqn:Hgen.
      destruct o as [v|e'].
      * eexists _, _, k. split; [reflexivity|]. cbn [manager trace].
        split; [exact Hev0|]. split; [exact Hk|]. split; [exact Hinv|]. split; [exact Hdel|].
        split; [done|].
        split; [intros Hu; destruct (Hnone Hu) as [-> ->]; by split|].
        intros _. eexists. split; [reflexivity|]. cbn. by split; [left|].
      * eexists _, _, k. split; [reflexivity|]. cbn [manager trace].
        split; [exact Hev0|]. split; [exact Hk|]. split; [exact Hinv|]. split; [exact Hdel|].
        split; [done|].
        split; [intros Hu; destruct (Hnone Hu) as [-> ->]; by split|].
        intros Htotal. destruct (Htotal (world s1)) as (v & w' & Hv). congruence.
Qed.

(** What each call of a public method does to the manager. *)
Lemma perform_cases request s :
  exists o s',
    perform coinbaseAPI okxAPI kucoinAPI request s = (o, s')
    /\ match request with
       | ForceSwitch source =>
           manager s' = set_fallbackToMock false (set_currentSource source (manager s))
       | EnableMockMode => manager s' = set_fallbackToMock true (manager s)
       | DisableMockMode => manager s' = set_fallbackToMock false (manager s)
       | _ => evolves (manager s) (manager s')
       end.
Proof.
  destruct request as [symbol limit|symbol|symbol interval limit|source|source|source| |];
    cbn [perform].
  - rewrite getOrderbook_dataCall.
    match goal with
    | |- context [dataCall _ _ _ ?op ?gen ?shape] =>
        destruct (dataCall_outcome op gen shape s) as (o & s' & k & Hrun & Hev & _)
    end.
    unfold bind. rewrite Hrun. destruct o; eexists _, _; (split; [reflexivity|exact Hev]).
  - rewrite get24hTicker_dataCall.
    match goal with
    | |- context [dataCall _ _ _ ?op ?gen ?shape] =>
        destruct (dataCall_outcome op gen shape s) as (o & s' & k & Hrun & Hev & _)
    end.
    unfold bind. rewrite Hrun. destruct o; eexists _, _; (split; [reflexivity|exact Hev]).
  - rewrite getKlines_dataCall.
    match goal with
    | |- context [dataCall _ _ _ ?op ?gen ?shape] =>
        destruct (dataCall_outcome op gen shape s) as (o & s' & k & Hrun & Hev & _)
    end.
    unfold bind. rewrite Hrun. destruct o; eexists _, _; (split; [reflexivity|exact Hev]).
  - unfold APIManager.testConnection.
    destruct (healthCheck_evolves source s) as (ok & s' & Hrun & Hev & _).
    unfold bind. rewrite Hrun. eexists _, _. split; [reflexivity|exact Hev].
  - unfold APIManager.switchToAPI, bind, gets.
    destruct (bool_decide _); eexists _, _; (split; [reflexivity|]); cbn [manager].
    + apply evolves_step, step_select.
    + apply evolves_refl.
  - eexists _, _. split; reflexivity.
  - eexists _, _. split; reflexivity.
  - eexists _, _. split; reflexivity.
Qed.

(** A property of the manager that every step keeps, and that does not
    depend on the fall-back flag, holds after any sequence of calls. *)
Lemma after_keeps (P : APIManagerService -> Prop) requests s :
  (forall m1 m2, manager_step m1 m2 -> P m1 -> P m2) ->
  (forall b source m, P m -> P (set_fallbackToMock b m) /\ P (set_currentSource source m)) ->
  P (manager s) ->
  P (manager (after coinbaseAPI okxAPI kucoinAPI requests s)).
Proof.
  intros Hstep Hflag. revert s.
  induction requests as [|request requests IH]; intros s HP; [exact HP|].
  cbn [after foldl]. apply IH. unfold exec.
  destruct (perform_cases request s) as (o & s' & Hrun & Hcase). rewrite Hrun. cbn [snd].
  destruct request as [? ?|?|? ? ?|?|?|src| |]; try (by eapply evolves_keeps); rewrite Hcase.
  - apply (Hflag false src). by apply (Hflag false src).
  - by apply (Hflag true coinbase).
  - by apply (Hflag false coinbase).
Qed.

End Evolution.






Section AggregatorInvariants.
Context `{Engine}.
Variables coinbaseAPI okxAPI kucoinAPI : Adapter.t.



End AggregatorInvariants.

Lemma fallbackToMock_step m1 m2 :
  manager_step m1 m2 -> fallbackToMock m1 = true -> fallbackToMock m2 = true.
Proof. intros Hstep Hflag. by destruct Hstep. Qed.

Section AggregatorRequests.
Context `{Engine}.
Variables coinbaseAPI okxAPI kucoinAPI : Adapter.t.

(** X3.  The fall-back mode is a latch: once it is enabled, it is still
    enabled after any sequence of calls of the public methods other than
    [forceSwitch] and [disableMockMode], whatever the adapters do (a
    successful probe or request does not disable it). *)
Theorem latch_is_one_way requests s :
  forallb (fun request => negb (resets_latch request)) requests = true ->
  fallbackToMock (manager s) = true ->
  fallbackToMock (manager (after coinbaseAPI okxAPI kucoinAPI requests s)) = true.
Proof.
  revert s. induction requests as [|request requests IH]; intros s Hall Hflag; [exact Hflag|].
  cbn [forallb] in Hall. apply andb_true_iff in Hall as [Hkeep Hall].
  cbn [after foldl]. apply IH; [exact Hall|]. unfold exec.
  destruct (perform_cases coinbaseAPI okxAPI kucoinAPI request s) as (o & s' & Hrun & Hcase).
  rewrite Hrun. cbn [snd].
  destruct request; try discriminate Hkeep;
    try (eapply (evolves_keeps (fun m => fallbackToMock m = true));
         [apply fallbackToMock_step|exact Hcase|exact Hflag]).
  by rewrite Hcase.
Qed.

(** X4.  The data calls never throw, whatever the adapters do and
    whatever the state of the aggregator: each returns a result, tagged
    [mock] or with the source that was current when it was called.
    ([getKlines] for a count that is an array length.) *)
Theorem data_calls_always_answer symbol interval limit s :
  (exists result s',
     APIManager.getOrderbook coinbaseAPI okxAPI kucoinAPI symbol limit s = (Ok result, s')
     /\ (source result = mock \/ source result = currentSource (manager s)))
  /\ (exists result s',
        APIManager.get24hTicker coinbaseAPI okxAPI kucoinAPI symbol s = (Ok result, s')
        /\ (source result = mock \/ source result = currentSource (manager s)))
  /\ (limit <= 4294967295 ->
      exists result s',
        APIManager.getKlines coinbaseAPI okxAPI kucoinAPI symbol interval limit s
        = (Ok result, s')
        /\ (source result = mock \/ source result = currentSource (manager s))).
Proof.
  split; [|split].
  - rewrite getOrderbook_dataCall.
    match goal with
    | |- context [dataCall _ _ _ ?op ?gen ?shape] =>
        destruct (dataCall_outcome coinbaseAPI okxAPI kucoinAPI op gen shape s)
          as (o & s' & k & Hrun & _ & _ & _ & _ & _ & _ & Hok)
    end.
    destruct Hok as (result & -> & Hsource & _).
    { intros w. destruct (generateOrderbook_returns symbol w) as (v & w' & Hv & _). eauto. }
    by exists result, s'.
  - rewrite get24hTicker_dataCall.
    match goal with
    | |- context [dataCall _ _ _ ?op ?gen ?shape] =>
        destruct (dataCall_outcome coinbaseAPI okxAPI kucoinAPI op gen shape s)
          as (o & s' & k & Hrun & _ & _ & _ & _ & _ & _ & Hok)
    end.
    destruct Hok as (result & -> & Hsource & _).
    { intros w. destruct (generate24hTicker_returns symbol w) as (v & w' & Hv & _). eauto. }
    by exists result, s'.
  - intros Hlimit. rewrite getKlines_dataCall.
    match goal with
    | |- context [dataCall _ _ _ ?op ?gen ?shape] =>
        destruct (dataCall_outcome coinbaseAPI okxAPI kucoinAPI op gen shape s)
          as (o & s' & k & Hrun & _ & _ & _ & _ & _ & _ & Hok)
    end.
    destruct Hok as (result & -> & Hsource & _).
    { intros w.
      destruct (generateKlines_returns symbol interval limit w Hlimit) as (v & w' & Hv & _).
      eauto. }
    by exists result, s'.
Qed.

End AggregatorRequests.

Section AggregatorEffort.
Context `{Engine}.
Variables coinbaseAPI okxAPI kucoinAPI : Adapter.t.

Lemma data_request_effort request s :
  is_data_request request = true ->
  exists o s' k,
    perform coinbaseAPI okxAPI kucoinAPI request s = (o, s')
    /\ effort_within (retryConfig (manager s)) s s' k.
Proof.
  destruct request as [symbol limit|symbol|symbol interval limit| | | | |];
    try discriminate; intros _; cbn [perform].
  - rewrite getOrderbook_dataCall.
    match goal with
    | |- context [dataCall _ _ _ ?op ?gen ?shape] =>
        destruct (dataCall_outcome coinbaseAPI okxAPI kucoinAPI op gen shape s)
          as (o & s' & k & Hrun & _ & Hk & Hinv & Hdel & _)
    end.
    unfold bind. rewrite Hrun. destruct o; eexists _, s', k; by split.
  - rewrite get24hTicker_dataCall.
    match goal with
    | |- context [dataCall _ _ _ ?op ?gen ?shape] =>
        destruct (dataCall_outcome coinbaseAPI okxAPI kucoinAPI op gen shape s)
          as (o & s' & k & Hrun & _ & Hk & Hinv & Hdel & _)
    end.
    unfold bind. rewrite Hrun. destruct o; eexists _, s', k; by split.
  - rewrite getKlines_dataCall.
    match goal with
    | |- context [dataCall _ _ _ ?op ?gen ?shape] =>
        destruct (dataCall_outcome coinbaseAPI okxAPI kucoinAPI op gen shape s)
          as (o & s' & k & Hrun & _ & Hk & Hinv & Hdel & _)
    end.
    unfold bind. rewrite Hrun. destruct o; eexists _, s', k; by split.
Qed.

(** The retry configuration of an aggregator that was constructed and
    has served calls since. *)
Lemma after_constructed_retryConfig requests w :
  retryConfig (manager (after coinbaseAPI okxAPI kucoinAPI requests (constructed w)))
  = APIManager.defaultRetryConfig.
Proof.
  apply (after_keeps coinbaseAPI okxAPI kucoinAPI
           (fun m => retryConfig m = APIManager.defaultRetryConfig)).
  - intros m1 m2 Hstep Hc. by destruct Hstep.
  - intros b source m Hc. by split.
  - reflexivity.
Qed.

(** X5.  A data call, whatever the adapters do, calls an operation of an
    adapter at most [maxRetries] times and awaits exactly the first
    [k - 1] delays of the schedule [min(baseDelay * 2^i, maxDelay)] when
    it made [k] calls.  On an aggregator that was newly constructed and
    has served any sequence of calls since, this is at most 3 calls and
    the delays awaited are none, 1000 ms, or 1000 ms and 2000 ms: at
    most 3000 ms in all. *)
Theorem data_call_effort_is_bounded request :
  is_data_request request = true ->
  (forall s, exists o s' k,
     perform coinbaseAPI okxAPI kucoinAPI request s = (o, s')
     /\ effort_within (retryConfig (manager s)) s s' k)
  /\ (forall requests w,
      let s := after coinbaseAPI okxAPI kucoinAPI requests (constructed w) in
      exists o s' awaited,
        perform coinbaseAPI okxAPI kucoinAPI request s = (o, s')
        /\ (invocations (trace s') <= invocations (trace s) + 3)%nat
        /\ delays (trace s') = delays (trace s) ++ awaited
        /\ (awaited = [] \/ awaited = [1000] \/ awaited = [1000; 2000])
        /\ totalDelay awaited <= 3000).
Proof.
  intros Hdata. split; [intros s; by apply data_request_effort|].
  intros requests w s.
  destruct (data_request_effort request s Hdata) as (o & s' & k & Hrun & Hk & Hinv & Hdel).
  pose proof (after_constructed_retryConfig requests w) as Hconfig.
  fold s in Hconfig. rewrite Hconfig in Hk, Hdel. cbn [maxRetries APIManager.defaultRetryConfig] in Hk.
  exists o, s', (map (APIManager.backoffDelay APIManager.defaultRetryConfig) (seq 0 (k - 1))).
  split; [exact Hrun|]. split; [lia|]. split; [exact Hdel|].
  destruct k as [|[|[|[|k]]]]; try lia; (split; [vm_compute; tauto|by vm_compute]).
Qed.

End AggregatorEffort.

Lemma set_currentSource_same m : set_currentSource (currentSource m) m = m.
Proof. by destruct m. Qed.

Section UntrackedSource.
Context `{Engine}.
Variables coinbaseAPI okxAPI kucoinAPI : Adapter.t.

(** X6.  [forceSwitch] accepts a source that has no health record
    ([mock], on an aggregator as constructed).  Afterwards
    [getIsMockMode()] returns [false], and yet each data call returns
    generator data tagged [mock] without calling an operation of an
    adapter, without awaiting a delay and without touching the manager.
    ([getKlines] for a count that is an array length.) *)
Theorem untracked_source_is_served_by_the_generator src symbol interval limit s :
  apiHealth (manager s) !! src = None ->
  exists s1,
    APIManager.forceSwitch src s = (Ok tt, s1)
    /\ APIManager.getIsMockMode s1 = (Ok false, s1)
    /\ APIManager.getCurrentSource s1 = (Ok src, s1)
    /\ (exists result s',
          APIManager.getOrderbook coinbaseAPI okxAPI kucoinAPI symbol limit s1
          = (Ok result, s')
          /\ source result = mock
          /\ trace s' = trace s1 /\ manager s' = manager s1)
    /\ (exists result s',
          APIManager.get24hTicker coinbaseAPI okxAPI kucoinAPI symbol s1 = (Ok result, s')
          /\ source result = mock
          /\ trace s' = trace s1 /\ manager s' = manager s1)
    /\ (limit <= 4294967295 ->
        exists result s',
          APIManager.getKlines coinbaseAPI okxAPI kucoinAPI symbol interval limit s1
          = (Ok result, s')
          /\ source result = mock
          /\ trace s' = trace s1 /\ manager s' = manager s1).
Proof.
  intros Hnone. eexists. split; [reflexivity|]. split; [reflexivity|]. split; [reflexivity|].
  set (s1 := {| manager := _ |}).
  assert (Hnone1 : apiHealth (manager s1) !! currentSource (manager s1) = None) by exact Hnone.
  assert (Hsame : forall s' : System,
             delays (trace s') = delays (trace s1) ++ [] ->
             invocations (trace s') = (invocations (trace s1) + 0)%nat ->
             trace s' = trace s1).
  { intros s' Hd Hi. rewrite app_nil_r in Hd. rewrite Nat.add_0_r in Hi.
    destruct (trace s'), (trace s1). cbn in *. by subst. }
  split; [|split].
  - rewrite getOrderbook_dataCall.
    match goal with
    | |- context [dataCall _ _ _ ?op ?gen ?shape] =>
        destruct (dataCall_outcome coinbaseAPI okxAPI kucoinAPI op gen shape s1)
          as (o & s' & k & Hrun & _ & _ & Hinv & Hdel & _ & Huntracked & Hok)
    end.
    destruct (Huntracked Hnone1) as [-> Hmanager].
    destruct Hok as (result & -> & _ & Hsource).
    { intros w. destruct (generateOrderbook_returns symbol w) as (v & w' & Hv & _). eauto. }
    exists result, s'. split; [exact Hrun|]. split; [by apply Hsource|].
    split; [by apply Hsame|]. by rewrite Hmanager, set_currentSource_same.
  - rewrite get24hTicker_dataCall.
    match goal with
    | |- context [dataCall _ _ _ ?op ?gen ?shape] =>
        destruct (dataCall_outcome coinbaseAPI okxAPI kucoinAPI op gen shape s1)
          as (o & s' & k & Hrun & _ & _ & Hinv & Hdel & _ & Huntracked & Hok)
    end.
    destruct (Huntracked Hnone1) as [-> Hmanager].
    destruct Hok as (result & -> & _ & Hsource).
    { intros w. destruct (generate24hTicker_returns symbol w) as (v & w' & Hv & _). eauto. }
    exists result, s'. split; [exact Hrun|]. split; [by apply Hsource|].
    split; [by apply Hsame|]. by rewrite Hmanager, set_currentSource_same.
  - intros Hlimit. rewrite getKlines_dataCall.
    match goal with
    | |- context [dataCall _ _ _ ?op ?gen ?shape] =>
        destruct (dataCall_outcome coinbaseAPI okxAPI kucoinAPI op gen shape s1)
          as (o & s' & k & Hrun & _ & _ & Hinv & Hdel & _ & Huntracked & Hok)
    end.
    destruct (Huntracked Hnone1) as [-> Hmanager].
    destruct Hok as (result & -> & _ & Hsource).
    { intros w.
      destruct (generateKlines_returns symbol interval limit w Hlimit) as (v & w' & Hv & _).
      eauto. }
    exists result, s'. split; [exact Hrun|]. split; [by apply Hsource|].
    split; [by apply Hsame|]. by rewrite Hmanager, set_currentSource_same.
Qed.

(** X7.  A probe of a source that has no health record calls
    [get24hTicker('BTCUSDT')] of the adapter [getAPIService] selects for
    it (the KuCoin adapter for [mock]) once, returns [true] exactly when
    that call returns, and records nothing: the manager is left as it
    was. *)
Theorem probe_of_untracked_source source s :
  apiHealth (manager s) !! source = None ->
  exists ok s',
    APIManager.testConnection coinbaseAPI okxAPI kucoinAPI source s = (Ok ok, s')
    /\ manager s' = manager s
    /\ invocations (trace s') = S (invocations (trace s))
    /\ (ok = true <->
        exists ticker w',
          Adapter.get24hTicker (APIManager.getAPIService coinbaseAPI okxAPI kucoinAPI source)
            "BTCUSDT" 0%nat (afterReading (world s)) = (Ok ticker, w'))
    /\ APIManager.getAPIService coinbaseAPI okxAPI kucoinAPI mock = kucoinAPI.
Proof.
  intros Hnone. unfold APIManager.testConnection, APIManager.healthCheck, try_catch.
  unfold bind at 1. unfold liftIO at 1. cbn [Date_now].
  unfold bind at 1.
  match goal with
  | |- context [invoke ?op ?n ?st] =>
      destruct (op n (world st)) as [o w'] eqn:Hop;
      rewrite (invoke_run op n st o w' Hop)
  end.
  cbn [world] in Hop. rewrite Hop.
  destruct o as [ticker|e].
  - unfold bind at 1. unfold liftIO at 1. cbn [Date_now world].
    unfold bind at 1. rewrite updateHealth_untracked by exact Hnone.
    unfold ret. eexists _, _. split; [reflexivity|]. cbn [manager trace invocations].
    split; [done|]. split; [done|]. split; [|done]. split; [by eexists _, _|done].
  - unfold bind at 1. rewrite updateHealth_untracked by exact Hnone.
    unfold ret. eexists _, _. split; [reflexivity|]. cbn [manager trace invocations].
    split; [done|]. split; [done|]. split; [|done].
    split; [done|]. by intros (ticker & w1 & [=]).
Qed.

End UntrackedSource.

(** ** The further properties of the aggregator on examples *)

(** X3 on an example: in fall-back mode, a successful probe, a data call,
    a plain switch and [enableMockMode] leave the mode enabled. *)
Lemma latch_is_one_way_witness :
  let api := flakyAdapter 0 in
  let s := exec APIManager.enableMockMode (constructed (exampleWorld evenDraws networkDown)) in
  fallbackToMock
    (manager (after (H := exampleEngine) api api api
                [TestConnection coinbase; GetOrderbook "BTCUSDT" 20; SwitchToAPI okx;
                 EnableMockMode] s)) = true.
Proof.
  intros api s. apply (latch_is_one_way (H := exampleEngine)); reflexivity.
Defined.

(** X5 on an example: an orderbook request over unreachable adapters,
    after a probe of okx. *)
Lemma data_call_effort_is_bounded_witness :
  let api := unreachableAdapter in
  let s := after (H := exampleEngine) api api api [TestConnection okx]
             (constructed (exampleWorld evenDraws networkDown)) in
  exists o s' awaited,
    perform (H := exampleEngine) api api api (GetOrderbook "BTCUSDT" 20) s = (o, s')
    /\ (invocations (trace s') <= invocations (trace s) + 3)%nat
    /\ delays (trace s') = delays (trace s) ++ awaited
    /\ (awaited = [] \/ awaited = [1000] \/ awaited = [1000; 2000])
    /\ totalDelay awaited <= 3000.
Proof.
  intros api s.
  destruct (data_call_effort_is_bounded (H := exampleEngine) api api api
              (GetOrderbook "BTCUSDT" 20) eq_refl) as [_ Hbound].
  exact (Hbound [TestConnection okx] (exampleWorld evenDraws networkDown)).
Defined.

(** X6 on an example: [forceSwitch('mock')] on the aggregator as
    constructed, then an orderbook request. *)
Lemma untracked_source_is_served_by_the_generator_witness :
  exists s1 result s',
    APIManager.forceSwitch mock (constructed (exampleWorld evenDraws networkDown))
    = (Ok tt, s1)
    /\ APIManager.getIsMockMode s1 = (Ok false, s1)
    /\ APIManager.getOrderbook (H := exampleEngine)
         unreachableAdapter unreachableAdapter unreachableAdapter "BTCUSDT" 30 s1
       = (Ok result, s')
    /\ source result = mock
    /\ trace s' = trace s1.
Proof.
  destruct (untracked_source_is_served_by_the_generator (H := exampleEngine)
              unreachableAdapter unreachableAdapter unreachableAdapter
              mock "BTCUSDT" "1day" 30 (constructed (exampleWorld evenDraws networkDown))
              eq_refl)
    as (s1 & Hswitch & Hmode & _ & (result & s' & Hrun & Hsource & Htrace & _) & _).
  exists s1, result, s'.
  exact (conj Hswitch (conj Hmode (conj Hrun (conj Hsource Htrace)))).
Defined.

(** X7 on an example: a probe of [mock] over a KuCoin adapter that
    answers and two adapters that do not. *)
Lemma probe_of_untracked_source_witness :
  let s := constructed (exampleWorld evenDraws networkDown) in
  exists ok s',
    APIManager.testConnection unreachableAdapter unreachableAdapter (flakyAdapter 0) mock s
    = (Ok ok, s')
    /\ manager s' = manager s
    /\ invocations (trace s') = 1%nat.
Proof.
  intros s.
  destruct (probe_of_untracked_source unreachableAdapter unreachableAdapter (flakyAdapter 0)
              mock s eq_refl) as (ok & s' & Hrun & Hmanager & Hcount & _).
  exists ok, s'. exact (conj Hrun (conj Hmanager Hcount)).
Defined.

(** X4 on an example: the three data calls over unreachable adapters. *)
Lemma data_calls_always_answer_witness :
  let api := unreachableAdapter in
  let s := constructed (exampleWorld evenDraws networkDown) in
  (exists result s',
     APIManager.getOrderbook (H := exampleEngine) api api api "BTCUSDT" 30 s = (Ok result, s'))
  /\ (exists result s', APIManager.get24hTicker api api api "BTCUSDT" s = (Ok result, s'))
  /\ (exists result s',
        APIManager.getKlines api api api "BTCUSDT" "1day" 30 s = (Ok result, s')).
Proof.
  intros api s.
  destruct (data_calls_always_answer (H := exampleEngine) api api api "BTCUSDT" "1day" 30 s)
    as ((r1 & s1 & H1 & _) & (r2 & s2 & H2 & _) & Hklines).
  destruct Hklines as (r3 & s3 & H3 & _); [lia|].
  split; [by exists r1, s1|]. split; [by exists r2, s2|by exists r3, s3].
Defined.

(* ===================================================================== *)
(** * Further properties: the life of a subscription *)
(* ===================================================================== *)

Lemma subscribe_of_run kind channel callback hub :
  exists unsubscribe,
    subscribe_of kind channel callback hub = (Ok unsubscribe, subscribed channel callback hub)
    /\ forall h, unsubscribe h = (Ok tt, unsubscribed channel callback h).
Proof.
  destruct kind; cbn [subscribe_of].
  - eexists. split; [apply Enhanced_subscribe_run|]. apply Enhanced_unsubscribe_run.
  - eexists. split; [apply subscribe_run|]. apply unsubscribe_run.
Qed.

Lemma Set_delete_absent x members : x ∉ members -> Set_delete x members = members.
Proof.
  intros Hx. unfold Set_delete. induction members as [|y rest IH]; [done|].
  rewrite filter_cons. destruct (decide (y ≠ x)) as [_|Heq].
  - f_equal. apply IH. intros Hin. apply Hx. by right.
  - exfalso. apply Hx. apply dec_stable in Heq. subst. by left.
Qed.

Lemma Set_delete_idem x members : Set_delete x (Set_delete x members) = Set_delete x members.
Proof. apply Set_delete_absent, Set_delete_not_elem. Qed.

Lemma membersOf_unsubscribed_ne channel other callback hub :
  channel <> other ->
  membersOf other (unsubscribed channel callback hub) = membersOf other hub.
Proof.
  intros Hne. unfold unsubscribed, membersOf.
  destruct (subscribers hub !! channel) as [members|]; [|done].
  destruct (Set_delete callback members); cbn.
  - by rewrite lookup_delete_ne.
  - by rewrite lookup_insert_ne.
Qed.

Lemma calls_unsubscribed channel callback hub :
  calls (unsubscribed channel callback hub) = calls hub.
Proof.
  unfold unsubscribed. destruct (subscribers hub !! channel) as [members|]; [|done].
  by destruct (Set_delete callback members).
Qed.

(** A hub is determined by the subscribers of each channel, once no
    channel is kept empty, and by the calls made. *)
Lemma hub_eq hub1 hub2 :
  no_empty_channel hub1 -> no_empty_channel hub2 ->
  (forall channel, membersOf channel hub1 = membersOf channel hub2) ->
  calls hub1 = calls hub2 ->
  hub1 = hub2.
Proof.
  intros Hne1 Hne2 Hmembers Hcalls. destruct hub1 as [subs1 calls1], hub2 as [subs2 calls2].
  cbn in *. subst. f_equal. apply map_eq. intros channel.
  specialize (Hmembers channel). specialize (Hne1 channel). specialize (Hne2 channel).
  unfold membersOf in Hmembers. cbn in *.
  destruct (subs1 !! channel) as [[|x l1]|], (subs2 !! channel) as [[|y l2]|];
    cbn in Hmembers; congruence.
Qed.

Lemma subscribed_no_empty channel callback hub :
  no_empty_channel hub -> no_empty_channel (subscribed channel callback hub).
Proof.
  intros Hne other. unfold subscribed. cbn.
  destruct (decide (channel = other)) as [<-|Hother].
  - rewrite lookup_insert_eq. intros [= Hnil].
    pose proof (Set_add_elem callback (membersOf channel hub)) as Hin.
    rewrite Hnil in Hin. by apply elem_of_nil in Hin.
  - rewrite lookup_insert_ne by done. apply Hne.
Qed.

Lemma unsubscribed_no_empty channel callback hub :
  no_empty_channel hub -> no_empty_channel (unsubscribed channel callback hub).
Proof.
  intros Hne other. unfold unsubscribed.
  destruct (subscribers hub !! channel) as [members|] eqn:Hl; [|apply Hne].
  destruct (Set_delete callback members) as [|x rest] eqn:Hrest; cbn.
  - destruct (decide (channel = other)) as [<-|Hother].
    + by rewrite lookup_delete_eq.
    + rewrite lookup_delete_ne by done. apply Hne.
  - destruct (decide (channel = other)) as [<-|Hother].
    + by rewrite lookup_insert_eq.
    + rewrite lookup_insert_ne by done. apply Hne.
Qed.

Lemma unsubscribed_wf channel callback hub :
  hub_wf hub -> hub_wf (unsubscribed channel callback hub).
Proof.
  intros Hwf other members Hl.
  assert (Hm : membersOf other (unsubscribed channel callback hub) = members).
  { unfold membersOf. by rewrite Hl. }
  destruct (decide (channel = other)) as [<-|Hne].
  - rewrite membersOf_unsubscribed in Hm. subst members. apply Set_delete_NoDup.
    unfold membersOf. destruct (subscribers hub !! channel) eqn:Hc; cbn.
    + by eapply Hwf.
    + apply NoDup_nil_2.
  - rewrite membersOf_unsubscribed_ne in Hm by done. unfold membersOf in Hm.
    destruct (subscribers hub !! other) eqn:Hc; cbn in Hm.
    + subst. by eapply Hwf.
    + subst. apply NoDup_nil_2.
Qed.

Lemma emptyHub_no_empty : no_empty_channel emptyHub.
Proof. intros channel. unfold emptyHub. cbn. by rewrite lookup_empty. Qed.

Lemma unsubscribed_idem channel callback hub :
  no_empty_channel hub ->
  unsubscribed channel callback (unsubscribed channel callback hub)
  = unsubscribed channel callback hub.
Proof.
  intros Hne. apply hub_eq.
  - by do 2 apply unsubscribed_no_empty.
  - by apply unsubscribed_no_empty.
  - intros other. destruct (decide (channel = other)) as [<-|Hother].
    + by rewrite !membersOf_unsubscribed, Set_delete_idem.
    + by rewrite !membersOf_unsubscribed_ne.
  - by rewrite !calls_unsubscribed.
Qed.

Lemma unsubscribed_absent channel callback hub :
  no_empty_channel hub -> callback ∉ membersOf channel hub ->
  unsubscribed channel callback hub = hub.
Proof.
  intros Hne Habsent. apply hub_eq.
  - by apply unsubscribed_no_empty.
  - exact Hne.
  - intros other. destruct (decide (channel = other)) as [<-|Hother].
    + by rewrite membersOf_unsubscribed, Set_delete_absent.
    + by rewrite membersOf_unsubscribed_ne.
  - by rewrite calls_unsubscribed.
Qed.

(** X8.  In both hubs, the closure [subscribe(channel, callback)]
    returns, called on a hub in which no channel is kept empty (as in
    every hub, see below), removes [callback] from [channel] and nothing
    else: the other subscribers of [channel] keep their order, the other
    channels keep their subscribers, and no subscriber is called.
    Calling it again, or calling it when [callback] is not subscribed,
    changes nothing.  [subscribe] and the closure keep the hub free of
    empty channels and of duplicates. *)
Theorem unsubscribe_removes_one_subscription kind channel callback hub :
  exists unsubscribe,
    subscribe_of kind channel callback hub = (Ok unsubscribe, subscribed channel callback hub)
    /\ (no_empty_channel hub -> no_empty_channel (subscribed channel callback hub))
    /\ (hub_wf hub -> hub_wf (subscribed channel callback hub))
    /\ forall h, no_empty_channel h ->
       exists h',
         unsubscribe h = (Ok tt, h')
         /\ membersOf channel h' = filter (fun c => c <> callback) (membersOf channel h)
         /\ (forall other, other <> channel -> membersOf other h' = membersOf other h)
         /\ calls h' = calls h
         /\ no_empty_channel h'
         /\ (hub_wf h -> hub_wf h')
         /\ unsubscribe h' = (Ok tt, h')
         /\ (callback ∉ membersOf channel h -> h' = h).
Proof.
  destruct (subscribe_of_run kind channel callback hub) as (unsubscribe & Hrun & Hclosure).
  exists unsubscribe. split; [exact Hrun|].
  split; [apply subscribed_no_empty|]. split; [apply subscribed_wf|].
  intros h Hne. exists (unsubscribed channel callback h).
  split; [apply Hclosure|]. split; [apply membersOf_unsubscribed|].
  split; [intros other Hother; by apply membersOf_unsubscribed_ne|].
  split; [apply calls_unsubscribed|]. split; [by apply unsubscribed_no_empty|].
  split; [apply unsubscribed_wf|].
  split; [by rewrite Hclosure, unsubscribed_idem|]. by apply unsubscribed_absent.
Qed.

(** X9.  In both hubs [disconnect] forgets every subscription: no
    channel has a subscriber afterwards, a publication calls nobody, and
    a closure that a [subscribe] returned before does nothing.  The
    callbacks are not called by [disconnect]. *)
Theorem disconnect_forgets_every_subscription kind behaviour hub :
  exists hub1,
    disconnect_of kind hub = (Ok tt, hub1)
    /\ calls hub1 = calls hub
    /\ no_empty_channel hub1 /\ hub_wf hub1
    /\ (forall channel, membersOf channel hub1 = [])
    /\ (forall channel data,
          notifySubscribers_of kind behaviour channel data hub1 = (Ok tt, hub1))
    /\ (forall channel callback hub0,
        exists unsubscribe hub0',
          subscribe_of kind channel callback hub0 = (Ok unsubscribe, hub0')
          /\ unsubscribe hub1 = (Ok tt, hub1)).
Proof.
  exists {| subscribers := ∅; calls := calls hub |}.
  split; [by destruct kind|]. split; [done|].
  split; [intros channel; cbn; by rewrite lookup_empty|].
  split; [intros channel members; cbn; by rewrite lookup_empty|].
  split; [intros channel; unfold membersOf; cbn; by rewrite lookup_empty|].
  split.
  - intros channel data.
    destruct kind; cbn [notifySubscribers_of];
      [unfold EnhancedWebSocketService.notifySubscribers
      |unfold WebSocketService.notifySubscribers];
      unfold bind, gets; cbn [subscribers]; by rewrite lookup_empty.
  - intros channel callback hub0.
    destruct (subscribe_of_run kind channel callback hub0) as (unsubscribe & Hrun & Hclosure).
    eexists _, _. split; [exact Hrun|]. rewrite Hclosure.
    unfold unsubscribed. cbn [subscribers]. by rewrite lookup_empty.
Qed.

(** X8 on an example: the subscribers 1, 2 and 3 of [orderbook]; 2
    unsubscribes. *)
Lemma unsubscribe_removes_one_subscription_witness :
  let hub := subscribed "orderbook" 3%nat (subscribed "orderbook" 1%nat emptyHub) in
  exists unsubscribe h',
    subscribe_of Plain "orderbook" 2%nat hub
    = (Ok unsubscribe, subscribed "orderbook" 2%nat hub)
    /\ unsubscribe (subscribed "orderbook" 2%nat hub) = (Ok tt, h')
    /\ membersOf "orderbook" (subscribed "orderbook" 2%nat hub) = [1; 3; 2]%nat
    /\ membersOf "orderbook" h' = [1; 3]%nat.
Proof.
  intros hub.
  destruct (unsubscribe_removes_one_subscription Plain "orderbook" 2%nat hub)
    as (unsubscribe & Hrun & Hne & _ & Hclosure).
  destruct (Hclosure (subscribed "orderbook" 2%nat hub)) as (h' & Hun & Hmembers & _).
  { apply Hne. do 2 apply subscribed_no_empty. apply emptyHub_no_empty. }
  exists unsubscribe, h'. split; [exact Hrun|]. split; [exact Hun|].
  split; [reflexivity|]. rewrite Hmembers. reflexivity.
Defined.

(* ===================================================================== *)
(** * Further properties: the fallback data of the adapters *)
(* ===================================================================== *)

(** The item of index [i] of an array built by [Array.from]. *)
Lemma Forall2_indices {A} (P : Z -> A -> Prop) n (ys : list A) i y :
  Forall2 P (map Z.of_nat (seq 0 n)) ys -> ys !! i = Some y -> P (Z.of_nat i) y.
Proof.
  intros Hall Hy.
  destruct (Forall2_lookup_r _ _ _ _ _ Hall Hy) as (x & Hx & HP).
  rewrite list_lookup_fmap in Hx.
  destruct (seq 0 n !! i) as [j|] eqn:Hj; [|done].
  apply lookup_seq in Hj as [-> _]. cbn in Hx. by injection Hx as <-.
Qed.

Lemma Forall2_indices_length {A} (P : Z -> A -> Prop) n (ys : list A) :
  Forall2 P (map Z.of_nat (seq 0 n)) ys -> length ys = n.
Proof.
  intros Hall. rewrite (Forall2_length_eq _ _ _ Hall). by rewrite length_map, length_seq.
Qed.

Section Ladders.
Context `{Engine}.

(** The levels of a ladder are strictly ordered by price, and two ladders
    that start apart and move apart do not cross. *)
Lemma ladder_descending first step n levels i a b :
  (step < 0)%Q -> ladder first step n levels ->
  levels !! i = Some a -> levels !! S i = Some b -> price_lt b a.
Proof.
  intros Hstep [_ Hlevels] Ha Hb.
  destruct (Hlevels i a Ha) as (x & Hx & Hxv).
  destruct (Hlevels (S i) b Hb) as (y & Hy & Hyv).
  exists y, x. split; [exact Hy|]. split; [exact Hx|].
  rewrite Hxv, Hyv, Nat2Z.inj_succ. unfold Z.succ. rewrite inject_Z_plus.
  change (inject_Z 1) with 1%Q. lra.
Qed.

Lemma ladder_ascending first step n levels i a b :
  (0 < step)%Q -> ladder first step n levels ->
  levels !! i = Some a -> levels !! S i = Some b -> price_lt a b.
Proof.
  intros Hstep [_ Hlevels] Ha Hb.
  destruct (Hlevels i a Ha) as (x & Hx & Hxv).
  destruct (Hlevels (S i) b Hb) as (y & Hy & Hyv).
  exists x, y. split; [exact Hx|]. split; [exact Hy|].
  rewrite Hxv, Hyv, Nat2Z.inj_succ. unfold Z.succ. rewrite inject_Z_plus.
  change (inject_Z 1) with 1%Q. lra.
Qed.

Lemma ladders_apart bid0 down n bids ask0 up m asks a b :
  (bid0 < ask0)%Q -> (down < 0)%Q -> (0 < up)%Q ->
  ladder bid0 down n bids -> ladder ask0 up m asks ->
  In a asks -> In b bids -> price_lt b a.
Proof.
  intros Hgap Hdown Hup [_ Hbids] [_ Hasks] Ha Hb.
  apply list_elem_of_In, list_elem_of_lookup_1 in Ha as [j Ha].
  apply list_elem_of_In, list_elem_of_lookup_1 in Hb as [i Hb].
  destruct (Hasks j a Ha) as (x & Hx & Hxv).
  destruct (Hbids i b Hb) as (y & Hy & Hyv).
  exists y, x. split; [exact Hy|]. split; [exact Hx|].
  rewrite Hxv, Hyv.
  assert (0 <= inject_Z (Z.of_nat i))%Q.
  { change 0%Q with (inject_Z 0). rewrite <- Zle_Qle. lia. }
  assert (0 <= inject_Z (Z.of_nat j))%Q.
  { change 0%Q with (inject_Z 0). rewrite <- Zle_Qle. lia. }
  nra.
Qed.

End Ladders.

Lemma fallbackOrderbook_levels n (priceOf : Z -> Q) (quantityOf : Q -> Q) w :
  n <= 4294967295 ->
  exists levels w',
    Array_from n (fun i =>
      let* r := Math_random in
      ret {| price := VString (toString (priceOf i));
             quantity := VString (toFixed 4 (quantityOf r)) |}) w = (Ok levels, w')
    /\ Forall2 (fun i level => price level = VString (toString (priceOf i))
                               /\ conforms_OrderbookEntry level = true)
               (map Z.of_nat (seq 0 (Z.to_nat n))) levels.
Proof.
  intros Hn.
  match goal with
  | |- context [Array_from n ?f w] =>
      destruct (Array_from_returns n f (fun _ => True)
                  (fun i level => price level = VString (toString (priceOf i))
                                  /\ conforms_OrderbookEntry level = true) Hn)
        with (w := w) as (levels & w' & Hrun & _ & Hall); [|done|]
  end.
  - intros i w0 _ _. run_reads. by eexists _, _.
  - by exists levels, w'.
Qed.

Section FallbackOrderbooks.
Context `{Engine}.

Lemma fallbackOrderbook_ladders n bidPrice askPrice quantityOf name w
    bid0 down ask0 up :
  0 <= n <= 4294967295 ->
  (forall i : nat, bidPrice (Z.of_nat i) == bid0 + inject_Z (Z.of_nat i) * down)%Q ->
  (forall i : nat, askPrice (Z.of_nat i) == ask0 + inject_Z (Z.of_nat i) * up)%Q ->
  exists orderbook w',
    fallbackOrderbook n bidPrice askPrice quantityOf name w = (Ok orderbook, w')
    /\ symbol orderbook = name
    /\ conforms_Orderbook orderbook = true
    /\ ladder bid0 down (Z.to_nat n) (bids orderbook)
    /\ ladder ask0 up (Z.to_nat n) (asks orderbook)
    /\ ((bid0 < ask0)%Q -> (down < 0)%Q -> (0 < up)%Q -> strictly_ordered orderbook).
Proof.
  intros Hn Hbid Hask. unfold fallbackOrderbook.
  destruct (fallbackOrderbook_levels n bidPrice quantityOf w) as (bs & w1 & Hbs & Hb); [lia|].
  unfold bind at 1. rewrite Hbs.
  destruct (fallbackOrderbook_levels n askPrice quantityOf w1) as (ks & w2 & Hks & Hk); [lia|].
  unfold bind at 1. rewrite Hks. run_reads. unfold ret.
  eexists _, _. split; [reflexivity|]. cbn [symbol bids asks]. split; [done|].
  split.
  { unfold conforms_Orderbook. cbn [bids asks lastUpdateId].
    rewrite (forallb_of_Forall2 conforms_OrderbookEntry
               (map Z.of_nat (seq 0 (Z.to_nat n))) bs),
            (forallb_of_Forall2 conforms_OrderbookEntry
               (map Z.of_nat (seq 0 (Z.to_nat n))) ks); [done| |].
    - eapply Forall2_impl; [exact Hk|]. by intros i e [_ ?].
    - eapply Forall2_impl; [exact Hb|]. by intros i e [_ ?]. }
  assert (Hbids : ladder bid0 down (Z.to_nat n) bs).
  { split; [by eapply Forall2_indices_length|].
    intros i level Hl. destruct (Forall2_indices _ _ _ _ _ Hb Hl) as [-> _].
    eexists. split; [reflexivity|]. apply Hbid. }
  assert (Hasks : ladder ask0 up (Z.to_nat n) ks).
  { split; [by eapply Forall2_indices_length|].
    intros i level Hl. destruct (Forall2_indices _ _ _ _ _ Hk Hl) as [-> _].
    eexists. split; [reflexivity|]. apply Hask. }
  split; [exact Hbids|]. split; [exact Hasks|].
  intros Hgap Hdown Hup. split; [|split].
  - intros i a b. cbn [bids]. exact (ladder_descending _ _ _ _ i a b Hdown Hbids).
  - intros i a b. cbn [asks]. exact (ladder_ascending _ _ _ _ i a b Hup Hasks).
  - intros a b. cbn [bids asks].
    exact (ladders_apart _ _ _ _ _ _ _ _ a b Hgap Hdown Hup Hbids Hasks).
Qed.

(** X10.  The orderbook an adapter returns when its request fails is the
    same ladder whatever the draws: for KuCoin 10 bids at 44990, 44980,
    ... and 10 asks at 45010, 45020, ...; for OKX and for Coinbase 20
    bids at 64990, 64985, ... and 20 asks at 65010, 65015, ...  It
    carries the symbol asked for, has the shape of the schema, and is
    strictly ordered: bids descending, asks ascending, every ask above
    every bid. *)
Theorem fallback_orderbooks_are_ladders name w :
  (exists orderbook w',
     KuCoinAPIService.getMockOrderbook name w = (Ok orderbook, w')
     /\ symbol orderbook = name
     /\ conforms_Orderbook orderbook = true
     /\ ladder 44990 (-10) 10 (bids orderbook)
     /\ ladder 45010 10 10 (asks orderbook)
     /\ strictly_ordered orderbook)
  /\ (exists orderbook w',
        OKXAPIService.getMockOrderbook name w = (Ok orderbook, w')
        /\ symbol orderbook = name
        /\ conforms_Orderbook orderbook = true
        /\ ladder 64990 (-5) 20 (bids orderbook)
        /\ ladder 65010 5 20 (asks orderbook)
        /\ strictly_ordered orderbook)
  /\ (exists orderbook w',
        CoinbaseAPIService.getMockOrderbook name w = (Ok orderbook, w')
        /\ symbol orderbook = name
        /\ conforms_Orderbook orderbook = true
        /\ ladder 64990 (-5) 20 (bids orderbook)
        /\ ladder 65010 5 20 (asks orderbook)
        /\ strictly_ordered orderbook).
Proof.
  split; [|split].
  - destruct (fallbackOrderbook_ladders 10
                (fun i => 45000 - (inject_Z i + 1) * 10)%Q
                (fun i => 45000 + (inject_Z i + 1) * 10)%Q
                (fun r => r * 5 + 0.1)%Q name w 44990 (-10) 45010 10)
      as (orderbook & w' & Hrun & Hname & Hshape & Hbids & Hasks & Hordered);
      [lia|intros i; ring|intros i; ring|].
    exists orderbook, w'. split; [exact Hrun|]. repeat (split; [done|]).
    by apply Hordered.
  - destruct (fallbackOrderbook_ladders 20
                (fun i => 65000 - 10 - inject_Z i * 5)%Q
                (fun i => 65000 + 10 + inject_Z i * 5)%Q
                (fun r => r * 2)%Q name w 64990 (-5) 65010 5)
      as (orderbook & w' & Hrun & Hname & Hshape & Hbids & Hasks & Hordered);
      [lia|intros i; ring|intros i; ring|].
    exists orderbook, w'. split; [exact Hrun|]. repeat (split; [done|]).
    by apply Hordered.
  - destruct (fallbackOrderbook_ladders 20
                (fun i => 65000 - 10 - inject_Z i * 5)%Q
                (fun i => 65000 + 10 + inject_Z i * 5)%Q
                (fun r => r * 2)%Q name w 64990 (-5) 65010 5)
      as (orderbook & w' & Hrun & Hname & Hshape & Hbids & Hasks & Hordered);
      [lia|intros i; ring|intros i; ring|].
    exists orderbook, w'. split; [exact Hrun|]. repeat (split; [done|]).
    by apply Hordered.
Qed.

End FallbackOrderbooks.

(* ===================================================================== *)
(** * Further properties: rounding *)
(* ===================================================================== *)

Lemma parseFloat_toFixed `{Engine} d x :
  parseFloat (VString (toFixed d x)) = Ok (Finite (renderedValue (toFixed d x))).
Proof. unfold toFixed. by destruct (Qle_bool _ _). Qed.

Lemma ten_pow_pos (d : nat) : (0 < 10 ^ Z.of_nat d)%Q.
Proof. by apply Qpower_0_lt. Qed.

(** The integer a power of ten is. *)
Lemma ten_pow_Z (d : nat) : (10 ^ Z.of_nat d == inject_Z (10 ^ Z.of_nat d))%Q.
Proof. rewrite Zpower_Qpower by lia. reflexivity. Qed.

(** [toFixed] on a number that is not negative, read back. *)
Lemma renderedValue_toFixed_small d x :
  (0 <= x)%Q -> (x < 10 ^ 21)%Q ->
  (renderedValue (toFixed d x)
   == inject_Z (Qfloor (x * 10 ^ Z.of_nat d + (1 # 2))) / 10 ^ Z.of_nat d)%Q.
Proof. intros Hx Hbig. rewrite toFixed_nonneg by done. reflexivity. Qed.

Lemma renderedValue_toFixed_big d x :
  (10 ^ 21 <= x)%Q -> renderedValue (toFixed d x) = x.
Proof.
  intros Hbig. unfold toFixed.
  assert (Qle_bool (10 ^ 21) (Qabs x) = true) as ->; [|done].
  apply Qle_bool_iff. rewrite Qabs_pos; [done|].
  rewrite ten_pow_21 in Hbig. lra.
Qed.

(** Rounding to [d] decimals keeps the order of two numbers that are not
    negative. *)
Lemma toFixed_mono d x y :
  (0 <= x)%Q -> (x <= y)%Q ->
  (renderedValue (toFixed d x) <= renderedValue (toFixed d y))%Q.
Proof.
  intros Hx Hxy. pose proof (ten_pow_pos d) as Hpos.
  destruct (Qlt_le_dec y (10 ^ 21)) as [Hy|Hy].
  - rewrite !renderedValue_toFixed_small by lra.
    apply Qmult_le_compat_r; [|apply Qlt_le_weak, Qinv_lt_0_compat, Hpos].
    rewrite <- Zle_Qle. apply Qfloor_resp_le. nra.
  - rewrite (renderedValue_toFixed_big d y) by done.
    destruct (Qlt_le_dec x (10 ^ 21)) as [Hx1|Hx1].
    + rewrite renderedValue_toFixed_small by lra.
      apply Qle_trans with (10 ^ 21)%Q; [|done].
      apply Qle_shift_div_r; [exact Hpos|].
      assert (Hint : (10 ^ 21 * 10 ^ Z.of_nat d == inject_Z (10 ^ 21 * 10 ^ Z.of_nat d))%Q).
      { rewrite inject_Z_mult, <- ten_pow_Z. reflexivity. }
      rewrite Hint, <- Zle_Qle.
      assert (Hlt : (x * 10 ^ Z.of_nat d + (1 # 2)
                     < inject_Z (10 ^ 21 * 10 ^ Z.of_nat d + 1))%Q).
      { rewrite inject_Z_plus, <- Hint. change (inject_Z 1) with 1%Q. nra. }
      pose proof (Qfloor_le (x * 10 ^ Z.of_nat d + (1 # 2))) as Hfl.
      assert (inject_Z (Qfloor (x * 10 ^ Z.of_nat d + (1 # 2)))
              < inject_Z (10 ^ 21 * 10 ^ Z.of_nat d + 1))%Q as Hz by lra.
      rewrite <- Zlt_Qlt in Hz. lia.
    + by rewrite renderedValue_toFixed_big.
Qed.

Lemma toFixed_reads_le `{Engine} d x y :
  (0 <= x)%Q -> (x <= y)%Q ->
  reads_le (VString (toFixed d x)) (VString (toFixed d y)).
Proof.
  intros Hx Hxy. eexists _, _. split; [apply parseFloat_toFixed|].
  split; [apply parseFloat_toFixed|]. by apply toFixed_mono.
Qed.

Lemma Math_max_ge a b : (a <= Math_max a b /\ b <= Math_max a b)%Q.
Proof.
  unfold Math_max. destruct (Qle_bool a b) eqn:E.
  - apply Qle_bool_iff in E. lra.
  - assert (~ (a <= b)%Q) by (intros Hle; apply Qle_bool_iff in Hle; congruence). lra.
Qed.

Lemma Math_min_le a b : (Math_min a b <= a /\ Math_min a b <= b)%Q.
Proof.
  unfold Math_min. destruct (Qle_bool a b) eqn:E.
  - apply Qle_bool_iff in E. lra.
  - assert (~ (a <= b)%Q) by (intros Hle; apply Qle_bool_iff in Hle; congruence). lra.
Qed.

Lemma Math_min_pos a b : (0 < a)%Q -> (0 < b)%Q -> (0 < Math_min a b)%Q.
Proof. intros Ha Hb. unfold Math_min. by destruct (Qle_bool a b). Qed.

(* ===================================================================== *)
(** * Further properties: the generated candles *)
(* ===================================================================== *)

(** A loop whose body always returns and keeps [I] of the variable and
    [J] of the state produces a chain. *)
Lemma mapM_acc_chained {S A B V} (f : A -> V -> Eff S (B * V))
    (I : V -> Prop) (J : S -> Prop) (R : A -> V -> B -> V -> Prop) items :
  (forall x v s, In x items -> I v -> J s ->
     exists y v' s', f x v s = (Ok (y, v'), s') /\ R x v y v' /\ I v' /\ J s') ->
  forall v s, I v -> J s ->
  exists ys s', mapM_acc f items v s = (Ok ys, s') /\ chained R items v ys /\ J s'.
Proof.
  induction items as [|x rest IH]; intros Hf v s Hv Hs.
  - exists [], s. split; [done|]. split; [constructor|done].
  - destruct (Hf x v s) as (y & v' & s1 & Hx & HR & Hv' & Hs1); [by left|done|done|].
    destruct (IH (fun x v s Hin => Hf x v s (or_intror Hin)) v' s1 Hv' Hs1)
      as (ys & s2 & Hrest & Hchain & Hs2).
    exists (y :: ys), s2. cbn [mapM_acc]. unfold bind. rewrite Hx, Hrest.
    split; [done|]. split; [by econstructor|done].
Qed.

Lemma chained_length {A B V} (R : A -> V -> B -> V -> Prop) items v ys :
  chained R items v ys -> length ys = length items.
Proof. induction 1; cbn; congruence. Qed.

(** Each result of a chain is related to its item, and the variable
    after an iteration is the variable before the next one. *)
Lemma chained_lookup {A B V} (R : A -> V -> B -> V -> Prop) items v ys i y :
  chained R items v ys -> ys !! i = Some y ->
  exists x u u', items !! i = Some x /\ R x u y u'
    /\ forall y2, ys !! S i = Some y2 -> exists x2 u2, items !! S i = Some x2 /\ R x2 u' y2 u2.
Proof.
  intros Hchain. revert i. induction Hchain as [|x xs v y0 v' ys HR Hchain IH]; intros i Hy.
  - done.
  - destruct i as [|i]; cbn in Hy.
    + injection Hy as <-. exists x, v, v'. split; [done|]. split; [done|].
      intros y2 Hy2. cbn in Hy2. destruct Hchain as [|x2 xs2 u y3 u2 ys2 HR2 _]; [done|].
      cbn in Hy2. injection Hy2 as <-. by exists x2, u2.
    + destruct (IH i Hy) as (x1 & u & u' & Hx1 & HR1 & Hnext).
      exists x1, u, u'. split; [done|]. split; [done|]. exact Hnext.
Qed.

Lemma valid_draws_afterDraw w : valid_draws w -> valid_draws (afterDraw w).
Proof. intros Hw n. apply Hw. Qed.

Lemma valid_draws_afterReading w : valid_draws w -> valid_draws (afterReading w).
Proof. intros Hw n. apply Hw. Qed.

Lemma index_of_seq (n : nat) i x : map Z.of_nat (seq 0 n) !! i = Some x -> x = Z.of_nat i.
Proof.
  rewrite list_lookup_fmap. destruct (seq 0 n !! i) as [j|] eqn:Hj; [|done].
  apply lookup_seq in Hj as [-> _]. cbn. by intros [= <-].
Qed.

Section GeneratedCandles.
Context `{Engine}.

(** X11.  For draws in [[0, 1)] and a count that is an array length,
    [generateKlines] returns [limit] candles (none for a negative
    count).  The candle of index [i] opens [limit - 1 - i] days before
    the reading of the clock, so the last one opens at that reading, and
    closes one millisecond before the next one opens; its low is at most
    its open and its close, which are at most its high; it has the shape
    of the schema; and each candle opens at the price at which the one
    before it closed. *)
Theorem generated_candles_are_consistent name interval limit w :
  valid_draws w -> limit <= 4294967295 ->
  exists klines w',
    MockDataService.generateKlines name interval limit w = (Ok klines, w')
    /\ length klines = Z.to_nat limit
    /\ (forall i k, klines !! i = Some k ->
          Kline.openTime k
          = int (timeReadings w (timeCursor w) - (limit - Z.of_nat i - 1) * dayMs)
          /\ Kline.closeTime k
             = int (timeReadings w (timeCursor w) - (limit - Z.of_nat i - 1) * dayMs
                    + dayMs - 1)
          /\ consistent_candle k
          /\ Kline.conforms k = true)
    /\ (forall i k k2, klines !! i = Some k -> klines !! S i = Some k2 ->
          Kline.open k2 = Kline.close k).
Proof.
  intros Hw Hlimit. unfold MockDataService.generateKlines. run_reads.
  unfold Array_from_acc.
  assert ((4294967295 <? limit) = false) as -> by (apply Z.ltb_ge; lia).
  set (now := timeReadings w (timeCursor w)).
  pose proof (Hw (randomCursor w)) as Hr1.
  pose proof (Hw (S (randomCursor w))) as Hr2.
  cbn [randomDraws randomCursor afterReading afterDraw].
  set (trend := ((randomDraws w (S (randomCursor w)) - 0.5) * 0.002)%Q).
  assert (Htrend : (-0.001 <= trend /\ trend < 0.001)%Q) by (unfold trend; lra).
  match goal with
  | |- context [mapM_acc ?f ?items ?start ?w0] =>
      destruct (mapM_acc_chained f (fun v => (0 < v)%Q) valid_draws
                  (candle_step now limit) items) with (v := start) (s := w0)
        as (klines & w' & Hrun & Hchain & _)
  end.
  - intros i v s _ Hv Hs. run_reads. unfold ret.
    pose proof (Hs (randomCursor s)) as Hd1.
    pose proof (Hs (S (randomCursor s))) as Hd2.
    cbn [randomDraws randomCursor afterDraw].
    set (change := (trend + (randomDraws s (randomCursor s) - 0.5) * 0.03)%Q).
    set (volatility := (randomDraws s (S (randomCursor s)) * 0.05)%Q).
    set (close := (v * (1 + change))%Q).
    assert (Hchange : (-0.016 <= change /\ change < 0.016)%Q) by (unfold change; lra).
    assert (Hvol : (0 <= volatility / 2 /\ volatility / 2 < 0.025)%Q).
    { unfold volatility, Qdiv. change (/ 2)%Q with (1 # 2)%Q. lra. }
    assert (Hclose : (0 < close)%Q) by (unfold close; nra).
    pose proof (Math_max_ge v close) as [Hmax1 Hmax2].
    pose proof (Math_min_le v close) as [Hmin1 Hmin2].
    pose proof (Math_min_pos v close Hv Hclose) as Hmin0.
    set (hi := Math_max v close) in *. set (lo := Math_min v close) in *.
    eexists _, _, _. split; [reflexivity|].
    split.
    { unfold candle_step, consistent_candle.
      cbn [Kline.open Kline.close Kline.openTime Kline.closeTime Kline.low Kline.high].
      split; [reflexivity|]. split; [reflexivity|]. split; [reflexivity|].
      split; [reflexivity|]. split; [|reflexivity].
      split; [apply toFixed_reads_le; nra|]. split; [apply toFixed_reads_le; nra|].
      split; apply toFixed_reads_le; nra. }
    split; [exact Hclose|]. by do 4 apply valid_draws_afterDraw.
  - lra.
  - by do 2 apply valid_draws_afterDraw; apply valid_draws_afterReading.
  - exists klines, w'. split; [exact Hrun|].
    split; [by rewrite (chained_length _ _ _ _ Hchain), length_map, length_seq|].
    split.
    + intros i k Hk.
      destruct (chained_lookup _ _ _ _ _ _ Hchain Hk) as (x & u & u' & Hx & HR & _).
      apply index_of_seq in Hx as ->.
      destruct HR as (_ & _ & Hopen & Hclose & Hcons & Hshape). done.
    + intros i k k2 Hk Hk2.
      destruct (chained_lookup _ _ _ _ _ _ Hchain Hk) as (x & u & u' & Hx & HR & Hnext).
      destruct (Hnext k2 Hk2) as (x2 & u2 & _ & HR2).
      destruct HR as (_ & -> & _). destruct HR2 as (-> & _). reflexivity.
Qed.

End GeneratedCandles.

(** X11 on an example: three candles when every draw is one half. *)
Lemma generated_candles_are_consistent_witness :
  let w := exampleWorld evenDraws networkDown in
  exists klines w',
    MockDataService.generateKlines "BTCUSDT" "1d" 3 w = (Ok klines, w')
    /\ length klines = Z.to_nat 3
    /\ (forall i k, klines !! i = Some k ->
          Kline.openTime k
          = int (timeReadings w (timeCursor w) - (3 - Z.of_nat i - 1) * dayMs)
          /\ Kline.closeTime k
             = int (timeReadings w (timeCursor w) - (3 - Z.of_nat i - 1) * dayMs
                    + dayMs - 1)
          /\ consistent_candle (H := exampleEngine) k
          /\ Kline.conforms k = true)
    /\ (forall i k k2, klines !! i = Some k -> klines !! S i = Some k2 ->
          Kline.open k2 = Kline.close k).
Proof.
  apply (generated_candles_are_consistent (H := exampleEngine) "BTCUSDT" "1d" 3
           (exampleWorld evenDraws networkDown)).
  - intros n. cbn [randomDraws exampleWorld]. unfold evenDraws. lra.
  - lia.
Defined.

Section GeneratedTicker.
Context `{Engine}.

(** X12.  For draws in [[0, 1)], [generate24hTicker] returns a ticker of
    the requested symbol whose low is at most its open and its last
    price, which are at most its high, and whose last price lies between
    its bid and its ask; the previous close is the open; the window
    opens one day before the first reading of the clock and closes at
    the second reading. *)
Theorem generated_ticker_is_consistent name w :
  valid_draws w ->
  exists ticker w',
    MockDataService.generate24hTicker name w = (Ok ticker, w')
    /\ Ticker24h.symbol ticker = name
    /\ consistent_ticker ticker
    /\ Ticker24h.prevClosePrice ticker = Ticker24h.openPrice ticker
    /\ Ticker24h.openTime ticker = int (timeReadings w (timeCursor w) - dayMs)
    /\ Ticker24h.closeTime ticker = int (timeReadings w (S (timeCursor w))).
Proof.
  intros Hw. unfold MockDataService.generate24hTicker. run_reads. unfold ret.
  pose proof (Hw (randomCursor w)) as H1.
  pose proof (Hw (S (randomCursor w))) as H2.
  pose proof (Hw (S (S (randomCursor w)))) as H3.
  pose proof (Hw (S (S (S (S (randomCursor w)))))) as H5.
  pose proof (Hw (S (S (S (S (S (randomCursor w))))))) as H6.
  cbn [randomDraws randomCursor timeReadings timeCursor afterDraw afterReading].
  set (base := (45000 + (randomDraws w (randomCursor w) - 0.5) * 10000)%Q).
  set (volatility := (randomDraws w (S (randomCursor w)) * 0.1)%Q).
  set (change := ((randomDraws w (S (S (randomCursor w))) - 0.5) * volatility * base)%Q).
  assert (Hbase : (40000 <= base /\ base < 50000)%Q) by (unfold base; lra).
  assert (Hvol : (0 <= volatility /\ volatility < 0.1)%Q) by (unfold volatility; lra).
  assert (Hchange : (-2500 <= change /\ change <= 2500)%Q).
  { unfold change.
    set (d := (randomDraws w (S (S (randomCursor w))) - 0.5)%Q).
    assert (Hd : (-0.5 <= d /\ d < 0.5)%Q) by (unfold d; lra).
    assert (Hvb : (0 <= volatility * base /\ volatility * base <= 5000)%Q) by nra.
    pose proof (Qmult_le_0_compat _ _ (proj1 Hvb) (proj1 Hvb)) as _.
    assert (Hlow : (0 <= (d + 0.5) * (volatility * base))%Q)
      by (apply Qmult_le_0_compat; lra).
    assert (Hhigh : (0 <= (0.5 - d) * (volatility * base))%Q)
      by (apply Qmult_le_0_compat; lra).
    lra. }
  assert (Hopen : (0 < base - change)%Q) by lra.
  assert (Hlast : (0 < base)%Q) by lra.
  pose proof (Math_max_ge (base - change) base) as [Hmax1 Hmax2].
  pose proof (Math_min_le (base - change) base) as [Hmin1 Hmin2].
  pose proof (Math_min_pos (base - change) base Hopen Hlast) as Hmin0.
  set (hi := Math_max (base - change) base) in *.
  set (lo := Math_min (base - change) base) in *.
  eexists _, _. split; [reflexivity|].
  cbn [Ticker24h.symbol Ticker24h.prevClosePrice Ticker24h.openPrice
       Ticker24h.openTime Ticker24h.closeTime].
  split; [reflexivity|]. split; [|by repeat apply conj].
  unfold consistent_ticker.
  cbn [Ticker24h.lowPrice Ticker24h.openPrice Ticker24h.lastPrice
       Ticker24h.highPrice Ticker24h.bidPrice Ticker24h.askPrice].
  repeat apply conj; apply toFixed_reads_le; nra.
Qed.

End GeneratedTicker.

(** X12 on an example: the ticker of ETHUSDT when every draw is one
    half. *)
Lemma generated_ticker_is_consistent_witness :
  let w := exampleWorld evenDraws networkDown in
  exists ticker w',
    MockDataService.generate24hTicker "ETHUSDT" w = (Ok ticker, w')
    /\ Ticker24h.symbol ticker = "ETHUSDT"%string
    /\ consistent_ticker (H := exampleEngine) ticker
    /\ Ticker24h.prevClosePrice ticker = Ticker24h.openPrice ticker
    /\ Ticker24h.openTime ticker = int (timeReadings w (timeCursor w) - dayMs)
    /\ Ticker24h.closeTime ticker = int (timeReadings w (S (timeCursor w))).
Proof.
  apply (generated_ticker_is_consistent (H := exampleEngine) "ETHUSDT"
           (exampleWorld evenDraws networkDown)).
  intros n. cbn [randomDraws exampleWorld]. unfold evenDraws. lra.
Defined.

(* ===================================================================== *)
(** * Further properties: the updates of the synthetic orderbook *)
(* ===================================================================== *)

Section RealtimeUpdates.
Context `{Engine}.

Lemma rounded_renders e : rounded e -> rendersNumber (price e).
Proof. intros (x & y & -> & _). apply toFixed_renders. Qed.

Lemma rounded_number e : rounded e -> priceNumber e = Finite (priceValue e).
Proof.
  intros (x & y & Hp & _). unfold priceNumber, priceValue. rewrite Hp.
  unfold toFixed. by destruct (Qle_bool _ _).
Qed.

Lemma rounded_parse e : rounded e -> parseFloat (price e) = Ok (Finite (priceValue e)).
Proof.
  intros He. rewrite parseFloat_rendered by by apply rounded_renders.
  by rewrite rounded_number.
Qed.

Lemma rounded_readable e : rounded e -> readable_level e.
Proof.
  intros (x & y & Hp & Hq). eexists _, _. rewrite Hp, Hq.
  split; apply parseFloat_toFixed.
Qed.


Lemma moved_by_rounded f g old new : moved_by f g old new -> rounded new.
Proof. intros (p & q & _ & _ & Hp & Hq). by eexists _, _. Qed.

Lemma afterDescending_value a b :
  rounded a -> rounded b ->
  afterDescending a b = Qlt_bool (- priceValue b) (- priceValue a).
Proof.
  intros Ha Hb. unfold afterDescending.
  rewrite (rounded_number a Ha), (rounded_number b Hb).
  cbn [num_sub num_neg num_add sorts_after].
  apply Qlt_bool_ext. split; intros; lra.
Qed.

Lemma afterAscending_value a b :
  rounded a -> rounded b ->
  afterAscending a b = Qlt_bool (priceValue b) (priceValue a).
Proof.
  intros Ha Hb. unfold afterAscending.
  rewrite (rounded_number a Ha), (rounded_number b Hb).
  cbn [num_sub num_neg num_add sorts_after].
  apply Qlt_bool_ext. split; intros; lra.
Qed.

(** One level of the update: two draws, no reading of the clock. *)
Lemma moveLevel_returns w level w0 :
  readable_level level -> same_oracles w w0 ->
  exists level' w1,
    MockDataService.moveLevel level w0 = (Ok level', w1)
    /\ same_oracles w w1
    /\ exists n1 n2,
         moved_by (1 + (randomDraws w n1 - 0.5) * 0.001)%Q
                  (1 + (randomDraws w n2 - 0.5) * 0.2)%Q level level'.
Proof.
  intros (p & q & Hp & Hq) (Hdraws & Hclock & Hcursor).
  unfold MockDataService.moveLevel, pure.
  unfold bind at 1. rewrite Hp. rewrite bind_Math_random. cbv beta.
  unfold bind at 1. rewrite Hq. rewrite bind_Math_random. cbv beta.
  unfold ret. eexists _, _. split; [reflexivity|]. split; [done|].
  exists (randomCursor w0), (S (randomCursor w0)).
  exists p, q. cbn [price quantity num_mul num_toFixed randomDraws randomCursor afterDraw].
  rewrite <- Hdraws. done.
Qed.

(** [generateRealtimeUpdate] on a readable orderbook: every level is
    moved, then the bids and the asks are sorted. *)
Lemma generateRealtimeUpdate_shape book w :
  readable book ->
  exists rawBids rawAsks w',
    MockDataService.generateRealtimeUpdate (Some book) w
    = (Ok {| symbol := symbol book;
             bids := sort_by afterDescending rawBids;
             asks := sort_by afterAscending rawAsks;
             lastUpdateId := int (timeReadings w (timeCursor w)) |}, w')
    /\ randomDraws w' = randomDraws w
    /\ Forall2 (fun old new => exists n1 n2,
         moved_by (1 + (randomDraws w n1 - 0.5) * 0.001)%Q
                  (1 + (randomDraws w n2 - 0.5) * 0.2)%Q old new) (bids book) rawBids
    /\ Forall2 (fun old new => exists n1 n2,
         moved_by (1 + (randomDraws w n1 - 0.5) * 0.001)%Q
                  (1 + (randomDraws w n2 - 0.5) * 0.2)%Q old new) (asks book) rawAsks.
Proof.
  intros [Hbids Hasks]. unfold MockDataService.generateRealtimeUpdate.
  destruct (mapM_returns MockDataService.moveLevel (same_oracles w)
              (fun old new => exists n1 n2,
                 moved_by (1 + (randomDraws w n1 - 0.5) * 0.001)%Q
                          (1 + (randomDraws w n2 - 0.5) * 0.2)%Q old new)
              (bids book)) with (s := w)
    as (rawBids & w1 & Hrun1 & Hsame1 & Hmoved1).
  { intros level w0 Hin Hw0. apply moveLevel_returns; [|done].
    rewrite Forall_forall in Hbids. by apply Hbids, list_elem_of_In. }
  { done. }
  destruct (mapM_returns MockDataService.moveLevel (same_oracles w)
              (fun old new => exists n1 n2,
                 moved_by (1 + (randomDraws w n1 - 0.5) * 0.001)%Q
                          (1 + (randomDraws w n2 - 0.5) * 0.2)%Q old new)
              (asks book)) with (s := w1)
    as (rawAsks & w2 & Hrun2 & Hsame2 & Hmoved2).
  { intros level w0 Hin Hw0. apply moveLevel_returns; [|done].
    rewrite Forall_forall in Hasks. by apply Hasks, list_elem_of_In. }
  { done. }
  unfold bind at 1. rewrite Hrun1. unfold bind at 1. rewrite Hrun2.
  assert (Hrb : Forall (fun e => rendersNumber (price e)) rawBids).
  { eapply Forall2_right; [|exact Hmoved1].
    intros old new _ (n1 & n2 & Hm). eapply rounded_renders, moved_by_rounded, Hm. }
  assert (Hra : Forall (fun e => rendersNumber (price e)) rawAsks).
  { eapply Forall2_right; [|exact Hmoved2].
    intros old new _ (n1 & n2 & Hm). eapply rounded_renders, moved_by_rounded, Hm. }
  unfold bind at 1.
  rewrite (Array_sort_pure MockDataService.byPriceDescending
             (fun a b => num_sub (priceNumber b) (priceNumber a))
             (fun e => rendersNumber (price e)));
    [|intros; by apply byPriceDescending_pure|done].
  unfold bind at 1.
  rewrite (Array_sort_pure MockDataService.byPriceAscending
             (fun a b => num_sub (priceNumber a) (priceNumber b))
             (fun e => rendersNumber (price e)));
    [|intros; by apply byPriceAscending_pure|done].
  run_reads. unfold ret.
  destruct Hsame2 as (Hdraws & Hclock & Hcursor).
  exists rawBids, rawAsks. eexists. rewrite Hclock, Hcursor.
  split; [reflexivity|]. split; [exact Hdraws|]. split; done.
Qed.

Lemma sorted_rounded (after : OrderbookEntry -> OrderbookEntry -> bool) raw e :
  Forall rounded raw -> e ∈ sort_by after raw -> rounded e.
Proof.
  intros Hall He. rewrite Forall_forall in Hall. apply Hall.
  by rewrite <- (sort_by_perm after raw).
Qed.

(** The levels of an update after they have been sorted. *)
Lemma sorted_bids_ordered raw i a b :
  Forall rounded raw ->
  sort_by afterDescending raw !! i = Some a ->
  sort_by afterDescending raw !! S i = Some b ->
  price_le b a.
Proof.
  intros HB Ha Hb.
  pose proof (sort_by_sorted afterDescending (fun e => (- priceValue e)%Q)
                rounded afterDescending_value raw HB) as Hsorted.
  pose proof (StronglySorted_neighbours _ _ i a b Hsorted Ha Hb) as Hab.
  unfold rank_le in Hab.
  exists (priceValue b), (priceValue a).
  split; [apply rounded_parse, (sorted_rounded afterDescending raw);
          [done|by eapply list_elem_of_lookup_2]|].
  split; [apply rounded_parse, (sorted_rounded afterDescending raw);
          [done|by eapply list_elem_of_lookup_2]|].
  lra.
Qed.

Lemma sorted_asks_ordered raw i a b :
  Forall rounded raw ->
  sort_by afterAscending raw !! i = Some a ->
  sort_by afterAscending raw !! S i = Some b ->
  price_le a b.
Proof.
  intros HA Ha Hb.
  pose proof (sort_by_sorted afterAscending priceValue
                rounded afterAscending_value raw HA) as Hsorted.
  pose proof (StronglySorted_neighbours _ _ i a b Hsorted Ha Hb) as Hab.
  unfold rank_le in Hab.
  exists (priceValue a), (priceValue b).
  split; [apply rounded_parse, (sorted_rounded afterAscending raw);
          [done|by eapply list_elem_of_lookup_2]|].
  split; [apply rounded_parse, (sorted_rounded afterAscending raw);
          [done|by eapply list_elem_of_lookup_2]|].
  exact Hab.
Qed.

Lemma sorted_readable (after : OrderbookEntry -> OrderbookEntry -> bool) raw :
  Forall rounded raw -> Forall readable_level (sort_by after raw).
Proof.
  intros Hall. apply Forall_forall. intros e He.
  by eapply rounded_readable, sorted_rounded.
Qed.


Lemma moved_levels_rounded (draws : nat -> Q) olds raw :
  Forall2 (fun old new => exists n1 n2,
     moved_by (1 + (draws n1 - 0.5) * 0.001)%Q (1 + (draws n2 - 0.5) * 0.2)%Q old new)
    olds raw ->
  Forall rounded raw.
Proof.
  intros Hall. eapply Forall2_right; [|exact Hall].
  intros old new _ (n1 & n2 & Hm). eapply moved_by_rounded, Hm.
Qed.

Lemma sorted_length {A} (after : A -> A -> bool) (P : A -> A -> Prop) olds raw :
  Forall2 P olds raw -> length (sort_by after raw) = length olds.
Proof.
  intros Hall. by rewrite (Permutation_length (sort_by_perm after raw)),
                          (Forall2_length_eq _ _ _ Hall).
Qed.



End RealtimeUpdates.





(* ===================================================================== *)
(** * Further properties: the records of the calendar *)
(* ===================================================================== *)

(** A map whose function returns without touching the state. *)
Lemma mapM_pure_returns {S A B} (f : A -> Eff S B) (P : A -> B -> Prop) items :
  (forall x s, In x items -> exists y, f x s = (Ok y, s) /\ P x y) ->
  forall s, exists ys, mapM f items s = (Ok ys, s) /\ Forall2 P items ys.
Proof.
  intros Hf s.
  destruct (mapM_returns f (fun s0 => s0 = s) P items) with (s := s)
    as (ys & s' & Hrun & -> & Hall); [|done|by exists ys].
  intros x s0 Hin ->. destruct (Hf x s Hin) as (y & Hy & HP). by exists y, s.
Qed.


Section CalendarRecords.
Context `{Engine} `{DateEngine}.

Lemma Math_min_cases a b :
  (Math_min a b <= a /\ Math_min a b <= b
   /\ (Math_min a b == a \/ Math_min a b == b))%Q.
Proof.
  pose proof (Math_min_le a b) as [Ha Hb].
  split; [done|]. split; [done|].
  unfold Math_min. destruct (Qle_bool a b); [left|right]; reflexivity.
Qed.

Lemma Qis_zero_false x : ~ (x == 0)%Q -> Qis_zero x = false.
Proof.
  intros Hx. unfold Qis_zero. destruct (Qeq_bool x 0) eqn:E; [|done].
  apply Qeq_bool_iff in E. done.
Qed.

(** One candle, by the generator and by the KuCoin adapter. *)
Lemma toFinancialData_capped k (w : World) :
  readable_candle k ->
  exists r, MockDataService.toFinancialData k w = (Ok r, w) /\ capped_record k r.
Proof.
  intros (t & o & c & h & l & v & Hreads & Ho).
  pose proof Hreads as (Ht & Hop & Hcl & Hhi & Hlo & Hvo).
  unfold MockDataService.toFinancialData, pure.
  unfold bind at 1. rewrite Ht. cbn [Date_new].
  unfold bind at 1. rewrite Hop. unfold bind at 1. rewrite Hcl.
  unfold bind at 1. rewrite Hhi. unfold bind at 1. rewrite Hlo.
  unfold bind at 1. rewrite Hvo. unfold ret.
  eexists. split; [reflexivity|].
  destruct (Math_min_cases (v / 1000) 100) as (Hm1 & Hm2 & Hm3).
  exists t, o, c, h, l, v.
  exists (Qabs ((h + - l) / o * 100)), (Math_min (v / 1000) 100).
  assert (Hthousand : Qis_zero 1000 = false) by reflexivity.
  cbn [num_sub num_neg num_add num_div num_mul num_abs num_min Math_abs
       FinancialData.date FinancialData.volatility FinancialData.performance
       FinancialData.volume FinancialData.price FinancialData.liquidity
       FinancialData.high FinancialData.low FinancialData.open FinancialData.close].
  rewrite (Qis_zero_false o Ho), Hthousand.
  cbn [num_mul num_abs num_min Math_abs].
  split; [by repeat apply conj|].
  split; [reflexivity|]. split; [reflexivity|].
  split; [apply Qabs_nonneg|]. split; [reflexivity|]. done.
Qed.

Lemma KuCoin_toFinancialData_capped k (w : World) :
  readable_candle k ->
  exists r, KuCoinAPIService.toFinancialData k w = (Ok r, w) /\ capped_record k r.
Proof. apply toFinancialData_capped. Qed.

(** One candle, by the OKX adapter and by the Coinbase adapter. *)
Lemma OKX_toFinancialData_product klines k i (w : World) :
  Forall readable_candle klines -> klines !! i = Some k ->
  exists r, OKXAPIService.toFinancialData klines k i w = (Ok r, w) /\ product_record k r.
Proof.
  intros Hall Hk.
  assert (Hrk : readable_candle k).
  { rewrite Forall_forall in Hall. by eapply Hall, list_elem_of_lookup_2. }
  destruct Hrk as (t & o & c & h & l & v & Hreads & Ho).
  pose proof Hreads as (Ht & Hop & Hcl & Hhi & Hlo & Hvo).
  unfold OKXAPIService.toFinancialData, pure.
  unfold bind at 1. rewrite Hop. unfold bind at 1. rewrite Hcl.
  unfold bind at 1. rewrite Hhi. unfold bind at 1. rewrite Hlo.
  unfold bind at 1. rewrite Hvo.
  assert (Hprev : (0 < i)%nat -> exists previous c',
            klines !! (i - 1)%nat = Some previous
            /\ parseFloat (Kline.close previous) = Ok (Finite c')).
  { intros Hi. destruct (klines !! (i - 1)%nat) as [previous|] eqn:Hp.
    - assert (Hrp : readable_candle previous).
      { rewrite Forall_forall in Hall. by eapply Hall, list_elem_of_lookup_2. }
      destruct Hrp as (? & ? & c' & ? & ? & ? & (_ & _ & Hc' & _) & _).
      by exists previous, c'.
    - apply lookup_ge_None in Hp. apply lookup_lt_Some in Hk. lia. }
  unfold bind at 1.
  destruct (0 <? i)%nat eqn:Hi.
  - apply Nat.ltb_lt in Hi. destruct (Hprev Hi) as (previous & c' & -> & ->).
    unfold bind at 1. rewrite Ht. cbn [Date_new]. unfold ret.
    eexists. split; [reflexivity|].
    exists t, o, c, h, l, v.
    cbn [num_sub num_neg num_add num_div num_mul
         FinancialData.date FinancialData.volatility FinancialData.performance
         FinancialData.volume FinancialData.price FinancialData.liquidity
         FinancialData.high FinancialData.low FinancialData.open FinancialData.close].
    rewrite (Qis_zero_false o Ho). cbn [num_mul].
    split; [by repeat apply conj|]. done.
  - unfold ret at 1. unfold bind at 1. rewrite Ht. cbn [Date_new]. unfold ret.
  eexists. split; [reflexivity|].
  exists t, o, c, h, l, v.
  cbn [num_sub num_neg num_add num_div num_mul
       FinancialData.date FinancialData.volatility FinancialData.performance
       FinancialData.volume FinancialData.price FinancialData.liquidity
       FinancialData.high FinancialData.low FinancialData.open FinancialData.close].
  rewrite (Qis_zero_false o Ho). cbn [num_mul].
  split; [by repeat apply conj|]. done.
Qed.

Lemma Coinbase_toFinancialData_product klines k i (w : World) :
  Forall readable_candle klines -> klines !! i = Some k ->
  exists r, CoinbaseAPIService.toFinancialData klines k i w = (Ok r, w) /\ product_record k r.
Proof. apply OKX_toFinancialData_product. Qed.

Lemma transform_capped ticker klines (w : World) :
  Forall readable_candle klines ->
  exists records,
    MockDataService.transformToFinancialData ticker klines w = (Ok records, w)
    /\ Forall2 capped_record klines records.
Proof.
  intros Hall. unfold MockDataService.transformToFinancialData.
  apply mapM_pure_returns. intros k s Hin. apply toFinancialData_capped.
  rewrite Forall_forall in Hall. by apply Hall, list_elem_of_In.
Qed.




End CalendarRecords.





(* ===================================================================== *)
(** * Further properties: the simulated feed *)
(* ===================================================================== *)

Section Feed.
Context `{Engine}.
Variable behaviour : Callback -> JSValue -> Outcome unit.

Lemma onHub_run {A} (c : Eff Hub A) o h (feed : Feed) :
  c (feedHub feed) = (o, h) -> onHub c feed = (o, set_feedHub h feed).
Proof. unfold onHub. by intros ->. Qed.

Lemma onWorld_run {A} (c : IO A) o w (feed : Feed) :
  c (feedWorld feed) = (o, w) -> onWorld c feed = (o, set_feedWorld w feed).
Proof. unfold onWorld. by intros ->. Qed.

(** The orderbook the generator returns can be updated. *)
Lemma generateOrderbook_readable name w :
  exists book w',
    MockDataService.generateOrderbook name w = (Ok book, w')
    /\ symbol book = name
    /\ length (bids book) = 20%nat /\ length (asks book) = 20%nat
    /\ readable book.
Proof.
  destruct (generateOrderbook_shape name w)
    as (rawBids & rawAsks & now & w' & Hrun & Hbids & Hasks).
  eexists _, _. split; [exact Hrun|]. cbn [symbol bids asks].
  split; [reflexivity|].
  split; [by rewrite (Permutation_length (sort_by_perm _ rawBids)),
                     (Forall2_length_eq _ _ _ Hbids)|].
  split; [by rewrite (Permutation_length (sort_by_perm _ rawAsks)),
                     (Forall2_length_eq _ _ _ Hasks)|].
  assert (HB : Forall rounded rawBids).
  { eapply Forall2_right; [|exact Hbids]. intros i e _ (n1 & n2 & ->). by eexists _, _. }
  assert (HA : Forall rounded rawAsks).
  { eapply Forall2_right; [|exact Hasks]. intros i e _ (n1 & n2 & ->). by eexists _, _. }
  split; cbn [bids asks]; apply Forall_forall; intros e He;
    eapply rounded_readable, sorted_rounded; try exact He; done.
Qed.

(** [connect], step by step. *)
Lemma connect_run symbol feed :
  exists book w',
    MockDataService.generateOrderbook (default "btcusdt" symbol) (feedWorld feed)
    = (Ok book, w')
    /\ EnhancedWebSocketService.connect behaviour symbol feed
       = (Ok tt,
          {| feedHub := delivered (membersOf "connection" (feedHub feed))
                          EnhancedWebSocketService.connectedMessage (feedHub feed);
             connectionState := connected;
             lastOrderbook := Some book;
             mockDataInterval := Some (nextTimer feed);
             isUsingMockData := true;
             intervals := intervals feed ++ [nextTimer feed];
             timeouts := timeouts feed;
             nextTimer := S (nextTimer feed);
             feedWorld := w' |}).
Proof.
  destruct (generateOrderbook_readable (default "btcusdt" symbol) (feedWorld feed))
    as (book & w' & Hrun & _).
  exists book, w'. split; [exact Hrun|].
  unfold EnhancedWebSocketService.connect, EnhancedWebSocketService.enableMockDataMode,
    EnhancedWebSocketService.startMockDataSimulation.
  unfold bind, modify, setInterval.
  rewrite (onWorld_run _ _ _ (set_connectionState connected (set_isUsingMockData true feed))
             Hrun).
  erewrite onHub_run; [|apply Enhanced_notifySubscribers_delivers].
  reflexivity.
Qed.

(** A tick of the timer on an instance that holds a readable
    orderbook. *)
Lemma tick_run feed book :
  lastOrderbook feed = Some book -> readable book ->
  exists book' w',
    MockDataService.generateRealtimeUpdate (Some book) (feedWorld feed) = (Ok book', w')
    /\ symbol book' = symbol book
    /\ length (bids book') = length (bids book)
    /\ length (asks book') = length (asks book)
    /\ ordered book' /\ readable book'
    /\ lastUpdateId book'
       = int (timeReadings (feedWorld feed) (timeCursor (feedWorld feed)))
    /\ EnhancedWebSocketService.tick behaviour feed
       = (Ok tt,
          {| feedHub := delivered (membersOf "orderbook" (feedHub feed))
                          (orderbookValue book') (feedHub feed);
             connectionState := connectionState feed;
             lastOrderbook := Some book';
             mockDataInterval := mockDataInterval feed;
             isUsingMockData := isUsingMockData feed;
             intervals := intervals feed;
             timeouts := timeouts feed;
             nextTimer := nextTimer feed;
             feedWorld := w' |}).
Proof.
  intros Hlast Hbook.
  destruct (generateRealtimeUpdate_shape book (feedWorld feed) Hbook)
    as (rawBids & rawAsks & w' & Hrun & _ & Hbids & Hasks).
  pose proof (moved_levels_rounded _ _ _ Hbids) as HB.
  pose proof (moved_levels_rounded _ _ _ Hasks) as HA.
  eexists _, w'. split; [exact Hrun|]. cbn [symbol bids asks].
  split; [reflexivity|].
  split; [exact (sorted_length _ _ _ _ Hbids)|].
  split; [exact (sorted_length _ _ _ _ Hasks)|].
  split; [split; cbn [bids asks]; intros i a b Ha Hb;
          [exact (sorted_bids_ordered rawBids i a b HB Ha Hb)
          |exact (sorted_asks_ordered rawAsks i a b HA Ha Hb)]|].
  split; [split; cbn [bids asks]; by apply sorted_readable|].
  split; [reflexivity|].
  unfold EnhancedWebSocketService.tick.
  unfold bind at 1. unfold gets. rewrite Hlast.
  unfold bind at 1. rewrite (onWorld_run _ _ _ feed Hrun).
  unfold bind, modify.
  erewrite onHub_run; [|apply Enhanced_notifySubscribers_delivers].
  reflexivity.
Qed.

(** [disconnect], step by step. *)
Lemma disconnectFeed_run feed :
  EnhancedWebSocketService.disconnectFeed feed
  = (Ok tt,
     {| feedHub := {| subscribers := ∅; calls := calls (feedHub feed) |};
        connectionState := disconnected;
        lastOrderbook := lastOrderbook feed;
        mockDataInterval := None;
        isUsingMockData := false;
        intervals := match mockDataInterval feed with
                     | Some handle => filter (fun t => t <> handle) (intervals feed)
                     | None => intervals feed
                     end;
        timeouts := timeouts feed;
        nextTimer := nextTimer feed;
        feedWorld := feedWorld feed |}).
Proof.
  unfold EnhancedWebSocketService.disconnectFeed, clearInterval.
  unfold bind, gets, modify, onHub, EnhancedWebSocketService.disconnect.
  destruct feed as [h c l [handle|] u i t n w]; reflexivity.
Qed.

Lemma happen_run name event feed :
  feeding name feed ->
  exists feed' log,
    happen behaviour event feed = (Ok tt, feed')
    /\ feeding name feed'
    /\ connectionState feed' = connectionState feed
    /\ isUsingMockData feed' = isUsingMockData feed
    /\ intervals feed' = intervals feed
    /\ calls (feedHub feed') = calls (feedHub feed) ++ log
    /\ Forall (fun entry => feed_message name entry.2) log.
Proof.
  intros (book & Hlast & Hname & Hnb & Hna & Hbook).
  destruct event as [handle|channel callback|channel callback]; cbn [happen].
  - unfold EnhancedWebSocketService.fire, bind, gets.
    destruct (bool_decide (handle ∈ intervals feed)).
    + destruct (tick_run feed book Hlast Hbook)
        as (book' & w' & _ & Hs & Hb & Ha & Hord & Hread & _ & Hrun).
      eexists _, _. split; [exact Hrun|].
      cbn [lastOrderbook connectionState isUsingMockData intervals feedHub delivered calls].
      split; [exists book'; split; [reflexivity|]; split; [congruence|];
              split; [congruence|]; split; [congruence|exact Hread]|].
      do 4 (split; [reflexivity|]).
      apply Forall_forall. intros entry Hin.
      apply list_elem_of_fmap in Hin as (c & -> & _). cbn.
      exists book'. split; [reflexivity|]. split; [congruence|].
      split; [congruence|]. split; [congruence|exact Hord].
    + exists feed, []. unfold ret. split; [reflexivity|].
      split; [by exists book|]. do 3 (split; [reflexivity|]).
      split; [by rewrite app_nil_r|constructor].
  - unfold bind.
    rewrite (onHub_run _ _ _ feed (Enhanced_subscribe_run channel callback (feedHub feed))).
    unfold ret. eexists _, []. split; [reflexivity|].
    cbn [set_feedHub lastOrderbook connectionState isUsingMockData intervals feedHub
         subscribed calls].
    split; [by exists book|]. do 3 (split; [reflexivity|]).
    split; [by rewrite app_nil_r|constructor].
  - rewrite (onHub_run _ _ _ feed (Enhanced_unsubscribe_run channel callback (feedHub feed))).
    eexists _, []. split; [reflexivity|].
    cbn [set_feedHub lastOrderbook connectionState isUsingMockData intervals feedHub].
    split; [by exists book|]. do 3 (split; [reflexivity|]).
    split; [by rewrite calls_unsubscribed, app_nil_r|constructor].
Qed.

Lemma happenAll_run name events feed :
  feeding name feed ->
  exists feed' log,
    happenAll behaviour events feed = (Ok tt, feed')
    /\ feeding name feed'
    /\ connectionState feed' = connectionState feed
    /\ isUsingMockData feed' = isUsingMockData feed
    /\ intervals feed' = intervals feed
    /\ calls (feedHub feed') = calls (feedHub feed) ++ log
    /\ Forall (fun entry => feed_message name entry.2) log.
Proof.
  revert feed. induction events as [|event rest IH]; intros feed Hfeed.
  - exists feed, []. split; [reflexivity|]. split; [done|].
    do 3 (split; [reflexivity|]). split; [by rewrite app_nil_r|constructor].
  - destruct (happen_run name event feed Hfeed)
      as (feed1 & log1 & Hrun1 & Hfeed1 & Hc1 & Hm1 & Hi1 & Hcalls1 & Hlog1).
    destruct (IH feed1 Hfeed1)
      as (feed2 & log2 & Hrun2 & Hfeed2 & Hc2 & Hm2 & Hi2 & Hcalls2 & Hlog2).
    exists feed2, (log1 ++ log2). cbn [happenAll]. unfold bind. rewrite Hrun1, Hrun2.
    split; [reflexivity|]. split; [done|].
    split; [congruence|]. split; [congruence|]. split; [congruence|].
    split; [by rewrite Hcalls2, Hcalls1, app_assoc|by apply Forall_app].
Qed.

(** X17.  Whatever the state of the instance, [connect] returns and
    leaves it connected and in mock mode, holding a newly generated
    orderbook of the symbol ([btcusdt] when none is given) with 20 bids
    and 20 asks; it starts one more interval timer, whose handle it
    keeps; and it calls every subscriber of [connection], in the order
    of subscription, with the notice of the connection, whether or not
    some of them throw.  The subscriptions are kept. *)
Theorem connect_starts_the_feed symbol feed :
  exists feed',
    EnhancedWebSocketService.connect behaviour symbol feed = (Ok tt, feed')
    /\ connectionState feed' = connected
    /\ isUsingMockData feed' = true
    /\ feeding (default "btcusdt" symbol) feed'
    /\ mockDataInterval feed' = Some (nextTimer feed)
    /\ intervals feed' = intervals feed ++ [nextTimer feed]
    /\ subscribers (feedHub feed') = subscribers (feedHub feed)
    /\ calls (feedHub feed')
       = calls (feedHub feed)
         ++ map (fun callback => (callback, EnhancedWebSocketService.connectedMessage))
                (membersOf "connection" (feedHub feed)).
Proof.
  destruct (connect_run symbol feed) as (book & w' & Hbook & Hrun).
  destruct (generateOrderbook_readable (default "btcusdt" symbol) (feedWorld feed))
    as (book0 & w0 & Hbook0 & Hname & Hnb & Hna & Hread).
  rewrite Hbook in Hbook0. injection Hbook0 as <- <-.
  eexists. split; [exact Hrun|].
  cbn [connectionState isUsingMockData lastOrderbook mockDataInterval intervals feedHub
       delivered subscribers calls].
  split; [reflexivity|]. split; [reflexivity|].
  split; [by exists book|]. by repeat apply conj.
Qed.

(** X18.  Once [connect] has returned, whatever timers fire and whoever
    subscribes or unsubscribes afterwards, in any order, nothing throws,
    the instance stays connected and keeps holding an orderbook of the
    symbol with 20 bids and 20 asks, and everything the subscribers are
    given from then on is an orderbook of that symbol with 20 bids and
    20 asks in the order of their prices. *)
Theorem feed_publishes_well_formed_books name events feed :
  exists feed1 feed2 log,
    EnhancedWebSocketService.connect behaviour (Some name) feed = (Ok tt, feed1)
    /\ happenAll behaviour events feed1 = (Ok tt, feed2)
    /\ connectionState feed2 = connected
    /\ feeding name feed2
    /\ calls (feedHub feed2) = calls (feedHub feed1) ++ log
    /\ Forall (fun entry => feed_message name entry.2) log.
Proof.
  destruct (connect_run (Some name) feed) as (book & w' & Hbook & Hrun).
  destruct (generateOrderbook_readable name (feedWorld feed))
    as (book0 & w0 & Hbook0 & Hname & Hnb & Hna & Hread).
  change (default "btcusdt" (Some name)) with name in Hbook. rewrite Hbook in Hbook0. injection Hbook0 as <- <-.
  match type of Hrun with _ = (_, ?f) => set (feed1 := f) in * end.
  assert (Hfeed1 : feeding name feed1).
  { exists book. split; [reflexivity|]. split; [exact Hname|].
    split; [exact Hnb|]. split; [exact Hna|exact Hread]. }
  destruct (happenAll_run name events feed1 Hfeed1)
    as (feed2 & log & Hrun2 & Hfeed2 & Hc & _ & _ & Hcalls & Hlog).
  exists feed1, feed2, log. split; [exact Hrun|]. split; [exact Hrun2|].
  split; [by rewrite Hc|]. split; [exact Hfeed2|]. split; [exact Hcalls|exact Hlog].
Qed.

Lemma filter_fresh (handles : list nat) next :
  Forall (fun handle => (handle < next)%nat) handles ->
  filter (fun t => t <> next) (handles ++ [next]) = handles.
Proof.
  intros Hall. rewrite filter_app.
  rewrite (filter_cons_False _ next []) by (intros Hne; by apply Hne).
  rewrite filter_nil, app_nil_r.
  induction Hall as [|x rest Hx Hall IH]; [done|].
  rewrite filter_cons_True by lia. by rewrite IH.
Qed.

(** X19.  [disconnect] stops the timer of the latest [connect] and no
    other.  After one [connect] and a [disconnect] the timers that run
    are those that ran before.  After two [connect]s and a [disconnect]
    the timer of the first [connect] still runs: the instance says it is
    disconnected and not in mock mode, yet it still holds its orderbook,
    and when that timer fires the orderbook is updated and stamped as
    before. *)
Theorem disconnect_stops_the_latest_timer_only a b feed :
  timers_fresh feed ->
  exists feed1 feed2 feed3 once,
    EnhancedWebSocketService.connect behaviour a feed = (Ok tt, feed1)
    /\ EnhancedWebSocketService.disconnectFeed feed1 = (Ok tt, once)
    /\ intervals once = intervals feed
    /\ EnhancedWebSocketService.connect behaviour b feed1 = (Ok tt, feed2)
    /\ EnhancedWebSocketService.disconnectFeed feed2 = (Ok tt, feed3)
    /\ connectionState feed3 = disconnected
    /\ isUsingMockData feed3 = false
    /\ mockDataInterval feed3 = None
    /\ intervals feed3 = intervals feed ++ [nextTimer feed]
    /\ feeding (default "btcusdt" b) feed3
    /\ exists feed4 book',
         EnhancedWebSocketService.fire behaviour (nextTimer feed) feed3 = (Ok tt, feed4)
         /\ lastOrderbook feed4 = Some book'
         /\ lastUpdateId book'
            = int (timeReadings (feedWorld feed3) (timeCursor (feedWorld feed3)))
         /\ feeding (default "btcusdt" b) feed4.
Proof.
  intros Hfresh.
  destruct (connect_run a feed) as (book1 & w1 & _ & Hrun1).
  match type of Hrun1 with _ = (_, ?f) => set (feed1 := f) in * end.
  destruct (connect_run b feed1) as (book2 & w2 & Hbook2 & Hrun2).
  destruct (generateOrderbook_readable (default "btcusdt" b) (feedWorld feed1))
    as (book0 & w0 & Hbook0 & Hname & Hnb & Hna & Hread).
  rewrite Hbook2 in Hbook0. injection Hbook0 as <- <-.
  match type of Hrun2 with _ = (_, ?f) => set (feed2 := f) in * end.
  pose proof (disconnectFeed_run feed1) as Hstop1.
  pose proof (disconnectFeed_run feed2) as Hstop2.
  match type of Hstop2 with _ = (_, ?f) => set (feed3 := f) in * end.
  assert (Hfeeding : feeding (default "btcusdt" b) feed3).
  { exists book2. split; [reflexivity|]. split; [exact Hname|].
    split; [exact Hnb|]. split; [exact Hna|exact Hread]. }
  assert (Hintervals : intervals feed3 = intervals feed ++ [nextTimer feed]).
  { unfold feed3, feed2, feed1.
    cbn [intervals mockDataInterval nextTimer].
    apply (filter_fresh (intervals feed ++ [nextTimer feed]) (S (nextTimer feed))).
    apply Forall_app. split.
    - eapply Forall_impl; [exact Hfresh|]. cbn. lia.
    - repeat constructor. }
  eexists feed1, feed2, feed3, _.
  split; [exact Hrun1|]. split; [exact Hstop1|].
  split; [cbn [intervals mockDataInterval feed1]; by apply filter_fresh|].
  split; [exact Hrun2|]. split; [exact Hstop2|].
  do 3 (split; [reflexivity|]).
  split; [exact Hintervals|]. split; [exact Hfeeding|].
  destruct (tick_run feed3 book2 eq_refl Hread)
    as (book' & w' & _ & Hs & Hb & Ha & _ & Hread' & Hstamp & Htick).
  eexists _, book'. split.
  - unfold EnhancedWebSocketService.fire, bind, gets. rewrite Hintervals.
    rewrite bool_decide_eq_true_2 by (apply elem_of_app; right; by apply list_elem_of_singleton).
    exact Htick.
  - split; [reflexivity|]. split; [exact Hstamp|].
    exists book'. split; [reflexivity|]. split; [congruence|].
    split; [congruence|]. split; [congruence|exact Hread'].
Qed.

(** X20.  A forced reconnection forgets every subscriber.
    [forceReconnect] disconnects at once and connects again when its
    timeout is due; from then on the instance is connected and holds a
    new orderbook of the symbol, but no channel has a subscriber, and
    nobody has been called: not by [forceReconnect], and not with the
    notice of the new connection. *)
Theorem forceReconnect_forgets_the_subscribers symbol feed :
  timeouts feed = [] ->
  exists feed1 feed2,
    EnhancedWebSocketService.forceReconnect symbol feed = (Ok tt, feed1)
    /\ connectionState feed1 = disconnected
    /\ EnhancedWebSocketService.expire behaviour feed1 = (Ok tt, feed2)
    /\ connectionState feed2 = connected
    /\ isUsingMockData feed2 = true
    /\ feeding (default "btcusdt" symbol) feed2
    /\ (forall channel, membersOf channel (feedHub feed2) = [])
    /\ calls (feedHub feed2) = calls (feedHub feed).
Proof.
  intros Hnone.
  pose proof (disconnectFeed_run feed) as Hstop.
  match type of Hstop with _ = (_, ?f) => set (feed0 := f) in * end.
  set (feed1 := exec (setTimeout symbol) feed0).
  assert (Hforce : EnhancedWebSocketService.forceReconnect symbol feed = (Ok tt, feed1)).
  { unfold EnhancedWebSocketService.forceReconnect, bind. by rewrite Hstop. }
  set (feed1' :=
         {| feedHub := feedHub feed1; connectionState := connectionState feed1;
            lastOrderbook := lastOrderbook feed1; mockDataInterval := mockDataInterval feed1;
            isUsingMockData := isUsingMockData feed1; intervals := intervals feed1;
            timeouts := []; nextTimer := nextTimer feed1; feedWorld := feedWorld feed1 |}).
  destruct (connect_run symbol feed1') as (book & w' & Hbook & Hrun).
  destruct (generateOrderbook_readable (default "btcusdt" symbol) (feedWorld feed1'))
    as (book0 & w0 & Hbook0 & Hname & Hnb & Hna & Hread).
  rewrite Hbook in Hbook0. injection Hbook0 as <- <-.
  eexists feed1, _. split; [exact Hforce|]. split; [reflexivity|].
  split.
  { unfold EnhancedWebSocketService.expire, bind, gets, modify.
    assert (timeouts feed1 = [symbol]) as ->.
    { unfold feed1, feed0, exec, setTimeout, modify. cbn [timeouts snd]. by rewrite Hnone. }
    exact Hrun. }
  cbn [connectionState isUsingMockData lastOrderbook feedHub delivered calls subscribers].
  split; [reflexivity|]. split; [reflexivity|].
  split; [exists book; split; [reflexivity|]; split; [exact Hname|];
          split; [exact Hnb|]; split; [exact Hna|exact Hread]|].
  split.
  - intros channel. unfold membersOf, feed1', feed1, feed0, exec, setTimeout, modify.
    cbn [subscribers feedHub delivered snd]. by rewrite lookup_empty.
  - unfold membersOf, feed1', feed1, feed0, exec, setTimeout, modify.
    cbn [subscribers feedHub delivered snd calls]. rewrite lookup_empty.
    cbn [default from_option map]. by rewrite app_nil_r.
Qed.

End Feed.

(** X19 on an example: an instance that has just been constructed
    connects for ETHUSDT, connects again without a symbol, and
    disconnects; timer 1 still runs. *)
Lemma disconnect_stops_the_latest_timer_only_witness :
  let feed := newFeed (exampleWorld evenDraws networkDown) in
  exists feed1 feed2 feed3 once,
    EnhancedWebSocketService.connect (H := exampleEngine) faulty (Some "ETHUSDT") feed
    = (Ok tt, feed1)
    /\ EnhancedWebSocketService.disconnectFeed feed1 = (Ok tt, once)
    /\ intervals once = []
    /\ EnhancedWebSocketService.connect (H := exampleEngine) faulty None feed1 = (Ok tt, feed2)
    /\ EnhancedWebSocketService.disconnectFeed feed2 = (Ok tt, feed3)
    /\ connectionState feed3 = disconnected
    /\ isUsingMockData feed3 = false
    /\ mockDataInterval feed3 = None
    /\ intervals feed3 = [1%nat]
    /\ feeding (H := exampleEngine) "btcusdt" feed3
    /\ exists feed4 book',
         EnhancedWebSocketService.fire (H := exampleEngine) faulty 1 feed3 = (Ok tt, feed4)
         /\ lastOrderbook feed4 = Some book'
         /\ lastUpdateId book'
            = int (timeReadings (feedWorld feed3) (timeCursor (feedWorld feed3)))
         /\ feeding (H := exampleEngine) "btcusdt" feed4.
Proof.
  apply (disconnect_stops_the_latest_timer_only (H := exampleEngine) faulty
           (Some "ETHUSDT") None (newFeed (exampleWorld evenDraws networkDown))).
  constructor.
Defined.

(** X20 on an example: a forced reconnection of an instance with one
    subscriber of [connection]. *)
Lemma forceReconnect_forgets_the_subscribers_witness :
  let feed := set_feedHub (subscribed "connection" 1%nat emptyHub)
                (newFeed (exampleWorld evenDraws networkDown)) in
  membersOf "connection" (feedHub feed) = [1%nat]
  /\ exists feed1 feed2,
    EnhancedWebSocketService.forceReconnect (Some "ETHUSDT") feed = (Ok tt, feed1)
    /\ connectionState feed1 = disconnected
    /\ EnhancedWebSocketService.expire (H := exampleEngine) faulty feed1 = (Ok tt, feed2)
    /\ connectionState feed2 = connected
    /\ isUsingMockData feed2 = true
    /\ feeding (H := exampleEngine) "ETHUSDT" feed2
    /\ (forall channel, membersOf channel (feedHub feed2) = [])
    /\ calls (feedHub feed2) = calls (feedHub feed).
Proof.
  split; [reflexivity|].
  apply (forceReconnect_forgets_the_subscribers (H := exampleEngine) faulty
           (Some "ETHUSDT")
           (set_feedHub (subscribed "connection" 1%nat emptyHub)
              (newFeed (exampleWorld evenDraws networkDown)))).
  reflexivity.
Defined.

(* ===================================================================== *)
(** * Further properties: the replies of the exchanges *)
(* ===================================================================== *)

Section Replies.
Context `{Engine}.

(** The entries of a reply, each an array, as levels. *)
Lemma mapM_toEntry {S} items (s : S) :
  forallb is_array items = true ->
  mapM toEntry items s = (Ok (map levelOfPair items), s).
Proof.
  induction items as [|item rest IH]; intros Hall; [done|].
  cbn [forallb] in Hall. apply andb_true_iff in Hall as [Hitem Hrest].
  cbn [mapM map]. unfold bind at 1.
  destruct item as [| | | | |fields|]; try discriminate Hitem.
  replace (toEntry (VArray fields) s) with (Ok (levelOfPair (VArray fields)), s)
    by reflexivity.
  unfold bind. rewrite (IH Hrest). reflexivity.
Qed.

(** A request that is answered. *)
Lemma bind_fetch_replied {A} (k : Z * ResponseBody -> IO A) w status body :
  networkReplies w (networkCursor w) = Response status body ->
  bind fetch k w = k (status, body) (afterReply w).
Proof. intros Hreply. by rewrite bind_fetch, Hreply. Qed.

Lemma bind_ret {S A B} (a : A) (k : A -> Eff S B) s : bind (ret a) k s = k a s.
Proof. reflexivity. Qed.

Lemma bind_pure_ok {S A B} (a : A) (k : A -> Eff S B) s : bind (pure (Ok a)) k s = k a s.
Proof. reflexivity. Qed.

Lemma bind_response_json {A} v (k : JSValue -> IO A) w :
  bind (response_json (JSON v)) k w = k v w.
Proof. reflexivity. Qed.

Lemma bind_get_property {S A} fields name (k : JSValue -> Eff S A) s :
  bind (get_property (VObject fields) name) k s = k (lookup_field name fields) s.
Proof. reflexivity. Qed.

Lemma bind_get_index {S A} items i (k : JSValue -> Eff S A) s :
  bind (get_index (VArray items) i) k s = k (nth i items VUndefined) s.
Proof. reflexivity. Qed.

Lemma bind_array_receiver {S A} items method (k : list JSValue -> Eff S A) s :
  bind (array_receiver (VArray items) method) k s = k items s.
Proof. reflexivity. Qed.

Lemma bind_mapM_toEntry {S A} items (k : list OrderbookEntry -> Eff S A) s :
  forallb is_array items = true ->
  bind (mapM toEntry items) k s = k (map levelOfPair items) s.
Proof. intros Hall. unfold bind. by rewrite (mapM_toEntry items s Hall). Qed.

Lemma slice_arrays items limit :
  forallb is_array items = true -> forallb is_array (Array_slice0 items limit) = true.
Proof.
  intros Hall. unfold Array_slice0.
  destruct (limit <? 0); apply forallb_forall; intros x Hx;
    apply (proj1 (forallb_forall _ _) Hall); apply list_elem_of_In;
    apply list_elem_of_In in Hx; apply elem_of_take in Hx as (i & Hi & _);
    by eapply list_elem_of_lookup_2.
Qed.

(** X21.  What the three adapters make of a reply to [getOrderbook] that
    has the expected layout: each returns the levels of the reply, entry
    by entry and in the order of the reply.  The KuCoin adapter returns
    all of them under the reformatted symbol, and the OKX adapter all of
    them under the symbol asked for: neither uses [limit].  The Coinbase
    adapter keeps the first [limit] bids and asks (all but the last
    [-limit] when [limit] is negative) and stamps the orderbook with the
    reading of the clock. *)
Theorem adapters_pass_the_levels_through name limit bidItems askItems :
  forallb is_array bidItems = true ->
  forallb is_array askItems = true ->
  (forall w fields record n,
     replies_with w (VObject fields) ->
     lookup_field "data" fields = VObject record ->
     lookup_field "bids" record = VArray bidItems ->
     lookup_field "asks" record = VArray askItems ->
     parseInt (lookup_field "sequence" record) = Ok n ->
     KuCoinAPIService.getOrderbook name limit w
     = (Ok {| symbol := KuCoinAPIService.formatSymbol name;
              bids := map levelOfPair bidItems;
              asks := map levelOfPair askItems;
              lastUpdateId := VNumber n |}, afterReply w))
  /\ (forall w fields record others n,
        replies_with w (VObject fields) ->
        lookup_field "code" fields = VString (Lit "0") ->
        lookup_field "data" fields = VArray (VObject record :: others) ->
        lookup_field "bids" record = VArray bidItems ->
        lookup_field "asks" record = VArray askItems ->
        parseInt (lookup_field "ts" record) = Ok n ->
        OKXAPIService.getOrderbook name limit w
        = (Ok {| symbol := name;
                 bids := map levelOfPair bidItems;
                 asks := map levelOfPair askItems;
                 lastUpdateId := VNumber n |}, afterReply w))
  /\ (forall w fields,
        replies_with w (VObject fields) ->
        lookup_field "bids" fields = VArray bidItems ->
        lookup_field "asks" fields = VArray askItems ->
        CoinbaseAPIService.getOrderbook name limit w
        = (Ok {| symbol := name;
                 bids := map levelOfPair (Array_slice0 bidItems limit);
                 asks := map levelOfPair (Array_slice0 askItems limit);
                 lastUpdateId := int (timeReadings w (timeCursor w)) |},
           afterReading (afterReply w))).
Proof.
  intros Hbids Hasks. split; [|split].
  - intros w fields record n (status & Hok & Hreply) Hdata Hb Ha Hn.
    apply try_catch_ok. unfold KuCoinAPIService.fetchOrderbook.
    rewrite (bind_fetch_replied _ w status _ Hreply). rewrite Hok. cbn [negb].
    rewrite bind_response_json, bind_get_property, Hdata.
    rewrite bind_get_property, Hb, bind_array_receiver.
    rewrite (bind_mapM_toEntry bidItems _ _ Hbids).
    rewrite bind_get_property, Ha, bind_array_receiver.
    rewrite (bind_mapM_toEntry askItems _ _ Hasks).
    rewrite bind_get_property, Hn, bind_pure_ok. reflexivity.
  - intros w fields record others n (status & Hok & Hreply) Hcode Hdata Hb Ha Hn.
    apply try_catch_ok. unfold OKXAPIService.fetchOrderbook.
    rewrite (bind_fetch_replied _ w status _ Hreply). rewrite Hok. cbn [negb].
    rewrite bind_response_json.
    assert (Hfirst : OKXAPIService.firstRecord (VObject fields) (afterReply w)
                     = (Ok (VObject record), afterReply w)).
    { unfold OKXAPIService.firstRecord.
      rewrite bind_get_property, Hcode.
      replace (is_not_string_0 (VString (Lit "0"))) with false by reflexivity.
      rewrite bind_get_property, Hdata, bind_get_index. cbn [nth falsy].
      rewrite bind_get_property, Hdata. reflexivity. }
    rewrite (bind_ok _ _ _ _ _ Hfirst).
    rewrite bind_get_property, Hb, bind_array_receiver.
    rewrite (bind_mapM_toEntry bidItems _ _ Hbids).
    rewrite bind_get_property, Ha, bind_array_receiver.
    rewrite (bind_mapM_toEntry askItems _ _ Hasks).
    rewrite bind_get_property, Hn, bind_pure_ok. reflexivity.
  - intros w fields (status & Hok & Hreply) Hb Ha.
    apply try_catch_ok. unfold CoinbaseAPIService.fetchOrderbook.
    rewrite (bind_fetch_replied _ w status _ Hreply). rewrite Hok. cbn [negb].
    rewrite bind_response_json.
    rewrite bind_get_property, Hb, bind_array_receiver.
    rewrite (bind_mapM_toEntry _ _ _ (slice_arrays bidItems limit Hbids)).
    rewrite bind_get_property, Ha, bind_array_receiver.
    rewrite (bind_mapM_toEntry _ _ _ (slice_arrays askItems limit Hasks)).
    rewrite bind_Date_now. reflexivity.
Qed.

(** A map whose function returns the same whatever the state. *)
Lemma mapM_converted {S A B} (f : A -> Eff S B) items ys (s : S) :
  Forall2 (fun x y => forall s, f x s = (Ok y, s)) items ys ->
  mapM f items s = (Ok ys, s).
Proof.
  intros Hall. induction Hall as [|x y items ys Hxy Hall IH]; [done|].
  cbn [mapM]. unfold bind. by rewrite Hxy, IH.
Qed.

Lemma Forall2_rev_both {A B} (P : A -> B -> Prop) l1 l2 :
  Forall2 P l1 l2 -> Forall2 P (rev l1) (rev l2).
Proof.
  induction 1 as [|x y l1 l2 Hxy Hall IH]; [constructor|].
  cbn [rev]. apply Forall2_app; [exact IH|by repeat constructor].
Qed.

(** X22.  What the three adapters make of a reply to [getKlines] that
    has the expected layout and whose candles all convert: each returns
    one candle per candle of the reply, in the reverse of the order of
    the reply, so oldest first when the exchange sends the newest first.
    The candle of index [i] of the result is the conversion of the
    candle of index [n - 1 - i] of the reply. *)
Theorem adapters_return_the_candles_reversed name interval limit candles :
  (forall w fields converted,
     replies_with (afterReading w) (VObject fields) ->
     lookup_field "data" fields = VArray candles ->
     Forall2 (fun candle kline =>
                forall s, KuCoinAPIService.toKline candle s = (Ok kline, s))
             candles converted ->
     KuCoinAPIService.getKlines name interval limit w
     = (Ok (rev converted), afterReply (afterReading w)))
  /\ (forall w fields converted,
        replies_with w (VObject fields) ->
        lookup_field "code" fields = VString (Lit "0") ->
        lookup_field "data" fields = VArray candles ->
        Forall2 (fun candle kline =>
                   forall s, OKXAPIService.toKline candle s = (Ok kline, s))
                candles converted ->
        OKXAPIService.getKlines name interval limit w
        = (Ok (rev converted), afterReply w))
  /\ (forall w converted,
        replies_with (afterReading w) (VArray candles) ->
        Z.abs (timeReadings w (timeCursor w)) <= 8640000000000000 ->
        Z.abs (timeReadings w (timeCursor w) - limit * dayMs) <= 8640000000000000 ->
        Forall2 (fun candle kline =>
                   forall s, CoinbaseAPIService.toKline candle s = (Ok kline, s))
                candles converted ->
        CoinbaseAPIService.getKlines name interval limit w
        = (Ok (rev converted), afterReply (afterReading w))).
Proof.
  split; [|split].
  - intros w fields converted (status & Hok & Hreply) Hdata Hall.
    apply try_catch_ok. unfold KuCoinAPIService.fetchKlines.
    rewrite bind_Date_now.
    rewrite (bind_fetch_replied _ _ status _ Hreply). rewrite Hok. cbn [negb].
    rewrite bind_response_json, bind_get_property, Hdata, bind_array_receiver.
    apply mapM_converted. by apply Forall2_rev_both.
  - intros w fields converted (status & Hok & Hreply) Hcode Hdata Hall.
    apply try_catch_ok. unfold OKXAPIService.fetchKlines.
    rewrite (bind_fetch_replied _ _ status _ Hreply). rewrite Hok. cbn [negb].
    rewrite bind_response_json, bind_get_property, Hcode.
    replace (is_not_string_0 (VString (Lit "0"))) with false by reflexivity.
    rewrite bind_get_property, Hdata, bind_array_receiver.
    rewrite (bind_ok _ _ _ _ _ (mapM_converted _ _ _ _ Hall)). reflexivity.
  - intros w converted (status & Hok & Hreply) Hend Hstart Hall.
    apply try_catch_ok. unfold CoinbaseAPIService.fetchKlines.
    rewrite bind_Date_now. cbv beta zeta.
    unfold CoinbaseAPIService.Date_toISOString.
    assert ((8640000000000000 <? Z.abs (timeReadings w (timeCursor w)
                                         - limit * 24 * 60 * 60 * 1000)) = false) as ->.
    { apply Z.ltb_ge. unfold dayMs in Hstart.
      replace (limit * 24 * 60 * 60 * 1000) with (limit * (24 * 60 * 60 * 1000)) by lia.
      exact Hstart. }
    rewrite bind_ret.
    assert ((8640000000000000 <? Z.abs (timeReadings w (timeCursor w))) = false) as ->
      by (apply Z.ltb_ge; exact Hend).
    rewrite bind_ret.
    rewrite (bind_fetch_replied _ _ status _ Hreply). rewrite Hok. cbn [negb].
    rewrite bind_response_json, bind_array_receiver.
    rewrite (bind_ok _ _ _ _ _ (mapM_converted _ _ _ _ Hall)). reflexivity.
Qed.

End Replies.

(** X21 on an example: Coinbase answers with two bids and two asks, and
    one level a side is asked for. *)
Lemma adapters_pass_the_levels_through_witness :
  let w := exampleWorld evenDraws (answering (VObject exampleBookFields)) in
  CoinbaseAPIService.getOrderbook (H := exampleEngine) "BTCUSDT" 1 w
  = (Ok {| symbol := "BTCUSDT";
           bids := [{| price := VString (Lit "64990.50");
                       quantity := VString (Lit "0.2500") |}];
           asks := [{| price := VString (Lit "65010.00");
                       quantity := VString (Lit "0.5000") |}];
           lastUpdateId := int 1700000000000 |},
     afterReading (afterReply w)).
Proof.
  intros w.
  destruct (adapters_pass_the_levels_through (H := exampleEngine) "BTCUSDT" 1
              exampleBidItems exampleAskItems eq_refl eq_refl) as (_ & _ & Hcoinbase).
  apply (Hcoinbase w exampleBookFields); [by exists 200|reflexivity|reflexivity].
Defined.

(* ===================================================================== *)
(** * Further properties: the fallback candles of the adapters *)
(* ===================================================================== *)

Section FallbackCandles.
Context `{Engine}.

Lemma toString_reads_le x y :
  (x <= y)%Q -> reads_le (VString (toString x)) (VString (toString y)).
Proof. intros Hxy. by exists x, y. Qed.

(** The candles of the KuCoin fallback: each is drawn on its own. *)
Lemma KuCoin_getMockKlines_candles limit w :
  valid_draws w -> limit <= 4294967295 ->
  exists klines w',
    KuCoinAPIService.getMockKlines limit w = (Ok klines, w')
    /\ Forall2 (fun i k =>
         daily_candle (timeReadings w (timeCursor w) - (limit - i - 1) * dayMs)
                      (timeReadings w (timeCursor w) - (limit - i - 1) * dayMs + dayMs - 1) k)
       (map Z.of_nat (seq 0 (Z.to_nat limit))) klines.
Proof.
  intros Hw Hlimit. unfold KuCoinAPIService.getMockKlines. run_reads.
  set (now := timeReadings w (timeCursor w)).
  match goal with
  | |- context [Array_from limit ?f] =>
      destruct (Array_from_returns limit f valid_draws
                  (fun i k => daily_candle (now - (limit - i - 1) * dayMs)
                                (now - (limit - i - 1) * dayMs + dayMs - 1) k))
        with (w := afterReading w) as (klines & w' & Hrun & _ & Hall)
  end.
  - exact Hlimit.
  - intros i s _ Hs. run_reads. unfold ret.
    pose proof (Hs (randomCursor s)) as Hd1.
    pose proof (Hs (S (randomCursor s))) as Hd2.
    pose proof (Hs (S (S (randomCursor s)))) as Hd3.
    pose proof (Hs (S (S (S (randomCursor s))))) as Hd4.
    pose proof (Hs (S (S (S (S (randomCursor s)))))) as Hd5.
    cbn [randomDraws randomCursor afterDraw].
    set (base := (45000 + (randomDraws s (randomCursor s) - 0.5) * 5000)%Q).
    set (volatility := (randomDraws s (S (randomCursor s)) * 0.05)%Q).
    set (d := (randomDraws s (S (S (randomCursor s))) - 0.5)%Q).
    set (close := (base * (1 + d * volatility))%Q).
    assert (Hbase : (42500 <= base /\ base < 47500)%Q) by (unfold base; lra).
    assert (Hvol : (0 <= volatility /\ volatility < 0.05)%Q) by (unfold volatility; lra).
    assert (Hd : (-0.5 <= d /\ d < 0.5)%Q) by (unfold d; lra).
    assert (Hdv : (-0.025 <= d * volatility /\ d * volatility <= 0.025)%Q).
    { assert ((0 <= (d + 0.5) * volatility)%Q) by (apply Qmult_le_0_compat; lra).
      assert ((0 <= (0.5 - d) * volatility)%Q) by (apply Qmult_le_0_compat; lra).
      lra. }
    assert (Hclose : (0 < close)%Q).
    { unfold close. apply Qmult_lt_0_compat; lra. }
    assert (Hopen : (0 < base)%Q) by lra.
    pose proof (Math_max_ge base close) as [Hmax1 Hmax2].
    pose proof (Math_min_le base close) as [Hmin1 Hmin2].
    pose proof (Math_min_pos base close Hopen Hclose) as Hmin0.
    set (hi := Math_max base close) in *. set (lo := Math_min base close) in *.
    eexists _, _. split; [reflexivity|].
    split; [by do 7 apply valid_draws_afterDraw|].
    unfold daily_candle, consistent_candle.
    cbn [Kline.open Kline.close Kline.openTime Kline.closeTime Kline.low Kline.high].
    split; [f_equal; f_equal; unfold dayMs; lia|].
    split; [f_equal; f_equal; unfold dayMs; lia|].
    split; [|reflexivity].
    split; [apply toFixed_reads_le; nra|]. split; [apply toFixed_reads_le; nra|].
    split; apply toFixed_reads_le; nra.
  - by apply valid_draws_afterReading.
  - exists klines, w'. split; [exact Hrun|exact Hall].
Qed.

(** The candles of the OKX and Coinbase fallbacks: each opens at the
    price at which the one before it closed. *)
Lemma OKX_getMockKlines_candles name limit w :
  valid_draws w -> limit <= 4294967295 ->
  exists klines w',
    OKXAPIService.getMockKlines name limit w = (Ok klines, w')
    /\ chained (adjoining_step (timeReadings w (timeCursor w)) limit)
         (map Z.of_nat (seq 0 (Z.to_nat limit))) 65000%Q klines.
Proof.
  intros Hw Hlimit. unfold OKXAPIService.getMockKlines. run_reads.
  unfold Array_from_acc.
  assert ((4294967295 <? limit) = false) as -> by (apply Z.ltb_ge; lia).
  set (now := timeReadings w (timeCursor w)).
  match goal with
  | |- context [mapM_acc ?f ?items ?start ?w0] =>
      destruct (mapM_acc_chained f (fun v => (0 < v)%Q) valid_draws
                  (adjoining_step now limit) items) with (v := start) (s := w0)
        as (klines & w' & Hrun & Hchain & _)
  end.
  - intros i v s _ Hv Hs. run_reads. unfold ret.
    pose proof (Hs (randomCursor s)) as Hd1.
    pose proof (Hs (S (randomCursor s))) as Hd2.
    pose proof (Hs (S (S (randomCursor s)))) as Hd3.
    cbn [randomDraws randomCursor afterDraw].
    set (change := ((randomDraws s (randomCursor s) - 0.5) * 0.1)%Q).
    set (close := (v * (1 + change))%Q).
    assert (Hchange : (-0.05 <= change /\ change < 0.05)%Q) by (unfold change; lra).
    assert (Hclose : (0 < close)%Q) by (unfold close; apply Qmult_lt_0_compat; lra).
    pose proof (Math_max_ge v close) as [Hmax1 Hmax2].
    pose proof (Math_min_le v close) as [Hmin1 Hmin2].
    pose proof (Math_min_pos v close Hv Hclose) as Hmin0.
    set (hi := Math_max v close) in *. set (lo := Math_min v close) in *.
    eexists _, _, _. split; [reflexivity|].
    split.
    { unfold adjoining_step, daily_candle, consistent_candle.
      cbn [Kline.open Kline.close Kline.openTime Kline.closeTime Kline.low Kline.high].
      split; [reflexivity|]. split; [reflexivity|]. split; [reflexivity|].
      split; [reflexivity|]. split; [|reflexivity].
      split; [apply toString_reads_le; nra|]. split; [apply toString_reads_le; nra|].
      split; apply toString_reads_le; nra. }
    split; [exact Hclose|]. by do 5 apply valid_draws_afterDraw.
  - lra.
  - by apply valid_draws_afterReading.
  - by exists klines, w'.
Qed.

(** X23.  The candles an adapter returns when its request fails are
    well formed, for draws in [[0, 1)] and a count that is an array
    length: there are [limit] of them, each has the shape of the schema
    and a low that is at most its open and its close, which are at most
    its high.  The KuCoin candle of index [i] opens [limit - 1 - i] days
    before the reading of the clock and closes one millisecond before
    the next one opens.  The OKX and Coinbase candles, which are the
    same, open one day earlier, [limit - i] days before the reading;
    each closes at the very millisecond at which the next one opens, and
    each opens at the price at which the one before it closed. *)
Theorem fallback_candles_are_well_formed name limit w :
  valid_draws w -> limit <= 4294967295 ->
  (exists klines w',
     KuCoinAPIService.getMockKlines limit w = (Ok klines, w')
     /\ length klines = Z.to_nat limit
     /\ forall i k, klines !! i = Some k ->
          daily_candle
            (timeReadings w (timeCursor w) - (limit - Z.of_nat i - 1) * dayMs)
            (timeReadings w (timeCursor w) - (limit - Z.of_nat i - 1) * dayMs + dayMs - 1) k)
  /\ (exists klines w',
        OKXAPIService.getMockKlines name limit w = (Ok klines, w')
        /\ CoinbaseAPIService.getMockKlines name limit w = (Ok klines, w')
        /\ length klines = Z.to_nat limit
        /\ (forall i k, klines !! i = Some k ->
              daily_candle
                (timeReadings w (timeCursor w) - (limit - Z.of_nat i) * dayMs)
                (timeReadings w (timeCursor w) - (limit - Z.of_nat i) * dayMs + dayMs) k)
        /\ (forall i k k2, klines !! i = Some k -> klines !! S i = Some k2 ->
              Kline.open k2 = Kline.close k
              /\ Kline.openTime k2 = Kline.closeTime k)).
Proof.
  intros Hw Hlimit. split.
  - destruct (KuCoin_getMockKlines_candles limit w Hw Hlimit) as (klines & w' & Hrun & Hall).
    exists klines, w'. split; [exact Hrun|].
    split; [exact (Forall2_indices_length _ _ _ Hall)|].
    intros i k Hk. exact (Forall2_indices _ _ _ _ _ Hall Hk).
  - destruct (OKX_getMockKlines_candles name limit w Hw Hlimit)
      as (klines & w' & Hrun & Hchain).
    exists klines, w'. split; [exact Hrun|]. split; [exact Hrun|].
    split; [by rewrite (chained_length _ _ _ _ Hchain), length_map, length_seq|].
    split.
    + intros i k Hk.
      destruct (chained_lookup _ _ _ _ _ _ Hchain Hk) as (x & u & u' & Hx & HR & _).
      apply index_of_seq in Hx as ->. by destruct HR as (_ & _ & Hcandle).
    + intros i k k2 Hk Hk2.
      destruct (chained_lookup _ _ _ _ _ _ Hchain Hk) as (x & u & u' & Hx & HR & Hnext).
      destruct (Hnext k2 Hk2) as (x2 & u2 & Hx2 & HR2).
      apply index_of_seq in Hx as ->. apply index_of_seq in Hx2 as ->.
      destruct HR as (_ & Hclose & _ & Hct & _).
      destruct HR2 as (Hopen & _ & Hot & _).
      split; [by rewrite Hopen, Hclose|].
      rewrite Hot, Hct. f_equal. f_equal. unfold dayMs. lia.
Qed.

End FallbackCandles.

(** X23 on an example: five fallback candles when every draw is one
    half. *)
Lemma fallback_candles_are_well_formed_witness :
  let w := exampleWorld evenDraws networkDown in
  (exists klines w',
     KuCoinAPIService.getMockKlines 5 w = (Ok klines, w')
     /\ length klines = 5%nat
     /\ forall i k, klines !! i = Some k ->
          daily_candle (H := exampleEngine)
            (timeReadings w (timeCursor w) - (5 - Z.of_nat i - 1) * dayMs)
            (timeReadings w (timeCursor w) - (5 - Z.of_nat i - 1) * dayMs + dayMs - 1) k)
  /\ (exists klines w',
        OKXAPIService.getMockKlines "BTCUSDT" 5 w = (Ok klines, w')
        /\ CoinbaseAPIService.getMockKlines "BTCUSDT" 5 w = (Ok klines, w')
        /\ length klines = 5%nat
        /\ (forall i k, klines !! i = Some k ->
              daily_candle (H := exampleEngine)
                (timeReadings w (timeCursor w) - (5 - Z.of_nat i) * dayMs)
                (timeReadings w (timeCursor w) - (5 - Z.of_nat i) * dayMs + dayMs) k)
        /\ (forall i k k2, klines !! i = Some k -> klines !! S i = Some k2 ->
              Kline.open k2 = Kline.close k
              /\ Kline.openTime k2 = Kline.closeTime k)).
Proof.
  apply (fallback_candles_are_well_formed (H := exampleEngine) "BTCUSDT" 5
           (exampleWorld evenDraws networkDown)).
  - intros n. cbn [randomDraws exampleWorld]. unfold evenDraws. lra.
  - lia.
Defined.

(* ===================================================================== *)
(** * Further properties: the fallback tickers of the adapters *)
(* ===================================================================== *)

Section FallbackTickers.
Context `{Engine}.

Lemma Qabs_bounds x : (0 <= Qabs x /\ x <= Qabs x /\ - x <= Qabs x)%Q.
Proof.
  split; [apply Qabs_nonneg|]. split; [apply Qle_Qabs|].
  rewrite <- (Qabs_opp x). apply Qle_Qabs.
Qed.

Lemma KuCoin_getMock24hTicker_consistent name w :
  valid_draws w ->
  exists ticker w',
    KuCoinAPIService.getMock24hTicker name w = (Ok ticker, w')
    /\ Ticker24h.symbol ticker = name
    /\ Ticker24h.conforms ticker = true
    /\ consistent_ticker ticker.
Proof.
  intros Hw. unfold KuCoinAPIService.getMock24hTicker. run_reads. unfold ret.
  pose proof (Hw (randomCursor w)) as H1.
  pose proof (Hw (S (randomCursor w))) as H2.
  cbn [randomDraws randomCursor timeReadings timeCursor afterDraw afterReading].
  set (last := (45000 + (randomDraws w (randomCursor w) - 0.5) * 1000)%Q).
  set (change := ((randomDraws w (S (randomCursor w)) - 0.5) * 5)%Q).
  assert (Hlast : (44500 <= last /\ last < 45500)%Q) by (unfold last; lra).
  assert (Hchange : (-2.5 <= change /\ change < 2.5)%Q) by (unfold change; lra).
  destruct (Qabs_bounds change) as (Ha0 & Ha1 & Ha2).
  assert (Ha3 : (Math_abs change <= 2.5)%Q) by (apply Qabs_Qle_condition; lra).
  unfold Math_abs in *. set (size := Qabs change) in *.
  eexists _, _. split; [reflexivity|]. split; [reflexivity|].
  split; [reflexivity|].
  unfold consistent_ticker.
  cbn [Ticker24h.lowPrice Ticker24h.openPrice Ticker24h.lastPrice
       Ticker24h.highPrice Ticker24h.bidPrice Ticker24h.askPrice].
  repeat apply conj; apply toFixed_reads_le; lra.
Qed.

Lemma OKX_getMock24hTicker_consistent name w :
  valid_draws w ->
  exists ticker w',
    OKXAPIService.getMock24hTicker name w = (Ok ticker, w')
    /\ Ticker24h.symbol ticker = name
    /\ Ticker24h.conforms ticker = true
    /\ consistent_ticker ticker.
Proof.
  intros Hw. unfold OKXAPIService.getMock24hTicker. run_reads. unfold ret.
  pose proof (Hw (randomCursor w)) as H1.
  pose proof (Hw (S (randomCursor w))) as H2.
  pose proof (Hw (S (S (randomCursor w)))) as H3.
  pose proof (Hw (S (S (S (randomCursor w))))) as H4.
  cbn [randomDraws randomCursor timeReadings timeCursor afterDraw afterReading].
  set (last := (65000 + randomDraws w (randomCursor w) * 1000)%Q).
  set (open := (last * (0.98 + randomDraws w (S (randomCursor w)) * 0.04))%Q).
  assert (Hlast : (65000 <= last /\ last < 66000)%Q) by (unfold last; lra).
  assert (Hopen : (0 < open)%Q) by (unfold open; apply Qmult_lt_0_compat; lra).
  assert (Hlast0 : (0 < last)%Q) by lra.
  pose proof (Math_max_ge last open) as [Hmax1 Hmax2].
  pose proof (Math_min_le last open) as [Hmin1 Hmin2].
  pose proof (Math_min_pos last open Hlast0 Hopen) as Hmin0.
  set (hi := Math_max last open) in *. set (lo := Math_min last open) in *.
  eexists _, _. split; [reflexivity|]. split; [reflexivity|].
  split; [reflexivity|].
  unfold consistent_ticker.
  cbn [Ticker24h.lowPrice Ticker24h.openPrice Ticker24h.lastPrice
       Ticker24h.highPrice Ticker24h.bidPrice Ticker24h.askPrice].
  repeat apply conj; apply toFixed_reads_le; nra.
Qed.

(** X24.  The ticker an adapter returns when its request fails is well
    formed, for draws in [[0, 1)]: it carries the symbol asked for, has
    the shape of the schema, its low is at most its open and its last
    price, which are at most its high, and its last price lies between
    its bid and its ask.  The Coinbase fallback is the OKX fallback. *)
Theorem fallback_tickers_are_well_formed name w :
  valid_draws w ->
  (exists ticker w',
     KuCoinAPIService.getMock24hTicker name w = (Ok ticker, w')
     /\ Ticker24h.symbol ticker = name
     /\ Ticker24h.conforms ticker = true
     /\ consistent_ticker ticker)
  /\ (exists ticker w',
        OKXAPIService.getMock24hTicker name w = (Ok ticker, w')
        /\ CoinbaseAPIService.getMock24hTicker name w = (Ok ticker, w')
        /\ Ticker24h.symbol ticker = name
        /\ Ticker24h.conforms ticker = true
        /\ consistent_ticker ticker).
Proof.
  intros Hw. split.
  - exact (KuCoin_getMock24hTicker_consistent name w Hw).
  - destruct (OKX_getMock24hTicker_consistent name w Hw) as (ticker & w' & Hrun & Hrest).
    exists ticker, w'. split; [exact Hrun|]. split; [exact Hrun|exact Hrest].
Qed.

End FallbackTickers.

(** X24 on an example: the fallback tickers when every draw is one
    half. *)
Lemma fallback_tickers_are_well_formed_witness :
  let w := exampleWorld evenDraws networkDown in
  (exists ticker w',
     KuCoinAPIService.getMock24hTicker "BTCUSDT" w = (Ok ticker, w')
     /\ Ticker24h.symbol ticker = "BTCUSDT"%string
     /\ Ticker24h.conforms ticker = true
     /\ consistent_ticker (H := exampleEngine) ticker)
  /\ (exists ticker w',
        OKXAPIService.getMock24hTicker "BTCUSDT" w = (Ok ticker, w')
        /\ CoinbaseAPIService.getMock24hTicker "BTCUSDT" w = (Ok ticker, w')
        /\ Ticker24h.symbol ticker = "BTCUSDT"%string
        /\ Ticker24h.conforms ticker = true
        /\ consistent_ticker (H := exampleEngine) ticker).
Proof.
  apply (fallback_tickers_are_well_formed (H := exampleEngine) "BTCUSDT"
           (exampleWorld evenDraws networkDown)).
  intros n. cbn [randomDraws exampleWorld]. unfold evenDraws. lra.
Defined.

(* ===================================================================== *)
(** * Further properties: the Binance adapter *)
(* ===================================================================== *)

Section Binance.
Context `{Engine}.

Lemma Binance_fetchOrderbook_fails symbol limit w :
  transport_fails w ->
  exists e w1, BinanceAPIService.fetchOrderbook symbol limit w = (Throw e, w1).
Proof. intros Hfails. unfold BinanceAPIService.fetchOrderbook. transport_failure Hfails. Qed.

Lemma Binance_fetch24hTicker_fails symbol w :
  transport_fails w ->
  exists e w1, BinanceAPIService.fetch24hTicker symbol w = (Throw e, w1).
Proof. intros Hfails. unfold BinanceAPIService.fetch24hTicker. transport_failure Hfails. Qed.

Lemma Binance_fetchKlines_fails symbol interval limit w :
  transport_fails w ->
  exists e w1, BinanceAPIService.fetchKlines symbol interval limit w = (Throw e, w1).
Proof. intros Hfails. unfold BinanceAPIService.fetchKlines. transport_failure Hfails. Qed.

Lemma Binance_generated_ticker_returns symbol w :
  exists r w',
    (let* ticker := BinanceAPIService.getMock24hTicker symbol in
     ret (BinanceAPIService.Generated ticker)) w = (Ok r, w')
    /\ BinanceAPIService.conforms_TickerResult r = true.
Proof.
  destruct (KuCoin_getMock24hTicker_returns symbol w) as (ticker & w' & Hrun & Hshape).
  exists (BinanceAPIService.Generated ticker), w'.
  change (BinanceAPIService.getMock24hTicker symbol)
    with (KuCoinAPIService.getMock24hTicker symbol).
  unfold bind. rewrite Hrun. by split.
Qed.

(** X25.  The Binance adapter absorbs its failures as the three adapters
    of the aggregator do: each of its data operations returns in every
    world, and when its request fails (the fetch rejects, the status is
    not 2xx, or the body is no JSON) what it returns is what its
    fallback produces, of the shape of the schema.  Its fallbacks are
    those of the KuCoin adapter.  ([getKlines] for a count that is an
    array length.) *)
Theorem Binance_adapter_absorbs_failures symbol depth interval limit :
  limit <= 4294967295 ->
  absorbs (BinanceAPIService.getOrderbook symbol depth)
          (BinanceAPIService.getMockOrderbook symbol) conforms_Orderbook transport_fails
  /\ absorbs (BinanceAPIService.get24hTicker symbol)
             (let* ticker := BinanceAPIService.getMock24hTicker symbol in
              ret (BinanceAPIService.Generated ticker))
             BinanceAPIService.conforms_TickerResult transport_fails
  /\ absorbs (BinanceAPIService.getKlines symbol interval limit)
             (BinanceAPIService.getMockKlines limit) (forallb Kline.conforms)
             transport_fails
  /\ (forall w,
        BinanceAPIService.getMockOrderbook symbol w
        = KuCoinAPIService.getMockOrderbook symbol w
        /\ BinanceAPIService.getMock24hTicker symbol w
           = KuCoinAPIService.getMock24hTicker symbol w
        /\ BinanceAPIService.getMockKlines limit w
           = KuCoinAPIService.getMockKlines limit w).
Proof.
  intros Hlimit. split; [|split; [|split]].
  - apply try_catch_absorbs; [intros w|intros w Hfails].
    + apply KuCoin_getMockOrderbook_returns.
    + by apply Binance_fetchOrderbook_fails.
  - apply try_catch_absorbs; [intros w|intros w Hfails].
    + apply Binance_generated_ticker_returns.
    + by apply Binance_fetch24hTicker_fails.
  - apply try_catch_absorbs; [intros w|intros w Hfails].
    + by apply KuCoin_getMockKlines_returns.
    + by apply Binance_fetchKlines_fails.
  - intros w. split; [reflexivity|]. split; reflexivity.
Qed.

(** X26.  The Binance adapter does not check what it is answered.  Its
    [get24hTicker] returns the body of a reply with a 2xx status as it
    is, whatever JSON value that is; and its [getKlines] returns the
    candles of the reply in the order of the reply, each field being
    the entry of the same position, or [undefined] when the candle is
    shorter. *)
Theorem Binance_adapter_returns_replies_unchecked name interval limit w :
  (forall payload,
     replies_with w payload ->
     BinanceAPIService.get24hTicker name w
     = (Ok (BinanceAPIService.Body payload), afterReply w))
  /\ (forall candles,
        replies_with w (VArray candles) ->
        forallb is_array candles = true ->
        exists klines,
          BinanceAPIService.getKlines name interval limit w = (Ok klines, afterReply w)
          /\ length klines = length candles
          /\ forall i entries,
               candles !! i = Some (VArray entries) ->
               klines !! i
               = Some {| Kline.openTime := nth 0 entries VUndefined;
                         Kline.open := nth 1 entries VUndefined;
                         Kline.high := nth 2 entries VUndefined;
                         Kline.low := nth 3 entries VUndefined;
                         Kline.close := nth 4 entries VUndefined;
                         Kline.volume := nth 5 entries VUndefined;
                         Kline.closeTime := nth 6 entries VUndefined;
                         Kline.quoteAssetVolume := nth 7 entries VUndefined;
                         Kline.numberOfTrades := nth 8 entries VUndefined;
                         Kline.takerBuyBaseAssetVolume := nth 9 entries VUndefined;
                         Kline.takerBuyQuoteAssetVolume := nth 10 entries VUndefined |}).
Proof.
  split.
  - intros payload (status & Hok & Hreply).
    apply try_catch_ok. unfold BinanceAPIService.fetch24hTicker.
    rewrite (bind_fetch_replied _ _ status _ Hreply). rewrite Hok. cbn [negb].
    by rewrite bind_response_json.
  - intros candles (status & Hok & Hreply) Harrays.
    pose (kline := fun candle =>
            match candle with
            | VArray entries =>
                {| Kline.openTime := nth 0 entries VUndefined;
                   Kline.open := nth 1 entries VUndefined;
                   Kline.high := nth 2 entries VUndefined;
                   Kline.low := nth 3 entries VUndefined;
                   Kline.close := nth 4 entries VUndefined;
                   Kline.volume := nth 5 entries VUndefined;
                   Kline.closeTime := nth 6 entries VUndefined;
                   Kline.quoteAssetVolume := nth 7 entries VUndefined;
                   Kline.numberOfTrades := nth 8 entries VUndefined;
                   Kline.takerBuyBaseAssetVolume := nth 9 entries VUndefined;
                   Kline.takerBuyQuoteAssetVolume := nth 10 entries VUndefined |}
            | _ => {| Kline.openTime := VUndefined; Kline.open := VUndefined;
                      Kline.high := VUndefined; Kline.low := VUndefined;
                      Kline.close := VUndefined; Kline.volume := VUndefined;
                      Kline.closeTime := VUndefined; Kline.quoteAssetVolume := VUndefined;
                      Kline.numberOfTrades := VUndefined;
                      Kline.takerBuyBaseAssetVolume := VUndefined;
                      Kline.takerBuyQuoteAssetVolume := VUndefined |}
            end).
    exists (map kline candles). split; [|split].
    + apply try_catch_ok. unfold BinanceAPIService.fetchKlines.
      rewrite (bind_fetch_replied _ _ status _ Hreply). rewrite Hok. cbn [negb].
      rewrite bind_response_json, bind_array_receiver.
      apply mapM_converted.
      clear Hreply. induction candles as [|candle rest IH]; [constructor|].
      cbn [forallb] in Harrays. apply andb_true_iff in Harrays as [Hc Hrest].
      cbn [map]. constructor; [|by apply IH].
      destruct candle as [| | | | |entries|]; try discriminate Hc.
      intros s. reflexivity.
    + by rewrite length_map.
    + intros i entries Hi. by rewrite list_lookup_fmap, Hi.
Qed.

End Binance.

(** X25 on an example: every request is answered with status 503. *)
Lemma Binance_adapter_absorbs_failures_witness :
  let w := exampleWorld evenDraws serviceUnavailable in
  (exists w1 orderbook w',
     BinanceAPIService.getOrderbook (H := exampleEngine) "BTCUSDT" 20 w = (Ok orderbook, w')
     /\ BinanceAPIService.getMockOrderbook "BTCUSDT" w1 = (Ok orderbook, w')
     /\ conforms_Orderbook orderbook = true)
  /\ (exists w1 klines w',
        BinanceAPIService.getKlines (H := exampleEngine) "BTCUSDT" "1d" 30 w
        = (Ok klines, w')
        /\ BinanceAPIService.getMockKlines 30 w1 = (Ok klines, w')
        /\ forallb Kline.conforms klines = true).
Proof.
  intros w.
  destruct (Binance_adapter_absorbs_failures (H := exampleEngine) "BTCUSDT" 20 "1d" 30)
    as (Horderbook & _ & Hklines & _); [lia|].
  split.
  - apply (Horderbook w). by left.
  - apply (Hklines w). by left.
Defined.

(* ===================================================================== *)
(** * Further properties: the selection of the source *)
(* ===================================================================== *)

Lemma keeps_bind {A B} (c : Eff System A) (k : A -> Eff System B) s :
  keeps_source_at c s ->
  (forall a s', c s = (Ok a, s') -> keeps_source_at (k a) s') ->
  keeps_source_at (bind c k) s.
Proof.
  unfold keeps_source_at, exec, bind. intros Hc Hk.
  destruct (c s) as [[a|e] s'] eqn:Hrun; cbn [snd] in *; [|exact Hc].
  rewrite <- Hc. by apply Hk.
Qed.

Lemma keeps_try_catch {A} (c : Eff System A) (h : JSError -> Eff System A) s :
  keeps_source_at c s ->
  (forall e s', c s = (Throw e, s') -> keeps_source_at (h e) s') ->
  keeps_source_at (try_catch c h) s.
Proof.
  unfold keeps_source_at, exec, try_catch. intros Hc Hh.
  destruct (c s) as [[a|e] s'] eqn:Hrun; cbn [snd] in *; [exact Hc|].
  rewrite <- Hc. by apply Hh.
Qed.

Lemma keeps_ret {A} (a : A) s : keeps_source_at (ret a) s.
Proof. reflexivity. Qed.

Lemma keeps_throw {A} e s : keeps_source_at (throw (A := A) e) s.
Proof. reflexivity. Qed.

Lemma keeps_gets {A} (f : System -> A) s : keeps_source_at (gets f) s.
Proof. reflexivity. Qed.

Lemma keeps_liftIO {A} (c : IO A) s : keeps_source_at (liftIO c) s.
Proof. unfold keeps_source_at, exec, liftIO. by destruct (c (world s)). Qed.

Lemma keeps_update_trace f s : keeps_source_at (update_trace f) s.
Proof. reflexivity. Qed.

Lemma keeps_update_manager f s :
  currentSource (f (manager s)) = currentSource (manager s) ->
  keeps_source_at (update_manager f) s.
Proof. intros Hf. exact Hf. Qed.

Lemma keeps_invoke {T} (operation : Operation T) n s : keeps_source_at (invoke operation n) s.
Proof.
  unfold invoke. apply keeps_bind; [apply keeps_update_trace|].
  intros _ s' _. apply keeps_liftIO.
Qed.

Section Selection.
Context `{Engine}.
Variables coinbaseAPI okxAPI kucoinAPI : Adapter.t.

Lemma keeps_updateHealth source isHealthy responseTime s :
  keeps_source_at (APIManager.updateHealth source isHealthy responseTime) s.
Proof.
  unfold APIManager.updateHealth.
  apply keeps_bind; [apply keeps_gets|]. intros m s0 _.
  destruct (apiHealth m !! source) as [health|]; [|apply keeps_ret].
  apply keeps_bind; [apply keeps_liftIO|]. intros now s1 _.
  apply keeps_bind; [by apply keeps_update_manager|]. intros _ s2 _.
  destruct (_ <=? _)%nat; [|apply keeps_ret].
  unfold APIManager.checkAndEnableMockFallback.
  apply keeps_bind; [apply keeps_gets|]. intros m2 s3 _.
  destruct (_ && _); [by apply keeps_update_manager|apply keeps_ret].
Qed.

Lemma keeps_healthCheck source s :
  keeps_source_at (APIManager.healthCheck coinbaseAPI okxAPI kucoinAPI source) s.
Proof.
  unfold APIManager.healthCheck. apply keeps_try_catch.
  - apply keeps_bind; [apply keeps_liftIO|]. intros startTime s1 _.
    apply keeps_bind; [apply keeps_invoke|]. intros ticker s2 _.
    apply keeps_bind; [apply keeps_liftIO|]. intros now s3 _.
    apply keeps_bind; [apply keeps_updateHealth|]. intros _ s4 _. apply keeps_ret.
  - intros e s1 _.
    apply keeps_bind; [apply keeps_updateHealth|]. intros _ s2 _. apply keeps_ret.
Qed.

Lemma keeps_retryLoop {T} (operation : Operation T) source remaining :
  forall attempt s,
  keeps_source_at (APIManager.retryLoop operation source remaining attempt) s.
Proof.
  induction remaining as [|rem IH]; intros attempt s; [apply keeps_throw|].
  cbn [APIManager.retryLoop]. apply keeps_bind.
  - apply keeps_try_catch.
    + apply keeps_bind; [apply keeps_invoke|]. intros result s1 _.
      apply keeps_bind; [apply keeps_updateHealth|]. intros _ s2 _. apply keeps_ret.
    + intros e s1 _.
      apply keeps_bind; [apply keeps_updateHealth|]. intros _ s2 _.
      apply keeps_bind; [apply keeps_gets|]. intros config s3 _.
      destruct (_ =? _); [apply keeps_throw|].
      apply keeps_bind; [apply keeps_update_trace|]. intros _ s4 _. apply keeps_ret.
  - intros [result|] s1 _; [apply keeps_ret|apply IH].
Qed.

Lemma keeps_retry {T} (operation : Operation T) source s :
  keeps_source_at (APIManager.retryWithExponentialBackoff operation source) s.
Proof.
  unfold APIManager.retryWithExponentialBackoff.
  apply keeps_bind; [apply keeps_gets|]. intros m s0 _.
  destruct (apiHealth m !! source); [apply keeps_retryLoop|apply keeps_throw].
Qed.

Lemma keeps_dataCall {T} (operationOf : Adapter.t -> Operation T) (generate : IO T)
    (shape : T -> T) s :
  keeps_source_at (dataCall coinbaseAPI okxAPI kucoinAPI operationOf generate shape) s.
Proof.
  unfold dataCall.
  apply keeps_bind; [apply keeps_gets|]. intros m s0 _.
  destruct (fallbackToMock m).
  - apply keeps_bind; [apply keeps_liftIO|]. intros value s1 _. apply keeps_ret.
  - apply keeps_try_catch.
    + apply keeps_bind; [apply keeps_gets|]. intros current s1 Hcurrent.
      injection Hcurrent as <- <-.
      apply keeps_bind.
      * unfold APIManager.getAPIForSource.
        apply keeps_bind; [by apply keeps_update_manager|]. intros _ s2 _. apply keeps_ret.
      * intros [api source] s2 _.
        apply keeps_bind; [apply keeps_retry|]. intros value s3 _. apply keeps_ret.
    + intros e s1 _.
      apply keeps_bind; [apply keeps_liftIO|]. intros value s2 _. apply keeps_ret.
Qed.

Lemma keeps_perform request s :
  selects request = false ->
  keeps_source_at (perform coinbaseAPI okxAPI kucoinAPI request) s.
Proof.
  intros Hrequest.
  destruct request as [? ?|?|? ? ?|src|?|?| |]; try discriminate Hrequest; cbn [perform].
  - rewrite getOrderbook_dataCall.
    apply keeps_bind; [apply keeps_dataCall|]. intros _ s1 _. apply keeps_ret.
  - rewrite get24hTicker_dataCall.
    apply keeps_bind; [apply keeps_dataCall|]. intros _ s1 _. apply keeps_ret.
  - rewrite getKlines_dataCall.
    apply keeps_bind; [apply keeps_dataCall|]. intros _ s1 _. apply keeps_ret.
  - apply keeps_bind; [apply keeps_healthCheck|]. intros _ s1 _. apply keeps_ret.
  - by apply keeps_update_manager.
  - by apply keeps_update_manager.
Qed.

(** X27.  The aggregator never changes its source on its own.  After any
    sequence of data calls, probes and changes of the mock mode, whatever
    the adapters do and whatever the health of the sources, the current
    source is the one it was: only [switchToAPI] and [forceSwitch]
    select a source, and a source that fails is replaced by the
    generator, never by another exchange. *)
Theorem source_is_never_switched_automatically requests s :
  forallb (fun request => negb (selects request)) requests = true ->
  currentSource (manager (after coinbaseAPI okxAPI kucoinAPI requests s))
  = currentSource (manager s).
Proof.
  revert s. induction requests as [|request requests IH]; intros s Hall; [reflexivity|].
  cbn [forallb] in Hall. apply andb_true_iff in Hall as [Hrequest Hall].
  change (currentSource
            (manager (after coinbaseAPI okxAPI kucoinAPI requests
                        (exec (perform coinbaseAPI okxAPI kucoinAPI request) s)))
          = currentSource (manager s)).
  rewrite (IH _ Hall). apply keeps_perform. by apply negb_true_iff.
Qed.

End Selection.

(** X27 on an example: over unreachable adapters, a probe of okx, an
    orderbook request that uses up the retries of coinbase, and a ticker
    request leave coinbase the current source. *)
Lemma source_is_never_switched_automatically_witness :
  let api := unreachableAdapter in
  let s := constructed (exampleWorld evenDraws networkDown) in
  currentSource
    (manager (after (H := exampleEngine) api api api
                [TestConnection okx; GetOrderbook "BTCUSDT" 20; Get24hTicker "BTCUSDT";
                 EnableMockMode; DisableMockMode] s))
  = currentSource (manager s).
Proof.
  intros api s.
  apply (source_is_never_switched_automatically (H := exampleEngine)). reflexivity.
Defined.

(* ===================================================================== *)
(** * Further properties: a subscription and its end *)
(* ===================================================================== *)

Lemma Set_delete_added x members :
  x ∉ members -> Set_delete x (Set_add x members) = members.
Proof.
  intros Hx. unfold Set_add. rewrite bool_decide_eq_false_2 by done.
  unfold Set_delete. rewrite filter_app.
  rewrite (filter_cons_False _ x []) by (intros Hne; by apply Hne).
  rewrite filter_nil, app_nil_r. by apply Set_delete_absent.
Qed.

Lemma calls_subscribed channel callback hub :
  calls (subscribed channel callback hub) = calls hub.
Proof. reflexivity. Qed.

(** X28.  In both hubs a subscription can be undone.  When [callback]
    is not yet subscribed to [channel], [subscribe(channel, callback)]
    followed by the closure it returns leaves the hub exactly as it was:
    the subscribers of every channel, their order, and the absence of
    the channel when it had no subscriber.  In between, [callback] is
    the last subscriber of [channel]. *)
Theorem subscription_round_trip kind channel callback hub :
  no_empty_channel hub ->
  callback ∉ membersOf channel hub ->
  exists unsubscribe hub1,
    subscribe_of kind channel callback hub = (Ok unsubscribe, hub1)
    /\ membersOf channel hub1 = membersOf channel hub ++ [callback]
    /\ unsubscribe hub1 = (Ok tt, hub).
Proof.
  intros Hne Habsent.
  destruct (subscribe_of_run kind channel callback hub) as (unsubscribe & Hrun & Hclosure).
  exists unsubscribe, (subscribed channel callback hub).
  split; [exact Hrun|]. split.
  - rewrite membersOf_subscribed. unfold Set_add. by rewrite bool_decide_eq_false_2.
  - rewrite Hclosure. f_equal. apply hub_eq.
    + by apply unsubscribed_no_empty, subscribed_no_empty.
    + exact Hne.
    + intros other. destruct (decide (channel = other)) as [<-|Hother].
      * by rewrite membersOf_unsubscribed, membersOf_subscribed, Set_delete_added.
      * by rewrite membersOf_unsubscribed_ne, membersOf_subscribed_ne.
    + by rewrite calls_unsubscribed.
Qed.

(** X28 on an example: subscriber 2 comes and goes while 1 and 3 stay. *)
Lemma subscription_round_trip_witness :
  let hub := subscribed "orderbook" 3%nat (subscribed "orderbook" 1%nat emptyHub) in
  exists unsubscribe hub1,
    subscribe_of Enhanced "orderbook" 2%nat hub = (Ok unsubscribe, hub1)
    /\ membersOf "orderbook" hub1 = membersOf "orderbook" hub ++ [2%nat]
    /\ unsubscribe hub1 = (Ok tt, hub).
Proof.
  apply (subscription_round_trip Enhanced "orderbook" 2%nat).
  - do 2 apply subscribed_no_empty. apply emptyHub_no_empty.
  - vm_compute. intros Hin. by repeat (apply elem_of_cons in Hin as [Hin|Hin]; [discriminate|]);
      apply elem_of_nil in Hin.
Defined.

(* ===================================================================== *)
(** * Further properties: the calendar in mock mode *)
(* ===================================================================== *)

Lemma decay_pos i : (0 < decay i)%Q.
Proof. induction i as [|i IH]; cbn [decay]; [reflexivity|]. apply Qmult_lt_0_compat; [reflexivity|exact IH]. Qed.

Lemma decay_le i n : (i <= n)%nat -> (decay n <= decay i)%Q.
Proof.
  induction 1 as [|n Hle IH]; [apply Qle_refl|].
  cbn [decay]. pose proof (decay_pos n). nra.
Qed.

(** After a year, a price of 40000 is still above 1. *)
Lemma decay_year : (1 <= 40000 * decay 365)%Q.
Proof. vm_compute. discriminate. Qed.

Section MockCalendar.
Context `{Engine} `{DateEngine}.

Lemma generateKlines_tradable name interval limit w :
  valid_draws w -> limit <= 4294967295 ->
  exists klines w' start,
    MockDataService.generateKlines name interval limit w = (Ok klines, w')
    /\ (40000 <= start)%Q
    /\ chained tradable_step (map Z.of_nat (seq 0 (Z.to_nat limit))) start klines.
Proof.
  intros Hw Hlimit. unfold MockDataService.generateKlines. run_reads.
  unfold Array_from_acc.
  assert ((4294967295 <? limit) = false) as -> by (apply Z.ltb_ge; lia).
  pose proof (Hw (randomCursor w)) as Hr1.
  pose proof (Hw (S (randomCursor w))) as Hr2.
  cbn [randomDraws randomCursor afterReading afterDraw].
  set (trend := ((randomDraws w (S (randomCursor w)) - 0.5) * 0.002)%Q).
  assert (Htrend : (-0.001 <= trend /\ trend < 0.001)%Q) by (unfold trend; lra).
  match goal with
  | |- context [mapM_acc ?f ?items ?start ?w0] =>
      destruct (mapM_acc_chained f (fun v => (0 < v)%Q) valid_draws
                  tradable_step items) with (v := start) (s := w0)
        as (klines & w' & Hrun & Hchain & _); [| | |exists klines, w', start]
  end.
  - intros i v s _ Hv Hs. run_reads. unfold ret.
    pose proof (Hs (randomCursor s)) as Hd1.
    pose proof (Hs (S (S (randomCursor s)))) as Hd3.
    cbn [randomDraws randomCursor afterDraw].
    set (change := (trend + (randomDraws s (randomCursor s) - 0.5) * 0.03)%Q).
    assert (Hchange : (-0.016 <= change /\ change < 0.016)%Q) by (unfold change; lra).
    eexists _, _, _. split; [reflexivity|].
    split.
    { split; [nra|]. eexists _, _, _, _.
      cbn [Kline.openTime Kline.open Kline.close Kline.high Kline.low Kline.volume].
      do 6 (split; [reflexivity|]). lra. }
    split; [nra|]. by do 4 apply valid_draws_afterDraw.
  - lra.
  - by do 2 apply valid_draws_afterDraw; apply valid_draws_afterReading.
  - split; [exact Hrun|]. split; [lra|exact Hchain].
Qed.

(** The price before the iteration of index [i] of a chain. *)
Lemma chained_decay items start klines i k :
  chained tradable_step items start klines -> klines !! i = Some k ->
  exists x u u', tradable_step x u k u' /\ (start * decay i <= u)%Q.
Proof.
  intros Hchain. revert i.
  induction Hchain as [|x xs v y v' ys HR Hchain IH]; intros i Hk; [done|].
  destruct i as [|i]; cbn in Hk.
  - injection Hk as <-. exists x, v, v'. split; [exact HR|]. cbn [decay]. lra.
  - destruct (IH i Hk) as (x1 & u & u' & HR1 & Hu).
    exists x1, u, u'. split; [exact HR1|]. cbn [decay].
    destruct HR as [Hstep _]. pose proof (decay_pos i). nra.
Qed.

Lemma rendered_one : (renderedValue (toFixed 2 1) == 1)%Q.
Proof. reflexivity. Qed.

Lemma rendered_low : (0 < renderedValue (toFixed 2 0.984))%Q.
Proof. reflexivity. Qed.

Lemma rendered_volume_low : (renderedValue (toFixed 2 5000) == 5000)%Q.
Proof. reflexivity. Qed.

Lemma rendered_volume_high : (renderedValue (toFixed 2 25000) == 25000)%Q.
Proof. reflexivity. Qed.

(** A candle of the generator whose price is at least 1 gives a sane
    record. *)
Lemma tradable_record x u k u' r :
  tradable_step x u k u' -> (1 <= u)%Q -> capped_record k r ->
  readable_candle k /\ sane_record r.
Proof.
  intros (Hstep & t & high & low & volume & Ht & Hopen & Hclose & Hhigh & Hlow & Hvol & Hv) Hu.
  assert (Ho1 : (1 <= renderedValue (toFixed 2 u))%Q).
  { rewrite <- rendered_one. apply toFixed_mono; lra. }
  assert (Hc1 : (0 < renderedValue (toFixed 2 u'))%Q).
  { eapply Qlt_le_trans; [exact rendered_low|]. apply toFixed_mono; lra. }
  assert (Hv1 : (5000 <= renderedValue (toFixed 2 volume)
                 /\ renderedValue (toFixed 2 volume) <= 25000)%Q).
  { split.
    - rewrite <- rendered_volume_low. apply toFixed_mono; lra.
    - rewrite <- rendered_volume_high. apply toFixed_mono; lra. }
  intros Hrecord. split.
  - exists t, (renderedValue (toFixed 2 u)), (renderedValue (toFixed 2 u')),
      (renderedValue (toFixed 2 high)), (renderedValue (toFixed 2 low)),
      (renderedValue (toFixed 2 volume)).
    split; [|lra]. unfold candle_reads. rewrite Ht, Hopen, Hclose, Hhigh, Hlow, Hvol.
    split; [reflexivity|]. by repeat (split; [apply parseFloat_toFixed|]);
      apply parseFloat_toFixed.
  - destruct Hrecord as (t0 & o & c & h & l & v & x0 & y & Hrec & Hvx & _ & Hx0 & Hly & Hy1 & _ & Hy3).
    destruct Hrec as ((_ & _ & Hpc & _ & _ & Hpv) & _ & _ & _ & _ & _ & _ & Hprice & Hperf).
    rewrite Hclose, parseFloat_toFixed in Hpc. injection Hpc as Hc.
    rewrite Hvol, parseFloat_toFixed in Hpv. injection Hpv as Hvv.
    exists x0, y, ((c - o) / o * 100)%Q, c.
    split; [exact Hvx|]. split; [exact Hx0|]. split; [exact Hly|].
    assert (Hv1000 : (5 <= v / 1000 /\ v / 1000 <= 25)%Q).
    { rewrite <- Hvv. unfold Qdiv. change (/ 1000)%Q with (1 # 1000)%Q. lra. }
    split.
    { destruct Hy3 as [Hy3|Hy3]; rewrite Hy3 in *; lra. }
    split; [exact Hperf|]. split; [exact Hprice|]. rewrite <- Hc. exact Hc1.
Qed.

(** X29.  In mock mode the calendar gets sane figures.  For draws in
    [[0, 1)] and up to 365 days, [getKlines] of the aggregator followed
    by [transformToFinancialData] on its result returns one record per
    day asked for, without a call of an adapter; every candle reads as
    finite numbers with an open that is not zero, and every record has a
    volatility that is not negative, a liquidity from 5 to 25 (the cap
    of 100 is never reached), a finite performance and a positive
    price. *)
Theorem calendar_in_mock_mode ticker name interval limit s :
  fallbackToMock (manager s) = true ->
  valid_draws (world s) ->
  limit <= 365 ->
  exists klines s1 records,
    apiManager.getKlines name interval limit s
    = (Ok {| data := klines; source := mock |}, s1)
    /\ invocations (trace s1) = invocations (trace s)
    /\ apiManager.transformToFinancialData ticker klines s1 = (Ok records, s1)
    /\ length klines = Z.to_nat limit
    /\ length records = Z.to_nat limit
    /\ Forall readable_candle klines
    /\ Forall sane_record records.
Proof.
  intros Hmock Hw Hlimit.
  destruct (generateKlines_tradable name interval limit (world s) Hw)
    as (klines & w' & start & Hrun & Hstart & Hchain); [lia|].
  set (s1 := {| manager := manager s; world := w'; trace := trace s |}).
  assert (Hlength : length klines = Z.to_nat limit).
  { by rewrite (chained_length _ _ _ _ Hchain), length_map, length_seq. }
  assert (Hprice : forall i k, klines !! i = Some k ->
            exists x u u', tradable_step x u k u' /\ (1 <= u)%Q).
  { intros i k Hk.
    destruct (chained_decay _ _ _ _ _ Hchain Hk) as (x & u & u' & HR & Hu).
    exists x, u, u'. split; [exact HR|].
    assert (Hi : (i <= 365)%nat).
    { apply lookup_lt_Some in Hk. rewrite Hlength in Hk. lia. }
    pose proof (decay_le i 365 Hi) as Hd. pose proof decay_year as Hy.
    pose proof (decay_pos i) as Hp. nra. }
  assert (Hreadable : Forall readable_candle klines).
  { apply Forall_forall. intros k Hk. apply list_elem_of_lookup_1 in Hk as (i & Hk).
    destruct (Hprice i k Hk) as (x & u & u' & HR & Hu).
    destruct HR as (Hstep & t & high & low & volume & Ht & Hopen & Hclose & Hhigh & Hlow
                    & Hvol & Hv).
    exists t, (renderedValue (toFixed 2 u)), (renderedValue (toFixed 2 u')),
      (renderedValue (toFixed 2 high)), (renderedValue (toFixed 2 low)),
      (renderedValue (toFixed 2 volume)).
    split.
    - unfold candle_reads. rewrite Ht, Hopen, Hclose, Hhigh, Hlow, Hvol.
      split; [reflexivity|]. by repeat (split; [apply parseFloat_toFixed|]);
        apply parseFloat_toFixed.
    - assert ((1 <= renderedValue (toFixed 2 u))%Q); [|lra].
      rewrite <- rendered_one. apply toFixed_mono; lra. }
  destruct (transform_capped ticker klines w' Hreadable) as (records & Htransform & Hrecords).
  exists klines, s1, records.
  split.
  { unfold apiManager.getKlines. rewrite getKlines_dataCall.
    exact (dataCall_in_mock_mode _ _ _ _ _ _ s klines w' Hmock Hrun). }
  split; [reflexivity|].
  split.
  { unfold apiManager.transformToFinancialData, bind, gets. cbn [manager s1].
    rewrite Hmock. unfold liftIO. cbn [world s1]. by rewrite Htransform. }
  split; [exact Hlength|].
  split; [by rewrite (Forall2_length_eq _ _ _ Hrecords)|].
  split; [exact Hreadable|].
  apply Forall_forall. intros r Hr. apply list_elem_of_lookup_1 in Hr as (i & Hr).
  destruct (Forall2_lookup_r _ _ _ _ _ Hrecords Hr) as (k & Hk & Hcapped).
  destruct (Hprice i k Hk) as (x & u & u' & HR & Hu).
  exact (proj2 (tradable_record x u k u' r HR Hu Hcapped)).
Qed.

End MockCalendar.

(** X29 on an example: thirty days in mock mode, every draw being one
    half. *)
Lemma calendar_in_mock_mode_witness :
  let s := exec APIManager.enableMockMode (exampleSystem evenDraws networkDown) in
  exists klines s1 records,
    apiManager.getKlines (H := exampleEngine) "BTCUSDT" "1day" 30 s
    = (Ok {| data := klines; source := mock |}, s1)
    /\ invocations (trace s1) = invocations (trace s)
    /\ apiManager.transformToFinancialData (H := exampleEngine) (H0 := exampleDateEngine)
         exampleTicker klines s1 = (Ok records, s1)
    /\ length klines = 30%nat
    /\ length records = 30%nat
    /\ Forall (readable_candle (H := exampleEngine)) klines
    /\ Forall sane_record records.
Proof.
  apply (calendar_in_mock_mode (H := exampleEngine) (H0 := exampleDateEngine) exampleTicker
           "BTCUSDT" "1day" 30
           (exec APIManager.enableMockMode (exampleSystem evenDraws networkDown))).
  - reflexivity.
  - intros n. cbn. unfold evenDraws. lra.
  - lia.
Defined.

(* ===================================================================== *)
(** * Further properties: a count that is no array length *)
(* ===================================================================== *)

Lemma Array_from_rejects {A} (len : Z) (f : Z -> IO A) w :
  4294967295 < len -> Array_from len f w = (Throw invalidArrayLength, w).
Proof.
  intros Hlen. unfold Array_from.
  by assert ((4294967295 <? len) = true) as -> by (apply Z.ltb_lt; lia).
Qed.

Lemma Array_from_acc_rejects {A V} (len : Z) (f : Z -> V -> IO (A * V)) init w :
  4294967295 < len -> Array_from_acc len f init w = (Throw invalidArrayLength, w).
Proof.
  intros Hlen. unfold Array_from_acc.
  by assert ((4294967295 <? len) = true) as -> by (apply Z.ltb_lt; lia).
Qed.

Lemma generateKlines_rejects name interval limit w :
  4294967295 < limit ->
  exists w', MockDataService.generateKlines name interval limit w
             = (Throw invalidArrayLength, w').
Proof.
  intros Hlimit. unfold MockDataService.generateKlines. run_reads.
  rewrite Array_from_acc_rejects by done. by eexists.
Qed.

Section Oversized.
Context `{Engine}.
Variables coinbaseAPI okxAPI kucoinAPI : Adapter.t.

(** A data call whose generator throws: it returns what the adapter
    returned, or throws what the generator throws. *)
Lemma dataCall_generator_throws {T} (operationOf : Adapter.t -> Operation T)
    (generate : IO T) (shape : T -> T) e s :
  (forall w, exists w', generate w = (Throw e, w')) ->
  exists o s',
    dataCall coinbaseAPI okxAPI kucoinAPI operationOf generate shape s = (o, s')
    /\ (o = Throw e
        \/ exists value,
             o = Ok {| data := shape value; source := currentSource (manager s) |})
    /\ (fallbackToMock (manager s) = true -> o = Throw e).
Proof.
  intros Hgen. unfold dataCall. unfold bind at 1. unfold gets at 1.
  destruct (fallbackToMock (manager s)) eqn:Hmock.
  - unfold bind, liftIO. destruct (Hgen (world s)) as (w' & ->).
    eexists _, _. split; [reflexivity|]. split; [by left|done].
  - unfold try_catch. unfold bind at 1. unfold gets at 1.
    unfold bind at 1. unfold APIManager.getAPIForSource at 1.
    unfold bind at 1. unfold update_manager, modify, ret.
    unfold bind at 1.
    match goal with
    | |- context [APIManager.retryWithExponentialBackoff ?op ?src ?st] =>
        destruct (APIManager.retryWithExponentialBackoff op src st) as [[v|e0] s1]
    end.
    + eexists _, _. split; [reflexivity|]. split; [right; by eexists|done].
    + unfold bind, liftIO. destruct (Hgen (world s1)) as (w' & ->).
      eexists _, _. split; [reflexivity|]. split; [by left|done].
Qed.

(** X30.  The one way a data call of the aggregator throws.  For a count
    above [2^32 - 1], the largest length of an array, [getKlines]
    returns the candles of the current source when its adapter returns
    some, and otherwise throws the [RangeError] of [Array.from], since
    the generator cannot stand in; in mock mode it always throws.  The
    adapters of the repository throw the same error when their request
    fails, since their fallbacks cannot stand in either. *)
Theorem oversized_count_is_rejected name interval limit :
  4294967295 < limit ->
  (forall s,
     exists o s',
       APIManager.getKlines coinbaseAPI okxAPI kucoinAPI name interval limit s = (o, s')
       /\ (o = Throw invalidArrayLength
           \/ exists klines,
                o = Ok {| data := klines; source := currentSource (manager s) |})
       /\ (fallbackToMock (manager s) = true -> o = Throw invalidArrayLength))
  /\ (forall w,
        transport_fails w ->
        (exists w', KuCoinAPIService.getKlines name interval limit w
                    = (Throw invalidArrayLength, w'))
        /\ (exists w', OKXAPIService.getKlines name interval limit w
                       = (Throw invalidArrayLength, w'))
        /\ (exists w', CoinbaseAPIService.getKlines name interval limit w
                       = (Throw invalidArrayLength, w'))).
Proof.
  intros Hlimit. split.
  - intros s. rewrite getKlines_dataCall.
    apply (dataCall_generator_throws _ _ (fun klines => klines)).
    intros w. by apply generateKlines_rejects.
  - intros w Hfails. split; [|split].
    + destruct (KuCoin_fetchKlines_fails name interval limit w Hfails) as (e & w1 & Hthrow).
      unfold KuCoinAPIService.getKlines.
      rewrite (try_catch_throw _ _ _ _ _ Hthrow).
      unfold KuCoinAPIService.getMockKlines. run_reads.
      rewrite Array_from_rejects by done. by eexists.
    + destruct (OKX_fetchKlines_fails name interval limit w Hfails) as (e & w1 & Hthrow).
      unfold OKXAPIService.getKlines.
      rewrite (try_catch_throw _ _ _ _ _ Hthrow).
      unfold OKXAPIService.getMockKlines. run_reads.
      rewrite Array_from_acc_rejects by done. by eexists.
    + destruct (Coinbase_fetchKlines_fails name interval limit w Hfails) as (e & w1 & Hthrow).
      unfold CoinbaseAPIService.getKlines.
      rewrite (try_catch_throw _ _ _ _ _ Hthrow).
      unfold CoinbaseAPIService.getMockKlines. run_reads.
      rewrite Array_from_acc_rejects by done. by eexists.
Qed.

End Oversized.

(** X30 on an example: 2^32 candles in mock mode. *)
Lemma oversized_count_is_rejected_witness :
  let api := unreachableAdapter in
  let s := exec APIManager.enableMockMode (exampleSystem evenDraws networkDown) in
  exists s',
    APIManager.getKlines api api api "BTCUSDT" "1day" 4294967296 s
    = (Throw invalidArrayLength, s').
Proof.
  intros api s.
  destruct (oversized_count_is_rejected (H := exampleEngine) api api api
              "BTCUSDT" "1day" 4294967296) as [Hcall _]; [lia|].
  destruct (Hcall s) as (o & s' & Hrun & _ & Hmock).
  exists s'. rewrite Hrun. by rewrite (Hmock eq_refl).
Defined.
